(* ===== verification/_CoqProject ===== *)
-Q . S2P
Prelude.v
PyStr.v
Config.v
Info.v
Scenario.v
Zones.v
Arrivals.v
Segments.v
Civil.v
Quake.v
Parser.v
Compose.v
Send.v
Wording.v
Settings.v
Spell.v
Regex.v
Atcf.v
Numeric.v
Nsea.v
Nucaps.v
