(* ===== verification/Prelude.v ===== *)
(** * AWIPS-2 NWS local applications: a verification development

    The development verifies four programs of the AWIPS-2 NWS baseline.
    The largest is the Tsunami EAS GUI,
    [src/apps/TsunamiEasGui/bin/nwr_tsu.py], together with its
    configuration files under [src/apps/TsunamiEasGui/config/].  It reads a
    tsunami bulletin issued by a Tsunami Warning Center ([grabTWC]), finds
    which hazards (warning, watch, advisory) are in effect for the office's
    coastal zones, resolves which combination of hazards the statement is
    for ([autoFill], [comboOption]) and composes a radio script for the
    NOAA Weather Radio broadcast system.  The three others are EDEX
    plug-ins: the ATCF script [ProcessAtcfFiles.py], which unpacks the
    tar ball of a tropical-cyclone run, edits and merges its deck files
    and files them away; the NSEA derived parameters [NSEA_MCP.py] and
    [NSEA_LNSVecLeft.py]; and the gridded NUCAPS decoder
    [GriddedNucapsDecoder.py].

    ** How the parts interact
    Start-up (module level, lines 209-416) reads [config_tsu.py] and
    computes the globals.  [autoFill] calls [grabTWC], which cuts the
    bulletin into segments at ["$$"]; each segment is classified by its
    VTEC line, its condensed zone ranges are expanded, the office's zones
    are collected per hazard, and the arrival times are read; then the
    earthquake paragraph is found and its time converted to local time.
    The result is the [info] dict.  [autoFill] then decides the scenario:
    a single hazard is composed at once; several hazards open
    [comboOption], whose buttons call [autoFill] again with the chosen
    hazard; a test bulletin first opens a prompt whose button calls
    [autoFill("test")].  Composition asks [breakpointMe] for the area
    phrase, fills the template of [statementMake] and normalises the text
    with [cleanStatement]; [fillWWA] fills a template without a bulletin.

    ** Layout (the files of _CoqProject, in dependency order)
    - [Prelude] (this file): Python exceptions as the result type [res]
      with its bind notation and [try_except]; Python dicts as
      insertion-ordered association lists; [py_in], [append_new]; the hint
      databases [tsu] and [tsu_rw] and the tactic [tsu_reflect].
    - [PyStr]: the Python [str] builtins the program calls ([find],
      [replace] with CPython's empty-pattern rule, [split], [splitlines],
      [strip], [upper], [zfill], [int], [str], [index], [join]), as
      executable Fixpoints on Stdlib [string].  These model the Python
      runtime, not the repository, and are not in the manifest's map.
    - [Config]: the choice of the configuration file from the command
      line and its checks ([select_config], [load_config]), the
      [config_tsu.py] module as a record [config], the three
      shipped configurations, [readArrivalList], the [arrival_list]
      augmentation and [init_globals], the globals computed at start-up.
    - [Info]: the two shapes of the dict [grabTWC] returns ([info_dict]).
    - [Scenario]: the decision part of [autoFill] (lines 598-654) and the
      buttons of [comboOption] (lines 886-927); the dialogs as the
      reachability relation [af_reach]; the abstract resolver
      [resolve_spec] that [autoFill_scenario] refines.
    - [Zones]: range expansion (lines 1160-1169) and zone collection
      (lines 1170-1188), with the two regular expressions written as
      executable matchers.
    - [Arrivals]: the arrival-time extraction of lines 1190-1312 and
      [formatGuamArrival], for the four bulletin variants.
    - [Segments]: the VTEC classification (lines 1131-1158) and the
      segment loop of [grabTWC].
    - [Civil]: the proleptic Gregorian calendar (days from and to civil
      dates), [time.mktime] and [datetime.fromtimestamp] (computed for a
      UTC host; the host's fixed offset cancels in the program's use),
      [time.strptime] for the format ["%B %d %Y %I%M %p"], the [strftime]
      pieces, and [daylightMe] (lines 258-283).
    - [Quake]: the product year, the earthquake paragraph (lines
      1314-1347, [parseHawaiiEQ]) and its time conversion (lines
      1349-1386).
    - [Parser]: [grabTWC] as a whole: the [try] body, the failure and
      no-hazard notices and the test notice (lines 1049-1403).
    - [Compose]: [hazDefMe], [zonelistFull] with CPython's [repr] of a
      list, [breakpointMe] (both schemes), [statementMake],
      [cleanStatement], the composing part of [autoFill] (lines 656-747)
      and [fillWWA].
    - [Send]: the BMH script ([crsCodeme] with its regular expressions
      and [niceFirst], [zoneMe], [countyMe]), [sendtoRadio] with the
      tracking file [last_issued.txt] (read, overlap check, update,
      write), [clearTrack], the send countdown, and the operating modes
      ([checkAwipsMode], [toggleMode]) as a reachability relation.
    - [Wording]: the statement window as the record [window] (text,
      zone buttons, [info], [active], [combo_need], [masterTone], the
      dialogs shown); [testMe] and [untestMe] (lines 1606-1644), the
      window part of [fillWWA], the Templates menu [fillWhat] (lines
      934-965), the two-hazard skeleton [fillCombo] (lines 991-1044) and
      the end of [autoFill] (lines 748-763); the check before a send
      ([sendtoRadioCheck], [almostsendtoRadio]) and the autosave file
      ([saveMe], [restoreMe]).
    - [Settings]: the product [autoFill] parses ([wcapil]) through the
      autofill settings dialog ([autofillSettings],
      [autofillChangesettings]), the example statements
      ([loadExampleStatement], [loadExampleGo]) and [loadLatestStatement];
      the BMH preview ([previewBMH]); the product viewer ([loadTSU],
      [viewTSU]) and its navigation buttons.
    - [Spell]: the spell checker ([spellMe], [spellAction],
      [spellReplace]) with the output of [ispell] as an input function
      and the dialog buttons as the step relation [spell_step].
    - [Regex]: the part of Python's [re] the ATCF script uses (literals,
      classes with ranges, star), parsed by [re_compile] and matched by
      Brzozowski derivatives ([search]).
    - [Atcf]: [ProcessAtcfFiles.py] as a whole, in a state and error
      monad [M] (ExtLib's [eitherT] over [state]) on a [world] of files,
      directories and an event log.  Each function of the script is a
      definition of the same name ([processATCF], [extractFiles],
      [mergeFileToDB], [deleteLinesFromFile], [extractLinesFromFile],
      [concatFiles], [createDeckFiles], [sendToLdm], [moveFile],
      [interpolateADeck]); the file-system calls are [read_file],
      [write_file], [mkdir], [shutil_move], [rmtree]; the Java
      collaborators are the record [ext] and the events they leave.
    - [Numeric]: NumPy floats as rationals or NaN ([fl]), with NumPy's
      comparison rules on NaN.
    - [Nsea]: [NSEA_MCP.py] at a grid point ([MC1]..[MC6], [execute]) and
      over a grid ([execute_grid]); the argument of [arccos] in
      [NSEA_LNSVecLeft.py] ([calcMag]).
    - [Nucaps]: [GriddedNucapsDecoder.py]: [__init__] and
      [__processFile__] over HDF5 files given as records, the sounding
      computations ([findSurface], [get_BL_params], [convert_mr2cd],
      [calc_tot], [interpolate_gases], [interpolate_temperature], the
      ozone climatology, [calculateTropLevel], [grossBoundsChecking]) and
      [decode] up to [interpolate_temperature]; the numerical library
      functions are the variables of the section [Library].

    ** What the theorems show
    - Parser and segment loop: for every bulletin text, the invariant of
      [info] (each hazard's zones distinct configured zones; issuance
      kinds only "new"/"continue") holds; a segment none of whose
      tsunami VTEC lines (TS.W, TS.A, TS.Y) is current, every one being
      .EXP., .CAN. or .UPG., leaves the parse state unchanged
      ([cancelled_segment_skipped]); the "final" issuance test is dead
      code; the test notice depends only on the substring "TEST".
    - Zones: the zone list stays duplicate-free, configured and sorted;
      the first condensed range expands to the padded numbers; the
      substitution string is not reset between ranges (a code bug that
      yields spurious zones).
    - Scenario: [autoFill] refines the abstract resolver; a composed
      outcome is always reachable without a test notice; on a test
      bulletin with several hazards it is never reachable (a code bug);
      the serious-error branch is dead.
    - Time: civil dates round-trip through day numbers for all dates
      (checked over one 400-year era and extended by periodicity);
      [fromtimestamp] inverts [mktime]; [daylightMe] implements the
      day-granularity DST rule (not on the first Sunday of November);
      the converted earthquake time does not depend on the DAYLIGHT or
      STANDARD word of the bulletin's time zone
      ([convert_ignores_daylight_word]); a Hawaii flag in the last
      paragraph raises [IndexError].
    - Composition: without breakpoints the area phrase is the abstract
      one of the design for every parse result (a refinement, although
      the code compares lengths only); for plain zone names the
      print-and-strip of [zonelistFull] equals the enumeration grammar;
      every statement composed from the built-in template (no template
      file) ends with the text "IN HOUSE.", which no rewriting of the
      statement removes ([autoFill_builtin_in_house]); the cancellation
      notice is unreachable; unconverted times give daylight arrival
      labels; [cleanStatement] is not idempotent; breakpoint groups match
      only in list order.
    - Sending: the tracking file round-trips through its format; after a
      live send a later overlapping send before the expiry is flagged
      (the IssuanceTracker contract); a record without zones flags every
      later send; a corrupt record or no active hazard aborts the
      book-keeping; the radio command is only built when AWIPS was last
      seen in live mode; the countdown sends after exactly n+1 ticks; the
      header date string has ten characters; a practice send without
      [nwrsend] always reports failure ([practice_send_reports_failure]).
    - Start-up: the augmentation of [arrival_list] raises [IndexError]
      exactly when an entry has two comma-separated fields
      ([augment_arrivals_raises]); the area phrase is never empty.
    - Statement window: removing the test wording gives back the
      statement it was added to ([untestMe_testMe]); every [fillWWA]
      statement that mentions the "LATEST TSUNAMI" information reaches
      the window as "LATSUNAMI" ([fillWWA_latest_tsunami]); a template
      naming the
      Warning Center is refused as a combination template (the
      replacement of line 950 is dropped); a send is confirmed exactly
      when the text has 20 characters, no framing code ["XXX"] and a
      selected zone of a configured county ([sendtoRadioCheck_confirms]),
      the no-hazard test being dead on upper-case text; restoring the
      autosave file gives back the saved text and zone buttons and
      rewrites the same file ([restoreMe_saveMe]).
    - Settings: saving the autofill settings unchanged gives back the
      product ([autofill_settings_roundtrip]); an example statement is
      never loaded in live mode ([loadExampleGo_not_live]); the
      viewer's Later undoes Earlier on a versioned product
      ([db_nav_earlier_later]).
    - Spell checker: the dialogs end after at most as many presses as
      flagged words ([spell_check_terminates], by a measure that each
      step decreases); Replace All also rewrites longer words that
      contain the flagged one ([spellReplace_inside_words]).
    - Regex (adequacy of the model of [re], not properties of the
      program): the executable [re.search] succeeds exactly when a factor
      of the line is in the pattern's language ([py_re_search_spec]); the
      parser's result is the same for every fuel above the pattern's
      length ([re_parse_fuel_enough]); the two patterns the script passes
      are in the modelled syntax ([Atcf.script_patterns_compile]).
    - ATCF: [deleteLinesFromFile] applies only its first pattern (the
      file iterator is used up); [moveFile] never moves to a full path
      name; [processATCF] removes its temporary directory whenever it
      returns, and raises when the ukmogens file is missing (the undefined
      [IOException] turns the fallback into a [NameError]); the HWRF strip
      pattern misses tau 105; the unpadded mogreps retain string keeps
      exactly the ensemble lines of storms 10n..10n+9 of the basin, never
      the storm's own ([mogreps_retained_lines]).
      The frame lemmas ([keeps]) follow a file back through the steps of
      a run that leave it alone.
    - NSEA: every MC score is a step function of its thresholds with 0
      for NaN ([MC_steps]); the composite lies in [[-5, 12]]; the clamps of
      [NSEA_LNSVecLeft.py] are idle.
    - NUCAPS: the decoder built by [__init__] is well formed
      ([nucaps_init_wf]); [interpolate_temperature] blanks exactly the
      levels from one below the surface level down in every sounding
      ([interpolate_temperature_blanks]); [get_2m_param] always raises;
      the tropopause loop never resets to missing; [grossBoundsChecking]
      equals its specification; the ozone band index gives 10 degrees
      to the equatorial band.

    ** Bounds and fuel
    Only the send countdown takes fuel (one unit per second of the Tk
    timer): [countdown_sends] shows that n+1 units are exactly enough
    from counter n.  Every other loop of the modelled code runs over a
    list or a string and is a structural Fixpoint ([daylightMe]'s search
    walks the finite list of candidate days; the [re.findall] scans carry
    the length of the match still to skip).  Zone numbers are
    three-digit ([pad3_facts] is checked for all n < 1000, the range of
    the regular expression [[0-9][0-9][0-9]]); integers are [Z], as in
    Python.  Finite facts are checked by evaluation over their whole
    domain: the 146097 days of a Gregorian era, the 256 characters (for
    [repr]), the two-digit numbers, the four-digit years.  [str(int)] is
    computed through the binary representation ([str_N]), so epoch
    seconds evaluate.  The pattern parser [re_parse] takes
    [String.length pat + 1] units of fuel: each unit consumes at least one
    character of the pattern ([re_atom_shorter]), so any larger fuel gives
    the same result ([re_parse_fuel_enough]): the fuel never decides
    between a parse and a failure.  The spell checker's dialogs are a
    sequence of user events, not a loop: [spell_measure] (the flagged
    words left plus the open dialog) decreases at each of them.  The loops of
    the ATCF script and of the NUCAPS decoder run over lists ([mapM_],
    [foldM], [range_map]).  NumPy arithmetic is exact on rationals: a
    theorem holds for the program up to the rounding of binary floats
    near the thresholds it compares with.  The NumPy of the model is the
    one the NUCAPS decoder was written for (before 1.12), which truncates
    a float subscript or slice bound ([Nucaps.index_int]).

    ** Not modelled
    The Tk window layout, the dialogs' widgets and printing (pure I/O); the
    text database and file reads (their contents are inputs of the model:
    the bulletin text, the forecast-points lines, the template file).
    The autosave file is modelled as its text ([Wording.saveMe],
    [Wording.restoreMe]); the printing and the logging of [sendtoRadio]
    (a text database query) are I/O around the modelled state.  The
    settings dialogs and the highlighting of the window act on widgets
    only, and the buttons [fillcombo*] (lines 929-932) only call
    [autoFill].  [changeZone] (lines 1473-1506), which rewrites the area
    phrase when a zone button is pressed, is not modelled: its
    [info[active] = zones] stores a zone list into the reset dict or
    under a combination key such as ["warning_watch"], which the two
    shapes of [Info.info_dict] do not represent.  In the NUCAPS
    decoder, the gridding after
    [interpolate_temperature] (lines 568-679) is a section variable
    ([decode_rest]), [calc_2m_param] is never called, and SciPy and the
    transcendental NumPy functions are variables.  In the ATCF script, the
    module-level logging set-up is not modelled, and the Java classes it
    calls are modelled by their results. *)

From stdpp Require Import base list strings decidable sets.
From Stdlib Require Import String Ascii ZArith Lia.

Declare Scope tsu_scope.
Delimit Scope tsu_scope with tsu.

Create HintDb tsu discriminated.
Create Rewrite HintDb tsu_rw.

(** ** Python exceptions

    A code path of the program that can raise (an [IndexError] from
    [list.pop()] or a subscript, a [ValueError] from [int()] or
    [str.index()], a [KeyError] from a dict lookup, a [TypeError] from a
    NumPy slice with a float bound, an [UnboundLocalError], which is a
    [NameError]) is a function into [res A].  The [try: ... except:]
    blocks of the source are the places where a [Raise] is caught. *)
Inductive exn : Type := IndexError | ValueError | KeyError | TypeError | NameError.

#[export] Instance exn_eq_dec : EqDecision exn.
Proof. solve_decision. Defined.

Inductive res (A : Type) : Type :=
| Ok (a : A)
| Raise (e : exn).
Arguments Ok {A} a.
Arguments Raise {A} e.

Definition res_bind {A B} (r : res A) (k : A -> res B) : res B :=
  match r with Ok a => k a | Raise e => Raise e end.

Notation "x <- r ;; k" := (res_bind r (fun x => k))
  (at level 60, r at next level, right associativity) : tsu_scope.

(** The value of a computation, or the same exception. *)
Definition res_map {A B} (f : A -> B) (r : res A) : res B :=
  match r with Ok a => Ok (f a) | Raise e => Raise e end.

(** Python's [try: body except: handler]: any exception is caught. *)
Definition try_except {A} (r : res A) (handler : A) : A :=
  match r with Ok a => a | Raise _ => handler end.

(** The value of a computation that returned, [d] if it raised; used to
    name the result of a concrete run. *)
Definition res_get {A} (d : A) (r : res A) : A :=
  match r with Ok a => a | Raise _ => d end.

Lemma res_bind_Ok {A B} (a : A) (k : A -> res B) : res_bind (Ok a) k = k a.
Proof. reflexivity. Qed.

Lemma res_bind_Raise {A B} e (k : A -> res B) : res_bind (Raise e) k = Raise e.
Proof. reflexivity. Qed.

#[export] Hint Rewrite @res_bind_Ok @res_bind_Raise : tsu_rw.

Lemma res_bind_eq_Ok {A B} (r : res A) (k : A -> res B) b :
  res_bind r k = Ok b -> exists a, r = Ok a /\ k a = Ok b.
Proof. destruct r; simpl; [eauto | discriminate]. Qed.

(** ** Python dicts

    A Python [dict] keeps its keys in insertion order, and assigning an
    existing key keeps its position.  Iteration order matters to the
    program (the issuance log is written by iterating over a dict), so a
    dict is an association list and [dict_set] updates in place or appends
    at the end, as CPython does. *)
Definition dict (V : Type) := list (string * V).

Fixpoint dict_get {V} (k : string) (d : dict V) : option V :=
  match d with
  | [] => None
  | (k', v) :: d' => if String.eqb k' k then Some v else dict_get k d'
  end.

Fixpoint dict_set {V} (k : string) (v : V) (d : dict V) : dict V :=
  match d with
  | [] => [(k, v)]
  | (k', v') :: d' =>
      if String.eqb k' k then (k', v) :: d' else (k', v') :: dict_set k v d'
  end.

Lemma dict_get_set_eq {V} k (v : V) d : dict_get k (dict_set k v d) = Some v.
Proof.
  induction d as [|[k' v'] d IH]; simpl.
  - by rewrite String.eqb_refl.
  - destruct (String.eqb k' k) eqn:E; simpl; rewrite ?E; [done | exact IH].
Qed.

Lemma dict_get_set_ne {V} k k' (v : V) d :
  k <> k' -> dict_get k' (dict_set k v d) = dict_get k' d.
Proof.
  intros Hne. induction d as [|[k0 v0] d IH]; simpl.
  - apply String.eqb_neq in Hne. by rewrite Hne.
  - destruct (String.eqb k0 k) eqn:E; simpl.
    + apply String.eqb_eq in E as ->. apply String.eqb_neq in Hne. by rewrite Hne.
    + by rewrite IH.
Qed.

(** Updating a key that is present keeps the key order. *)
Lemma dict_set_keys {V} k (v : V) d :
  In k (map fst d) -> map fst (dict_set k v d) = map fst d.
Proof.
  induction d as [|[k0 v0] d IH]; simpl; [done |].
  destruct (String.eqb k0 k) eqn:E; simpl; [done |].
  intros [->|Hin]; [by rewrite String.eqb_refl in E | by rewrite IH].
Qed.

(** Setting a key absent from a prefix of the dict acts after it. *)
Lemma dict_set_app_notin {V} k (v : V) a b :
  ~ In k (map fst a) -> dict_set k v (a ++ b) = a ++ dict_set k v b.
Proof.
  induction a as [|[k0 v0] a IH]; simpl; [done |]. intros Hk.
  destruct (String.eqb_spec k0 k) as [->|_]; [tauto |]. rewrite IH; [done | tauto].
Qed.

(** Replaying the entries of a dict with [dict_set] over a dict whose
    keys are a prefix of its keys rebuilds it. *)
Lemma fold_dict_set_prefix {V} (l : dict V) : forall (done d : dict V),
  (exists extra, map fst l = map fst d ++ extra) -> List.NoDup (map fst done ++ map fst l) ->
  fold_left (fun acc '(k, v) => dict_set k v acc) l (done ++ d) = done ++ l.
Proof.
  induction l as [|[k v] l IH]; intros done d [extra Hx] Hnd; simpl.
  - destruct d; [by rewrite !app_nil_r | discriminate].
  - assert (Hk : ~ In k (map fst done)).
    { intros Hin. apply NoDup_remove_2 in Hnd. apply Hnd, in_app_iff. by left. }
    rewrite dict_set_app_notin by done.
    destruct d as [|[k' w] d']; simpl in Hx.
    + simpl. assert (Hnd' : List.NoDup (map fst (done ++ [(k, v)]) ++ map fst l))
        by (rewrite map_app, <- app_assoc; exact Hnd).
      pose proof (IH (done ++ [(k, v)]) [] (ex_intro _ (map fst l) eq_refl) Hnd') as E.
      rewrite app_nil_r in E. rewrite E. by rewrite <- app_assoc.
    + injection Hx as <- Hx. cbn [dict_set]. rewrite String.eqb_refl.
      replace (done ++ (k, v) :: d') with ((done ++ [(k, v)]) ++ d') by (by rewrite <- app_assoc).
      rewrite IH; [by rewrite <- app_assoc | by exists extra |].
      rewrite map_app, <- app_assoc. exact Hnd.
Qed.

#[export] Hint Rewrite @dict_get_set_eq : tsu_rw.

(** ** Lists of strings used as Python lists *)

(** [x in l] on a list of strings. *)
Definition py_in (x : string) (l : list string) : bool :=
  existsb (String.eqb x) l.

Lemma py_in_spec x l : py_in x l = true <-> In x l.
Proof.
  unfold py_in. rewrite existsb_exists. split.
  - intros (y & Hy & E). apply String.eqb_eq in E. by subst.
  - intros H. exists x. by rewrite String.eqb_refl.
Qed.

Lemma py_in_false x l : py_in x l = false <-> ~ In x l.
Proof.
  rewrite <- py_in_spec. destruct (py_in x l); split; congruence || done.
Qed.

(** [if x not in l: l.append(x)] *)
Definition append_new (x : string) (l : list string) : list string :=
  if py_in x l then l else l ++ [x].

Lemma append_new_NoDup x l : NoDup l -> NoDup (append_new x l).
Proof.
  unfold append_new. destruct (py_in x l) eqn:E; [done |].
  apply py_in_false in E. intros Hl.
  apply NoDup_app; repeat split; [done | | by apply NoDup_singleton].
  intros y Hy Hy'. apply list_elem_of_singleton in Hy' as ->.
  by apply E, list_elem_of_In.
Qed.

Lemma append_new_In x y l : In y (append_new x l) <-> In y l \/ y = x.
Proof.
  unfold append_new. destruct (py_in x l) eqn:E.
  - apply py_in_spec in E. split; [tauto | intros [H | ->]; done].
  - rewrite in_app_iff. simpl. intuition.
Qed.

#[export] Hint Resolve append_new_NoDup : tsu.

(** A tactic that reflects the boolean tests of the model into
    propositions, used by the component files. *)
Ltac tsu_reflect :=
  repeat match goal with
  | H : String.eqb _ _ = true |- _ => apply String.eqb_eq in H; subst
  | H : String.eqb _ _ = false |- _ => apply String.eqb_neq in H
  | H : py_in _ _ = true |- _ => apply py_in_spec in H
  | H : py_in _ _ = false |- _ => apply py_in_false in H
  | H : (_ && _)%bool = true |- _ => apply andb_true_iff in H as [? ?]
  | H : (_ || _)%bool = false |- _ => apply orb_false_iff in H as [? ?]
  end.
