(* ===== verification/PyStr.v ===== *)
(** * The Python [str] builtins used by nwr_tsu.py

    Executable models of the CPython string methods the program calls, on
    Stdlib [string] (8-bit characters; the bulletins are ASCII text).
    Each definition follows the documented CPython behaviour:
    - [str_find pat s]      [s.find(pat)]: [None] stands for [-1];
    - [contains pat s]  [s.find(pat) != -1], i.e. [pat in s];
    - [str_replace p r s]   [s.replace(p, r)]: every non-overlapping occurrence,
                        scanned left to right;
    - [str_split sep s]     [s.split(sep)] with an explicit separator;
    - [splitlines s]    [s.splitlines()] (ASCII line boundaries);
    - [lstrip_by], [rstrip_by], [strip]  [s.lstrip(chars)], [s.strip()];
    - [upper s]         [s.upper()] (ASCII letters);
    - [zfill w s]       [s.zfill(w)];
    - [str_nat n]       [str(n)] for a natural number;
    - [py_int s]        [int(s)] on a decimal literal, [ValueError] otherwise.
    Regular expressions are not modelled generically: each component writes
    the matcher of the one pattern it uses. *)

From stdpp Require Import base list strings decidable.
From Stdlib Require Import String Ascii ZArith Lia.
From S2P Require Import Prelude.
From Stdlib Require Import DecimalString.
From Stdlib Require DecimalNat DecimalN.

Local Open Scope string_scope.
Local Open Scope nat_scope.

(** ** Searching *)

Fixpoint str_find (pat s : string) : option nat :=
  if String.prefix pat s then Some 0 else
  match s with
  | EmptyString => None
  | String _ s' => option_map S (str_find pat s')
  end.

Definition contains (pat s : string) : bool :=
  match str_find pat s with Some _ => true | None => false end.

(** ** [str.replace] *)

(** [skip] counts the characters of an occurrence still to be consumed. *)
Fixpoint replace_go (pat rep : string) (skip : nat) (s : string) : string :=
  match s with
  | EmptyString => EmptyString
  | String c s' =>
      match skip with
      | S k => replace_go pat rep k s'
      | O => if String.prefix pat s
             then rep ++ replace_go pat rep (String.length pat - 1) s'
             else String c (replace_go pat rep 0 s')
      end
  end.

(** CPython inserts the replacement around every character when the
    pattern is empty. *)
Fixpoint interleave (rep s : string) : string :=
  match s with
  | EmptyString => rep
  | String c s' => rep ++ String c (interleave rep s')
  end.

Definition str_replace (pat rep s : string) : string :=
  match pat with
  | EmptyString => interleave rep s
  | _ => replace_go pat rep 0 s
  end.

(** ** [str.split] with an explicit separator *)

Fixpoint split_go (sep : string) (skip : nat) (cur s : string) : list string :=
  match s with
  | EmptyString => [cur]
  | String c s' =>
      match skip with
      | S k => split_go sep k cur s'
      | O => if String.prefix sep s
             then cur :: split_go sep (String.length sep - 1) "" s'
             else split_go sep 0 (cur ++ String c "") s'
      end
  end.

(** The program never splits on the empty separator (CPython raises
    [ValueError] there); the model returns the string unsplit. *)
Definition str_split (sep s : string) : list string :=
  match sep with
  | EmptyString => [s]
  | _ => split_go sep 0 "" s
  end.

(** ** [str.splitlines] *)

Definition is_line_break (c : ascii) : bool :=
  let n := nat_of_ascii c in
  (n =? 10) || (n =? 11) || (n =? 12) || (n =? 13)
  || (n =? 28) || (n =? 29) || (n =? 30).

Fixpoint splitlines_go (cur s : string) : list string :=
  match s with
  | EmptyString => match cur with EmptyString => [] | _ => [cur] end
  | String c s' =>
      if Ascii.eqb c "013"%char then
        match s' with
        | String d s'' =>
            if Ascii.eqb d "010"%char then cur :: splitlines_go "" s''
            else cur :: splitlines_go "" s'
        | EmptyString => [cur]
        end
      else if is_line_break c then cur :: splitlines_go "" s'
      else splitlines_go (cur ++ String c "") s'
  end.

Definition splitlines (s : string) : list string := splitlines_go "" s.

(** ** Stripping and case *)

Definition is_space (c : ascii) : bool :=
  let n := nat_of_ascii c in ((9 <=? n) && (n <=? 13)) || ((28 <=? n) && (n <=? 32)).

Fixpoint lstrip_by (p : ascii -> bool) (s : string) : string :=
  match s with
  | String c s' => if p c then lstrip_by p s' else s
  | EmptyString => EmptyString
  end.

Definition str_rev (s : string) : string :=
  string_of_list_ascii (rev (list_ascii_of_string s)).

Definition rstrip_by (p : ascii -> bool) (s : string) : string :=
  str_rev (lstrip_by p (str_rev s)).

Definition lstrip (s : string) : string := lstrip_by is_space s.
Definition rstrip (s : string) : string := rstrip_by is_space s.
Definition strip (s : string) : string := rstrip (lstrip s).

(** [s.lstrip(" ")] and [s.rstrip(" ")] *)
Definition is_blank (c : ascii) : bool := Ascii.eqb c " "%char.

Definition upper_char (c : ascii) : ascii :=
  let n := nat_of_ascii c in
  if (97 <=? n) && (n <=? 122) then ascii_of_nat (n - 32) else c.

Fixpoint upper (s : string) : string :=
  match s with
  | EmptyString => EmptyString
  | String c s' => String (upper_char c) (upper s')
  end.

(** [str.lower()] on ASCII text. *)
Definition lower_char (c : ascii) : ascii :=
  if (65 <=? nat_of_ascii c) && (nat_of_ascii c <=? 90) then ascii_of_nat (nat_of_ascii c + 32) else c.

Fixpoint lower (s : string) : string :=
  match s with EmptyString => "" | String c s' => String (lower_char c) (lower s') end.

(** ** Numbers *)

Fixpoint zeros (n : nat) : string :=
  match n with O => EmptyString | S k => String "0" (zeros k) end.

Definition zfill (w : nat) (s : string) : string :=
  match s with
  | String c s' =>
      if Ascii.eqb c "+"%char || Ascii.eqb c "-"%char
      then String c (zeros (w - String.length s) ++ s')
      else zeros (w - String.length s) ++ s
  | EmptyString => zeros w
  end.

Definition str_nat (n : nat) : string :=
  NilEmpty.string_of_uint (Nat.to_uint n).

(** [str(n)] through the binary representation, for large numbers
    (seconds since the epoch). *)
Definition str_N (n : N) : string :=
  NilEmpty.string_of_uint (N.to_uint n).

Definition digit_val (c : ascii) : option nat :=
  let n := nat_of_ascii c in
  if (48 <=? n) && (n <=? 57) then Some (n - 48) else None.

Fixpoint digits_val (acc : Z) (s : string) : option Z :=
  match s with
  | EmptyString => Some acc
  | String c s' =>
      match digit_val c with
      | Some d => digits_val (acc * 10 + Z.of_nat d)%Z s'
      | None => None
      end
  end.

(** [int(s)] on an optional sign and at least one decimal digit,
    surrounded by optional whitespace.  (CPython also accepts digit
    separators [_]; no input of the program contains one.) *)
Definition py_int (s : string) : res Z :=
  let t := strip s in
  let unsigned (u : string) :=
    match u with
    | EmptyString => None
    | _ => digits_val 0 u
    end in
  match t with
  | String c t' =>
      let r := if Ascii.eqb c "-"%char then option_map Z.opp (unsigned t')
               else if Ascii.eqb c "+"%char then unsigned t'
               else unsigned t in
      match r with Some v => Ok v | None => Raise ValueError end
  | EmptyString => Raise ValueError
  end.

(** ** Slicing and list access *)

(** [s[a:b]] for [0 <= a]: CPython clamps out-of-range bounds. *)
Definition slice (a b : nat) (s : string) : string := substring a (b - a) s.

(** [s[a:]] *)
Definition str_drop (a : nat) (s : string) : string := substring a (String.length s - a) s.

(** [l.pop()] on a Python list (the last element), [IndexError] on [[]]. *)
Definition pop_last {A} (l : list A) : res (list A) :=
  match l with [] => Raise IndexError | _ => Ok (removelast l) end.

(** [l[i]] with CPython's negative indices. *)
Definition py_index {A} (i : Z) (l : list A) : res A :=
  let n := Z.of_nat (List.length l) in
  let j := if (i <? 0)%Z then (n + i)%Z else i in
  if ((0 <=? j) && (j <? n))%Z then
    match nth_error l (Z.to_nat j) with Some x => Ok x | None => Raise IndexError end
  else Raise IndexError.

(** * Lemmas *)

Lemma find_prefix pat s : String.prefix pat s = true -> str_find pat s = Some 0.
Proof. destruct s; simpl; intros ->; done. Qed.

Lemma contains_cons pat c s :
  String.prefix pat (String c s) = false ->
  contains pat (String c s) = contains pat s.
Proof. unfold contains. cbn [str_find]. intros ->. by destruct (str_find pat s). Qed.

Lemma prefix_empty s : String.prefix "" s = true.
Proof. by destruct s. Qed.

(** A non-empty pattern that does not occur leaves [str_replace] the
    identity. *)
Lemma replace_go_absent pat rep s :
  contains pat s = false -> replace_go pat rep 0 s = s.
Proof.
  induction s as [|c s IH]; [done |]. unfold contains. cbn [str_find replace_go].
  destruct (String.prefix pat (String c s)) eqn:E; [discriminate |].
  intros H. f_equal. apply IH. unfold contains. by destruct (str_find pat s).
Qed.

Lemma replace_absent pat rep s :
  pat <> "" -> contains pat s = false -> str_replace pat rep s = s.
Proof. destruct pat; [done |]. intros _. apply replace_go_absent. Qed.

Lemma contains_empty_string pat : pat <> "" -> contains pat "" = false.
Proof. destruct pat; [done |]. reflexivity. Qed.

Lemma upper_char_idem c : upper_char (upper_char c) = upper_char c.
Proof.
  unfold upper_char.
  destruct ((97 <=? nat_of_ascii c) && (nat_of_ascii c <=? 122)) eqn:E; [|by rewrite E].
  apply andb_true_iff in E as [E1 E2]. apply Nat.leb_le in E1, E2.
  rewrite nat_ascii_embedding by lia.
  replace ((97 <=? nat_of_ascii c - 32) && (nat_of_ascii c - 32 <=? 122)) with false; [done |].
  symmetry. apply andb_false_iff. left. apply Nat.leb_gt. lia.
Qed.

(** [s.upper().upper() == s.upper()] *)
Lemma upper_idem s : upper (upper s) = upper s.
Proof. induction s as [|c s IH]; simpl; [done | by rewrite upper_char_idem, IH]. Qed.

#[export] Hint Rewrite upper_idem : tsu_rw.

Lemma length_zeros n : String.length (zeros n) = n.
Proof. induction n; simpl; auto. Qed.

Lemma length_append s1 s2 :
  String.length (s1 ++ s2) = String.length s1 + String.length s2.
Proof. induction s1; simpl; auto. Qed.

(** [zfill] pads an unsigned string to at least its width. *)
Lemma length_zfill w s :
  match s with String c _ => Ascii.eqb c "+"%char || Ascii.eqb c "-"%char = false | _ => True end ->
  String.length (zfill w s) = Nat.max w (String.length s).
Proof.
  destruct s as [|c s']; simpl.
  - intros _. rewrite length_zeros. lia.
  - intros ->. rewrite length_append, length_zeros. simpl. lia.
Qed.

Lemma append_nonempty_l s1 s2 : s1 <> "" -> s1 ++ s2 <> "".
Proof. destruct s1; simpl; intros H; [done | discriminate]. Qed.

(** Replacing a pattern by a non-empty string never empties a non-empty
    string. *)
Lemma replace_nonempty pat rep s :
  pat <> "" -> rep <> "" -> s <> "" -> str_replace pat rep s <> "".
Proof.
  destruct pat as [|p pat']; [done |]. intros _ Hrep Hs.
  destruct s as [|c s']; [done |]. unfold str_replace. cbn [replace_go].
  destruct (String.prefix _ _); [by apply append_nonempty_l | done].
Qed.

Lemma replace_empty pat rep : pat <> "" -> str_replace pat rep "" = "".
Proof. by destruct pat. Qed.

(** The control characters of Python literals (["\n"], ["\r"]). *)
Definition nl : string := String "010"%char EmptyString.
Definition cr : string := String "013"%char EmptyString.

(** stdpp declares [String.append] [simpl never]; these are its two
    equations. *)
Lemma append_nil_l s : "" ++ s = s.
Proof. reflexivity. Qed.

Lemma append_cons c s1 s2 : String c s1 ++ s2 = String c (s1 ++ s2).
Proof. reflexivity. Qed.

#[export] Hint Rewrite append_nil_l append_cons : tsu_rw.

Lemma append_empty_r s : s ++ "" = s.
Proof. induction s as [|c s IH]; [reflexivity | by rewrite append_cons, IH]. Qed.

Lemma append_assoc_str s1 s2 s3 : (s1 ++ s2) ++ s3 = s1 ++ (s2 ++ s3).
Proof. induction s1 as [|c s1 IH]; [reflexivity | by rewrite !append_cons, IH]. Qed.

(** Splitting on a one-character separator consumes one field. *)

Lemma prefix_char d c s : String.prefix (String d "") (String c s) = Ascii.eqb d c.
Proof.
  cbn [String.prefix]. destruct (ascii_dec d c) as [->|Hne].
  - rewrite Ascii.eqb_refl. apply prefix_empty.
  - symmetry. by apply Ascii.eqb_neq.
Qed.

Lemma contains_char_cons d c s :
  contains (String d "") (String c s) = Ascii.eqb d c || contains (String d "") s.
Proof.
  unfold contains. cbn [str_find]. rewrite prefix_char.
  destruct (Ascii.eqb d c); [done |]. by destruct (str_find _ s).
Qed.

(** Splitting on a one-character separator consumes one field. *)
Lemma split_go_char d cur x r :
  contains (String d "") x = false ->
  split_go (String d "") 0 cur (x ++ String d r) = (cur ++ x) :: split_go (String d "") 0 "" r.
Proof.
  revert cur. induction x as [|c x IH]; intros cur Hx.
  - rewrite append_nil_l. cbn [split_go]. rewrite prefix_char, Ascii.eqb_refl, append_empty_r. reflexivity.
  - rewrite contains_char_cons in Hx. apply orb_false_iff in Hx as [E Hx].
    rewrite append_cons. cbn [split_go]. rewrite prefix_char, E, IH by done.
    by rewrite append_assoc_str.
Qed.

Lemma split_go_char_last d cur x :
  contains (String d "") x = false -> split_go (String d "") 0 cur x = [cur ++ x].
Proof.
  revert cur. induction x as [|c x IH]; intros cur Hx.
  - by rewrite append_empty_r.
  - rewrite contains_char_cons in Hx. apply orb_false_iff in Hx as [E Hx].
    cbn [split_go]. rewrite prefix_char, E, IH by done.
    by rewrite append_assoc_str.
Qed.

(** [(x + sep + y).split(sep) == [x, y]] for fields without the separator. *)
Lemma split_two d x y :
  contains (String d "") x = false -> contains (String d "") y = false ->
  str_split (String d "") (x ++ String d y) = [x; y].
Proof.
  intros Hx Hy. unfold str_split. rewrite split_go_char by done.
  by rewrite split_go_char_last by done.
Qed.

Lemma concat_empty_cons x xs :
  xs <> [] -> String.concat "" (x :: xs) = x ++ String.concat "" xs.
Proof. destruct xs; [done | reflexivity]. Qed.

(** [("".join(x + sep for x in xs)).split(sep) == xs + [""]] *)
Lemma split_terminated d xs :
  Forall (fun x => contains (String d "") x = false) xs ->
  str_split (String d "") (String.concat "" (map (fun x => x ++ String d "") xs)) = (xs ++ [""])%list.
Proof.
  unfold str_split. induction 1 as [|x xs Hx Hxs IH]; [done |].
  destruct xs as [|x' xs'].
  - simpl. by rewrite split_go_char.
  - rewrite map_cons, concat_empty_cons by done.
    rewrite append_assoc_str, append_cons, append_nil_l, split_go_char by done.
    rewrite append_nil_l. by rewrite IH.
Qed.

(** [s.index(pat)]: [ValueError] when absent. *)
Definition str_index (pat s : string) : res nat :=
  match str_find pat s with Some i => Ok i | None => Raise ValueError end.

(** [sep.join(l)] *)
Definition py_join (sep : string) (l : list string) : string := String.concat sep l.

Fixpoint drop_while (p : ascii -> bool) (s : string) : string :=
  match s with
  | String c s' => if p c then drop_while p s' else s
  | EmptyString => EmptyString
  end.

Fixpoint take_while (p : ascii -> bool) (s : string) : string :=
  match s with
  | String c s' => if p c then String c (take_while p s') else EmptyString
  | EmptyString => EmptyString
  end.

(** [s[0]] as an option. *)
Definition head_char (s : string) : option ascii :=
  match s with String c _ => Some c | EmptyString => None end.

(** ** [int()] on decimal strings *)

Lemma digits_val_app acc a b :
  digits_val acc (a ++ b) = match digits_val acc a with Some v => digits_val v b | None => None end.
Proof.
  revert acc. induction a as [|c a IH]; intros acc; [by rewrite append_nil_l |].
  rewrite append_cons. simpl. destruct (digit_val c); auto.
Qed.

Lemma digits_val_uint u (a : nat) :
  digits_val (Z.of_nat a) (NilEmpty.string_of_uint u) = Some (Z.of_nat (Nat.of_uint_acc u a)).
Proof.
  revert a. induction u; intros a; simpl; try reflexivity;
    rewrite <- IHu; f_equal; rewrite Nat.tail_mul_spec; lia.
Qed.

Lemma digits_val_str_nat n : digits_val 0 (str_nat n) = Some (Z.of_nat n).
Proof.
  unfold str_nat. rewrite (digits_val_uint _ 0).
  change (Nat.of_uint_acc (Nat.to_uint n) 0) with (Nat.of_uint (Nat.to_uint n)).
  by rewrite DecimalNat.Unsigned.of_to.
Qed.

(** [Pos.of_uint] and [Nat.of_uint] read the same decimal digits. *)
Lemma pos_of_uint_acc_nat d p :
  Z.pos (Pos.of_uint_acc d p) = Z.of_nat (Nat.of_uint_acc d (Pos.to_nat p)).
Proof.
  revert p. induction d; intros p; simpl; try (rewrite positive_nat_Z; reflexivity);
    rewrite IHd; f_equal; f_equal; rewrite Nat.tail_mul_spec;
    rewrite ?Pos2Nat.inj_add, Pos2Nat.inj_mul; reflexivity.
Qed.

Lemma N_of_uint_nat d : Z.of_N (N.of_uint d) = Z.of_nat (Nat.of_uint_acc d 0).
Proof.
  unfold N.of_uint. induction d; simpl; try done;
    rewrite pos_of_uint_acc_nat; reflexivity.
Qed.

Lemma digits_val_str_N n : digits_val 0 (str_N n) = Some (Z.of_N n).
Proof.
  unfold str_N. rewrite (digits_val_uint _ 0), <- N_of_uint_nat.
  by rewrite DecimalN.Unsigned.of_to.
Qed.

Lemma digits_val_acc acc s :
  digits_val acc s = option_map (fun v => acc * 10 ^ Z.of_nat (String.length s) + v)%Z (digits_val 0 s).
Proof.
  revert acc. induction s as [|c s IH]; intros acc; simpl; [f_equal; lia |].
  destruct (digit_val c) as [d|]; [| done]. rewrite IH, (IH (0 * 10 + Z.of_nat d)%Z).
  destruct (digits_val 0 s); simpl; [| done]. f_equal. rewrite Nat2Z.inj_succ, Z.pow_succ_r by lia. ring.
Qed.

Lemma digit_val_not_space c d : digit_val c = Some d -> is_space c = false.
Proof.
  unfold digit_val, is_space. destruct (_ && _) eqn:E; [| discriminate]. intros _.
  apply andb_true_iff in E as [E1 E2]. apply Nat.leb_le in E1, E2.
  apply orb_false_iff; split; apply andb_false_iff; right; apply Nat.leb_gt; lia.
Qed.

Definition no_space (s : string) : bool :=
  forallb (fun c => negb (is_space c)) (list_ascii_of_string s).

Lemma digits_val_no_space acc s v : digits_val acc s = Some v -> no_space s = true.
Proof.
  revert acc. induction s as [|c s IH]; intros acc; simpl; [done |].
  destruct (digit_val c) eqn:E; [| discriminate]. intros H.
  unfold no_space at 1. simpl. rewrite (digit_val_not_space _ _ E). simpl. eapply IH; eauto.
Qed.

Lemma str_rev_involutive s : str_rev (str_rev s) = s.
Proof.
  unfold str_rev. rewrite list_ascii_of_string_of_list_ascii, rev_involutive.
  apply string_of_list_ascii_of_string.
Qed.

Lemma strip_no_space s : no_space s = true -> strip s = s.
Proof.
  intros H. unfold strip, rstrip, lstrip, rstrip_by.
  assert (Hl : forall t, no_space t = true -> lstrip_by is_space t = t).
  { intros [|c t] Ht; [done |]. simpl in *. apply andb_true_iff in Ht as [Ht _].
    by destruct (is_space c). }
  rewrite (Hl s H), Hl; [apply str_rev_involutive |].
  unfold no_space, str_rev in *. rewrite list_ascii_of_string_of_list_ascii.
  rewrite forallb_forall in *. intros c Hc. apply H. by apply in_rev.
Qed.

(** [int(s)] of a non-empty string of decimal digits is its value. *)
Lemma py_int_digits s v : s <> "" -> digits_val 0 s = Some v -> py_int s = Ok v.
Proof.
  intros Hne Hv. unfold py_int. rewrite strip_no_space by (eapply digits_val_no_space; eauto).
  destruct s as [|c s']; [done |].
  assert (Hc : Ascii.eqb c "-"%char = false /\ Ascii.eqb c "+"%char = false).
  { simpl in Hv. unfold digit_val in Hv. destruct (_ && _) eqn:E; [| discriminate].
    apply andb_true_iff in E as [E1 E2]. apply Nat.leb_le in E1, E2.
    split; apply Ascii.eqb_neq; intros ->; cbv in E1, E2; lia. }
  destruct Hc as [-> ->]. by rewrite Hv.
Qed.

(** ** [str.find] and [str.replace] on concatenations *)

Lemma prefix_app_self p y : String.prefix p (p ++ y) = true.
Proof.
  induction p as [|c p IH]; [apply prefix_empty |]. rewrite append_cons. cbn [String.prefix].
  destruct (ascii_dec c c); [exact IH | done].
Qed.

Lemma replace_go_skip pat rep s y :
  replace_go pat rep (String.length s) (s ++ y) = replace_go pat rep 0 y.
Proof. induction s as [|c s IH]; [done |]. rewrite append_cons. exact IH. Qed.

Lemma prefix_head_ne d p c s : Ascii.eqb d c = false -> String.prefix (String d p) (String c s) = false.
Proof. intros H. cbn [String.prefix]. destruct (ascii_dec d c) as [->|]; [by rewrite Ascii.eqb_refl in H | done]. Qed.

Lemma prefix_app p s x : String.prefix p s = true -> String.prefix p (s ++ x) = true.
Proof.
  revert s. induction p as [|c p IH]; intros s; [intros _; apply prefix_empty |].
  destruct s as [|d s]; [discriminate |]. rewrite append_cons. cbn [String.prefix].
  destruct (ascii_dec c d); [apply IH | discriminate].
Qed.

Lemma contains_empty s : contains "" s = true.
Proof. unfold contains. destruct s; cbn [str_find]; rewrite prefix_empty; done. Qed.

Lemma contains_app_l pat s x : contains pat s = true -> contains pat (s ++ x) = true.
Proof.
  unfold contains. induction s as [|c s IH].
  - cbn [str_find]. destruct pat; [intros _; rewrite append_nil_l; apply contains_empty | discriminate].
  - rewrite append_cons. cbn [str_find].
    destruct (String.prefix pat (String c s)) eqn:E.
    + rewrite <- append_cons, (prefix_app _ _ _ E). done.
    + intros H. destruct (String.prefix pat (String c (s ++ x))); [done |].
      destruct (str_find pat s); [| discriminate]. specialize (IH eq_refl).
      by destruct (str_find pat (s ++ x)).
Qed.

Lemma contains_app_self pat x : contains pat (x ++ pat) = true.
Proof.
  unfold contains. induction x as [|c x IH].
  - rewrite append_nil_l. destruct pat; cbn [str_find]; [done |].
    rewrite <- (append_empty_r (String a pat)) at 2. by rewrite prefix_app_self.
  - rewrite append_cons. cbn [str_find]. destruct (String.prefix _ _); [done |].
    by destruct (str_find pat (x ++ pat)).
Qed.


Lemma prefix_split p s : String.prefix p s = true -> exists s', s = p ++ s'.
Proof.
  revert s. induction p as [|c p IH]; intros s H; [by exists s|].
  destruct s as [|d s]; [done|]. cbn [String.prefix] in H. destruct (ascii_dec c d) as [<-|]; [|done].
  apply IH in H as [s' ->]. by exists s'.
Qed.


(** An occurrence of the pattern at the front is replaced. *)
Lemma replace_go_occ p r rest :
  p <> "" -> replace_go p r 0 (p ++ rest) = r ++ replace_go p r 0 rest.
Proof.
  destruct p as [|c p]; [done|]. intros _. rewrite append_cons. cbn [replace_go].
  rewrite <- append_cons, prefix_app_self. cbn [String.length]. replace (S (String.length p) - 1) with (String.length p) by lia.
  by rewrite replace_go_skip.
Qed.

Lemma replace_go_char p r c s :
  String.prefix p (String c s) = false -> replace_go p r 0 (String c s) = String c (replace_go p r 0 s).
Proof. cbn [replace_go]. by intros ->. Qed.

Lemma contains_cons_false q x s : contains q (String x s) = false -> contains q s = false.
Proof.
  unfold contains. cbn [str_find]. destruct (String.prefix q (String x s)); [done|].
  by destruct (str_find q s).
Qed.

Lemma contains_cons_true q x s : contains q s = true -> contains q (String x s) = true.
Proof.
  unfold contains. cbn [str_find]. destruct (String.prefix q (String x s)); [done|].
  by destruct (str_find q s).
Qed.

(** A pattern without the character [d] cannot run over a [d]. *)
Lemma prefix_straddle p a d b :
  contains (String d "") p = false -> String.prefix p (a ++ String d b) = String.prefix p a.
Proof.
  revert p. induction a as [|y a IH]; intros p Hp.
  - destruct p as [|x p]; [done|]. rewrite append_nil_l. cbn [String.prefix].
    destruct (ascii_dec x d) as [->|]; [|done].
    exfalso. revert Hp. unfold contains. cbn [str_find]. by rewrite prefix_char, Ascii.eqb_refl.
  - destruct p as [|x p]; [done|]. rewrite append_cons. cbn [String.prefix].
    destruct (ascii_dec x y); [|done]. apply IH. by apply contains_cons_false in Hp.
Qed.


(** [str.replace] distributes over a [d] that the pattern does not
    contain: no occurrence runs over it. *)
Lemma replace_go_app p r a d b :
  p <> "" -> contains (String d "") p = false ->
  replace_go p r 0 (a ++ String d b) = replace_go p r 0 a ++ replace_go p r 0 (String d b).
Proof.
  intros Hp Hd. remember (String.length a) as n eqn:En. revert a En.
  induction n as [n IH] using lt_wf_ind. intros [|y a] En; [done|].
  destruct (String.prefix p (String y a)) eqn:Hpre.
  - apply prefix_split in Hpre as [a' Ea]. rewrite Ea, append_assoc_str, !replace_go_occ by done.
    rewrite append_assoc_str, (IH (String.length a')); [done| |done].
    subst n. rewrite Ea, length_append. destruct p; [done|]. cbn. lia.
  - rewrite append_cons, replace_go_char.
    + rewrite (replace_go_char _ _ _ a) by done. rewrite append_cons. f_equal.
      apply (IH (String.length a)); [subst n; cbn; lia | done].
    + by rewrite <- append_cons, prefix_straddle.
Qed.

(** A pattern that starts with [d], and has no other [d], cannot start
    in [a] and run over the [d] that follows [a]. *)
Lemma replace_go_app_head d p r a b :
  contains (String d "") p = false -> contains (String d p) a = false ->
  replace_go (String d p) r 0 (a ++ String d b) = a ++ replace_go (String d p) r 0 (String d b).
Proof.
  intros Hd. induction a as [|y a IH]; intros Ha; [done|].
  rewrite append_cons, replace_go_char.
  - rewrite append_cons. f_equal. apply IH. by apply contains_cons_false in Ha.
  - cbn [String.prefix]. destruct (ascii_dec d y) as [<-|]; [|done].
    rewrite prefix_straddle by done.
    revert Ha. unfold contains. cbn [str_find]. cbn [String.prefix].
    destruct (ascii_dec d d); [|done]. by destruct (String.prefix p a).
Qed.

Lemma list_ascii_of_string_app a b :
  list_ascii_of_string (a ++ b) = (list_ascii_of_string a ++ list_ascii_of_string b)%list.
Proof. induction a as [|c a IH]; [done|]. rewrite append_cons. cbn. by rewrite IH. Qed.

Lemma string_of_list_ascii_app l1 l2 :
  string_of_list_ascii (l1 ++ l2) = string_of_list_ascii l1 ++ string_of_list_ascii l2.
Proof. induction l1 as [|c l1 IH]; [done|]. cbn. by rewrite IH, append_cons. Qed.

Lemma str_rev_app a b : str_rev (a ++ b) = str_rev b ++ str_rev a.
Proof.
  unfold str_rev. by rewrite list_ascii_of_string_app, rev_app_distr, string_of_list_ascii_app.
Qed.

Lemma str_rev_char c : str_rev (String c "") = String c "".
Proof. reflexivity. Qed.

Lemma str_rev_cons c s : str_rev (String c s) = str_rev s ++ String c "".
Proof. by rewrite <- (append_nil_l s), <- append_cons, str_rev_app, append_nil_l. Qed.

Lemma rstrip_by_snoc_drop (p : ascii -> bool) a d :
  p d = true -> rstrip_by p (a ++ String d "") = rstrip_by p a.
Proof. intros Hd. unfold rstrip_by. rewrite str_rev_app, str_rev_char, append_cons, append_nil_l. cbn [lstrip_by]. by rewrite Hd. Qed.

Lemma rstrip_by_snoc_keep (p : ascii -> bool) a y :
  p y = false -> rstrip_by p (a ++ String y "") = a ++ String y "".
Proof.
  intros Hy. unfold rstrip_by. rewrite str_rev_app, str_rev_char, append_cons, append_nil_l. cbn [lstrip_by].
  by rewrite Hy, str_rev_cons, str_rev_involutive.
Qed.

(** [s.strip()] keeps a text whose first and last characters are not
    blank. *)
Lemma strip_keep x m y :
  is_space x = false -> is_space y = false ->
  strip (String x (m ++ String y "")) = String x (m ++ String y "").
Proof.
  intros Hx Hy. unfold strip, lstrip, rstrip. cbn [lstrip_by]. rewrite Hx, <- append_cons.
  by apply rstrip_by_snoc_keep.
Qed.

Lemma prefix_app_l a b s : String.prefix (a ++ b) s = true -> String.prefix a s = true.
Proof.
  revert s. induction a as [|c a IH]; intros s H; [apply prefix_empty|].
  rewrite append_cons in H. destruct s as [|d s]; [done|]. cbn [String.prefix] in *.
  destruct (ascii_dec c d); [by apply IH | done].
Qed.

Lemma contains_pat_prefix a b s : contains (a ++ b) s = true -> contains a s = true.
Proof.
  unfold contains. induction s as [|c s IH]; cbn [str_find].
  - destruct (String.prefix (a ++ b) "") eqn:E; [|done]. intros _. by rewrite (prefix_app_l _ _ _ E).
  - destruct (String.prefix (a ++ b) (String c s)) eqn:E.
    + intros _. by rewrite (prefix_app_l _ _ _ E).
    + destruct (String.prefix a (String c s)); [done|]. intros H.
      destruct (str_find (a ++ b) s); [|done]. specialize (IH eq_refl). by destruct (str_find a s).
Qed.

Lemma contains_app_r_false q x c : contains q (x ++ c) = false -> contains q c = false.
Proof. induction x as [|y x IH]; [done|]. rewrite append_cons. intros H. apply contains_cons_false in H. by apply IH. Qed.

Lemma contains_of_prefix q s : String.prefix q s = true -> contains q s = true.
Proof. unfold contains. intros H. by rewrite find_prefix. Qed.

(** The three shapes of the text [str.replace] makes, by its first
    character. *)
Lemma replace_go_head p r c s y rest :
  p <> "" -> replace_go p r 0 c ++ s = String y rest ->
  (c = "" /\ s = String y rest) \/
  (exists c', c = p ++ c' /\ String y rest = r ++ replace_go p r 0 c' ++ s) \/
  (exists c', c = String y c' /\ String.prefix p c = false /\ rest = replace_go p r 0 c' ++ s).
Proof.
  intros Hp H. destruct c as [|x c]; [by left|]. right.
  destruct (String.prefix p (String x c)) eqn:E.
  - apply prefix_split in E as [c' Ec]. rewrite Ec, replace_go_occ, append_assoc_str in H by done.
    left. by exists c'.
  - rewrite replace_go_char, append_cons in H by done. injection H as <- <-. right. by exists c.
Qed.

Lemma contains_app_r_true q x y : contains q y = true -> contains q (x ++ y) = true.
Proof. induction x as [|z x IH]; [done|]. rewrite append_cons. intros H. by apply contains_cons_true, IH. Qed.

Lemma contains_infix x q s : contains (x ++ q) s = true -> contains q s = true.
Proof.
  induction s as [|c s IH].
  - unfold contains. cbn [str_find]. destruct (String.prefix (x ++ q) "") eqn:E; [|done].
    intros _. apply prefix_split in E as [s' E]. destruct x; [|done]. destruct q; [|done].
    reflexivity.
  - unfold contains at 1. cbn [str_find]. destruct (String.prefix (x ++ q) (String c s)) eqn:E.
    + intros _. apply prefix_split in E as [s' ->]. rewrite append_assoc_str.
      apply contains_app_r_true, contains_of_prefix, prefix_app_self.
    + destruct (str_find (x ++ q) s) eqn:F; [|done]. intros _. apply contains_cons_true, IH.
      unfold contains. by rewrite F.
Qed.

Lemma contains_app_char p a d b :
  p <> "" -> contains (String d "") p = false ->
  contains p (a ++ String d b) = contains p a || contains p (String d b).
Proof.
  intros Hp Hd. induction a as [|y a IH]; [by rewrite contains_empty_string|].
  destruct (String.prefix p (String y a)) eqn:E.
  - rewrite (contains_of_prefix _ (String y a)) by done.
    by rewrite contains_of_prefix by (by rewrite prefix_straddle).
  - rewrite (contains_cons _ _ a) by done. rewrite append_cons, contains_cons, <- IH; [done|].
    by rewrite <- append_cons, prefix_straddle.
Qed.


Lemma str_replace_go p r s : p <> "" -> str_replace p r s = replace_go p r 0 s.
Proof. by destruct p. Qed.

(** ** [str.split] on a separator of several characters *)

(** After a match the separator's other characters are skipped. *)
Lemma split_go_skip sep cur a r :
  split_go sep (String.length a) cur (a ++ r) = split_go sep 0 cur r.
Proof. revert cur. induction a as [|c a IH]; intros cur; [done|]. rewrite append_cons. apply IH. Qed.

(** A field without the separator's first character ends at the first
    separator. *)
Lemma split_go_sep d p cur x r :
  contains (String d "") x = false ->
  split_go (String d p) 0 cur (x ++ String d p ++ r) = (cur ++ x) :: split_go (String d p) 0 "" r.
Proof.
  revert cur. induction x as [|c x IH]; intros cur Hx.
  - rewrite !append_nil_l, append_empty_r, append_cons. cbn [split_go].
    rewrite <- append_cons, prefix_app_self. cbn [String.length]. replace (S (String.length p) - 1) with (String.length p) by lia.
    by rewrite split_go_skip.
  - rewrite contains_char_cons in Hx. apply orb_false_iff in Hx as [E Hx].
    rewrite append_cons. cbn [split_go].
    replace (String.prefix (String d p) (String c (x ++ String d p ++ r))) with false.
    2:{ cbn [String.prefix]. destruct (ascii_dec d c) as [->|]; [by rewrite Ascii.eqb_refl in E | done]. }
    rewrite IH by done. by rewrite append_assoc_str.
Qed.

Lemma split_go_none sep cur y :
  sep <> "" -> contains sep y = false -> split_go sep 0 cur y = [cur ++ y].
Proof.
  intros Hs. revert cur. induction y as [|c y IH]; intros cur Hy.
  - by rewrite append_empty_r.
  - cbn [split_go].
    destruct (String.prefix sep (String c y)) eqn:E.
    { by rewrite contains_of_prefix in Hy. }
    rewrite IH by (eapply contains_cons_false; exact Hy). by rewrite append_assoc_str.
Qed.

(** [(x + sep + y).split(sep) == [x, y]] when [x] lacks the separator's
    first character and [y] the separator. *)
Lemma split_sep_two d p x y :
  contains (String d "") x = false -> contains (String d p) y = false ->
  str_split (String d p) (x ++ String d p ++ y) = [x; y].
Proof.
  intros Hx Hy. unfold str_split. rewrite split_go_sep by done.
  rewrite split_go_none by done. by rewrite !append_nil_l.
Qed.

Lemma upper_app a b : upper (a ++ b) = upper a ++ upper b.
Proof. induction a as [|c a IH]; [done|]. rewrite !append_cons. cbn [upper]. by rewrite IH, append_cons. Qed.

Fixpoint all_space (s : string) : bool :=
  match s with EmptyString => true | String c s' => is_space c && all_space s' end.

Lemma rstrip_app_space a t : all_space t = true -> rstrip (a ++ t) = rstrip a.
Proof.
  revert a. induction t as [|c t IH]; intros a H; [by rewrite append_empty_r|].
  cbn [all_space] in H. apply andb_true_iff in H as [Hc Ht].
  replace (a ++ String c t) with ((a ++ String c "") ++ t)
    by (rewrite append_assoc_str; by rewrite append_cons, append_nil_l).
  rewrite IH by done. by apply rstrip_by_snoc_drop.
Qed.

(** [(s + t).strip() == s] for [s] already stripped and [t] blank. *)
Lemma strip_app_space x m y t :
  is_space x = false -> is_space y = false -> all_space t = true ->
  strip (String x (m ++ String y "") ++ t) = String x (m ++ String y "").
Proof.
  intros Hx Hy Ht. unfold strip, lstrip. rewrite append_cons. cbn [lstrip_by]. rewrite Hx, <- append_cons.
  rewrite rstrip_app_space by done. unfold rstrip. rewrite <- append_cons. by apply rstrip_by_snoc_keep.
Qed.

Lemma concat_nil_sep x xs : String.concat "" (x :: xs) = x ++ String.concat "" xs.
Proof. destruct xs; [by rewrite append_empty_r | reflexivity]. Qed.

(** A final newline adds no occurrence of a pattern without newlines. *)
Lemma contains_app_nl p s :
  p <> "" -> contains nl p = false -> contains p nl = false -> contains p (s ++ nl) = contains p s.
Proof. intros Hp Hn Hn'. unfold nl in *. rewrite contains_app_char by done. rewrite Hn'. apply orb_false_r. Qed.

(** ** Subscripts *)

Lemma lookup_nth_error {A} (l : list A) k : l !! k = nth_error l k.
Proof. revert k. induction l as [|x l IH]; intros [|k]; [done..| apply IH]. Qed.

(** [l[k]] with a subscript that is not negative. *)
Lemma py_index_nat {A} (l : list A) k :
  py_index (Z.of_nat k) l = match l !! k with Some x => Ok x | None => Raise IndexError end.
Proof.
  unfold py_index. rewrite lookup_nth_error.
  destruct (Z.of_nat k <? 0)%Z eqn:E; [apply Z.ltb_lt in E; lia|]. rewrite Nat2Z.id.
  destruct (Z.of_nat k <? Z.of_nat (List.length l))%Z eqn:F.
  - rewrite andb_true_r, (proj2 (Z.leb_le _ _)) by lia. reflexivity.
  - rewrite andb_false_r. apply Z.ltb_ge in F.
    rewrite (proj2 (nth_error_None l k)) by lia. reflexivity.
Qed.

(** ** Occurrences next to a fixed text

    [str.replace] rewrites a text [u] of the string only through an
    occurrence that starts in [u] or runs into it.  [no_start p u]: the
    pattern starts at no position of [u], whatever follows [u];
    [no_end p u]: no proper suffix of the pattern starts [u], so an
    occurrence that starts before [u] ends before it. *)
Fixpoint no_start (p u : string) : bool :=
  match u with
  | EmptyString => true
  | String _ u' => negb (String.prefix p u) && negb (String.prefix u p) && no_start p u'
  end.

Fixpoint no_end (p u : string) : bool :=
  match p with
  | EmptyString => true
  | String _ p' =>
      match p' with
      | EmptyString => true
      | _ => negb (String.prefix p' u) && negb (String.prefix u p')
      end && no_end p' u
  end.

(** [s.endswith(u)] *)
Definition ends_with (u s : string) : Prop := exists a, s = a ++ u.

Lemma prefix_app_cases p s b :
  String.prefix p (s ++ b) = true -> String.prefix p s = true \/ String.prefix s p = true.
Proof.
  revert p. induction s as [|c s IH]; intros p H; [right; apply prefix_empty|].
  destruct p as [|d p]; [left; apply prefix_empty|]. rewrite append_cons in H.
  cbn [String.prefix] in *. destruct (ascii_dec d c) as [<-|]; [|done].
  destruct (ascii_dec d d); [by apply IH | done].
Qed.

Lemma prefix_app_same a p s : String.prefix (a ++ p) (a ++ s) = String.prefix p s.
Proof.
  induction a as [|c a IH]; [done|]. rewrite !append_cons. cbn [String.prefix].
  by destruct (ascii_dec c c).
Qed.

Lemma no_end_split p u a p2 :
  no_end p u = true -> p = a ++ p2 -> a <> "" -> p2 <> "" ->
  String.prefix p2 u = false /\ String.prefix u p2 = false.
Proof.
  revert p. induction a as [|c a IH]; intros p Hp -> Ha Hp2; [done|].
  rewrite append_cons in Hp. cbn [no_end] in Hp. apply andb_true_iff in Hp as [H1 H2].
  destruct a as [|c' a].
  - rewrite append_nil_l in H1. destruct p2 as [|x p2]; [done|].
    apply andb_true_iff in H1 as [H1 H3]. apply negb_true_iff in H1, H3. by split.
  - by apply (IH _ H2).
Qed.

Lemma replace_go_no_start p r u b :
  no_start p u = true -> replace_go p r 0 (u ++ b) = u ++ replace_go p r 0 b.
Proof.
  induction u as [|c u IH]; intros H; [done|]. cbn [no_start] in H.
  apply andb_true_iff in H as [H H3]. apply andb_true_iff in H as [H1 H2]. apply negb_true_iff in H1, H2.
  assert (Hc : String.prefix p (String c (u ++ b)) = false).
  { rewrite <- append_cons. destruct (String.prefix p (String c u ++ b)) eqn:E; [|done].
    apply prefix_app_cases in E as [E|E]; congruence. }
  by rewrite append_cons, (replace_go_char _ _ _ _ Hc), append_cons, IH.
Qed.

Lemma replace_go_no_end p r a u b :
  p <> "" -> no_end p u = true ->
  replace_go p r 0 (a ++ u ++ b) = replace_go p r 0 a ++ replace_go p r 0 (u ++ b).
Proof.
  intros Hp Hu. remember (String.length a) as n eqn:En. revert a En.
  induction n as [n IH] using lt_wf_ind. intros [|y a] En; [done|].
  destruct (String.prefix p (String y a)) eqn:Hpre.
  - apply prefix_split in Hpre as [a' Ea]. rewrite Ea, append_assoc_str, !replace_go_occ by done.
    rewrite append_assoc_str, (IH (String.length a')); [done| |done].
    subst n. rewrite Ea, length_append. destruct p; [done|]. cbn. lia.
  - rewrite append_cons, replace_go_char.
    + rewrite (replace_go_char _ _ _ a) by done. rewrite append_cons. f_equal.
      apply (IH (String.length a)); [subst n; cbn; lia | done].
    + rewrite <- append_cons. destruct (String.prefix p (String y a ++ u ++ b)) eqn:E; [|done].
      exfalso. pose proof E as E'. apply prefix_app_cases in E' as [E'|E']; [congruence|].
      apply prefix_split in E' as [p2 Ep]. rewrite Ep, prefix_app_same in E.
      destruct p2 as [|x p2].
      * rewrite Ep, append_empty_r in Hpre. pose proof (prefix_app_self (String y a) "") as F.
        rewrite append_empty_r in F. congruence.
      * destruct (no_end_split p u _ _ Hu Ep ltac:(discriminate) ltac:(discriminate)) as [F G].
        apply prefix_app_cases in E as [E|E]; congruence.
Qed.

(** A text [u] of the string survives a replacement that can neither
    start in it nor run into it. *)
Lemma replace_go_mid p r a u b :
  p <> "" -> no_start p u = true -> no_end p u = true ->
  replace_go p r 0 (a ++ u ++ b) = replace_go p r 0 a ++ u ++ replace_go p r 0 b.
Proof. intros Hp Hs He. by rewrite replace_go_no_end, replace_go_no_start. Qed.

Lemma contains_split u s : contains u s = true -> exists a b, s = a ++ u ++ b.
Proof.
  unfold contains. induction s as [|c s IH]; cbn [str_find].
  - destruct (String.prefix u "") eqn:E; [|done]. intros _. apply prefix_split in E as [b E].
    exists "", b. by rewrite append_nil_l.
  - destruct (String.prefix u (String c s)) eqn:E.
    + intros _. apply prefix_split in E as [b E]. by exists "", b.
    + destruct (str_find u s); [|done]. intros _. destruct (IH eq_refl) as (a & b & ->).
      exists (String c a), b. by rewrite append_cons.
Qed.

Lemma contains_mid a u b : contains u (a ++ u ++ b) = true.
Proof.
  apply contains_app_r_true, contains_app_l. pose proof (contains_app_self u "") as H.
  by rewrite append_nil_l in H.
Qed.

Lemma ends_with_app u s t : ends_with u t -> ends_with u (s ++ t).
Proof. intros [a ->]. exists (s ++ a). by rewrite append_assoc_str. Qed.

(** A replacement that can neither start in the end [u] nor run into
    it keeps the end. *)
Lemma ends_with_replace p r u s :
  p <> "" -> no_end p u = true -> contains p u = false -> ends_with u s -> ends_with u (str_replace p r s).
Proof.
  intros Hp Hu Hc [a ->]. pose proof (replace_go_no_end p r a u "" Hp Hu) as E.
  rewrite !append_empty_r in E. rewrite str_replace_go, E, (replace_go_absent p r u) by done.
  by exists (replace_go p r 0 a).
Qed.

Lemma ends_with_replace_go p r u s :
  p <> "" -> no_end p u = true -> contains p u = false -> ends_with u s -> ends_with u (replace_go p r 0 s).
Proof. intros Hp. rewrite <- (str_replace_go p r s) by done. by apply ends_with_replace. Qed.

Lemma contains_replace p r u s :
  p <> "" -> no_start p u = true -> no_end p u = true -> contains u s = true -> contains u (str_replace p r s) = true.
Proof.
  intros Hp Hs He Hc. apply contains_split in Hc as (a & b & ->).
  rewrite str_replace_go, replace_go_mid by done. apply contains_mid.
Qed.

Lemma ends_with_upper u s : upper u = u -> ends_with u s -> ends_with u (upper s).
Proof. intros Hu [a ->]. exists (upper a). by rewrite upper_app, Hu. Qed.

Lemma lstrip_by_app p a c u : p c = false -> lstrip_by p (a ++ String c u) = lstrip_by p a ++ String c u.
Proof.
  intros Hc. induction a as [|x a IH].
  - rewrite !append_nil_l. cbn [lstrip_by]. by rewrite Hc.
  - rewrite append_cons. cbn [lstrip_by]. destruct (p x); [exact IH|]. by rewrite append_cons.
Qed.

Lemma rstrip_by_app p x y b :
  p y = false -> rstrip_by p ((x ++ String y "") ++ b) = (x ++ String y "") ++ rstrip_by p b.
Proof.
  intros Hy. unfold rstrip_by. rewrite !str_rev_app, str_rev_char, append_cons, append_nil_l.
  rewrite lstrip_by_app by done. by rewrite str_rev_app, str_rev_cons, str_rev_involutive.
Qed.

(** [s.strip()] keeps a text inside [s] that begins and ends with a
    printable character. *)
Lemma strip_mid a x m y b :
  is_space x = false -> is_space y = false ->
  strip (a ++ String x (m ++ String y "") ++ b) = (lstrip a ++ String x (m ++ String y "")) ++ rstrip b.
Proof.
  intros Hx Hy. unfold strip, lstrip, rstrip. rewrite append_cons, lstrip_by_app by done.
  set (L := lstrip_by is_space a).
  replace (L ++ String x ((m ++ String y "") ++ b)) with (((L ++ String x m) ++ String y "") ++ b)
    by (rewrite ?append_assoc_str, ?append_cons, ?append_assoc_str; reflexivity).
  rewrite rstrip_by_app by done. by rewrite ?append_assoc_str, ?append_cons, ?append_assoc_str.
Qed.

Lemma ends_with_strip x m y s :
  is_space x = false -> is_space y = false ->
  ends_with (String x (m ++ String y "")) s -> ends_with (String x (m ++ String y "")) (strip s).
Proof.
  intros Hx Hy [a ->]. rewrite <- (append_empty_r (String x _)), strip_mid by done.
  exists (lstrip a). by rewrite !append_empty_r.
Qed.

Lemma contains_strip x m y s :
  is_space x = false -> is_space y = false ->
  contains (String x (m ++ String y "")) s = true -> contains (String x (m ++ String y "")) (strip s) = true.
Proof.
  intros Hx Hy Hc. apply contains_split in Hc as (a & b & ->). rewrite strip_mid by done.
  rewrite append_assoc_str. apply contains_mid.
Qed.

(** [no_straddle p u]: an occurrence of [p] that starts in [u] ends in
    [u], whatever follows [u]. *)
Fixpoint no_straddle (p u : string) : bool :=
  match u with
  | EmptyString => true
  | String _ u' => (negb (String.prefix u p) || String.prefix p u) && no_straddle p u'
  end.

Lemma contains_String p c s : contains p (String c s) = String.prefix p (String c s) || contains p s.
Proof. unfold contains. cbn [str_find]. destruct (String.prefix p (String c s)); [done|]. by destruct (str_find p s). Qed.

Lemma contains_app_no_straddle p u b :
  p <> "" -> no_straddle p u = true -> contains p b = false -> contains p (u ++ b) = contains p u.
Proof.
  intros Hp. induction u as [|c u IH]; intros Hu Hb.
  - rewrite append_nil_l, Hb. symmetry. by apply contains_empty_string.
  - cbn [no_straddle] in Hu. apply andb_true_iff in Hu as [H1 H2].
    rewrite append_cons, !contains_String, IH by done. f_equal.
    rewrite <- append_cons. destruct (String.prefix p (String c u)) eqn:E; [by apply prefix_app|].
    destruct (String.prefix p (String c u ++ b)) eqn:F; [|done].
    apply prefix_app_cases in F as [F|F]; [congruence|]. rewrite F in H1. discriminate.
Qed.
