(* ===== verification/Config.v ===== *)
(** * Configuration and start-up state of nwr_tsu.py

    The program imports a site configuration module ([etc/config_tsu.py],
    or [config/SampleConfigs/config_tsuXXX.py] when a WFO id is passed on
    the command line) and then derives its global state at module level
    (nwr_tsu.py lines 208-417).  This file holds:
    - [kind]: the three hazard kinds, keyed in the source by the strings
      ["warning"], ["watch"], ["advisory"];
    - [config]: the settings of a configuration module, [None] for an
      optional setting the module leaves undefined (the source probes these
      with [try: x / except: default]);
    - [readArrivalList] and [augment_arrivals]: the forecast-point list built
      from [tsunami_forecast_points.csv] and the [arrival_list] edits;
    - [init_globals]: the module-level derivation of the globals the rest
      of the program reads ([zone_ids], [localphrase], [wcapil], ...);
    - the three configuration files of the repository as values. *)

From stdpp Require Import base list strings decidable.
From Stdlib Require Import String Ascii ZArith Lia.
From S2P Require Import Prelude PyStr.

Local Open Scope string_scope.
Local Open Scope nat_scope.
Local Open Scope tsu_scope.

(** ** Hazard kinds *)

Inductive kind : Type := Warning | Watch | Advisory.

#[export] Instance kind_eq_dec : EqDecision kind.
Proof. solve_decision. Defined.

(** The dictionary key (and the user-visible word) of each kind. *)
Definition kind_key (k : kind) : string :=
  match k with Warning => "warning" | Watch => "watch" | Advisory => "advisory" end.

Definition kind_of_key (s : string) : option kind :=
  if String.eqb s "warning" then Some Warning
  else if String.eqb s "watch" then Some Watch
  else if String.eqb s "advisory" then Some Advisory
  else None.

Lemma kind_of_key_key k : kind_of_key (kind_key k) = Some k.
Proof. by destruct k. Qed.

Lemma kind_key_inj k1 k2 : kind_key k1 = kind_key k2 -> k1 = k2.
Proof. destruct k1, k2; simpl; congruence. Qed.

(** ** The configuration module *)

Record config : Type := {
  cfg_local_dir : string;
  cfg_node : string;
  cfg_localphrase : string;
  cfg_local_actions : option string;
  cfg_advisoryPIL : option string;
  cfg_watchPIL : option string;
  cfg_warningPIL : option string;
  cfg_zone_list : dict string;          (* zone code -> zone name *)
  cfg_zone_order : list string;
  cfg_county_list : dict string;        (* county FIPS -> "zone,zone,..." *)
  cfg_arrival_list : option (list string);
  cfg_arrival_localname : option (dict string);
  cfg_advisory_handle : string;
  cfg_openPractice : option string;
  cfg_pending : option string;
  cfg_wcapil : string;
  cfg_tz : Z;
  cfg_tzid : string;
  cfg_expiresin : Z;
  cfg_nwrsend : option string
}.

(** ** Forecast points (lines 223-256)

    [readArrivalList] reads [tsunami_forecast_points.csv]; [None] is a
    missing or unreadable file, for which the source logs an error and
    returns [[]].  Each line is [location,state,zone]. *)
Definition arrival_point_of_line (zoneOut : list string) (line : string) : option string :=
  match str_split "," (rstrip line) with
  | f0 :: f1 :: f2 :: _ =>
      if negb (String.eqb f0 "") && negb (String.eqb f1 "") && negb (String.eqb f2 "")
         && py_in f2 zoneOut
      then Some (f0 ++ " " ++ f1) else None
  | _ => None
  end.

Definition readArrivalList (file : option (list string)) (zoneOut : list string) : list string :=
  match file with
  | None => []
  | Some lines => omap (arrival_point_of_line zoneOut) lines
  end.

(** [list.remove(x)]: drop the first occurrence. *)
Fixpoint remove_first (x : string) (l : list string) : list string :=
  match l with
  | [] => []
  | y :: l' => if String.eqb y x then l' else y :: remove_first x l'
  end.

(** One entry of the configured [arrival_list] (lines 300-306).  An entry
    with exactly one comma passes the [len(tmp)<2] guard and then raises
    [IndexError] at [tmp[2]]. *)
Definition augment_one (arr : list string) (a : string) : res (list string) :=
  if negb (contains "," a) then Ok arr else
  let tmp := str_split "," a in
  if List.length tmp <? 2 then Ok arr else
  match tmp with
  | t0 :: t1 :: rest =>
      let into := t0 ++ " " ++ t1 in
      match rest with
      | [] => Raise IndexError
      | t2 :: _ =>
          let arr1 := if String.eqb (upper t2) "ADD" && negb (py_in into arr)
                      then (arr ++ [into])%list else arr in
          let arr2 := if String.eqb (upper t2) "IGNORE" && py_in into arr1
                      then remove_first into arr1 else arr1 in
          Ok arr2
      end
  | _ => Ok arr
  end.

(** An [arrival_list] entry with exactly one comma: ["Point,State"],
    without the ADD/IGNORE action. *)
Definition two_fields (a : string) : bool := contains "," a && (List.length (str_split "," a) =? 2).

Fixpoint augment_arrivals (arr : list string) (local_list : list string) : res (list string) :=
  match local_list with
  | [] => Ok arr
  | a :: rest => res_bind (augment_one arr a) (fun arr' => augment_arrivals arr' rest)
  end.

(** ** Module-level globals *)

Record globals : Type := {
  g_zone_ids : list string;
  g_zone_list : dict string;
  g_county_list : dict string;
  g_localphrase : string;
  g_localheadline : string;
  g_local_actions : string;
  g_advisory_handle : string;
  g_arrival_list : list string;
  g_arrival_localname : option (dict string);
  g_wcapil : string;
  g_advisoryPIL : string;
  g_watchPIL : string;
  g_warningPIL : string;
  g_node : string;
  g_pending : string;
  g_openPractice : string;
  g_tz : Z;
  g_tzid : string;
  g_nwrsend : string;
  g_combo_handle : string;
  g_breakpoint_list : dict (list string)
}.

(** Lines 412-416: a blank configured phrase becomes
    ["the local coastal area"]; otherwise ["..."] pauses become [", "]. *)
Definition init_localphrase (lp : string) : string * string :=
  if String.eqb (str_replace " " "" lp) ""
  then ("", "the local coastal area")
  else ("for " ++ lp, str_replace "..." ", " lp).

(** Lines 333-337: the bulletin PIL gets the node prefixed. *)
Definition init_wcapil (node w : string) : string :=
  let w1 := if String.length w <? 9 then node ++ w else w in
  let w2 := match str_split ":" w1 with
            | t0 :: t1 :: _ => t0 ++ ":" ++ node ++ t1
            | _ => w1
            end in
  upper w2.

Definition init_local_dir (d : string) : string :=
  if String.eqb (str_drop (String.length d - 1) d) "/" then d else d ++ "/".

(** Lines 205-209: a missing or empty [nwrsend] disables sending;
    otherwise the script shipped with the program is used, under the
    configured [local_dir]. *)
Definition init_nwrsend (c : config) : string :=
  match cfg_nwrsend c with
  | None => ""
  | Some v => if String.eqb v "" then "" else cfg_local_dir c ++ "/bin/nwrsend.sh"
  end.

(** Lines 164-177: the configuration file, [etc/config_tsu.py] under
    the program's base directory, or the sample
    [config/SampleConfigs/config_tsuXXX.py] when the first argument is a
    three-letter office id [XXX]; the result is [ConfigPath] and
    [ConfigFName]. *)
Definition select_config (base : string) (argv : list string) : string * string :=
  match argv with
  | _ :: a :: _ =>
      if String.length a =? 3 then (base ++ "/config/SampleConfigs", "config_tsu" ++ upper a ++ ".py")
      else (base ++ "/etc", "config_tsu.py")
  | _ => (base ++ "/etc", "config_tsu.py")
  end.

(** Lines 183-203: the program stops ([sys.exit(1)], [inl] with the log
    message) when the file is missing, unreadable or does not import;
    [import] gives the module [ConfigFName] without [.py]. *)
Definition load_config (isfile readable : string -> bool) (import : string -> option config)
    (base : string) (argv : list string) : string + config :=
  let '(path, fname) := select_config base argv in
  let file := path ++ "/" ++ fname in
  if negb (isfile file) then
    inl (file ++ " file does not exist. You need to copy the config_tsu.template.py file from the programs config/ directory to the etc/ directory, then rename to config_tsu.py, then edit and configure for your site before running this program.")
  else if negb (readable file) then inl (file ++ " file exists but is not readable.")
  else match import (str_replace ".py" "" fname) with
       | Some c => inr c
       | None => inl ("Syntax error in configuration file " ++ file ++ ". Please edit and correct" ++ nl)
       end.

Definition init_globals (c : config) (points : option (list string)) : res globals :=
  let local_list := default [] (cfg_arrival_list c) in
  arr <- augment_arrivals (readArrivalList points (cfg_zone_order c)) local_list ;;
  let lp := init_localphrase (cfg_localphrase c) in
  let nwrsend := init_nwrsend c in
  Ok {| g_zone_ids := cfg_zone_order c;
        g_zone_list := cfg_zone_list c;
        g_county_list := cfg_county_list c;
        g_localphrase := snd lp;
        g_localheadline := fst lp;
        g_local_actions := default "" (cfg_local_actions c);
        g_advisory_handle := cfg_advisory_handle c;
        g_arrival_list := arr;
        g_arrival_localname := cfg_arrival_localname c;
        g_wcapil := init_wcapil (cfg_node c) (cfg_wcapil c);
        g_advisoryPIL := default "TSYWCA" (cfg_advisoryPIL c);
        g_watchPIL := default "TSAWCA" (cfg_watchPIL c);
        g_warningPIL := default "TSWWCA" (cfg_warningPIL c);
        g_node := cfg_node c;
        g_pending := default "no" (cfg_pending c);
        g_openPractice := default "no" (cfg_openPractice c);
        g_tz := cfg_tz c;
        g_tzid := cfg_tzid c;
        g_nwrsend := nwrsend;
        g_combo_handle := "no";
        g_breakpoint_list := [] |}.

(** ** The configuration files of the repository *)

(** [config/config_tsu.template.py] (WFO Los Angeles/Oxnard). *)
Definition config_template : config := {|
  cfg_local_dir := "/awips2/apps/TsunamiEasGui";
  cfg_node := "LAX";
  cfg_localphrase := "coastal areas of los angeles, ventura, santa barbara, and san luis obispo counties";
  cfg_local_actions := Some "Stay tuned to your local news source and NOAA weather radio for further information and updates.";
  cfg_advisoryPIL := Some "TSYWCA";
  cfg_watchPIL := Some "TSAWCA";
  cfg_warningPIL := Some "TSWWCA";
  cfg_zone_list := [("CAZ034", "San Luis Obispo County Central Coast");
                    ("CAZ035", "Santa Barbara County Central Coast");
                    ("CAZ039", "Santa Barbara County South Coast");
                    ("CAZ041", "Los Angeles County Coast");
                    ("CAZ040", "Ventura County Coast");
                    ("CAZ087", "Catalina and Santa Barbara Islands");
                    ("CAZ549", "San Miguel and Santa Rosa Islands");
                    ("CAZ550", "Santa Cruz and Anacapa Islands")];
  cfg_zone_order := ["CAZ034"; "CAZ035"; "CAZ039"; "CAZ040"; "CAZ041"; "CAZ087"; "CAZ550"; "CAZ549"];
  cfg_county_list := [("CAC079", "CAZ034"); ("CAC083", "CAZ035,CAZ039,CAZ549,CAZ550");
                      ("CAC111", "CAZ040"); ("CAC037", "CAZ041,CAZ087")];
  cfg_arrival_list := Some [];
  cfg_arrival_localname := Some [];
  cfg_advisory_handle := "yes";
  cfg_openPractice := Some "no";
  cfg_pending := Some "no";
  cfg_wcapil := "TSUWCA";
  cfg_tz := 8%Z;
  cfg_tzid := "pst";
  cfg_expiresin := 60%Z;
  cfg_nwrsend := None |}.

(** [config/SampleConfigs/config_tsuPQR.py] (WFO Portland). *)
Definition config_PQR : config := {|
  cfg_local_dir := "/awips2/apps/TsunamiEasGui";
  cfg_node := "PDX";
  cfg_localphrase := "SOUTH WASHINGTON COAST AND OREGONs NORTH AND CENTRAL COAST";
  cfg_local_actions := Some "Stay tuned to your local news source and NOAA weather radio for further information and updates.";
  cfg_advisoryPIL := Some "TSYWCA";
  cfg_watchPIL := Some "TSAWCA";
  cfg_warningPIL := Some "TSWWCA";
  cfg_zone_list := [("WAZ021", "SOUTH WASHINGTON COAST"); ("ORZ001", "NORTH OREGON COAST");
                    ("ORZ002", "CENTRAL COAST OF OREGON")];
  cfg_zone_order := ["WAZ021"; "ORZ001"; "ORZ002"];
  cfg_county_list := [("WAC027", "WAZ021"); ("WAC049", "WAZ021"); ("ORC007", "ORZ001");
                      ("ORC009", "WAZ021,ORZ001"); ("ORC051", "WAZ021,ORZ001");
                      ("ORC005", "WAZ021,ORZ001"); ("ORC067", "WAZ021,ORZ001");
                      ("ORC057", "ORZ001"); ("ORC041", "ORZ001,ORZ002"); ("ORC071", "ORZ001");
                      ("ORC039", "ORZ002"); ("ORC003", "ORZ001"); ("ORC043", "ORZ001");
                      ("ORC047", "ORZ001"); ("ORC053", "ORZ001"); ("ORC019", "ORZ002")];
  cfg_arrival_list := Some [];
  cfg_arrival_localname := None;
  cfg_advisory_handle := "yes";
  cfg_openPractice := Some "no";
  cfg_pending := Some "no";
  cfg_wcapil := "TSUWCA";
  cfg_tz := 8%Z;
  cfg_tzid := "pst";
  cfg_expiresin := 60%Z;
  cfg_nwrsend := None |}.

(** [config/SampleConfigs/config_tsuMTR.py] (WFO San Francisco Bay Area). *)
Definition config_MTR : config := {|
  cfg_local_dir := "/awips2/apps/TsunamiEasGui";
  cfg_node := "SFO";
  cfg_localphrase := "shoreline areas of sonoma...napa...marin...san francisco...contra costa...solano...alameda...san mateo...san francisco...santa clara...santa cruz...and monterey counties";
  cfg_local_actions := Some "Stay tuned to your local news source and NOAA weather radio for further information and updates.";
  cfg_advisoryPIL := Some "TSYWCA";
  cfg_watchPIL := Some "TSAWCA";
  cfg_warningPIL := Some "TSWWCA";
  cfg_zone_list := [("CAZ505", "Coastal North Bay"); ("CAZ006", "San Francisco");
                    ("CAZ508", "San Francisco Bay Shoreline"); ("CAZ509", "San Francisco Peninsula Coast");
                    ("CAZ530", "Southern Monterey Bay and Big Sur Coast"); ("CAZ529", "Northern Monterey Bay")];
  cfg_zone_order := ["CAZ505"; "CAZ006"; "CAZ508"; "CAZ509"; "CAZ530"; "CAZ529"];
  cfg_county_list := [("CAC097", "CAZ505"); ("CAC013", "CAZ508"); ("CAC001", "CAZ508");
                      ("CAC041", "CAZ505"); ("CAC075", "CAZ006,CAZ508,CAZ509"); ("CAC081", "CAZ509");
                      ("CAC087", "CAZ529"); ("CAC053", "CAZ530")];
  cfg_arrival_list := Some [];
  cfg_arrival_localname := None;
  cfg_advisory_handle := "yes";
  cfg_openPractice := Some "no";
  cfg_pending := Some "yes";
  cfg_wcapil := "TSUWCA";
  cfg_tz := 8%Z;
  cfg_tzid := "pst";
  cfg_expiresin := 60%Z;
  cfg_nwrsend := None |}.

(** The start-up state of the template configuration, without a
    forecast-points file ([init_template_globals] shows that [init_globals]
    computes it). *)
Definition template_globals : globals := {|
  g_zone_ids := cfg_zone_order config_template;
  g_zone_list := cfg_zone_list config_template;
  g_county_list := cfg_county_list config_template;
  g_localphrase := cfg_localphrase config_template;
  g_localheadline := "for " ++ cfg_localphrase config_template;
  g_local_actions := default "" (cfg_local_actions config_template);
  g_advisory_handle := "yes";
  g_arrival_list := [];
  g_arrival_localname := Some [];
  g_wcapil := "LAXTSUWCA";
  g_advisoryPIL := "TSYWCA"; g_watchPIL := "TSAWCA"; g_warningPIL := "TSWWCA";
  g_node := "LAX"; g_pending := "no"; g_openPractice := "no";
  g_tz := 8%Z; g_tzid := "pst"; g_nwrsend := "";
  g_combo_handle := "no"; g_breakpoint_list := [] |}.

(** * Properties of the start-up state *)

(** The configuration modules of the repository, by name. *)
Definition repo_configs (name : string) : option config :=
  if String.eqb name "config_tsu" then Some config_template
  else if String.eqb name "config_tsuPQR" then Some config_PQR
  else if String.eqb name "config_tsuMTR" then Some config_MTR
  else None.

Lemma replace_blank_nonempty lp :
  String.eqb (str_replace " " "" lp) "" = false -> lp <> "".
Proof. intros H ->. discriminate H. Qed.

(** The area phrase that the program substitutes for "all zones" is never
    empty: a blank configured phrase is replaced by a fixed one (lines
    412-416), so the "enumerate every zone when no phrase is configured"
    branches of [breakpointMe] are dead. *)
Lemma init_localphrase_nonempty lp : snd (init_localphrase lp) <> "".
Proof.
  unfold init_localphrase. destruct (String.eqb _ _) eqn:E; cbn [snd]; [discriminate |].
  apply replace_nonempty; [discriminate | discriminate | by apply replace_blank_nonempty].
Qed.

Lemma augment_one_cases arr a :
  (two_fields a = true /\ augment_one arr a = Raise IndexError) \/
  (two_fields a = false /\ exists arr', augment_one arr a = Ok arr').
Proof.
  unfold augment_one, two_fields. destruct (contains "," a); cbn [negb andb]; [|right; eauto].
  destruct (str_split "," a) as [|t0 [|t1 [|t2 rest]]]; cbn; [right; eauto.. | left; auto | right; eauto].
Qed.

(** Start-up with the template configuration: the bulletin PIL gets the
    node prefixed ([LAXTSUWCA]), the combo handle is forced to ["no"] and
    the configured breakpoints are dropped. *)
Lemma init_template_globals : init_globals config_template None = Ok template_globals.
Proof. vm_compute. reflexivity. Qed.



(** Starting the program with the office id [pqr] loads the sample
    configuration [config/SampleConfigs/config_tsuPQR.py]; with no
    argument, [etc/config_tsu.py]. *)
Example load_config_sample :
  load_config (fun _ => true) (fun _ => true) repo_configs "/awips2/apps/TsunamiEasGui" ["nwr_tsu.py"; "pqr"] =
    inr config_PQR /\
  select_config "/awips2/apps/TsunamiEasGui" ["nwr_tsu.py"] = ("/awips2/apps/TsunamiEasGui/etc", "config_tsu.py").
Proof. split; vm_compute; reflexivity. Qed.

(** C18: The start-up loop over the [arrival_list] entries (lines 297-305)
    stops the program with [IndexError] exactly when some entry has one
    comma: the guard [len(tmp)<2] never holds after the test for a comma,
    and [tmp[2]] is then read on two fields. *)
Theorem augment_arrivals_raises arr l :
  augment_arrivals arr l = Raise IndexError <-> existsb two_fields l = true.
Proof.
  revert arr. induction l as [|a l IH]; intros arr; cbn; [split; discriminate|].
  destruct (augment_one_cases arr a) as [[-> ->]|[-> [arr' ->]]]; cbn; [tauto | apply IH].
Qed.

Lemma augment_arrivals_raises_witness :
  existsb two_fields ["Santa Barbara,California,ADD"; "Craig,Alaska"] = true /\
  augment_arrivals [] ["Santa Barbara,California,ADD"; "Craig,Alaska"] = Raise IndexError.
Proof.
  assert (H : existsb two_fields ["Santa Barbara,California,ADD"; "Craig,Alaska"] = true) by (vm_compute; reflexivity).
  split; [exact H | exact (proj2 (augment_arrivals_raises _ _) H)].
Defined.
