(* ===== verification/Info.v ===== *)
(** * The parse result of [grabTWC] (the Python [info] dict)

    [grabTWC] (nwr_tsu.py lines 1049-1402) returns one of two dict shapes:
    - the full dict built at lines 1052-1062, with the zone lists of the
      three hazards, the arrival lines of each hazard, the issuance kinds
      seen, the earthquake sentence [eseg], the local time [daytime] and a
      notice [extra];
    - a reset dict [{"warning":[],"watch":[],"advisory":[],"extra":msg}]
      (lines 1388-1397), returned when parsing raised an exception or found
      no zone.
    [info_dict] has one constructor per shape, so that the key lookups of
    the callers ([autoFill] tests ["issue" in info], ["eseg" in info]) are
    modelled exactly. *)

From stdpp Require Import base list strings decidable.
From Stdlib Require Import String Ascii ZArith Lia.
From S2P Require Import Prelude PyStr Config.

Local Open Scope string_scope.
Local Open Scope nat_scope.

Record hazard_info : Type := {
  hi_warning : list string;
  hi_watch : list string;
  hi_advisory : list string;
  hi_arrivals_warning : list string;
  hi_arrivals_watch : list string;
  hi_arrivals_advisory : list string;
  hi_issue : list string;
  hi_eseg : string;
  hi_daytime : string;
  hi_extra : string
}.

Inductive info_dict : Type :=
| InfoFull (h : hazard_info)
| InfoReset (extra : string).

(** [info[wwa]] for a hazard kind. *)
Definition hi_zones (h : hazard_info) (k : kind) : list string :=
  match k with Warning => hi_warning h | Watch => hi_watch h | Advisory => hi_advisory h end.

Definition info_zones (d : info_dict) (k : kind) : list string :=
  match d with InfoFull h => hi_zones h k | InfoReset _ => [] end.

Definition info_extra (d : info_dict) : string :=
  match d with InfoFull h => hi_extra h | InfoReset m => m end.

(** [info["arrivals_"+wwa]] *)
Definition hi_arrivals (h : hazard_info) (k : kind) : list string :=
  match k with
  | Warning => hi_arrivals_warning h
  | Watch => hi_arrivals_watch h
  | Advisory => hi_arrivals_advisory h
  end.

(** [len(info[wwa])==0] *)
Definition zones_empty (d : info_dict) (k : kind) : bool :=
  match info_zones d k with [] => true | _ => false end.

(** Lines 1052-1062: the dict [grabTWC] starts from. *)
Definition empty_info : hazard_info := {|
  hi_warning := []; hi_watch := []; hi_advisory := [];
  hi_arrivals_warning := []; hi_arrivals_watch := []; hi_arrivals_advisory := [];
  hi_issue := []; hi_eseg := ""; hi_daytime := "XXXXXX"; hi_extra := "" |}.

(** [info[wwa] = zs] *)
Definition set_zones (h : hazard_info) (k : kind) (zs : list string) : hazard_info :=
  match k with
  | Warning => {| hi_warning := zs; hi_watch := hi_watch h; hi_advisory := hi_advisory h;
                 hi_arrivals_warning := hi_arrivals_warning h; hi_arrivals_watch := hi_arrivals_watch h;
                 hi_arrivals_advisory := hi_arrivals_advisory h; hi_issue := hi_issue h;
                 hi_eseg := hi_eseg h; hi_daytime := hi_daytime h; hi_extra := hi_extra h |}
  | Watch => {| hi_warning := hi_warning h; hi_watch := zs; hi_advisory := hi_advisory h;
               hi_arrivals_warning := hi_arrivals_warning h; hi_arrivals_watch := hi_arrivals_watch h;
               hi_arrivals_advisory := hi_arrivals_advisory h; hi_issue := hi_issue h;
               hi_eseg := hi_eseg h; hi_daytime := hi_daytime h; hi_extra := hi_extra h |}
  | Advisory => {| hi_warning := hi_warning h; hi_watch := hi_watch h; hi_advisory := zs;
                  hi_arrivals_warning := hi_arrivals_warning h; hi_arrivals_watch := hi_arrivals_watch h;
                  hi_arrivals_advisory := hi_arrivals_advisory h; hi_issue := hi_issue h;
                  hi_eseg := hi_eseg h; hi_daytime := hi_daytime h; hi_extra := hi_extra h |}
  end.

(** [info["arrivals_"+wwa].append(line)] *)
Definition add_arrival (h : hazard_info) (k : kind) (line : string) : hazard_info :=
  let a k' := if decide (k = k') then (hi_arrivals h k' ++ [line])%list else hi_arrivals h k' in
  {| hi_warning := hi_warning h; hi_watch := hi_watch h; hi_advisory := hi_advisory h;
     hi_arrivals_warning := a Warning; hi_arrivals_watch := a Watch;
     hi_arrivals_advisory := a Advisory; hi_issue := hi_issue h;
     hi_eseg := hi_eseg h; hi_daytime := hi_daytime h; hi_extra := hi_extra h |}.

Definition set_issue (h : hazard_info) (iss : list string) : hazard_info :=
  {| hi_warning := hi_warning h; hi_watch := hi_watch h; hi_advisory := hi_advisory h;
     hi_arrivals_warning := hi_arrivals_warning h; hi_arrivals_watch := hi_arrivals_watch h;
     hi_arrivals_advisory := hi_arrivals_advisory h; hi_issue := iss;
     hi_eseg := hi_eseg h; hi_daytime := hi_daytime h; hi_extra := hi_extra h |}.

Definition set_extra (h : hazard_info) (m : string) : hazard_info :=
  {| hi_warning := hi_warning h; hi_watch := hi_watch h; hi_advisory := hi_advisory h;
     hi_arrivals_warning := hi_arrivals_warning h; hi_arrivals_watch := hi_arrivals_watch h;
     hi_arrivals_advisory := hi_arrivals_advisory h; hi_issue := hi_issue h;
     hi_eseg := hi_eseg h; hi_daytime := hi_daytime h; hi_extra := m |}.

Definition set_eq (h : hazard_info) (eseg daytime : string) : hazard_info :=
  {| hi_warning := hi_warning h; hi_watch := hi_watch h; hi_advisory := hi_advisory h;
     hi_arrivals_warning := hi_arrivals_warning h; hi_arrivals_watch := hi_arrivals_watch h;
     hi_arrivals_advisory := hi_arrivals_advisory h; hi_issue := hi_issue h;
     hi_eseg := eseg; hi_daytime := daytime; hi_extra := hi_extra h |}.

(** Lines 1400-1402: the notice of a test bulletin. *)
Definition test_notice : string :=
  "The latest message from the Tsunami Warning Center appears to be a test." ++ nl ++
  "You may Load it with test wording or cancel.".

(** A full dict with the given zone lists and notice. *)
Definition demo_info (w a y : list string) (extra : string) : info_dict :=
  InfoFull (set_extra (set_zones (set_zones (set_zones empty_info Warning w) Watch a) Advisory y) extra).

(** The full dict of a result; a reset dict is read as the empty dict
    with its notice.  Used to name the result of a concrete run. *)
Definition info_full (d : info_dict) : hazard_info :=
  match d with InfoFull h => h | InfoReset m => set_extra empty_info m end.

Lemma hi_zones_set_zones_eq h k zs : hi_zones (set_zones h k zs) k = zs.
Proof. by destruct k. Qed.

Lemma hi_zones_set_zones_ne h k k' zs : k <> k' -> hi_zones (set_zones h k zs) k' = hi_zones h k'.
Proof. destruct k, k'; simpl; congruence. Qed.

Lemma hi_zones_add_arrival h k l k' : hi_zones (add_arrival h k l) k' = hi_zones h k'.
Proof. by destruct k'. Qed.

Lemma hi_zones_set_issue h i k : hi_zones (set_issue h i) k = hi_zones h k.
Proof. by destruct k. Qed.

Lemma hi_zones_set_extra h m k : hi_zones (set_extra h m) k = hi_zones h k.
Proof. by destruct k. Qed.

Lemma hi_zones_set_eq h e d k : hi_zones (set_eq h e d) k = hi_zones h k.
Proof. by destruct k. Qed.

#[export] Hint Rewrite hi_zones_set_zones_eq hi_zones_add_arrival hi_zones_set_issue
  hi_zones_set_extra hi_zones_set_eq : tsu_rw.
