(* ===== verification/Scenario.v ===== *)
(** * Hazard-combination resolution in [autoFill] (ScenarioResolver)

    [autoFill(combowhat)] (nwr_tsu.py lines 598-654) parses the bulletin
    and decides which hazard combination ([dowhat]) the statement is for.
    When several hazards are active it does not compose: it opens the
    [comboOption] dialog (lines 886-927), whose buttons call
    [autoFill("warning")], [autoFill("watch")] or [autoFill("advisory")].
    A bulletin flagged as a test first opens a prompt whose button calls
    [autoFill("test")].  This file models:
    - [autoFill_scenario]: the outcome of one [autoFill] call on a parse
      result (a prompt, the combo dialog, or a resolved [dowhat]);
    - [combo_buttons] / [combo_need_of]: the buttons and the [combo_need]
      list of [comboOption];
    - [autoFill_ui]: the global state [autoFill] updates ([combo_need],
      [still_need], [active]);
    - [af_reach]: the dialog state machine, each step a button the operator
      may press (the bulletin is re-read unchanged at every call);
    - the abstract [scenario] of the design (NoHazard, Single, Double,
      Triple) and [resolve_spec], which [autoFill_scenario] refines. *)

From stdpp Require Import base list strings decidable.
From Stdlib Require Import String Ascii ZArith Lia.
From S2P Require Import Prelude PyStr Config Info.

Local Open Scope string_scope.
Local Open Scope nat_scope.

(** ** One call of [autoFill] *)

Inductive af_outcome : Type :=
| AfSerious (msg : string)        (* lines 614-619: "not parsed correctly" *)
| AfTestPrompt (msg : string)     (* lines 623-625: "Load with Test Wording" *)
| AfCombo (a : string)            (* comboOption(a); return *)
| AfResolved (dowhat : string) (testmode : bool) (notice : option string).

(** [len(info)]: the full dict has ten keys, the reset dict four. *)
Definition info_len (d : info_dict) : nat :=
  match d with InfoFull _ => 10 | InfoReset _ => 4 end.

(** Lines 632-654, once the notice has been handled. *)
Definition resolve_dowhat (g : globals) (info : info_dict) (combowhat : string)
    : option string :=
  let ew := zones_empty info Warning in
  let ea := zones_empty info Watch in
  let ey := zones_empty info Advisory in
  if negb (String.eqb combowhat "") && negb (String.eqb combowhat "all") then Some combowhat
  else if ew && ea && ey then Some ""
  else if String.eqb (g_advisory_handle g) "no" then
    if ew && ea then Some ""
    else if ew then Some "watch"
    else if ea then Some "warning"
    else if String.eqb combowhat "all" then Some "warning_watch" else None
  else if ew && ea then Some "advisory"
  else if ew && ey then Some "watch"
  else if ea && ey then Some "warning"
  else if String.eqb combowhat "all" then
    Some (if ew then "watch_advisory" else if ea then "warning_advisory"
          else if ey then "warning_watch" else "warning_watch_advisory")
  else None.

(** The combination [comboOption] is opened with when [resolve_dowhat]
    defers to the operator. *)
Definition combo_of (g : globals) (info : info_dict) : string :=
  let ew := zones_empty info Warning in
  let ea := zones_empty info Watch in
  let ey := zones_empty info Advisory in
  if String.eqb (g_advisory_handle g) "no" then "warning_watch"
  else if ew then "watch_advisory" else if ea then "warning_advisory"
  else if ey then "warning_watch" else "warning_watch_advisory".

Definition test_marker : string := "appears to be a test".

Definition autoFill_scenario (g : globals) (info : info_dict) (combowhat : string)
    : af_outcome :=
  let extra := info_extra info in
  if (info_len info =? 0) || ((info_len info =? 1) && negb (String.eqb extra "")) then
    AfSerious (if String.eqb extra "" then "The " ++ g_wcapil g ++ " product was not parsed correctly, many apologies." else extra)
  else
  let '(stop, testmode, combowhat', notice) :=
    if String.eqb extra "" then (false, false, combowhat, None)
    else if contains test_marker extra then
      if negb (String.eqb combowhat "test") then (true, false, combowhat, None)
      else (false, true, "", None)
    else (false, false, combowhat, Some extra) in
  if stop then AfTestPrompt extra else
  match resolve_dowhat g info combowhat' with
  | Some d => AfResolved d testmode notice
  | None => AfCombo (combo_of g info)
  end.

(** ** [comboOption(a)] with [a != ""] (lines 890, 907-926) *)

Definition combo_arg (a : string) : string :=
  if negb (String.eqb a "") && negb (contains "_" a) then "warning_watch" else a.

(** [combo_need]: the kinds named in [a], in the order of the buttons. *)
Definition combo_need_of (a : string) : list string :=
  let tmp := str_split "_" (combo_arg a) in
  List.filter (fun k => py_in k tmp) ["warning"; "watch"; "advisory"].

(** The arguments of [autoFill] behind the dialog's buttons: ["all"]
    only when [combo_handle] is ["yes"], which line 330 never allows. *)
Definition combo_buttons (g : globals) (a : string) : list string :=
  let tmp := str_split "_" (combo_arg a) in
  ((if String.eqb (g_combo_handle g) "yes" && (List.length tmp <? 3) then ["all"] else [])
   ++ combo_need_of a)%list.

(** ** The globals [autoFill] updates *)

Record ui_state : Type := {
  ui_combo_need : list string;
  ui_still_need : list string;
  ui_active : string
}.

Definition autoFill_ui (st : ui_state) (combowhat : string) (o : af_outcome) : ui_state :=
  let st0 := if String.eqb combowhat "" then {| ui_combo_need := []; ui_still_need := []; ui_active := "" |}
             else st in
  match o with
  | AfCombo a => {| ui_combo_need := combo_need_of a; ui_still_need := ui_still_need st0;
                   ui_active := ui_active st0 |}
  | AfResolved d _ _ => {| ui_combo_need := ui_combo_need st0; ui_still_need := ui_still_need st0;
                          ui_active := d |}
  | _ => st0
  end.

(** ** The dialog state machine

    Starting from [autoFill()] at program start, the operator may press the
    test prompt's button ([autoFill("test")]) or one of the combo dialog's
    buttons.  The parse result is the same at every call. *)
Inductive af_reach (g : globals) (info : info_dict) : af_outcome -> Prop :=
| af_start : af_reach g info (autoFill_scenario g info "")
| af_test m : af_reach g info (AfTestPrompt m) -> af_reach g info (autoFill_scenario g info "test")
| af_choose a b : af_reach g info (AfCombo a) -> In b (combo_buttons g a) ->
                  af_reach g info (autoFill_scenario g info b).

(** ** The abstract resolver of the design *)

Inductive scenario : Type :=
| NoHazard
| Single (k : kind)
| Double (k1 k2 : kind)
| Triple.

(** The kinds that count, in the order warning, watch, advisory; the
    advisory is dropped when advisories are not handled. *)
Definition active_kinds (adv_on : bool) (info : info_dict) : list kind :=
  List.filter (fun k => negb (zones_empty info k) && (adv_on || bool_decide (k <> Advisory)))
         [Warning; Watch; Advisory].

Definition scenario_of (ks : list kind) : scenario :=
  match ks with
  | [] => NoHazard
  | [k] => Single k
  | [k1; k2] => Double k1 k2
  | _ => Triple
  end.

Definition scenario_key (s : scenario) : string :=
  match s with
  | NoHazard => ""
  | Single k => kind_key k
  | Double k1 k2 => kind_key k1 ++ "_" ++ kind_key k2
  | Triple => "warning_watch_advisory"
  end.

Inductive resolution : Type :=
| Resolved (s : scenario)
| NeedsDecision (s : scenario).

(** [resolve(info)]: a single hazard or none resolves at once; two or three
    hazards need the operator's decision. *)
Definition resolve_spec (adv_on : bool) (info : info_dict) : resolution :=
  match scenario_of (active_kinds adv_on info) with
  | (NoHazard | Single _) as s => Resolved s
  | s => NeedsDecision s
  end.

(** * Properties *)

Definition notice_of (extra : string) : option string :=
  if String.eqb extra "" then None else Some extra.

Lemma info_len_ge d : 4 <= info_len d.
Proof. destruct d; simpl; lia. Qed.

Lemma info_len_guard d extra :
  (info_len d =? 0) || ((info_len d =? 1) && negb (String.eqb extra "")) = false.
Proof.
  pose proof (info_len_ge d).
  destruct (info_len d) as [|[|n]] eqn:E; [lia | lia | done].
Qed.

Lemma autoFill_scenario_unfold g info cw :
  autoFill_scenario g info cw =
  (let extra := info_extra info in
   let '(stop, testmode, combowhat', notice) :=
     if String.eqb extra "" then (false, false, cw, None)
     else if contains test_marker extra then
       if negb (String.eqb cw "test") then (true, false, cw, None)
       else (false, true, "", None)
     else (false, false, cw, Some extra) in
   if stop then AfTestPrompt extra else
   match resolve_dowhat g info combowhat' with
   | Some d => AfResolved d testmode notice
   | None => AfCombo (combo_of g info)
   end).
Proof. unfold autoFill_scenario. by rewrite info_len_guard. Qed.

(** The "serious error" branch of [autoFill] (lines 614-619) is dead: a
    parse result has ten or four keys, never zero or one. *)
Lemma autoFill_never_serious g info cw m :
  autoFill_scenario g info cw <> AfSerious m.
Proof.
  rewrite autoFill_scenario_unfold. cbv zeta.
  destruct (String.eqb (info_extra info) ""), (contains test_marker (info_extra info)),
    (String.eqb cw "test"); simpl; try discriminate;
    destruct (resolve_dowhat g info _); discriminate.
Qed.

(** Without a test notice, one call resolves with the notice shown. *)
Lemma autoFill_no_test g info cw :
  contains test_marker (info_extra info) = false ->
  autoFill_scenario g info cw =
  match resolve_dowhat g info cw with
  | Some d => AfResolved d false (notice_of (info_extra info))
  | None => AfCombo (combo_of g info)
  end.
Proof.
  intros H. rewrite autoFill_scenario_unfold. cbv zeta. unfold notice_of.
  destruct (String.eqb (info_extra info) "") eqn:E; [done |]. by rewrite H.
Qed.

(** C3: refinement of the design's resolver.  On a bulletin with no test
    notice, the first [autoFill()] call resolves exactly the scenario of
    [resolve_spec] (advisories counted unless [advisory_handle] is ["no"]):
    no hazard or a single hazard is composed at once, two or three hazards
    open the combo dialog for that combination. *)
Theorem autoFill_refines_resolve g info :
  contains test_marker (info_extra info) = false ->
  autoFill_scenario g info "" =
  match resolve_spec (negb (String.eqb (g_advisory_handle g) "no")) info with
  | Resolved s => AfResolved (scenario_key s) false (notice_of (info_extra info))
  | NeedsDecision s => AfCombo (scenario_key s)
  end.
Proof.
  intros H. rewrite autoFill_no_test by done.
  unfold resolve_spec, active_kinds, resolve_dowhat, combo_of. cbn [List.filter].
  destruct (zones_empty info Warning), (zones_empty info Watch), (zones_empty info Advisory),
    (String.eqb (g_advisory_handle g) "no"); vm_compute; reflexivity.
Qed.

Lemma combo_need_of_kinds a b :
  In b (combo_need_of a) -> b = "warning" \/ b = "watch" \/ b = "advisory".
Proof.
  unfold combo_need_of. rewrite List.filter_In. intros [Hb _].
  simpl in Hb. intuition.
Qed.

Lemma combo_buttons_not_test g a b : In b (combo_buttons g a) -> b <> "test".
Proof.
  unfold combo_buttons. rewrite in_app_iff. intros [Hb | Hb].
  - destruct (_ && _); simpl in Hb; [destruct Hb as [<- | []] | done]. discriminate.
  - apply combo_need_of_kinds in Hb as [-> | [-> | ->]]; discriminate.
Qed.

(** Pressing a hazard button of the combo dialog resolves that single
    hazard (the second phase of the two-phase resolution). *)
Lemma combo_choice_resolves g info a b :
  contains test_marker (info_extra info) = false ->
  In b (combo_need_of a) ->
  autoFill_scenario g info b = AfResolved b false (notice_of (info_extra info)).
Proof.
  intros H Hb. rewrite autoFill_no_test by done.
  by apply combo_need_of_kinds in Hb as [-> | [-> | ->]].
Qed.

Lemma combo_need_of_combo g info : combo_need_of (combo_of g info) <> [].
Proof.
  unfold combo_of.
  destruct (String.eqb _ _), (zones_empty info Warning), (zones_empty info Watch),
    (zones_empty info Advisory); vm_compute; discriminate.
Qed.

(** C35: liveness of the two-phase resolution.  For a bulletin with no test
    notice, the operator can always reach a composed (resolved) outcome:
    either the first call resolves, or some button of the combo dialog
    does. *)
Theorem autoFill_reaches_resolved g info :
  contains test_marker (info_extra info) = false ->
  exists d n, af_reach g info (AfResolved d false n).
Proof.
  intros H. pose proof (af_start g info) as H0.
  rewrite autoFill_no_test in H0 by done.
  destruct (resolve_dowhat g info "") as [d|]; [eauto |].
  destruct (combo_need_of (combo_of g info)) as [|b bs] eqn:E;
    [by destruct (combo_need_of_combo g info) |].
  assert (Hb : In b (combo_need_of (combo_of g info))) by (rewrite E; left; done).
  exists b, (notice_of (info_extra info)).
  rewrite <- (combo_choice_resolves g info (combo_of g info) b) by done.
  apply (af_choose g info (combo_of g info)); [done |].
  unfold combo_buttons. apply in_app_iff. by right.
Qed.

(** When two or more hazards are active, [autoFill("")] (after the test
    button) never resolves by itself. *)
Lemma resolve_dowhat_multi g info :
  2 <= List.length (active_kinds (negb (String.eqb (g_advisory_handle g) "no")) info) ->
  resolve_dowhat g info "" = None.
Proof.
  unfold active_kinds, resolve_dowhat. cbn [List.filter].
  destruct (zones_empty info Warning), (zones_empty info Watch), (zones_empty info Advisory),
    (String.eqb (g_advisory_handle g) "no"); vm_compute; intros; (reflexivity || lia).
Qed.

(** C5: a test bulletin with two or more active hazards can never be
    composed by the autofill dialogs.  [autoFill()] shows the test prompt;
    its button calls [autoFill("test")], which opens the combo dialog; each
    button of that dialog calls [autoFill(kind)], and since [kind] is not
    ["test"] the test prompt opens again (lines 622-625).  Every reachable
    outcome is a prompt or the combo dialog. *)
Theorem test_combo_never_resolves g info o :
  contains test_marker (info_extra info) = true ->
  2 <= List.length (active_kinds (negb (String.eqb (g_advisory_handle g) "no")) info) ->
  af_reach g info o ->
  (exists m, o = AfTestPrompt m) \/ (exists a, o = AfCombo a).
Proof.
  intros Ht Hm Hr.
  assert (Hne : String.eqb (info_extra info) "" = false)
    by (destruct (info_extra info); [discriminate | done]).
  induction Hr as [| m _ _ | a b _ _ Hb].
  - rewrite autoFill_scenario_unfold. simpl. rewrite Hne, Ht. left; eauto.
  - rewrite autoFill_scenario_unfold. simpl. rewrite Hne, Ht. simpl.
    rewrite resolve_dowhat_multi by done. right; eauto.
  - rewrite autoFill_scenario_unfold. simpl. rewrite Hne, Ht.
    apply combo_buttons_not_test in Hb. apply String.eqb_neq in Hb. rewrite Hb. left; eauto.
Qed.

(** ** Witnesses on the template configuration *)

Lemma autoFill_refines_resolve_witness :
  contains test_marker (info_extra (demo_info ["CAZ039"] ["CAZ040"] [] "")) = false /\
  autoFill_scenario template_globals (demo_info ["CAZ039"] ["CAZ040"] [] "") "" = AfCombo "warning_watch".
Proof.
  split; [vm_compute; reflexivity |].
  rewrite (autoFill_refines_resolve template_globals (demo_info ["CAZ039"] ["CAZ040"] [] ""))
    by (vm_compute; reflexivity).
  vm_compute. reflexivity.
Defined.

Lemma autoFill_reaches_resolved_witness :
  contains test_marker (info_extra (demo_info ["CAZ039"] ["CAZ040"] [] "")) = false /\
  exists d n, af_reach template_globals (demo_info ["CAZ039"] ["CAZ040"] [] "") (AfResolved d false n).
Proof.
  split; [vm_compute; reflexivity |].
  apply (autoFill_reaches_resolved template_globals (demo_info ["CAZ039"] ["CAZ040"] [] "")).
  vm_compute. reflexivity.
Defined.

Lemma test_combo_never_resolves_witness :
  let info := demo_info ["CAZ039"] ["CAZ040"] [] test_notice in
  contains test_marker (info_extra info) = true /\
  2 <= List.length (active_kinds (negb (String.eqb (g_advisory_handle template_globals) "no")) info) /\
  ((exists m, autoFill_scenario template_globals info "" = AfTestPrompt m) \/
   (exists a, autoFill_scenario template_globals info "" = AfCombo a)).
Proof.
  cbv zeta. split; [vm_compute; reflexivity |]. split; [vm_compute; lia |].
  apply (test_combo_never_resolves template_globals (demo_info ["CAZ039"] ["CAZ040"] [] test_notice));
    [vm_compute; reflexivity | vm_compute; lia | apply af_start].
Defined.

Lemma combo_choice_resolves_witness :
  contains test_marker (info_extra (demo_info ["CAZ039"] ["CAZ040"] [] "")) = false /\
  In "watch" (combo_need_of "warning_watch") /\
  autoFill_scenario template_globals (demo_info ["CAZ039"] ["CAZ040"] [] "") "watch" =
  AfResolved "watch" false None.
Proof.
  split; [vm_compute; reflexivity |]. split; [vm_compute; tauto |].
  rewrite (combo_choice_resolves template_globals (demo_info ["CAZ039"] ["CAZ040"] [] "") "warning_watch" "watch");
    [vm_compute; reflexivity | vm_compute; reflexivity | vm_compute; tauto].
Defined.
