(* ===== verification/Zones.v ===== *)
(** * Zone codes of a bulletin segment (ZoneExpander and zone extraction)

    Lines 1161-1188 of nwr_tsu.py ([grabTWC]), applied to one segment:
    - [expand_ranges]: the condensed ranges [NNN>MMM] found by
      [re.findall("[0-9][0-9][0-9]>[0-9][0-9][0-9]", s)] are replaced by
      the dash-joined three-digit numbers of the range (lines 1161-1169),
      then ["--"] becomes ["-"] (line 1169);
    - [first_zone_match]: the first match of the regular expression
      ["\n[A-Z][A-Z][Z][0-9][0-9][0-9]-[A-Z0-9-\n]+"] (lines 1170-1171);
    - [accumulate_zones]: the loop over the dash-separated tokens of that
      match, which adds each configured zone code (a full code, or a
      three-digit suffix completed with the last prefix seen) to the
      hazard's zone list and records the issuance kind (lines 1174-1187);
    - [sort_strings]: [list.sort()] on strings (line 1188).
    The regular expressions are written as their matchers: both patterns
    are fixed-width prefixes followed (for the second) by one greedy
    character class, for which leftmost-first [findall] semantics is the
    scan below. *)

From stdpp Require Import base list strings decidable sorting.
From Stdlib Require Import String Ascii ZArith Lia Sorted.
From S2P Require Import Prelude PyStr Config.

Local Open Scope string_scope.
Local Open Scope nat_scope.
Local Open Scope tsu_scope.

(** ** Character classes *)

Definition is_digit (c : ascii) : bool :=
  let n := nat_of_ascii c in (48 <=? n) && (n <=? 57).

Definition is_upper (c : ascii) : bool :=
  let n := nat_of_ascii c in (65 <=? n) && (n <=? 90).

(** [[A-Z0-9-\n]] *)
Definition zone_char (c : ascii) : bool :=
  is_upper c || is_digit c || Ascii.eqb c "-"%char || Ascii.eqb c "010"%char.

(** ** Range expansion (lines 1160-1169) *)

(** [[0-9][0-9][0-9]>[0-9][0-9][0-9]] at the head of [s]. *)
Definition range_at (s : string) : bool :=
  match s with
  | String a (String b (String c (String g (String d (String e (String f _)))))) =>
      is_digit a && is_digit b && is_digit c && Ascii.eqb g ">"%char
      && is_digit d && is_digit e && is_digit f
  | _ => false
  end.

(** [re.findall] of the range pattern: leftmost matches, non-overlapping. *)
Fixpoint findall_ranges_go (skip : nat) (s : string) : list string :=
  match s with
  | EmptyString => []
  | String c s' =>
      match skip with
      | S k => findall_ranges_go k s'
      | O => if range_at s then substring 0 7 s :: findall_ranges_go 6 s'
             else findall_ranges_go 0 s'
      end
  end.

Definition findall_ranges (s : string) : list string := findall_ranges_go 0 s.

(** [str(i).zfill(3)] *)
Definition pad3 (n : nat) : string := zfill 3 (str_nat n).

(** The text appended to [b] by [for i in range(lo, hi+1): b=b+str(i).zfill(3)+"-"]. *)
Definition range_text (lo hi : Z) : string :=
  String.concat "" (map (fun i => pad3 i ++ "-")
                        (seq (Z.to_nat lo) (Z.to_nat (hi + 1 - lo)))).

(** One iteration of [for a in tmp]: [b] is NOT reset between iterations. *)
Definition expand_one (bs : string * string) (a : string) : res (string * string) :=
  let '(b, s) := bs in
  let tmp2 := str_split ">" a in
  t0 <- py_index 0 tmp2 ;;
  lo <- py_int t0 ;;
  t1 <- py_index 1 tmp2 ;;
  hi <- py_int t1 ;;
  let b' := b ++ range_text lo hi in
  Ok (b', str_replace a b' s).

Fixpoint expand_all (bs : string * string) (tmp : list string) : res (string * string) :=
  match tmp with
  | [] => Ok bs
  | a :: rest => bs' <- expand_one bs a ;; expand_all bs' rest
  end.

Definition expand_ranges (s : string) : res string :=
  let tmp := findall_ranges s in
  bs <- (match tmp with [] => Ok ("", s) | _ => expand_all ("", s) tmp end) ;;
  Ok (str_replace "--" "-" (snd bs)).

(** ** The zone line (lines 1170-1173) *)


(** A match of ["\n[A-Z][A-Z][Z][0-9][0-9][0-9]-[A-Z0-9-\n]+"] starting at
    the head of [s]; the class run is greedy. *)
Definition zone_match_at (s : string) : option string :=
  match s with
  | String c0 (String a (String b (String z (String d (String e (String f (String dash rest))))))) =>
      if Ascii.eqb c0 "010"%char && is_upper a && is_upper b && Ascii.eqb z "Z"%char
         && is_digit d && is_digit e && is_digit f && Ascii.eqb dash "-"%char then
        match take_while zone_char rest with
        | EmptyString => None
        | run => Some (String c0 (String a (String b (String z (String d (String e
                        (String f (String dash run))))))))
        end
      else None
  | _ => None
  end.

(** [re.findall(pat2, s)[0]], if any. *)
Fixpoint first_zone_match (s : string) : option string :=
  match s with
  | EmptyString => None
  | String _ s' =>
      match zone_match_at s with
      | Some m => Some m
      | None => first_zone_match s'
      end
  end.

(** ** Accumulating zone codes (lines 1174-1187) *)

Record zacc : Type := { za_zones : list string; za_issue : list string; za_pre : string }.

Definition add_zone (zone_ids : list string) (issue : string) (z : string) (acc : zacc) : zacc :=
  if negb (py_in z (za_zones acc)) && py_in z zone_ids then
    {| za_zones := (za_zones acc ++ [z])%list; za_issue := append_new issue (za_issue acc);
       za_pre := za_pre acc |}
  else acc.

Definition zone_token (zone_ids : list string) (issue : string) (acc : zacc) (a : string) : zacc :=
  if 3 <? String.length a then
    if contains "Z" a then
      add_zone zone_ids issue a {| za_zones := za_zones acc; za_issue := za_issue acc;
                                   za_pre := slice 0 3 a |}
    else acc
  else
    let id := za_pre acc ++ a in
    if String.length a =? 3 then add_zone zone_ids issue id acc else acc.

Definition accumulate_zones (zone_ids : list string) (issue : string) (acc : zacc)
    (toks : list string) : zacc :=
  fold_left (zone_token zone_ids issue) toks acc.

(** [list.sort()] for strings: an insertion sort on the code-point order
    [String.leb]; on a list without duplicates every sorting algorithm
    returns the same list. *)
Fixpoint insert_string (x : string) (l : list string) : list string :=
  match l with
  | [] => [x]
  | y :: l' => if String.leb x y then x :: y :: l' else y :: insert_string x l'
  end.

Fixpoint sort_strings (l : list string) : list string :=
  match l with
  | [] => []
  | x :: l' => insert_string x (sort_strings l')
  end.

(** Lines 1171-1188 for one segment: the zones of hazard [zs] and the
    issuance kinds [iss] after the segment. *)
Definition extract_zones (zone_ids : list string) (issue : string) (s : string)
    (zs iss : list string) : list string * list string :=
  match first_zone_match s with
  | None => (zs, iss)
  | Some m =>
      let acc := accumulate_zones zone_ids issue {| za_zones := zs; za_issue := iss; za_pre := "" |}
                   (str_split "-" (str_replace nl "" m)) in
      (sort_strings (za_zones acc), za_issue acc)
  end.

(** * Properties *)

(** The type invariant of a hazard's zone list in [info]: no duplicates,
    and only zone codes of the configured [zone_ids]. *)
Definition zones_ok (zone_ids zs : list string) : Prop :=
  NoDup zs /\ (forall z, In z zs -> In z zone_ids).

Lemma add_zone_ok zone_ids issue z acc :
  zones_ok zone_ids (za_zones acc) -> zones_ok zone_ids (za_zones (add_zone zone_ids issue z acc)).
Proof.
  unfold add_zone. destruct (negb _ && _) eqn:E; [| done]. simpl.
  apply andb_true_iff in E as [E1 E2]. apply negb_true_iff in E1. tsu_reflect.
  intros [Hnd Hin]. split.
  - apply NoDup_app; repeat split; [done | | by apply NoDup_singleton].
    intros y Hy Hy'. apply list_elem_of_singleton in Hy' as ->. by apply E1, list_elem_of_In.
  - intros y Hy. apply in_app_iff in Hy as [Hy | [<- | []]]; auto.
Qed.

Lemma zone_token_ok zone_ids issue acc a :
  zones_ok zone_ids (za_zones acc) -> zones_ok zone_ids (za_zones (zone_token zone_ids issue acc a)).
Proof.
  unfold zone_token. intros H.
  destruct (3 <? _); [destruct (contains "Z" a) |]; [by apply add_zone_ok | done |].
  destruct (_ =? 3); [by apply add_zone_ok | done].
Qed.

Lemma accumulate_zones_ok zone_ids issue toks acc :
  zones_ok zone_ids (za_zones acc) ->
  zones_ok zone_ids (za_zones (accumulate_zones zone_ids issue acc toks)).
Proof.
  revert acc. induction toks as [|a toks IH]; simpl; [done |].
  intros acc H. apply IH, zone_token_ok, H.
Qed.

Lemma insert_string_perm x l : Permutation (insert_string x l) (x :: l).
Proof.
  induction l as [|y l IH]; simpl; [done |].
  destruct (String.leb x y); [done |].
  rewrite IH. apply perm_swap.
Qed.

Lemma sort_strings_perm l : Permutation (sort_strings l) l.
Proof.
  induction l as [|x l IH]; simpl; [done |].
  by rewrite insert_string_perm, IH.
Qed.

Lemma insert_string_sorted x l :
  Sorted (fun a b => String.leb a b = true) l ->
  Sorted (fun a b => String.leb a b = true) (insert_string x l).
Proof.
  induction 1 as [|y l Hs IH Hhd]; simpl; [by repeat constructor |].
  destruct (String.leb x y) eqn:E; [by repeat constructor |].
  constructor; [done |].
  assert (Hyx : String.leb y x = true)
    by (destruct (String.leb_total x y); congruence).
  destruct l as [|z l]; simpl; [by repeat constructor |].
  inversion Hhd; subst. destruct (String.leb x z); by constructor.
Qed.

Lemma sort_strings_sorted l : Sorted (fun a b => String.leb a b = true) (sort_strings l).
Proof. induction l; simpl; [constructor | by apply insert_string_sorted]. Qed.

Lemma zones_ok_perm zone_ids l l' : Permutation l l' -> zones_ok zone_ids l' -> zones_ok zone_ids l.
Proof.
  intros Hp [Hnd Hin]. split.
  - by rewrite Hp.
  - intros z Hz. apply Hin. by rewrite <- Hp.
Qed.

(** the zone list of a hazard stays a duplicate-free list of configured
    zone codes through the extraction of a segment's zone line, and it is
    sorted ascending whenever the segment has a zone line. *)
Theorem extract_zones_ok zone_ids issue s zs iss :
  zones_ok zone_ids zs ->
  zones_ok zone_ids (fst (extract_zones zone_ids issue s zs iss)) /\
  (first_zone_match s <> None ->
   Sorted (fun a b => String.leb a b = true) (fst (extract_zones zone_ids issue s zs iss))).
Proof.
  intros H. unfold extract_zones.
  destruct (first_zone_match s) as [m|]; simpl; [| by split].
  split; [| intros _; apply sort_strings_sorted].
  eapply zones_ok_perm; [apply sort_strings_perm |].
  by apply accumulate_zones_ok.
Qed.

(** The issuance kinds after a segment are those before it, and the
    segment's own kind. *)
Lemma add_zone_issue zone_ids issue z acc i :
  In i (za_issue (add_zone zone_ids issue z acc)) -> In i (za_issue acc) \/ i = issue.
Proof.
  unfold add_zone. destruct (_ && _); simpl; [| auto]. by rewrite append_new_In.
Qed.

Lemma zone_token_issue zone_ids issue acc a i :
  In i (za_issue (zone_token zone_ids issue acc a)) -> In i (za_issue acc) \/ i = issue.
Proof.
  unfold zone_token.
  destruct (3 <? _); [destruct (contains "Z" a) |]; [intros H; by apply add_zone_issue in H | auto |].
  destruct (_ =? 3); [apply add_zone_issue | auto].
Qed.

Lemma accumulate_zones_issue zone_ids issue toks acc i :
  In i (za_issue (accumulate_zones zone_ids issue acc toks)) -> In i (za_issue acc) \/ i = issue.
Proof.
  revert acc. induction toks as [|a toks IH]; simpl; intros acc Hi; [by left |].
  destruct (IH _ Hi) as [H|H]; [| by right]. by apply zone_token_issue in H.
Qed.

Lemma extract_zones_issue zone_ids issue s zs iss i :
  In i (snd (extract_zones zone_ids issue s zs iss)) -> In i iss \/ i = issue.
Proof.
  unfold extract_zones. destruct (first_zone_match s); simpl; [| auto].
  apply accumulate_zones_issue.
Qed.

(** ** Range expansion *)

Definition pad3_check (n : nat) : bool :=
  negb (contains "-" (pad3 n)) && negb (contains ">" (pad3 n))
  && match py_int (pad3 n) with Ok z => Z.eqb z (Z.of_nat n) | Raise _ => false end.

Lemma pad3_check_all : forallb pad3_check (seq 0 1000) = true.
Proof. vm_compute. reflexivity. Qed.

(** [int(str(n).zfill(3)) == n] for the three-digit numbers, and the
    padded number contains neither ["-"] nor [">"]. *)
Lemma pad3_facts n :
  n < 1000 ->
  contains "-" (pad3 n) = false /\ contains ">" (pad3 n) = false /\
  py_int (pad3 n) = Ok (Z.of_nat n).
Proof.
  intros Hn. pose proof pad3_check_all as H.
  rewrite forallb_forall in H. specialize (H n). rewrite in_seq in H.
  unfold pad3_check in H. specialize (H ltac:(lia)).
  apply andb_true_iff in H as [H H3]. apply andb_true_iff in H as [H1 H2].
  apply negb_true_iff in H1, H2. repeat split; [done | done |].
  destruct (py_int (pad3 n)); [| discriminate]. by apply Z.eqb_eq in H3 as ->.
Qed.

Lemma range_text_nat lo hi :
  range_text (Z.of_nat lo) (Z.of_nat hi) =
  String.concat "" (map (fun i => pad3 i ++ "-") (seq lo (S hi - lo))).
Proof.
  unfold range_text. rewrite Nat2Z.id.
  by replace (Z.to_nat (Z.of_nat hi + 1 - Z.of_nat lo)) with (S hi - lo) by lia.
Qed.

(** The tokens of an expanded range: every number from [lo] to [hi],
    zero-padded, then the empty token after the trailing dash. *)
Lemma range_text_tokens lo hi :
  hi < 1000 ->
  str_split "-" (range_text (Z.of_nat lo) (Z.of_nat hi)) =
  (map pad3 (seq lo (S hi - lo)) ++ [""])%list.
Proof.
  intros Hhi. rewrite range_text_nat.
  change (fun i => pad3 i ++ "-") with (fun i => (fun x => x ++ String "-" "") (pad3 i)).
  rewrite <- map_map. apply (split_terminated "-"%char).
  apply Forall_map, Forall_forall. intros i Hi. apply list_elem_of_In, in_seq in Hi.
  apply (pad3_facts i). lia.
Qed.

Lemma expand_one_token b s lo hi :
  lo < 1000 -> hi < 1000 ->
  expand_one (b, s) (pad3 lo ++ ">" ++ pad3 hi) =
  Ok (b ++ range_text (Z.of_nat lo) (Z.of_nat hi),
      str_replace (pad3 lo ++ ">" ++ pad3 hi) (b ++ range_text (Z.of_nat lo) (Z.of_nat hi)) s).
Proof.
  intros Hlo Hhi.
  destruct (pad3_facts lo Hlo) as (_ & Hl1 & Hl2).
  destruct (pad3_facts hi Hhi) as (_ & Hh1 & Hh2).
  unfold expand_one. rewrite (append_cons ">"%char "" (pad3 hi)), append_nil_l.
  rewrite (split_two ">"%char) by done.
  cbn [py_index res_bind]. simpl. rewrite Hl2, Hh2. reflexivity.
Qed.

(** the ZoneExpander contract.  For a condensed range [NNN>MMM] (the
    first one of its segment, so [b] is still empty), the range text is
    replaced by the dash-joined, zero-padded numbers from [NNN] to [MMM]
    inclusive (a single number when [NNN = MMM], nothing when [NNN > MMM]). *)
Theorem expand_first_range s lo hi :
  lo < 1000 -> hi < 1000 ->
  exists t,
    expand_one ("", s) (pad3 lo ++ ">" ++ pad3 hi) = Ok (t, str_replace (pad3 lo ++ ">" ++ pad3 hi) t s) /\
    str_split "-" t = (map pad3 (seq lo (S hi - lo)) ++ [""])%list.
Proof.
  intros Hlo Hhi. exists (range_text (Z.of_nat lo) (Z.of_nat hi)).
  split; [by rewrite expand_one_token | by apply range_text_tokens].
Qed.

(** C6: the substitution text [b] is not reset between the ranges of a
    segment (line 1163 sits outside the loop): the second range of a
    segment is replaced by the expansion of the first range followed by its
    own, so its zone prefix is attached to the first range's numbers. *)
Theorem expand_two_ranges_accumulate s lo1 hi1 lo2 hi2 :
  lo1 < 1000 -> hi1 < 1000 -> lo2 < 1000 -> hi2 < 1000 ->
  let a1 := pad3 lo1 ++ ">" ++ pad3 hi1 in
  let a2 := pad3 lo2 ++ ">" ++ pad3 hi2 in
  let t1 := range_text (Z.of_nat lo1) (Z.of_nat hi1) in
  let t2 := range_text (Z.of_nat lo2) (Z.of_nat hi2) in
  expand_all ("", s) [a1; a2] = Ok (t1 ++ t2, str_replace a2 (t1 ++ t2) (str_replace a1 t1 s)).
Proof.
  intros H1 H2 H3 H4. cbn zeta. cbn [expand_all].
  rewrite expand_one_token by done. cbn [res_bind].
  rewrite expand_one_token by done. reflexivity.
Qed.

(** ** Witnesses *)

Lemma extract_zones_ok_witness :
  let s := "TSUWCA
CAZ041-CAZ039-CAZ040-PZZ530-161839-
/O.NEW.PAAQ.TS.W.0001.120416T1639Z-000000T0000Z/" in
  zones_ok ["CAZ039"; "CAZ040"; "CAZ041"] [] /\ first_zone_match s <> None /\
  fst (extract_zones ["CAZ039"; "CAZ040"; "CAZ041"] "new" s [] []) = ["CAZ039"; "CAZ040"; "CAZ041"] /\
  zones_ok ["CAZ039"; "CAZ040"; "CAZ041"] (fst (extract_zones ["CAZ039"; "CAZ040"; "CAZ041"] "new" s [] [])) /\
  Sorted (fun a b => String.leb a b = true) (fst (extract_zones ["CAZ039"; "CAZ040"; "CAZ041"] "new" s [] [])).
Proof.
  cbv zeta.
  assert (H0 : zones_ok ["CAZ039"; "CAZ040"; "CAZ041"] []) by (split; [constructor | done]).
  destruct (extract_zones_ok ["CAZ039"; "CAZ040"; "CAZ041"] "new" "TSUWCA
CAZ041-CAZ039-CAZ040-PZZ530-161839-
/O.NEW.PAAQ.TS.W.0001.120416T1639Z-000000T0000Z/" [] [] H0) as [Hok Hs].
  assert (Hm : first_zone_match "TSUWCA
CAZ041-CAZ039-CAZ040-PZZ530-161839-
/O.NEW.PAAQ.TS.W.0001.120416T1639Z-000000T0000Z/" <> None) by (vm_compute; discriminate).
  split; [exact H0 |]. split; [exact Hm |]. split; [vm_compute; reflexivity |].
  split; [exact Hok | exact (Hs Hm)].
Defined.

Lemma expand_first_range_witness :
  39 < 1000 /\ 41 < 1000 /\
  exists t,
    expand_one ("", "CAZ039>041-") (pad3 39 ++ ">" ++ pad3 41) =
      Ok (t, str_replace (pad3 39 ++ ">" ++ pad3 41) t "CAZ039>041-") /\
    str_split "-" t = (map pad3 (seq 39 (S 41 - 39)) ++ [""])%list.
Proof. split; [lia | split; [lia | apply expand_first_range; lia]]. Defined.

Lemma expand_two_ranges_accumulate_witness :
  39 < 1000 /\ 41 < 1000 /\ 505 < 1000 /\ 507 < 1000 /\
  expand_all ("", "CAZ039>041-PZZ505>507-") [pad3 39 ++ ">" ++ pad3 41; pad3 505 ++ ">" ++ pad3 507] =
  Ok ("039-040-041-505-506-507-", "CAZ039-040-041--PZZ039-040-041-505-506-507--").
Proof.
  do 4 (split; [lia |]).
  pose proof (expand_two_ranges_accumulate "CAZ039>041-PZZ505>507-" 39 41 505 507) as H.
  cbv zeta in H. rewrite H by lia. vm_compute. reflexivity.
Defined.

Lemma pad3_facts_witness :
  7 < 1000 /\ contains "-" (pad3 7) = false /\ contains ">" (pad3 7) = false /\ py_int (pad3 7) = Ok 7%Z.
Proof. split; [lia | exact (pad3_facts 7 ltac:(lia))]. Defined.
