(* ===== verification/Arrivals.v ===== *)
(** * Arrival-time extraction (RegionalFormatAdapter)

    Lines 1190-1312 of nwr_tsu.py ([grabTWC]) and [formatGuamArrival]
    (lines 1409-1437).  A segment is cut into paragraphs at blank lines,
    and the bulletin's variant, detected from its heading, decides how the
    arrival section is read:
    - Hawaii ([TSUHWX]): the paragraph after "ESTIMATED TIME OF ARRIVAL OF
      THE INITIAL WAVE" is one time line ([hawaii_line]);
    - Caribbean ([TSUCA1]): a two-line "HAZARD IS FORECAST TO BEGIN" sentence
      ([carib_line]);
    - standard and Guam/American Samoa ([TSUGUM], [TSUPPG]): the paragraph
      after the "START ... SELECTED" (or Guam "-ETA- OF THE INITIAL TSUNAMI
      WAVE") heading is a table; each row naming a configured forecast point
      gives a line [STATION ON MONTH DAY AT TIME AM/PM] ([station_row]).
    Code paths that raise ([list.pop()] on a short row, [str.index] on a
    Caribbean sentence without its keywords) return [Raise]: the exception
    reaches the [try] of [grabTWC], which then discards the whole parse. *)

From stdpp Require Import base list strings decidable.
From Stdlib Require Import String Ascii ZArith Lia.
From S2P Require Import Prelude PyStr Config Info Zones.

Local Open Scope string_scope.
Local Open Scope nat_scope.
Local Open Scope tsu_scope.

(** Lines 407-408 *)
Definition mon_long : list string :=
  [""; "JAN"; "FEB"; "MAR"; "APR"; "MAY"; "JUN"; "JUL"; "AUG"; "SEP"; "OCT"; "NOV"; "DEC"].
Definition mon_longer : list string :=
  [""; "JANUARY"; "FEBRUARY"; "MARCH"; "APRIL"; "MAY"; "JUNE"; "JULY"; "AUGUST";
   "SEPTEMBER"; "OCTOBER"; "NOVEMBER"; "DECEMBER"].

(** [l.index(x)] *)
Fixpoint list_index (x : string) (l : list string) : res nat :=
  match l with
  | [] => Raise ValueError
  | y :: l' => if String.eqb y x then Ok 0 else i <- list_index x l' ;; Ok (S i)
  end.

(** The bulletin variants (lines 1114-1127). *)
Record variant : Type := { is_hawaii : bool; is_guam : bool; is_carib : bool }.

(** [segs[0].find(marker) > 0] *)
Definition heading_at (marker s : string) : bool :=
  match str_find marker s with Some (S _) => true | _ => false end.

Definition detect_variant (seg0 : string) : variant := {|
  is_hawaii := heading_at (nl ++ "TSUHWX") seg0;
  is_guam := heading_at (nl ++ "TSUGUM") seg0 || heading_at (nl ++ "TSUPPG") seg0;
  is_carib := heading_at (nl ++ "TSUCA1") seg0 |}.

(** ** Hawaii (lines 1205-1227) *)

Definition hawaii_flag1 : string := "ESTIMATED TIME OF ARRIVAL OF THE INITIAL WAVE".
Definition hawaii_flag2 : string := "IF TSUNAMI WAVES IMPACT HAWAII THE ESTIMATED EARLIEST ARRIVAL".

Definition hawaii_line (next : string) : string :=
  let fields := str_split " " (lstrip next) in
  let f i := nth i fields "" in
  if (6 <=? List.length fields) && (String.length (f 0) =? 4) then
    let arrTime := if String.eqb (slice 0 1 (f 0)) "0" then str_drop 1 (f 0) else f 0 in
    let arrZone0 := "HAWAII STANDARD TIME" in
    let arrZone := if negb (String.eqb arrZone0 "HST") then f 2 else arrZone0 in
    let arrMonth := match list_index (f 5) mon_long with
                    | Ok i => nth i mon_longer ""
                    | Raise _ => f 5
                    end in
    "HAWAIIAN ISLANDS ON " ++ arrMonth ++ " " ++ f 4 ++ " AT " ++ arrTime ++ " " ++ f 1 ++ " " ++ arrZone
  else "".

(** ** Caribbean (lines 1235-1244) *)

Definition carib_flag : string := "HAZARD IS FORECAST TO BEGIN".

(** [dflt] is the arrival line before this branch (line 1199). *)
Definition carib_line (sec dflt : string) : res string :=
  match splitlines sec with
  | l0 :: l1 :: _ =>
      let al := l0 ++ " " ++ l1 in
      beg <- str_index "AROUND" al ;;
      mid <- str_index "AST ON " al ;;
      en <- str_index "AND IT CAN" al ;;
      if (0 <? beg) && (beg <? mid) && (beg <? en)
      then Ok ("PUERTO RICO/VIRGIN ISLANDS " ++ slice beg mid al ++ slice (mid + 4) en al)
      else Ok al
  | _ => Ok dflt
  end.

(** Lines 1199-1244 for paragraph [j] of a Hawaii or Caribbean bulletin. *)
Definition hc_arrival (v : variant) (ss : list string) (j : nat) (secj : string) : res string :=
  let hl := if is_hawaii v && (contains hawaii_flag1 secj || contains hawaii_flag2 secj)
               && (j + 1 <? List.length ss)
            then hawaii_line (nth (j + 1) ss "") else "" in
  if is_carib v && contains carib_flag secj then carib_line secj hl else Ok hl.

(** ** Table rows (lines 1264-1310 and [formatGuamArrival]) *)

(** [line.lstrip().replace("   "," ").replace("   "," ").replace("  "," ").replace("  "," ")] *)
Definition squeeze (line : string) : string :=
  str_replace "  " " " (str_replace "  " " " (str_replace "   " " " (str_replace "   " " " (lstrip line)))).

(** Five [tmp.pop()] calls. *)
Definition pop5 (l : list string) : res (list string) :=
  l1 <- pop_last l ;; l2 <- pop_last l1 ;; l3 <- pop_last l2 ;; l4 <- pop_last l3 ;; pop_last l4.

(** The [try: ... except: pass] alias lookup of lines 1290-1295. *)
Definition local_alias (names : option (dict string)) (stnid : string) : string :=
  match names with
  | Some d => match dict_get stnid d with Some v => v | None => stnid end
  | None => stnid
  end.

(** [formatGuamArrival(stnid, line)] (lines 1409-1437). *)
Definition formatGuamArrival (stnid line : string) : res string :=
  let fields := str_split " " (squeeze line) in
  let start := (Z.of_nat (List.length fields) - 5)%Z in
  d <- py_index (start + 4) fields ;;
  match str_split "/" d with
  | [d0; d1] =>
      let body :=
        month <- py_int d0 ;;
        if (month <? 1)%Z || (12 <? month)%Z then Ok "" else
        c <- (match head_char d1 with Some c => Ok c | None => Raise IndexError end) ;;
        let dom := if Ascii.eqb c "0"%char then str_drop 1 d1 else d1 in
        f2 <- py_index (start + 2) fields ;;
        f3 <- py_index (start + 3) fields ;;
        Ok (stnid ++ " ON " ++ nth (Z.to_nat month) mon_longer "" ++ " " ++ dom ++ " AT " ++ f2 ++ " " ++ f3) in
      Ok (try_except body "")
  | _ => Ok ""
  end.

(** [re.compile("[\W]").sub(" ", line)]: non-word characters become
    blanks.  The pattern is a [str] pattern, so [\w] is Unicode's: the
    characters [c] with [c.isalnum()] or [c == "_"].  A character of the
    model is the code point U+0000-U+00FF of its byte; besides the ASCII
    letters, digits and [_], the word characters there are the Latin-1
    letters, [ª], [º], [µ], the superscripts [²], [³], [¹] and the
    fractions [¼], [½], [¾]. *)
Definition is_word (c : ascii) : bool :=
  is_upper c || is_digit c || Ascii.eqb c "_"%char
  || (let n := nat_of_ascii c in
      ((97 <=? n) && (n <=? 122)) || (n =? 170) || (n =? 178) || (n =? 179) || (n =? 181)
      || (n =? 185) || (n =? 186) || ((188 <=? n) && (n <=? 190))
      || ((192 <=? n) && (n <=? 214)) || ((216 <=? n) && (n <=? 246)) || (248 <=? n)).

Fixpoint sub_nonword (s : string) : string :=
  match s with
  | EmptyString => EmptyString
  | String c s' => String (if is_word c then c else " "%char) (sub_nonword s')
  end.

(** The groups of ["  ([0-9]+)\s+([A,P,M]+)\s+([A-Z][A-Z]?[S,D]T)\s+([A-Z]+)\s+([0-9]+)"]
    matched at the head of a string.  Each repetition is followed by a
    character outside its class, so greedy runs never backtrack; the
    optional second letter of the zone is tried present first. *)
Definition is_apm (c : ascii) : bool :=
  Ascii.eqb c "A"%char || Ascii.eqb c ","%char || Ascii.eqb c "P"%char || Ascii.eqb c "M"%char.

Definition is_sd (c : ascii) : bool :=
  Ascii.eqb c "S"%char || Ascii.eqb c ","%char || Ascii.eqb c "D"%char.

(** [p+] then the rest *)
Definition run1 (p : ascii -> bool) (s : string) : option (string * string) :=
  match take_while p s with
  | EmptyString => None
  | r => Some (r, drop_while p s)
  end.

(** The alternatives of [[A-Z][A-Z]?[S,D]T] at the head of a string, in
    the order the regular-expression engine tries them (the optional letter
    present first). *)
Definition tz_tokens (s : string) : list (string * string) :=
  let try2 :=
    match s with
    | String a (String b (String c (String t rest))) =>
        if is_upper a && is_upper b && is_sd c && Ascii.eqb t "T"%char
        then [(String a (String b (String c (String t ""))), rest)] else []
    | _ => []
    end in
  let try1 :=
    match s with
    | String a (String c (String t rest)) =>
        if is_upper a && is_sd c && Ascii.eqb t "T"%char
        then [(String a (String c (String t "")), rest)] else []
    | _ => []
    end in
  (try2 ++ try1)%list.

(** The part of the pattern after the zone group. *)
Definition after_tz (s6 : string) : option (string * string) :=
  match run1 is_space s6 with None => None | Some (_, s7) =>
  match run1 is_upper s7 with None => None | Some (g4, s8) =>
  match run1 is_space s8 with None => None | Some (_, s9) =>
  match run1 is_digit s9 with None => None | Some (g5, _) =>
    Some (g4, g5)
  end end end end.

Fixpoint first_some {A B} (f : A -> option B) (l : list A) : option B :=
  match l with
  | [] => None
  | x :: l' => match f x with Some y => Some y | None => first_some f l' end
  end.

Definition time_match_at (s : string) : option (string * string * string * string * string) :=
  match s with
  | String " " (String " " s1) =>
      match run1 is_digit s1 with None => None | Some (g1, s2) =>
      match run1 is_space s2 with None => None | Some (_, s3) =>
      match run1 is_apm s3 with None => None | Some (g2, s4) =>
      match run1 is_space s4 with None => None | Some (_, s5) =>
        first_some (fun '(g3, s6) =>
                      match after_tz s6 with
                      | Some (g4, g5) => Some (g1, g2, g3, g4, g5)
                      | None => None
                      end) (tz_tokens s5)
      end end end end
  | _ => None
  end%char.

(** [re.findall(pat2, line)[0]], if any. *)
Fixpoint time_match (s : string) : option (string * string * string * string * string) :=
  match s with
  | EmptyString => None
  | String _ s' => match time_match_at s with Some m => Some m | None => time_match s' end
  end.

(** One row of the arrival table (lines 1265-1310): [None] when the row
    is skipped or yields no line. *)
Definition station_row (g : globals) (v : variant) (line : string) : res (option string) :=
  if is_guam v && ((contains "LOCATION" line && contains "REGION" line)
                   || contains "------------" line) then Ok None else
  tmp <- pop5 (str_split " " (squeeze line)) ;;
  let stnid := upper (py_join " " tmp) in
  let hit := existsb (fun a => contains (upper a) stnid) (g_arrival_list g) in
  if negb hit then Ok None else
  let stnid' := local_alias (g_arrival_localname g) stnid in
  arriveLine <-
    (if is_guam v then formatGuamArrival stnid' line
     else Ok (match time_match (sub_nonword line) with
              | Some (t, ap, _, mon, day) => stnid' ++ " ON " ++ mon ++ " " ++ day ++ " AT " ++ t ++ " " ++ ap
              | None => ""
              end)) ;;
  Ok (if 0 <? String.length arriveLine then Some arriveLine else None).

Fixpoint station_rows (g : globals) (v : variant) (k : kind) (lines : list string)
    (h : hazard_info) : res hazard_info :=
  match lines with
  | [] => Ok h
  | line :: rest =>
      r <- station_row g v line ;;
      station_rows g v k rest (match r with Some l => add_arrival h k l | None => h end)
  end.

(** Lines 1259-1311: the first non-blank of the next two paragraphs is the
    table. *)
Definition station_block (g : globals) (v : variant) (k : kind) (ss : list string) (j : nat)
    (h : hazard_info) : res hazard_info :=
  let nonblank k' := (k' <? List.length ss)
                     && negb (String.eqb (str_replace nl "" (str_replace " " "" (nth k' ss ""))) "") in
  if nonblank (j + 1) then station_rows g v k (splitlines (nth (j + 1) ss "")) h
  else if nonblank (j + 2) then station_rows g v k (splitlines (nth (j + 2) ss "")) h
  else Ok h.

Definition eta_flag : string := "-ETA- OF THE INITIAL TSUNAMI WAVE".

(** The loop [for j in range(0,len(ss))] of lines 1193-1312; [rest] is
    [ss[j:]]. *)
Fixpoint arrivals_loop (g : globals) (v : variant) (k : kind) (ss : list string) (j : nat)
    (rest : list string) (h : hazard_info) : res hazard_info :=
  match rest with
  | [] => Ok h
  | secj :: rest' =>
      if is_hawaii v || is_carib v then
        al <- hc_arrival v ss j secj ;;
        if 0 <? String.length al then Ok (add_arrival h k al)
        else arrivals_loop g v k ss (S j) rest' h
      else if (contains "START" secj && contains "SELECTED" secj)
              || (is_guam v && contains eta_flag secj) then
        station_block g v k ss j h
      else arrivals_loop g v k ss (S j) rest' h
  end.

(** Line 1192: paragraphs of the segment. *)
Definition paragraphs (s : string) : list string :=
  str_split (nl ++ nl) (str_replace (nl ++ " ") nl (str_replace cr "" s)).

Definition parse_arrivals (g : globals) (v : variant) (k : kind) (s : string)
    (h : hazard_info) : res hazard_info :=
  let ss := paragraphs s in
  arrivals_loop g v k ss 0 ss h.

(** * Properties *)

(** The arrival parse only appends arrival lines: the zone lists, the
    issuance kinds and the notice of [info] are left as they were. *)
Definition keeps_zones (h h' : hazard_info) : Prop :=
  (forall k, hi_zones h' k = hi_zones h k) /\ hi_issue h' = hi_issue h /\ hi_extra h' = hi_extra h.

Lemma keeps_zones_refl h : keeps_zones h h.
Proof. by split. Qed.

Lemma keeps_zones_trans h1 h2 h3 : keeps_zones h1 h2 -> keeps_zones h2 h3 -> keeps_zones h1 h3.
Proof. intros (A & B & B') (C & D & D'). split; [intros k; by rewrite C, A | split; congruence]. Qed.

Lemma keeps_zones_add_arrival h k l : keeps_zones h (add_arrival h k l).
Proof. split; [intros k'; by destruct k' | done]. Qed.

#[export] Hint Resolve keeps_zones_refl keeps_zones_add_arrival : tsu.

Lemma station_rows_keeps g v k lines h h' :
  station_rows g v k lines h = Ok h' -> keeps_zones h h'.
Proof.
  revert h. induction lines as [|l lines IH]; simpl; intros h E.
  - injection E as <-. auto with tsu.
  - apply res_bind_eq_Ok in E as (r & _ & E). apply IH in E.
    destruct r; [|done]. eapply keeps_zones_trans; [apply keeps_zones_add_arrival | done].
Qed.

Lemma station_block_keeps g v k ss j h h' :
  station_block g v k ss j h = Ok h' -> keeps_zones h h'.
Proof.
  unfold station_block. destruct (_ && _); [apply station_rows_keeps |].
  destruct (_ && _); [apply station_rows_keeps |]. intros E; injection E as <-. auto with tsu.
Qed.

Lemma arrivals_loop_keeps g v k ss j rest h h' :
  arrivals_loop g v k ss j rest h = Ok h' -> keeps_zones h h'.
Proof.
  revert j h. induction rest as [|sec rest IH]; simpl; intros j h E.
  - injection E as <-. auto with tsu.
  - destruct (is_hawaii v || is_carib v).
    + apply res_bind_eq_Ok in E as (al & _ & E).
      destruct (0 <? _); [injection E as <-; auto with tsu | eauto].
    + destruct (_ || _); [eapply station_block_keeps; eauto | eauto].
Qed.

Lemma parse_arrivals_keeps g v k s h h' :
  parse_arrivals g v k s h = Ok h' -> keeps_zones h h'.
Proof. apply arrivals_loop_keeps. Qed.
