(* ===== verification/Segments.v ===== *)
(** * Segment classification and the segment loop of [grabTWC]

    Lines 1127-1312 of nwr_tsu.py.  A bulletin is cut into segments at
    ["$$"]; each segment is classified by its first VTEC line naming a
    tsunami hazard ([TS.W], [TS.A], [TS.Y]) that is not an expiry,
    cancellation or upgrade ([find_vline]).  The hazard of the segment is
    read from that line ([wwa_of]), its issuance kind from the line and the
    segment text ([issue_of]); the condensed zone ranges are expanded
    ([Zones.expand_ranges]), the zones of the office are added to the
    hazard's list ([Zones.extract_zones]) and the arrival lines are read
    ([Arrivals.parse_arrivals]).  The state threaded through the loop is
    the [info] dict and the flag [testvtec]. *)

From stdpp Require Import base list strings decidable.
From Stdlib Require Import String Ascii ZArith Lia.
From S2P Require Import Prelude PyStr Config Info Zones Arrivals.

Local Open Scope string_scope.
Local Open Scope nat_scope.
Local Open Scope tsu_scope.

(** Line 1134: [s.replace("\r","").replace("\n ","\n").splitlines()] *)
Definition seg_lines (s : string) : list string :=
  splitlines (str_replace (nl ++ " ") nl (str_replace cr "" s)).

(** Line 1137: the line names a tsunami hazard. *)
Definition names_hazard (line : string) : bool :=
  contains "TS.W" line || contains "TS.A" line || contains "TS.Y" line.

(** Line 1139: the line is an expiry, a cancellation or an upgrade. *)
Definition terminal_action (line : string) : bool :=
  contains ".EXP." line || contains ".CAN." line || contains ".UPG." line.

(** Lines 1135-1141: the first hazard line that is not terminal, or [""]. *)
Fixpoint find_vline (ss : list string) : string :=
  match ss with
  | [] => ""
  | line :: rest =>
      if names_hazard line && negb (terminal_action line) then line else find_vline rest
  end.

(** Lines 1143-1149: [wwa]; [None] is [wwa==""]. *)
Definition wwa_of (vline : string) : option kind :=
  if contains "TS.A" vline then Some Watch
  else if contains "TS.W" vline then Some Warning
  else if contains "TS.Y" vline then Some Advisory
  else None.

(** Lines 1152-1157: the issuance kind, from the VTEC line and the whole
    segment [s]. *)
Definition issue_of (vline s : string) : string :=
  let i1 := if contains ".EXP." vline || contains ".CAN." vline then "final" else "new" in
  let i2 := if contains ".CON." vline || contains ".UPG." vline || contains ".EXT." s
               || contains ".EXB." s || contains ".EXA." s then "continue" else i1 in
  if contains ".NEW." vline then "new" else i2.

(** The loop state: the [info] dict and [testvtec=="yes"]. *)
Record seg_state : Type := { st_info : hazard_info; st_testvtec : bool }.

(** One iteration of [for s in segs] (lines 1130-1311).  Each [continue]
    returns the state unchanged (apart from [testvtec], which is set
    before the [final] test). *)
Definition segment_step (g : globals) (zone_ids : list string) (v : variant)
    (st : seg_state) (s : string) : res seg_state :=
  let h := st_info st in
  let vline := find_vline (seg_lines s) in
  if String.eqb vline "" then Ok st else
  match wwa_of vline with
  | None => Ok st
  | Some k =>
      let tv := st_testvtec st || contains "/T." vline in
      let issue := issue_of vline s in
      if String.eqb issue "final" then Ok {| st_info := h; st_testvtec := tv |} else
      s' <- expand_ranges s ;;
      let zi := extract_zones zone_ids issue s' (hi_zones h k) (hi_issue h) in
      h' <- parse_arrivals g v k s' (set_issue (set_zones h k (fst zi)) (snd zi)) ;;
      Ok {| st_info := h'; st_testvtec := tv |}
  end.

Fixpoint segments_loop (g : globals) (zone_ids : list string) (v : variant)
    (segs : list string) (st : seg_state) : res seg_state :=
  match segs with
  | [] => Ok st
  | s :: rest => st' <- segment_step g zone_ids v st s ;; segments_loop g zone_ids v rest st'
  end.

(** Line 1111: the bulletin, without carriage returns, upper-cased, cut at
    ["$$"]. *)
Definition bulletin_segments (tsuin : string) : list string :=
  str_split "$$" (upper (str_replace cr "" tsuin)).

(** * Properties *)

(** The invariant of the [info] dict during the segment loop: every
    hazard's zone list is duplicate-free and made of configured zones, and
    the issuance kinds recorded are ["new"] or ["continue"]. *)
Definition info_inv (zone_ids : list string) (h : hazard_info) : Prop :=
  (forall k, zones_ok zone_ids (hi_zones h k)) /\
  (forall i, In i (hi_issue h) -> i = "new" \/ i = "continue").

Lemma find_vline_spec ss :
  find_vline ss <> "" -> names_hazard (find_vline ss) = true /\ terminal_action (find_vline ss) = false.
Proof.
  induction ss as [|l ss IH]; simpl; [done |].
  destruct (names_hazard l) eqn:E1, (terminal_action l) eqn:E2; simpl; auto.
Qed.

Lemma find_vline_none ss :
  (forall l, In l ss -> names_hazard l = true -> terminal_action l = true) -> find_vline ss = "".
Proof.
  induction ss as [|l ss IH]; simpl; intros H; [done |].
  destruct (names_hazard l) eqn:E; simpl; [rewrite (H l); simpl; auto |]; apply IH; auto.
Qed.

(** C2: A segment in which every hazard VTEC line is an expiry, a
    cancellation or an upgrade is skipped: the state, [testvtec]
    included, is unchanged.  Its zones are never reported, whatever the
    issuance code of line 1154 would have said. *)
Theorem cancelled_segment_skipped g zone_ids v st s :
  Forall (fun l => contains "TS.W" l || contains "TS.A" l || contains "TS.Y" l = true ->
                   contains ".EXP." l || contains ".CAN." l || contains ".UPG." l = true) (seg_lines s) ->
  segment_step g zone_ids v st s = Ok st.
Proof.
  intros H. unfold segment_step. rewrite find_vline_none; [done |].
  intros l Hl Hn. rewrite Forall_forall in H. exact (H l Hl Hn).
Qed.

Lemma wwa_of_some vline : names_hazard vline = true -> exists k, wwa_of vline = Some k.
Proof.
  unfold names_hazard, wwa_of.
  destruct (contains "TS.A" vline), (contains "TS.W" vline), (contains "TS.Y" vline); simpl; eauto; done.
Qed.

Lemma issue_of_live vline s :
  terminal_action vline = false -> issue_of vline s = "new" \/ issue_of vline s = "continue".
Proof.
  unfold terminal_action, issue_of. intros H. apply orb_false_iff in H as [H _].
  apply orb_false_iff in H as [H1 H2]. rewrite H1, H2. cbn.
  destruct (contains ".NEW." vline); [auto |]. destruct (_ || _); auto.
Qed.

Lemma info_inv_update zone_ids h k issue s' h' :
  info_inv zone_ids h -> (issue = "new" \/ issue = "continue") ->
  let zi := extract_zones zone_ids issue s' (hi_zones h k) (hi_issue h) in
  keeps_zones (set_issue (set_zones h k (fst zi)) (snd zi)) h' -> info_inv zone_ids h'.
Proof.
  intros [Hz Hi] Hiss zi (Kz & Ki & _). split.
  - intros k'. rewrite Kz, hi_zones_set_issue. destruct (decide (k = k')) as [<- | Hne].
    + rewrite hi_zones_set_zones_eq. by apply extract_zones_ok.
    + rewrite hi_zones_set_zones_ne by done. apply Hz.
  - intros i. rewrite Ki. cbn. intros Hin.
    apply extract_zones_issue in Hin as [Hin | ->]; auto.
Qed.

(** One segment either leaves [info] as it was, or stores the merged
    zone list of one hazard and then only appends arrival lines. *)
Lemma segment_step_cases g zone_ids v st s st' :
  segment_step g zone_ids v st s = Ok st' ->
  st_info st' = st_info st \/
  exists k issue s', (issue = "new" \/ issue = "continue") /\
    let zi := extract_zones zone_ids issue s' (hi_zones (st_info st) k) (hi_issue (st_info st)) in
    keeps_zones (set_issue (set_zones (st_info st) k (fst zi)) (snd zi)) (st_info st').
Proof.
  unfold segment_step. intros E.
  destruct (String.eqb _ "") eqn:Ev; [injection E as <-; by left |]. apply String.eqb_neq in Ev.
  destruct (wwa_of _) as [k|]; [| injection E as <-; by left].
  destruct (String.eqb (issue_of _ s) "final"); [injection E as <-; by left |].
  apply res_bind_eq_Ok in E as (s' & _ & E). apply res_bind_eq_Ok in E as (h' & E & E').
  injection E' as <-. right. exists k, (issue_of (find_vline (seg_lines s)) s), s'.
  split; [apply issue_of_live, find_vline_spec, Ev | by eapply parse_arrivals_keeps].
Qed.

Lemma segment_step_inv g zone_ids v st s st' :
  info_inv zone_ids (st_info st) -> segment_step g zone_ids v st s = Ok st' ->
  info_inv zone_ids (st_info st').
Proof.
  intros Hinv [-> | (k & issue & s' & Hi & Hk)]%segment_step_cases; [done |].
  by eapply info_inv_update.
Qed.

Lemma segment_step_extra g zone_ids v st s st' :
  segment_step g zone_ids v st s = Ok st' -> hi_extra (st_info st') = hi_extra (st_info st).
Proof.
  intros [-> | (k & issue & s' & _ & _ & _ & ->)]%segment_step_cases; [done |]. by destruct k.
Qed.

Lemma segments_loop_extra g zone_ids v segs st st' :
  segments_loop g zone_ids v segs st = Ok st' -> hi_extra (st_info st') = hi_extra (st_info st).
Proof.
  revert st. induction segs as [|s segs IH]; simpl; intros st E; [by injection E as <- |].
  apply res_bind_eq_Ok in E as (st1 & E1 & E2).
  rewrite (IH _ E2). by eapply segment_step_extra.
Qed.

(** The invariant holds through the whole segment loop, whatever the
    segments: the zones [grabTWC] reports for each hazard are distinct
    configured zones, and only ["new"] and ["continue"] are recorded. *)
Theorem segments_loop_inv g zone_ids v segs st st' :
  info_inv zone_ids (st_info st) -> segments_loop g zone_ids v segs st = Ok st' ->
  info_inv zone_ids (st_info st').
Proof.
  revert st. induction segs as [|s segs IH]; simpl; intros st Hinv E; [by injection E as <- |].
  apply res_bind_eq_Ok in E as (st1 & E1 & E2). eapply IH; [| exact E2].
  by eapply segment_step_inv.
Qed.

(** The test [issue=="final"] of line 1158 never succeeds, and the test
    [wwa==""] of line 1149 never either: a selected VTEC line names a
    hazard and is neither an expiry nor a cancellation. *)
Theorem final_issue_unreachable s :
  find_vline (seg_lines s) <> "" ->
  issue_of (find_vline (seg_lines s)) s <> "final" /\ wwa_of (find_vline (seg_lines s)) <> None.
Proof.
  intros H. apply find_vline_spec in H as [Hn Ht]. split.
  - by destruct (issue_of_live _ s Ht) as [-> | ->].
  - by destruct (wwa_of_some _ Hn) as [k ->].
Qed.

(** ** Witnesses *)

Definition demo_segment : string := "
CAZ039>041-161839-
/O.NEW.PAAQ.TS.W.0001.120416T1639Z-000000T0000Z/
COASTAL AREAS
".

Definition demo_cancel_segment : string := "
CAZ039>041-161839-
/O.CAN.PAAQ.TS.W.0001.000000T0000Z-000000T0000Z/
COASTAL AREAS
".

Definition demo_state : seg_state := {| st_info := empty_info; st_testvtec := false |}.

Lemma info_inv_empty zone_ids : info_inv zone_ids empty_info.
Proof.
  split; [intros []; split; simpl; [constructor | done | constructor | done | constructor | done] |].
  intros i [].
Qed.

Lemma segments_loop_inv_witness :
  let zid := g_zone_ids template_globals in
  let segs := [demo_cancel_segment; demo_segment] in
  let run := segments_loop template_globals zid (detect_variant "") segs demo_state in
  info_inv zid (st_info demo_state) /\ run = Ok (res_get demo_state run) /\
  hi_warning (st_info (res_get demo_state run)) = ["CAZ039"; "CAZ040"; "CAZ041"] /\
  info_inv zid (st_info (res_get demo_state run)).
Proof.
  cbv zeta. split; [apply info_inv_empty |]. split; [vm_compute; reflexivity |].
  split; [vm_compute; reflexivity |].
  apply (segments_loop_inv template_globals _ (detect_variant "") [demo_cancel_segment; demo_segment] demo_state);
    [apply info_inv_empty | vm_compute; reflexivity].
Defined.

Lemma cancelled_segment_skipped_witness :
  Forall (fun l => contains "TS.W" l || contains "TS.A" l || contains "TS.Y" l = true ->
                   contains ".EXP." l || contains ".CAN." l || contains ".UPG." l = true)
    (seg_lines demo_cancel_segment) /\
  segment_step template_globals (g_zone_ids template_globals) (detect_variant "") demo_state
    demo_cancel_segment = Ok demo_state.
Proof.
  assert (H : Forall (fun l => contains "TS.W" l || contains "TS.A" l || contains "TS.Y" l = true ->
                   contains ".EXP." l || contains ".CAN." l || contains ".UPG." l = true)
    (seg_lines demo_cancel_segment)).
  { apply Forall_forall. intros l Hl. vm_compute in Hl.
    repeat destruct Hl as [<-|Hl]; try contradiction; vm_compute; congruence. }
  split; [exact H |]. exact (cancelled_segment_skipped _ _ _ _ _ H).
Defined.

Lemma final_issue_unreachable_witness :
  find_vline (seg_lines demo_segment) <> "" /\
  issue_of (find_vline (seg_lines demo_segment)) demo_segment <> "final" /\
  wwa_of (find_vline (seg_lines demo_segment)) <> None.
Proof.
  assert (H : find_vline (seg_lines demo_segment) <> "") by (vm_compute; discriminate).
  split; [exact H | apply final_issue_unreachable, H].
Defined.
