(* ===== verification/Civil.v ===== *)
(** * Civil time: the calendar, [time.strptime], [time.mktime],
      [datetime.fromtimestamp] and [daylightMe]

    The program converts the earthquake time of a bulletin to local time
    (nwr_tsu.py lines 1348-1384) with [time.strptime], [time.mktime] and
    [datetime.datetime.fromtimestamp], and decides daylight saving time
    with [daylightMe] (lines 259-283).  The AWIPS hosts run in UTC (the
    comment of line 399), so [mktime] and [fromtimestamp] are the UTC
    conversions between a civil date-time and a count of seconds since
    1970-01-01 ([timestamp], [fromtimestamp] below), computed with the
    days-from-civil algorithm on the proleptic Gregorian calendar.  The
    program only ever passes [fromtimestamp] the value of [mktime] shifted
    by whole hours (lines 1364-1373), so on a host at any fixed offset from
    UTC the offset cancels and the result is the one computed here; only a
    host that itself observes daylight saving time could differ, within
    an hour of its own transitions.

    [strptime_BdYIMp] is CPython's [_strptime] for the one format the
    program uses, ["%B %d %Y %I%M %p"]: the format becomes the regular
    expression
    [(?P<B>january|...) \s+ (?P<d>3[01]|[12]\d|0[1-9]|[1-9]| [1-9]) \s+
     (?P<Y>\d\d\d\d) \s+ (?P<I>1[0-2]|0[1-9]|[1-9])(?P<M>[0-5]\d|\d) \s+
     (?P<p>am|pm)], matched case-insensitively at the start of the string;
    the first match in the regular expression's backtracking order is
    taken, and a match that does not reach the end of the string raises
    [ValueError] ("unconverted data remains"), as does a date that does not
    exist.  Each directive is a list-of-successes matcher returning its
    alternatives in the order the regular expression tries them. *)

From stdpp Require Import base list strings decidable.
From Stdlib Require Import String Ascii ZArith Lia.
From S2P Require Import Prelude PyStr.

Local Open Scope string_scope.
Local Open Scope Z_scope.
Local Open Scope tsu_scope.

(** ** The proleptic Gregorian calendar *)

Definition is_leap (y : Z) : bool :=
  ((y mod 4 =? 0) && negb (y mod 100 =? 0)) || (y mod 400 =? 0).

Definition days_in_month (y m : Z) : Z :=
  if m =? 2 then (if is_leap y then 29 else 28)
  else if (m =? 4) || (m =? 6) || (m =? 9) || (m =? 11) then 30 else 31.

(** [datetime.date(y, m, d)] exists (Python's years are 1..9999). *)
Definition valid_date (y m d : Z) : bool :=
  (1 <=? y) && (y <=? 9999) && (1 <=? m) && (m <=? 12) && (1 <=? d) && (d <=? days_in_month y m).

(** Days since 1970-01-01 (H. Hinnant's algorithm, floor division): the
    year is shifted to start in March ([mp] is the month from March, 0 to
    11), [yoe] is the year of the 400-year era, [doy] the day of the
    shifted year, [doe] the day of the era. *)
Definition doy_of (mp d : Z) : Z := (153 * mp + 2) / 5 + d - 1.
Definition doe_of (yoe doy : Z) : Z := yoe * 365 + yoe / 4 - yoe / 100 + doy.
Definition yoe_of_doe (doe : Z) : Z := (doe - doe / 1460 + doe / 36524 - doe / 146096) / 365.
Definition mp_of_doy (doy : Z) : Z := (5 * doy + 2) / 153.
Definition mp_of_month (m : Z) : Z := if 2 <? m then m - 3 else m + 9.
Definition month_of_mp (mp : Z) : Z := if mp <? 10 then mp + 3 else mp - 9.

Definition days_from_civil (y m d : Z) : Z :=
  let y' := if m <=? 2 then y - 1 else y in
  let era := y' / 400 in
  let yoe := y' - era * 400 in
  era * 146097 + doe_of yoe (doy_of (mp_of_month m) d) - 719468.

Definition civil_from_days (z : Z) : Z * Z * Z :=
  let z' := z + 719468 in
  let era := z' / 146097 in
  let doe := z' - era * 146097 in
  let yoe := yoe_of_doe doe in
  let doy := doe - (365 * yoe + yoe / 4 - yoe / 100) in
  let mp := mp_of_doy doy in
  let d := doy - (153 * mp + 2) / 5 + 1 in
  let m := month_of_mp mp in
  let y := yoe + era * 400 in
  (if m <=? 2 then y + 1 else y, m, d).

(** A naive [datetime] to the minute (the program never sets seconds). *)
Record datetime : Type := {
  dt_year : Z; dt_month : Z; dt_day : Z; dt_hour : Z; dt_minute : Z
}.

(** [time.mktime(t)] on a UTC host (and [calendar.timegm]). *)
Definition timestamp (t : datetime) : Z :=
  days_from_civil (dt_year t) (dt_month t) (dt_day t) * 86400
  + dt_hour t * 3600 + dt_minute t * 60.

(** [datetime.datetime.fromtimestamp(ts)] on a UTC host, seconds dropped. *)
Definition fromtimestamp (ts : Z) : datetime :=
  let '(y, m, d) := civil_from_days (ts / 86400) in
  let r := ts mod 86400 in
  {| dt_year := y; dt_month := m; dt_day := d; dt_hour := r / 3600; dt_minute := r mod 3600 / 60 |}.

(** [t + datetime.timedelta(hours=h)] *)
Definition add_hours (t : datetime) (h : Z) : datetime :=
  fromtimestamp (timestamp t + 3600 * h).

(** [t.weekday()]: Monday is 0, Sunday 6; 1970-01-01 was a Thursday. *)
Definition weekday (t : datetime) : Z :=
  (days_from_civil (dt_year t) (dt_month t) (dt_day t) + 3) mod 7.

Definition valid_datetime (t : datetime) : bool :=
  valid_date (dt_year t) (dt_month t) (dt_day t)
  && (0 <=? dt_hour t) && (dt_hour t <? 24) && (0 <=? dt_minute t) && (dt_minute t <? 60).

(** ** [time.strptime(s, "%B %d %Y %I%M %p")] *)

(** The English month names of the C locale, as [%B] prints them. *)
Definition month_names : list string :=
  ["January"; "February"; "March"; "April"; "May"; "June"; "July";
   "August"; "September"; "October"; "November"; "December"].

Definition in_range (lo hi c : ascii) : bool :=
  (nat_of_ascii lo <=? nat_of_ascii c)%nat && (nat_of_ascii c <=? nat_of_ascii hi)%nat.

Definition is_dig : ascii -> bool := in_range "0" "9".
Definition is_char (d : ascii) (c : ascii) : bool := Ascii.eqb c d.
Definition dval (c : ascii) : Z := Z.of_nat (nat_of_ascii c - 48).

(** One and two characters of the given classes, with their decimal value. *)
Definition m1 (p : ascii -> bool) (s : string) : list (Z * string) :=
  match s with String a r => if p a then [(dval a, r)] else [] | _ => [] end.

Definition m2 (p q : ascii -> bool) (s : string) : list (Z * string) :=
  match s with
  | String a (String b r) => if p a && q b then [(dval a * 10 + dval b, r)] else []
  | _ => []
  end.

(** [\s+], greedy: the rests after one or more blanks, longest run first. *)
Fixpoint ws_any (s : string) : list string :=
  match s with
  | String c s' => if is_space c then (ws_any s' ++ [s])%list else [s]
  | EmptyString => [s]
  end.

Definition ws1 (s : string) : list string :=
  match s with String c s' => if is_space c then ws_any s' else [] | _ => [] end.

(** Case-insensitive prefix. *)
Definition iprefix (p s : string) : bool := String.prefix (upper p) (upper s).

(** [%B]: at most one month name is a prefix, none being a prefix of
    another. *)
Definition re_B (s : string) : list (Z * string) :=
  omap (fun '(i, nm) => if iprefix nm s then Some (Z.of_nat i, str_drop (String.length nm) s) else None)
       (zip (seq 1 12) month_names).

Definition re_d (s : string) : list (Z * string) :=
  (m2 (is_char "3") (in_range "0" "1") s ++ m2 (in_range "1" "2") is_dig s
   ++ m2 (is_char "0") (in_range "1" "9") s ++ m1 (in_range "1" "9") s
   ++ match s with String c r => if Ascii.eqb c " " then m1 (in_range "1" "9") r else [] | _ => [] end)%list.

Definition re_Y (s : string) : list (Z * string) :=
  match s with
  | String a (String b (String c (String d r))) =>
      if is_dig a && is_dig b && is_dig c && is_dig d
      then [(((dval a * 10 + dval b) * 10 + dval c) * 10 + dval d, r)] else []
  | _ => []
  end.

Definition re_I (s : string) : list (Z * string) :=
  (m2 (is_char "1") (in_range "0" "2") s ++ m2 (is_char "0") (in_range "1" "9") s
   ++ m1 (in_range "1" "9") s)%list.

Definition re_M (s : string) : list (Z * string) :=
  (m2 (in_range "0" "5") is_dig s ++ m1 is_dig s)%list.

(** [%p]: [true] for PM. *)
Definition re_p (s : string) : list (bool * string) :=
  ((if iprefix "AM" s then [(false, str_drop 2 s)] else [])
   ++ (if iprefix "PM" s then [(true, str_drop 2 s)] else []))%list.

(** The matches of the whole expression, in backtracking order:
    (month, day, year, hour of [%I], minute, pm, rest). *)
Definition re_BdYIMp (s : string) : list (Z * Z * Z * Z * Z * bool * string) :=
  '(mo, r1) ← re_B s; r2 ← ws1 r1; '(d, r3) ← re_d r2; r4 ← ws1 r3;
  '(y, r5) ← re_Y r4; r6 ← ws1 r5; '(i, r7) ← re_I r6; '(mi, r8) ← re_M r7;
  r9 ← ws1 r8; '(pm, r10) ← re_p r9; [(mo, d, y, i, mi, pm, r10)].

(** [%I] with [%p]: 12 AM is hour 0, 12 PM hour 12. *)
Definition hour24 (i : Z) (pm : bool) : Z :=
  if pm then (if i =? 12 then 12 else i + 12) else (if i =? 12 then 0 else i).

Definition strptime_BdYIMp (s : string) : res datetime :=
  match re_BdYIMp s with
  | [] => Raise ValueError
  | (mo, d, y, i, mi, pm, rest) :: _ =>
      if negb (String.eqb rest "") then Raise ValueError
      else if negb (valid_date y mo d) then Raise ValueError
      else Ok {| dt_year := y; dt_month := mo; dt_day := d; dt_hour := hour24 i pm; dt_minute := mi |}
  end.

(** ** [strftime] pieces *)

Definition str_Z (z : Z) : string :=
  if z <? 0 then "-" ++ str_N (Z.to_N (- z)) else str_N (Z.to_N z).

(** [%B] *)
Definition strftime_B (t : datetime) : string := nth (Z.to_nat (dt_month t - 1)) month_names "".

(** [str(int(t.strftime("%I")))]: the 12-hour clock without padding. *)
Definition hour12 (t : datetime) : Z :=
  let h := dt_hour t mod 12 in if h =? 0 then 12 else h.

(** [%p] *)
Definition strftime_p (t : datetime) : string := if dt_hour t <? 12 then "AM" else "PM".

(** [%M] *)
Definition strftime_M (t : datetime) : string := zfill 2 (str_Z (dt_minute t)).

(** [%Y] for the years 1000..9999 *)
Definition strftime_Y (t : datetime) : string := str_Z (dt_year t).

(** [range(lo, lo+n)] *)
Definition zrange (lo n : Z) : list Z := map (fun i => lo + Z.of_nat i) (seq 0 (Z.to_nat n)).

(** ** [daylightMe] (lines 259-283) *)

(** [int(str(y)+str(m).zfill(2)+str(d).zfill(2))] *)
Definition datecode (y m d : Z) : res Z :=
  py_int (str_Z y ++ zfill 2 (str_Z m) ++ zfill 2 (str_Z d)).

(** The loop [for d in range(0,16)] of lines 271-277, from [ds] on, with
    [count] Sundays seen; [16] is the initial [target]. *)
Fixpoint sunday_search (target_sunday : Z) (aa : datetime) (ds : list Z) (count : Z) : res Z :=
  match ds with
  | [] => Ok 16
  | d :: rest =>
      let b := add_hours aa (d * 24) in
      if weekday b =? 6 then
        if target_sunday <=? count + 1 then datecode (dt_year b) (dt_month b) (dt_day b)
        else sunday_search target_sunday aa rest (count + 1)
      else sunday_search target_sunday aa rest count
  end.

(** [daylightMe(dt)]: 1 in daylight saving time, 0 otherwise. *)
Definition daylightMe (t : datetime) : res Z :=
  let y := dt_year t in let m := dt_month t in let d := dt_day t in let h := dt_hour t in
  if (4 <=? m) && (m <=? 10) then Ok 1
  else if (m =? 12) || (m <=? 2) then Ok 0
  else
    let target_sunday := if m =? 3 then 2 else 1 in
    compare <- datecode y m d ;;
    let aa := {| dt_year := y; dt_month := m; dt_day := 1; dt_hour := h; dt_minute := 0 |} in
    target <- sunday_search target_sunday aa (zrange 0 16) 0 ;;
    Ok (if (m =? 3) && (target <=? compare) then 1
        else if (m =? 11) && (compare <? target) then 1 else 0).

(** ** The daylight-saving rule of the design

    Daylight saving time from the second Sunday of March, up to the first
    Sunday of November, at day granularity. *)
Definition first_sunday (y m : Z) : Z :=
  1 + (6 - weekday {| dt_year := y; dt_month := m; dt_day := 1; dt_hour := 0; dt_minute := 0 |}) mod 7.

Definition dst_rule (y m d : Z) : Z :=
  if (4 <=? m) && (m <=? 10) then 1
  else if m =? 3 then (if first_sunday y 3 + 7 <=? d then 1 else 0)
  else if m =? 11 then (if d <? first_sunday y 11 then 1 else 0)
  else 0.

(** * Properties *)

(** ** The calendar round trip *)

(** The inversion inside one 400-year era, for a shifted year [yoe], a
    month from March [mp] and a day [d]. *)
Definition era_check (yoe mp d : Z) : bool :=
  let doe := doe_of yoe (doy_of mp d) in
  let yoe' := yoe_of_doe doe in
  let doy' := doe - (365 * yoe' + yoe' / 4 - yoe' / 100) in
  let mp' := mp_of_doy doy' in
  (0 <=? doe) && (doe <? 146097) && (yoe' =? yoe) && (mp' =? mp)
  && (doy' - (153 * mp' + 2) / 5 + 1 =? d).

(** The days of a shifted year: January and February belong to the
    shifted year before the civil one. *)
Definition era_dim (yoe mp : Z) : Z :=
  days_in_month (yoe + (if 10 <=? mp then 1 else 0)) (month_of_mp mp).

Lemma era_check_all :
  forallb (fun yoe => forallb (fun mp => forallb (era_check yoe mp) (zrange 1 (era_dim yoe mp)))
                              (zrange 0 12)) (zrange 0 400) = true.
Proof. vm_compute. reflexivity. Qed.

Lemma in_zrange lo n x : lo <= x < lo + n -> In x (zrange lo n).
Proof.
  intros H. unfold zrange. apply in_map_iff. exists (Z.to_nat (x - lo)).
  split; [lia |]. apply in_seq. lia.
Qed.

Lemma era_check_ok yoe mp d :
  0 <= yoe < 400 -> 0 <= mp < 12 -> 1 <= d <= era_dim yoe mp -> era_check yoe mp d = true.
Proof.
  intros Hy Hm Hd. pose proof era_check_all as H.
  rewrite forallb_forall in H. specialize (H yoe (in_zrange 0 400 yoe ltac:(lia))).
  rewrite forallb_forall in H. specialize (H mp (in_zrange 0 12 mp ltac:(lia))).
  rewrite forallb_forall in H. apply H, in_zrange. lia.
Qed.

Lemma mod_add_mul a k c : c <> 0 -> (a + k * c) mod c = a mod c.
Proof. intros Hc. by apply Z.mod_add. Qed.

Lemma is_leap_era y k : is_leap (y + k * 400) = is_leap y.
Proof.
  unfold is_leap.
  replace (y + k * 400) with (y + (k * 100) * 4) by ring. rewrite mod_add_mul by lia.
  replace (y + k * 100 * 4) with (y + (k * 4) * 100) by ring. rewrite mod_add_mul by lia.
  replace (y + k * 4 * 100) with (y + k * 400) by ring. rewrite mod_add_mul by lia.
  reflexivity.
Qed.

Lemma days_in_month_era y k m : days_in_month (y + k * 400) m = days_in_month y m.
Proof. unfold days_in_month. by rewrite is_leap_era. Qed.

Lemma month_of_mp_of_month m : 1 <= m <= 12 -> month_of_mp (mp_of_month m) = m.
Proof. unfold month_of_mp, mp_of_month. intros H. destruct (2 <? m) eqn:E; destruct (_ <? 10) eqn:E'; lia. Qed.

(** The calendar round trip: [civil_from_days] inverts [days_from_civil]
    on every date that exists. *)
Lemma civil_roundtrip y m d :
  valid_date y m d = true -> civil_from_days (days_from_civil y m d) = (y, m, d).
Proof.
  unfold valid_date. intros H. repeat (apply andb_true_iff in H as [H ?]).
  rewrite ?Z.leb_le in *.
  unfold days_from_civil, civil_from_days.
  set (y' := if m <=? 2 then y - 1 else y).
  set (c := if m <=? 2 then 1 else 0).
  assert (Hy : y = y' + c) by (unfold y', c; destruct (m <=? 2); lia).
  set (era := y' / 400). set (yoe := y' - era * 400). set (mp := mp_of_month m).
  assert (Hyoe : 0 <= yoe < 400) by (unfold yoe, era; pose proof (Z.mod_pos_bound y' 400); rewrite Z.mod_eq in *; lia).
  assert (Hmp : 0 <= mp < 12) by (unfold mp, mp_of_month; destruct (2 <? m) eqn:?; lia).
  assert (Hc : c = if 10 <=? mp then 1 else 0)
    by (unfold c, mp, mp_of_month; destruct (m <=? 2) eqn:?, (2 <? m) eqn:?, (10 <=? _) eqn:?; lia).
  assert (Hm : month_of_mp mp = m) by (apply month_of_mp_of_month; lia).
  assert (Hdim : era_dim yoe mp = days_in_month y m).
  { unfold era_dim. rewrite <- Hc, Hm.
    rewrite Hy. replace (y' + c) with (yoe + c + era * 400) by (unfold yoe; ring).
    by rewrite days_in_month_era. }
  pose proof (era_check_ok yoe mp d Hyoe Hmp ltac:(lia)) as E. unfold era_check in E.
  set (doe := doe_of yoe (doy_of mp d)) in *.
  repeat (apply andb_true_iff in E as [E ?]). rewrite ?Z.leb_le, ?Z.ltb_lt, ?Z.eqb_eq in *.
  replace (era * 146097 + doe - 719468 + 719468) with (doe + era * 146097) by ring.
  rewrite Z.div_add by lia. rewrite (Z.div_small doe) by lia.
  replace (doe + era * 146097 - (0 + era) * 146097) with doe by ring.
  match goal with H : yoe_of_doe doe = yoe |- _ => rewrite H in * end.
  match goal with H : mp_of_doy _ = mp |- _ => rewrite H in * end.
  match goal with H : _ - (153 * mp + 2) / 5 + 1 = d |- _ => rewrite H end.
  rewrite Hm.
  unfold yoe. unfold c in Hy. destruct (m <=? 2); repeat f_equal; lia.
Qed.

(** ** Time stamps *)

Lemma days_from_civil_shift y m d k : days_from_civil y m (d + k) = days_from_civil y m d + k.
Proof. unfold days_from_civil, doe_of, doy_of. ring. Qed.

Lemma valid_datetime_spec t :
  valid_datetime t = true <->
  valid_date (dt_year t) (dt_month t) (dt_day t) = true /\ 0 <= dt_hour t < 24 /\ 0 <= dt_minute t < 60.
Proof.
  unfold valid_datetime. rewrite !andb_true_iff, !Z.leb_le, !Z.ltb_lt. tauto.
Qed.

(** [datetime.fromtimestamp(time.mktime(t))] is [t], on a UTC host. *)
Lemma fromtimestamp_timestamp t : valid_datetime t = true -> fromtimestamp (timestamp t) = t.
Proof.
  rewrite valid_datetime_spec. intros (Hv & Hh & Hm).
  unfold fromtimestamp, timestamp. set (D := days_from_civil _ _ _).
  set (r := dt_hour t * 3600 + dt_minute t * 60).
  replace (D * 86400 + dt_hour t * 3600 + dt_minute t * 60) with (r + D * 86400) by (unfold r; ring).
  rewrite Z.div_add, Z.mod_add, (Z.div_small r), (Z.mod_small r) by (unfold r; lia).
  rewrite Z.add_0_l. unfold D. rewrite civil_roundtrip by done.
  unfold r. rewrite Z.div_add_l, (Z.div_small (dt_minute t * 60)) by lia.
  replace (dt_hour t * 3600 + dt_minute t * 60) with (dt_minute t * 60 + dt_hour t * 3600) by ring.
  rewrite Z.mod_add, Z.mod_small, Z.div_mul by lia.
  destruct t; simpl. f_equal. lia.
Qed.

(** [t + timedelta(hours=24*k)] moves the day by [k] in the month. *)
Lemma add_hours_days t k :
  valid_datetime t = true -> valid_date (dt_year t) (dt_month t) (dt_day t + k) = true ->
  add_hours t (k * 24) =
  {| dt_year := dt_year t; dt_month := dt_month t; dt_day := dt_day t + k;
     dt_hour := dt_hour t; dt_minute := dt_minute t |}.
Proof.
  intros Ht Hd. unfold add_hours.
  match goal with |- fromtimestamp ?x = ?t' => replace x with (timestamp t') end.
  - apply fromtimestamp_timestamp. apply valid_datetime_spec in Ht as (_ & ? & ?).
    apply valid_datetime_spec. simpl. auto.
  - unfold timestamp. simpl. rewrite days_from_civil_shift. ring.
Qed.

Lemma weekday_shift y m d h mi k :
  weekday {| dt_year := y; dt_month := m; dt_day := d + k; dt_hour := h; dt_minute := mi |} =
  (weekday {| dt_year := y; dt_month := m; dt_day := d; dt_hour := 0; dt_minute := 0 |} + k) mod 7.
Proof.
  unfold weekday. simpl. rewrite days_from_civil_shift, Zplus_mod_idemp_l. f_equal. ring.
Qed.

(** ** [daylightMe] refines the daylight-saving rule *)

Definition pad2_check (m : Z) : bool :=
  match digits_val 0 (zfill 2 (str_Z m)) with
  | Some v => (v =? m) && (String.length (zfill 2 (str_Z m)) =? 2)%nat
  | None => false
  end.

Lemma pad2_check_all : forallb pad2_check (zrange 0 100) = true.
Proof. vm_compute. reflexivity. Qed.

Lemma pad2_facts m :
  0 <= m < 100 -> digits_val 0 (zfill 2 (str_Z m)) = Some m /\ String.length (zfill 2 (str_Z m)) = 2%nat.
Proof.
  intros Hm. pose proof pad2_check_all as H. rewrite forallb_forall in H.
  specialize (H m (in_zrange 0 100 m ltac:(lia))). unfold pad2_check in H.
  destruct (digits_val 0 _); [| done]. apply andb_true_iff in H as [H1 H2].
  apply Z.eqb_eq in H1. apply Nat.eqb_eq in H2. by subst.
Qed.

(** The date code of [daylightMe] is [y*10000 + m*100 + d]. *)
Lemma datecode_value y m d :
  0 <= y -> 0 <= m < 100 -> 0 <= d < 100 -> datecode y m d = Ok (y * 10000 + m * 100 + d).
Proof.
  intros Hy Hm Hd. destruct (pad2_facts m Hm) as [Vm Lm]. destruct (pad2_facts d Hd) as [Vd Ld].
  unfold datecode. apply py_int_digits.
  - intros H. apply (f_equal String.length) in H. rewrite !length_append, Lm in H. simpl in H. lia.
  - assert (Hs : str_Z y = str_N (Z.to_N y)) by (unfold str_Z; by rewrite (proj2 (Z.ltb_ge y 0))).
    rewrite Hs, digits_val_app, digits_val_str_N, Z2N.id by done.
    rewrite digits_val_app, (digits_val_acc y (zfill 2 (str_Z m))), Vm, Lm. simpl option_map.
    cbv iota beta. rewrite digits_val_acc, Vd, Ld. cbn [option_map].
    replace (10 ^ Z.of_nat 2) with 100 by reflexivity. apply f_equal. lia.
Qed.

(** The Sunday search as a function of the weekday [w0] of the first of
    the month: the offset of the [ts]-th Sunday among [ks]. *)
Fixpoint sunday_k (ts w0 : Z) (ks : list Z) (count : Z) : option Z :=
  match ks with
  | [] => None
  | k :: rest =>
      if (w0 + k) mod 7 =? 6 then
        if ts <=? count + 1 then Some k else sunday_k ts w0 rest (count + 1)
      else sunday_k ts w0 rest count
  end.

Lemma sunday_search_k ts y m h ks count :
  valid_datetime {| dt_year := y; dt_month := m; dt_day := 1; dt_hour := h; dt_minute := 0 |} = true ->
  (forall k, In k ks -> valid_date y m (1 + k) = true) ->
  sunday_search ts {| dt_year := y; dt_month := m; dt_day := 1; dt_hour := h; dt_minute := 0 |} ks count =
  match sunday_k ts (weekday {| dt_year := y; dt_month := m; dt_day := 1; dt_hour := 0; dt_minute := 0 |}) ks count with
  | Some k => datecode y m (1 + k)
  | None => Ok 16
  end.
Proof.
  intros Hv. revert count. induction ks as [|k ks IH]; intros count Hks; [done |].
  cbn [sunday_search sunday_k].
  rewrite add_hours_days by first [done | apply Hks; left; reflexivity].
  cbn [dt_year dt_month dt_day]. rewrite weekday_shift.
  destruct (_ =? 6); [destruct (_ <=? _); [done |] |]; apply IH; intros k' Hk'; apply Hks; by right.
Qed.

(** The first Sunday is at offset [(6 - w0) mod 7], the second a week later. *)
Lemma sunday_k_check :
  forallb (fun w0 => forallb (fun ts =>
    match sunday_k ts w0 (zrange 0 16) 0 with
    | Some k => k =? (6 - w0) mod 7 + 7 * (ts - 1)
    | None => false
    end) [1; 2]) (zrange 0 7) = true.
Proof. vm_compute. reflexivity. Qed.

Lemma sunday_k_value ts w0 :
  0 <= w0 < 7 -> ts = 1 \/ ts = 2 ->
  sunday_k ts w0 (zrange 0 16) 0 = Some ((6 - w0) mod 7 + 7 * (ts - 1)).
Proof.
  intros Hw Hts. pose proof sunday_k_check as H. rewrite forallb_forall in H.
  specialize (H w0 (in_zrange 0 7 w0 ltac:(lia))). rewrite forallb_forall in H.
  specialize (H ts ltac:(destruct Hts as [-> | ->]; simpl; auto)).
  destruct (sunday_k _ _ _ _); [| done]. apply Z.eqb_eq in H. by subst.
Qed.

Lemma valid_date_spec y m d :
  valid_date y m d = true <-> 1 <= y <= 9999 /\ 1 <= m <= 12 /\ 1 <= d <= days_in_month y m.
Proof. unfold valid_date. rewrite !andb_true_iff, !Z.leb_le. tauto. Qed.

Lemma days_in_month_le y m : days_in_month y m <= 31.
Proof. unfold days_in_month. destruct (m =? 2), (is_leap y), ((m =? 4) || (m =? 6) || (m =? 9) || (m =? 11)); lia. Qed.

Lemma in_zrange_inv lo n x : In x (zrange lo n) -> lo <= x < lo + n.
Proof. unfold zrange. intros (i & <- & Hi)%in_map_iff. apply in_seq in Hi. lia. Qed.

(** C4: [daylightMe] implements the daylight-saving rule at day
    granularity: daylight time from April to October, in March from the
    second Sunday on, in November before the first Sunday.  The first
    Sunday of November itself counts as standard time, while the design
    says daylight time lasts "through" it. *)
Theorem daylightMe_rule t :
  valid_datetime t = true -> daylightMe t = Ok (dst_rule (dt_year t) (dt_month t) (dt_day t)).
Proof.
  intros Hv. pose proof Hv as Hv'. apply valid_datetime_spec in Hv' as (Hd & Hh & Hmi).
  destruct t as [y m d h mi]; cbn [dt_year dt_month dt_day dt_hour dt_minute] in *.
  apply valid_date_spec in Hd as (Hy & Hm & Hd).
  unfold daylightMe, dst_rule; cbn [dt_year dt_month dt_day dt_hour].
  destruct ((4 <=? m) && (m <=? 10)) eqn:E1; [done |].
  destruct ((m =? 12) || (m <=? 2)) eqn:E2.
  { destruct (m =? 3) eqn:E3; [| destruct (m =? 11) eqn:E4; [| done]];
      apply orb_true_iff in E2; rewrite Z.eqb_eq, Z.leb_le in *; lia. }
  assert (Hm' : m = 3 \/ m = 11).
  { apply andb_false_iff in E1. apply orb_false_iff in E2. rewrite Z.leb_gt, Z.eqb_neq in *. lia. }
  assert (Hdim : days_in_month y m >= 30) by (destruct Hm' as [-> | ->]; unfold days_in_month; simpl; lia).
  pose proof (days_in_month_le y m).
  rewrite datecode_value by lia. cbn [res_bind].
  rewrite sunday_search_k.
  2: { apply valid_datetime_spec. simpl. split; [apply valid_date_spec; lia | lia]. }
  2: { intros k Hk%in_zrange_inv. apply valid_date_spec. lia. }
  unfold first_sunday. set (w0 := weekday _).
  assert (Hw0 : 0 <= w0 < 7) by (apply Z.mod_pos_bound; lia).
  rewrite sunday_k_value by (done || destruct (m =? 3); auto).
  rewrite datecode_value by (pose proof (Z.mod_pos_bound (6 - w0) 7); destruct (m =? 3); lia).
  cbn [res_bind]. f_equal.
  pose proof (Z.mod_pos_bound (6 - w0) 7).
  destruct Hm' as [-> | ->]; subst w0; cbn -[Z.mul Z.add Z.modulo Z.leb Z.ltb weekday];
    repeat match goal with |- context [?a <=? ?b] => destruct (a <=? b) eqn:?
                         | |- context [?a <? ?b] => destruct (a <? b) eqn:? end;
    rewrite ?Z.leb_le, ?Z.leb_gt, ?Z.ltb_lt, ?Z.ltb_ge in *; lia.
Qed.



Lemma daylightMe_rule_witness :
  valid_datetime {| dt_year := 2024; dt_month := 11; dt_day := 3; dt_hour := 12; dt_minute := 0 |} = true /\
  daylightMe {| dt_year := 2024; dt_month := 11; dt_day := 3; dt_hour := 12; dt_minute := 0 |} = Ok 0.
Proof.
  split; [vm_compute; reflexivity |].
  rewrite daylightMe_rule by (vm_compute; reflexivity). vm_compute. reflexivity.
Defined.

Lemma civil_roundtrip_witness :
  valid_date 2024 2 29 = true /\ civil_from_days (days_from_civil 2024 2 29) = (2024, 2, 29).
Proof. split; [vm_compute; reflexivity | apply civil_roundtrip; vm_compute; reflexivity]. Defined.

Lemma fromtimestamp_timestamp_witness :
  valid_datetime {| dt_year := 2012; dt_month := 4; dt_day := 16; dt_hour := 8; dt_minute := 39 |} = true /\
  fromtimestamp (timestamp {| dt_year := 2012; dt_month := 4; dt_day := 16; dt_hour := 8; dt_minute := 39 |}) =
  {| dt_year := 2012; dt_month := 4; dt_day := 16; dt_hour := 8; dt_minute := 39 |}.
Proof. split; [vm_compute; reflexivity | apply fromtimestamp_timestamp; vm_compute; reflexivity]. Defined.
