(* ===== verification/Quake.v ===== *)
(** * The earthquake sentence and its local time (EarthquakeExtractor)

    Lines 1313-1385 of nwr_tsu.py ([grabTWC]) and [parseHawaiiEQ] (lines
    1444-1470).  After the segment loop, [grabTWC]
    - reads the product time (the regular expression of line 1315) and
      takes its year, or the current local year ([product_year]);
    - finds the first segment naming both EARTHQUAKE and MAGNITUDE, and in
      it the earthquake paragraph: for Hawaii the paragraph after "AN
      EARTHQUAKE HAS OCCURRED WITH THESE" goes through [parseHawaiiEQ]; for
      the other bulletins the paragraph itself is reworded
      ([find_eseg]);
    - converts the time of the sentence to local time ([convert_eq_time]):
      the time, zone and date are read with the regular expression of line
      1353 and [time.strptime], shifted by the zone's offset and the local
      standard offset [tz], and written back into the sentence; the local
      date-time string is kept as [daytime];
    - tidies the blanks of the sentence ([tidy_eseg]).
    Every exception of these steps ([IndexError], [ValueError]) reaches the
    [try] of [grabTWC]; [res] carries it. *)

From stdpp Require Import base list strings decidable.
From Stdlib Require Import String Ascii ZArith Lia.
From S2P Require Import Prelude PyStr Config Zones Arrivals Civil.

Local Open Scope string_scope.
Local Open Scope nat_scope.
Local Open Scope tsu_scope.

(** The leftmost position of [s] where the anchored matcher [f]
    succeeds: [re.findall(...)[0]] when there is a match. *)
Fixpoint re_first {A} (f : string -> option A) (s : string) : option A :=
  match f s with
  | Some a => Some a
  | None => match s with String _ s' => re_first f s' | EmptyString => None end
  end.

Definition char_in (cs : string) (c : ascii) : bool := contains (String c "") cs.
Definition is_alpha (c : ascii) : bool := is_upper c || is_upper (upper_char c).

(** ** The product time (lines 1314-1320) *)

(** [([0-9]+[\s][A,P][M][\s][P,M,C,E,A][D,S][T][\s][A-Za-z][A-Za-z][A-Za-z][\s][A-Z][A-Z][A-Z][\s][0-9]+[\s]+[0-9]+)]
    anchored at the head of [s]; each [+] is greedy and no class of the
    pattern overlaps the next one, so the match is unique. *)
Definition prodtime_at (s : string) : option string :=
  match run1 is_digit s with
  | None => None
  | Some (g1, s1) =>
      match s1 with
      | String w1 (String ap (String mm (String w2 (String z (String ds (String t (String w3
          (String a1 (String a2 (String a3 (String w4 (String b1 (String b2 (String b3
          (String w5 rest))))))))))))))) =>
          if is_space w1 && char_in "A,P" ap && Ascii.eqb mm "M" && is_space w2
             && char_in "P,M,C,E,A" z && char_in "D,S" ds && Ascii.eqb t "T" && is_space w3
             && is_alpha a1 && is_alpha a2 && is_alpha a3 && is_space w4
             && is_upper b1 && is_upper b2 && is_upper b3 && is_space w5
          then
            match run1 is_digit rest with
            | None => None
            | Some (g2, r2) =>
                match run1 is_space r2 with
                | None => None
                | Some (g3, r3) =>
                    match run1 is_digit r3 with
                    | None => None
                    | Some (g4, _) =>
                        Some (substring 0 (String.length g1 + 16 + String.length g2
                                           + String.length g3 + String.length g4) s)
                    end
                end
            end
          else None
      | _ => None
      end
  end%char.

(** [yy]: the seventh blank-separated word of the product time, or the
    current local year. *)
Definition product_year (tsuin : string) (this_year : Z) : string :=
  let prodtime := match re_first prodtime_at tsuin with Some p => p | None => "" end in
  let tmp := str_split " " prodtime in
  if 6 <? List.length tmp then nth 6 tmp "" else str_Z this_year.

(** ** The earthquake paragraph (lines 1322-1346) *)

(** [parseHawaiiEQ(segment)] (lines 1444-1470); the state is
    (otime, location, magnitude). *)
Definition hawaii_eq_line (st : string * string * string) (line : string)
    : res (string * string * string) :=
  let '(otime, location, magnitude) := st in
  otime' <-
    (if contains "ORIGIN TIME" line then
       let field := str_split " " (rstrip line) in
       f5 <- py_index 5 field ;;
       f3 <- py_index 3 field ;;
       let ozone := if negb (String.eqb f5 "HST") then f3 else "HAWAII STANDARD TIME" in
       f4 <- py_index 4 field ;; f6 <- py_index 6 field ;;
       f7 <- py_index 7 field ;; f8 <- py_index 8 field ;;
       Ok (f3 ++ " " ++ f4 ++ " " ++ ozone ++ " ON " ++ f6 ++ " " ++ f7 ++ " " ++ f8)
     else Ok otime) ;;
  let location' :=
    if contains "LOCATION" line then
      match str_find " - " line with
      | Some (S i) => str_drop (S i + 3) line
      | _ => location
      end
    else location in
  magnitude' <-
    (if contains "MAGNITUDE" line then py_index 2 (str_split " " line) else Ok magnitude) ;;
  Ok (otime', location', magnitude').

Fixpoint hawaii_eq_lines (st : string * string * string) (lines : list string)
    : res (string * string * string) :=
  match lines with
  | [] => Ok st
  | l :: rest => st' <- hawaii_eq_line st l ;; hawaii_eq_lines st' rest
  end.

Definition parseHawaiiEQ (segment : string) : res string :=
  st <- hawaii_eq_lines ("", "", "") (splitlines (upper segment)) ;;
  let '(otime, location, magnitude) := st in
  Ok ("AN EARTHQUAKE WITH A PRELIMINARY MAGNITUDE OF " ++ magnitude ++ " OCCURRED " ++ location
      ++ " AT " ++ otime).

(** Line 1327: the paragraphs of the earthquake segment. *)
Definition eq_paragraphs (s : string) : list string :=
  str_split (nl ++ nl)
    (str_replace (nl ++ " ") nl (str_replace "  " " " (str_replace "  " " " (str_replace cr "" s)))).

(** Lines 1340-1343: the rewording of a free-prose paragraph. *)
Definition reword (p : string) : string :=
  let e := str_replace "OF OF" "OF"
             (str_replace "MAGNITUDE" "MAGNITUDE OF"
                (str_replace "WITH PRELIMINARY" "WITH A PRELIMINARY" p)) in
  if String.eqb (slice 0 2 e) "* " then str_drop 2 e else e.

Definition hawaii_eq_flag : string := "AN EARTHQUAKE HAS OCCURRED WITH THESE".

(** The loop of lines 1328-1345 over the paragraphs [ss[j:]]; the guard
    [len(ss) > j] of line 1337 always holds, so the paragraph after the
    flag is read with [ss[j+1]], which raises when the flag is in the last
    paragraph. *)
Fixpoint eq_loop (hawaii : bool) (ss : list string) (j : nat) (rest : list string) : res string :=
  match rest with
  | [] => Ok ""
  | p :: rest' =>
      if hawaii then
        if contains hawaii_eq_flag p && (j <? List.length ss) then
          next <- py_index (Z.of_nat (j + 1)) ss ;; parseHawaiiEQ next
        else eq_loop hawaii ss (S j) rest'
      else if contains "EARTHQUAKE" p && contains "MAGNITUDE" p then Ok (reword p)
      else eq_loop hawaii ss (S j) rest'
  end.

(** Lines 1324-1346: only the first segment naming both words is read. *)
Fixpoint find_eseg (hawaii : bool) (segs : list string) : res string :=
  match segs with
  | [] => Ok ""
  | s :: rest =>
      if contains "EARTHQUAKE" s && contains "MAGNITUDE" s then
        let ss := eq_paragraphs s in eq_loop hawaii ss 0 ss
      else find_eseg hawaii rest
  end.

(** ** Conversion to local time (lines 1348-1384) *)

(** Line 409, in insertion order. *)
Definition tz_offlist : dict Z :=
  [("ALASKAN", 9%Z); ("ALASKA", 9%Z); ("PACIFIC", 8%Z); ("MOUNTAIN", 7%Z);
   ("CENTRAL", 6%Z); ("EASTERN", 5%Z); ("ATLANTIC", 4%Z)].

(** Line 410. *)
Definition tz_long : dict string :=
  [("pst", "PACIFIC"); ("akst", "ALASKA"); ("mst", "MOUNTAIN"); ("cst", "CENTRAL");
   ("est", "EASTERN"); ("ast", "ATLANTIC"); ("hst", "HAWAII"); ("chst", "CHAMORRO")].

(** Line 405: [tzset=tz_list[dst]], [tz_list=[tzid, tzid.replace("st","dt")]]. *)
Definition tzset_of (tzid : string) (dst : Z) : string :=
  if Z.eqb dst 1 then str_replace "st" "dt" tzid else tzid.

(** [AT ([0-9][0-9][0-9][0-9]? [A,P][M]) (ALASKAN|ALASKA|...|ATLANTIC) (DAYLIGHT|STANDARD|)]
    anchored at the head of [s] (line 1353, the zone names in the order of
    [tz_offlist]).  Backtracking never changes the result: the optional
    fourth digit is followed by a blank, the first zone name followed by a
    blank is the only one that can continue, and the last group may be
    empty. *)
Definition eqtime_at (s : string) : option (string * string * string) :=
  match s with
  | String a (String t (String sp (String d1 (String d2 (String d3 rest))))) =>
      if Ascii.eqb a "A"%char && Ascii.eqb t "T"%char && Ascii.eqb sp " "%char && is_digit d1 && is_digit d2 && is_digit d3 then
        let '(digits, r1) :=
          match rest with
          | String d4 (String b r) =>
              if Ascii.eqb b " "%char then
                (if is_digit d4 then (String d1 (String d2 (String d3 (String d4 ""))), r) else ("", ""))
              else if Ascii.eqb d4 " "%char then (String d1 (String d2 (String d3 "")), String b r)
              else ("", "")
          | String d4 EmptyString =>
              if Ascii.eqb d4 " "%char then (String d1 (String d2 (String d3 "")), "") else ("", "")
          | _ => ("", "")
          end in
        if String.eqb digits "" then None else
        match r1 with
        | String ap (String m (String b r2)) =>
            if char_in "A,P" ap && Ascii.eqb m "M"%char && Ascii.eqb b " "%char then
              let g1 := digits ++ " " ++ String ap "M" in
              first_some (fun '(zn, _) =>
                if String.prefix (zn ++ " ") r2 then
                  let r3 := str_drop (String.length zn + 1) r2 in
                  let g3 := if String.prefix "DAYLIGHT" r3 then "DAYLIGHT"
                            else if String.prefix "STANDARD" r3 then "STANDARD" else "" in
                  Some (g1, zn, g3)
                else None) tz_offlist
            else None
        | _ => None
        end
      else None
  | _ => None
  end.

(** Lines 1357-1363: [dd], the month and the following word; the last
    month found wins. *)
Definition find_dd (eseg : string) : string :=
  fold_left (fun dd m =>
    if negb (String.eqb m "") && contains m eseg then
      match str_find m eseg with
      | Some i => let t := str_split " " (str_drop i eseg) in
                  if 1 <? List.length t then m ++ " " ++ nth 1 t "" else dd
      | None => dd
      end
    else dd) mon_longer "".

(** Lines 1367-1374: the time zone name written into the sentence. *)
Definition local_tzname (tzid : string) (dst : Z) (zone g3 : string) : string :=
  match dict_get zone tz_offlist, dict_get tzid tz_long with
  | Some _, Some l =>
      let n := l ++ " STANDARD TIME" in
      if Z.eqb dst 1 then str_replace "STANDARD" "DAYLIGHT" n else n
  | _, _ => zone ++ " " ++ g3 ++ " " ++ "TIME"
  end.

(** Lines 1366-1369: the earthquake time stamp in local standard time. *)
Definition local_stamp (tz : Z) (zone : string) (ut : Z) : Z :=
  match dict_get zone tz_offlist with
  | Some eoff => (ut + 3600 * eoff - 3600 * tz)%Z
  | None => ut
  end.

(** Lines 1376-1378: [daytime]. *)
Definition daytime_of (tzdt : datetime) (tzname : string) : string :=
  let raw := strftime_B tzdt ++ " DDD " ++ strftime_Y tzdt ++ " AT TTT" ++ strftime_M tzdt
             ++ " " ++ strftime_p tzdt ++ " XXX" in
  str_replace "XXX" tzname (str_replace "TTT" (str_Z (hour12 tzdt))
                              (str_replace "DDD" (str_Z (dt_day tzdt)) raw)).

(** Lines 1349-1384: the new [eseg] and [daytime] ([None]: not set). *)
Definition convert_eq_time (tzid : string) (tz dst : Z) (yy eseg : string)
    : res (string * option string) :=
  let tzset := tzset_of tzid dst in
  if negb (String.eqb tzset "") && negb (contains tzset eseg) then
    match re_first eqtime_at eseg with
    | None => Ok (eseg, None)
    | Some (g1, zone, g3) =>
        let dd := find_dd eseg in
        t <- strptime_BdYIMp (dd ++ " " ++ yy ++ " " ++ g1) ;;
        let tzdt := fromtimestamp (local_stamp tz zone (timestamp t)) in
        let daytime := daytime_of tzdt (local_tzname tzid dst zone g3) in
        let dtarr := str_split " " daytime in
        a4 <- py_index 4 dtarr ;; a5 <- py_index 5 dtarr ;;
        let e1 := str_replace g1 (a4 ++ " " ++ a5) eseg in
        a6 <- py_index 6 dtarr ;; a7 <- py_index 7 dtarr ;;
        let e2 := str_replace (zone ++ " " ++ g3) (a6 ++ " " ++ a7) e1 in
        a0 <- py_index 0 dtarr ;; a1 <- py_index 1 dtarr ;;
        Ok (str_replace dd (a0 ++ " " ++ a1) e2, Some daytime)
    end
  else Ok (eseg, None).

(** Line 1385. *)
Definition tidy_eseg (eseg : string) : string :=
  rstrip_by is_blank (lstrip_by is_blank
    (str_replace "  " " " (str_replace "  " " " (str_replace nl " " eseg)))).

(** * Properties *)

Lemma eq_loop_flag_last ss pre p j :
  forallb (fun q => negb (contains hawaii_eq_flag q)) pre = true ->
  contains hawaii_eq_flag p = true -> j + List.length pre + 1 = List.length ss ->
  eq_loop true ss j (pre ++ [p]) = Raise IndexError.
Proof.
  revert j. induction pre as [|q pre IH]; intros j Hpre Hp Hj; simpl in *.
  - rewrite Hp. replace (j <? List.length ss) with true by (symmetry; apply Nat.ltb_lt; lia).
    simpl. unfold py_index. rewrite <- Hj.
    destruct (Z.of_nat (j + 1) <? 0)%Z eqn:E0; [apply Z.ltb_lt in E0; lia |].
    replace (_ && _)%Z with false; [done |]. symmetry. apply andb_false_iff. right. apply Z.ltb_ge. lia.
  - apply andb_true_iff in Hpre as [Hq Hpre]. apply negb_true_iff in Hq. rewrite Hq. simpl.
    apply IH; [done | done | lia].
Qed.

(** C37: for a Hawaii bulletin whose earthquake flag "AN EARTHQUAKE HAS
    OCCURRED WITH THESE" is in the last paragraph of the earthquake
    segment, reading the next paragraph raises [IndexError]: the guard
    [len(ss) > j] of line 1337 was meant to be [len(ss) > j+1]. *)
Theorem hawaii_flag_last_raises pre p :
  forallb (fun q => negb (contains hawaii_eq_flag q)) pre = true ->
  contains hawaii_eq_flag p = true ->
  eq_loop true (pre ++ [p]) 0 (pre ++ [p]) = Raise IndexError.
Proof. intros Hpre Hp. apply eq_loop_flag_last; [done | done | rewrite length_app; simpl; lia]. Qed.

Lemma hawaii_flag_last_raises_witness :
  forallb (fun q => negb (contains hawaii_eq_flag q)) ["TSUNAMI MESSAGE NUMBER 1"] = true /\
  contains hawaii_eq_flag "AN EARTHQUAKE HAS OCCURRED WITH THESE PRELIMINARY PARAMETERS" = true /\
  eq_loop true ["TSUNAMI MESSAGE NUMBER 1"; "AN EARTHQUAKE HAS OCCURRED WITH THESE PRELIMINARY PARAMETERS"] 0
    ["TSUNAMI MESSAGE NUMBER 1"; "AN EARTHQUAKE HAS OCCURRED WITH THESE PRELIMINARY PARAMETERS"] = Raise IndexError.
Proof.
  split; [vm_compute; reflexivity |]. split; [vm_compute; reflexivity |].
  exact (hawaii_flag_last_raises ["TSUNAMI MESSAGE NUMBER 1"]
           "AN EARTHQUAKE HAS OCCURRED WITH THESE PRELIMINARY PARAMETERS"
           ltac:(vm_compute; reflexivity) ltac:(vm_compute; reflexivity)).
Defined.

Lemma re_first_Some {A} (f : string -> option A) s a : re_first f s = Some a -> exists s', f s' = Some a.
Proof.
  induction s as [|c s IH]; intros H; cbn [re_first] in H; destruct (f _) eqn:E.
  - exists ""; congruence.
  - discriminate.
  - exists (String c s); congruence.
  - by apply IH.
Qed.

Lemma first_some_Some {A B} (f : A -> option B) l b : first_some f l = Some b -> exists x, In x l /\ f x = Some b.
Proof.
  induction l as [|x l IH]; intros H; cbn [first_some] in H; [discriminate|].
  destruct (f x) eqn:E; [injection H as <-; exists x; split; [left|]; done|].
  destruct (IH H) as (y & ? & ?). exists y; split; [right|]; done.
Qed.

(** The zone the pattern of line 1353 reads is one of [tz_offlist]. *)
Lemma eqtime_zone s g1 zone g3 : re_first eqtime_at s = Some (g1, zone, g3) -> is_Some (dict_get zone tz_offlist).
Proof.
  intros H. apply re_first_Some in H as [s' H]. unfold eqtime_at in H.
  repeat case_match; try discriminate.
  all: apply first_some_Some in H as ([zn off] & Hin & H); case_match; [|discriminate];
    injection H as _ <- _; repeat destruct Hin as [[= <- <-]|Hin]; [eexists; reflexivity..|done].
Qed.

(** With a configured [tzid], the name of the zone written does not
    depend on the bulletin's DAYLIGHT or STANDARD. *)
Lemma local_tzname_word tzid dst zone g3 g3' :
  is_Some (dict_get zone tz_offlist) -> is_Some (dict_get tzid tz_long) ->
  local_tzname tzid dst zone g3 = local_tzname tzid dst zone g3'.
Proof. intros [? Hz] [? Ht]. unfold local_tzname. by rewrite Hz, Ht. Qed.

(** C38: the conversion ignores whether the bulletin gives its time in
    daylight or standard time: two sentences with the same time, zone
    name and date, one saying DAYLIGHT and the other STANDARD (or
    nothing), get the same local time ([daytime]), whatever the office's
    zone, offset and [dst].  The zone's offset of [tz_offlist] is its
    standard one, so a bulletin time in daylight time comes out an hour
    late (lines 1364-1372). *)
Theorem convert_ignores_daylight_word tzid tz dst yy eseg eseg' g1 zone g3 g3' :
  is_Some (dict_get tzid tz_long) ->
  re_first eqtime_at eseg = Some (g1, zone, g3) -> re_first eqtime_at eseg' = Some (g1, zone, g3') ->
  find_dd eseg = find_dd eseg' ->
  contains (tzset_of tzid dst) eseg = contains (tzset_of tzid dst) eseg' ->
  res_map snd (convert_eq_time tzid tz dst yy eseg) = res_map snd (convert_eq_time tzid tz dst yy eseg').
Proof.
  intros Ht H1 H2 Hdd Hc. pose proof (eqtime_zone _ _ _ _ H1) as Hz.
  unfold convert_eq_time. rewrite Hc.
  destruct (negb _ && negb _); [|reflexivity].
  rewrite H1, H2, Hdd, (local_tzname_word tzid dst zone g3 g3' Hz Ht).
  unfold res_bind. repeat case_match; reflexivity.
Qed.

Lemma convert_ignores_daylight_word_witness :
  is_Some (dict_get "pst" tz_long) /\
  re_first eqtime_at "QUAKE AT 839 AM PACIFIC STANDARD TIME ON APRIL 16 2012." = Some ("839 AM", "PACIFIC", "STANDARD") /\
  re_first eqtime_at "QUAKE AT 839 AM PACIFIC DAYLIGHT TIME ON APRIL 16 2012." = Some ("839 AM", "PACIFIC", "DAYLIGHT") /\
  res_map snd (convert_eq_time "pst" 8 1 "2012" "QUAKE AT 839 AM PACIFIC STANDARD TIME ON APRIL 16 2012.") =
    Ok (Some "April 16 2012 AT 839 AM PACIFIC DAYLIGHT TIME") /\
  res_map snd (convert_eq_time "pst" 8 1 "2012" "QUAKE AT 839 AM PACIFIC STANDARD TIME ON APRIL 16 2012.") =
  res_map snd (convert_eq_time "pst" 8 1 "2012" "QUAKE AT 839 AM PACIFIC DAYLIGHT TIME ON APRIL 16 2012.").
Proof.
  assert (Ht : is_Some (dict_get "pst" tz_long)) by (eexists; reflexivity).
  assert (H1 : re_first eqtime_at "QUAKE AT 839 AM PACIFIC STANDARD TIME ON APRIL 16 2012." =
               Some ("839 AM", "PACIFIC", "STANDARD")) by (vm_compute; reflexivity).
  assert (H2 : re_first eqtime_at "QUAKE AT 839 AM PACIFIC DAYLIGHT TIME ON APRIL 16 2012." =
               Some ("839 AM", "PACIFIC", "DAYLIGHT")) by (vm_compute; reflexivity).
  split; [exact Ht|]. split; [exact H1|]. split; [exact H2|]. split; [vm_compute; reflexivity|].
  exact (convert_ignores_daylight_word "pst" 8 1 "2012" _ _ _ _ _ _ Ht H1 H2
           ltac:(vm_compute; reflexivity) ltac:(vm_compute; reflexivity)).
Defined.
