(* ===== verification/Parser.v ===== *)
(** * [grabTWC]: the bulletin parser (BulletinParser)

    Lines 1049-1402 of nwr_tsu.py.  [grabTWC(pil, zone_ids)] reads the
    bulletin (a file, or the text database; the text read is the input
    [tsuin] of the model, [None] for a missing file), then inside one
    [try]:
    - cuts it into segments and detects the bulletin variant
      ([Segments.bulletin_segments], [Arrivals.detect_variant]);
    - runs the segment loop ([Segments.segments_loop]);
    - reads the product year and the earthquake sentence and converts its
      time ([Quake]);
    and then, outside the [try], replaces a result without any zone by the
    "No tsunami WWA" notice and marks a bulletin containing "TEST" as a
    test.  Any exception inside the [try] discards everything parsed and
    returns the "Autofill parsing failed!" notice.

    The current local year and the daylight-saving flag [dst] of the
    module globals (lines 396-405) are parameters. *)

From stdpp Require Import base list strings decidable.
From Stdlib Require Import String Ascii ZArith Lia.
From S2P Require Import Prelude PyStr Config Info Zones Arrivals Segments Civil Quake.

Local Open Scope string_scope.
Local Open Scope nat_scope.
Local Open Scope tsu_scope.

(** Line 1391. *)
Definition parse_failed_msg : string :=
  "Autofill parsing failed!" ++ nl ++ "View TSU statement from the black button at the top right and try another version, or use one of the options from the Templates menu.".

(** Line 1397. *)
Definition no_wwa_msg : string :=
  "No tsunami WWA is in effect for your area, or the parsing failed." ++ nl ++ "Click the View TSU statement to check or load a previous version".

(** The body of the [try] (lines 1110-1385): the parsed dict and
    [testvtec]. *)
Definition parse_body (g : globals) (this_year dst : Z) (zone_ids : list string) (tsuin : string)
    : res seg_state :=
  let segs := bulletin_segments tsuin in
  seg0 <- py_index 0 segs ;;
  let v := detect_variant seg0 in
  st <- segments_loop g zone_ids v segs {| st_info := empty_info; st_testvtec := false |} ;;
  let yy := product_year tsuin this_year in
  eseg <- find_eseg (is_hawaii v) segs ;;
  conv <- convert_eq_time (g_tzid g) (g_tz g) dst yy eseg ;;
  let h := st_info st in
  let daytime := match snd conv with Some d => d | None => hi_daytime h end in
  Ok {| st_info := set_eq h (tidy_eseg (fst conv)) daytime; st_testvtec := st_testvtec st |}.

(** Line 1395: no hazard has a zone. *)
Definition no_zones (h : hazard_info) : bool :=
  match hi_warning h, hi_watch h, hi_advisory h with [], [], [] => true | _, _, _ => false end.

(** Line 1400: the test-product condition. *)
Definition is_test_product (tsuin : string) (testvtec : bool) : bool :=
  negb (String.eqb tsuin "") && ((testvtec && contains "TEST" tsuin) || contains "TEST" tsuin).

Definition grabTWC (g : globals) (this_year dst : Z) (zone_ids : list string) (input : option string)
    : info_dict :=
  match input with
  | None => InfoFull empty_info
  | Some tsuin =>
      match parse_body g this_year dst zone_ids tsuin with
      | Raise _ => InfoReset parse_failed_msg
      | Ok st =>
          let h := st_info st in
          if no_zones h then InfoReset no_wwa_msg
          else if is_test_product tsuin (st_testvtec st) then InfoFull (set_extra h test_notice)
          else InfoFull h
      end
  end.

(** A warning bulletin for the coast of the template configuration. *)
Definition demo_bulletin : string := "WEPA41 PAAQ 161639
TSUWCA

BULLETIN
TSUNAMI MESSAGE NUMBER 1
NWS NATIONAL TSUNAMI WARNING CENTER PALMER AK
939 AM PDT MON APR 16 2012

CAZ039>041-161839-
/O.NEW.PAAQ.TS.W.0001.120416T1639Z-000000T0000Z/
COASTAL AREAS BETWEEN POINT CONCEPTION AND SANTA MONICA

AN EARTHQUAKE WITH PRELIMINARY MAGNITUDE 7.5 OCCURRED 60 MILES
SOUTH OF KODIAK ALASKA AT 839 AM ALASKA DAYLIGHT TIME ON APRIL 16 2012.

$$
".

(** * Properties *)

(** The type invariant of a parse result. *)
Definition result_inv (zone_ids : list string) (d : info_dict) : Prop :=
  match d with InfoFull h => info_inv zone_ids h | InfoReset _ => True end.

Lemma info_inv_set_eq zone_ids h e d : info_inv zone_ids h -> info_inv zone_ids (set_eq h e d).
Proof. intros [Hz Hi]. split; [intros k; rewrite hi_zones_set_eq; apply Hz | apply Hi]. Qed.

Lemma info_inv_set_extra zone_ids h m : info_inv zone_ids h -> info_inv zone_ids (set_extra h m).
Proof. intros [Hz Hi]. split; [intros k; rewrite hi_zones_set_extra; apply Hz | apply Hi]. Qed.

(** A parse that returns holds the invariant and no notice. *)
Lemma parse_body_ok g y dst zone_ids tsuin st :
  parse_body g y dst zone_ids tsuin = Ok st ->
  info_inv zone_ids (st_info st) /\ hi_extra (st_info st) = "".
Proof.
  unfold parse_body. intros E.
  apply res_bind_eq_Ok in E as (seg0 & _ & E). apply res_bind_eq_Ok in E as (st1 & Hl & E).
  apply res_bind_eq_Ok in E as (eseg & _ & E). apply res_bind_eq_Ok in E as (conv & _ & E).
  injection E as <-. cbn [st_info]. split.
  - apply info_inv_set_eq. exact (segments_loop_inv g zone_ids _ _ {| st_info := empty_info; st_testvtec := false |} _
      (info_inv_empty zone_ids) Hl).
  - cbn. by rewrite (segments_loop_extra _ _ _ _ _ _ Hl).
Qed.

(** C1: whatever the bulletin text, the dict [grabTWC] returns lists for
    each hazard distinct zones of the office's [zone_ids], and records
    only the issuance kinds ["new"] and ["continue"]. *)
Theorem grabTWC_inv g y dst zone_ids input : result_inv zone_ids (grabTWC g y dst zone_ids input).
Proof.
  unfold grabTWC. destruct input as [tsuin|]; [| apply info_inv_empty].
  destruct (parse_body _ _ _ _ _) as [st|] eqn:E; [| done].
  destruct (parse_body_ok _ _ _ _ _ _ E) as [Hinv _].
  destruct (no_zones _); [done |]. destruct (is_test_product _ _); [by apply info_inv_set_extra | done].
Qed.

(** C34: the test notice is set exactly when the raw bulletin text contains
    "TEST" anywhere (lines 1400-1402): the VTEC test flag [testvtec]
    makes no difference, and a word such as "LATEST" is enough. *)
Theorem grabTWC_test_notice g y dst zone_ids tsuin h :
  grabTWC g y dst zone_ids (Some tsuin) = InfoFull h ->
  (hi_extra h = test_notice <-> contains "TEST" tsuin = true).
Proof.
  unfold grabTWC. destruct (parse_body _ _ _ _ _) as [st|] eqn:E; [| discriminate].
  destruct (parse_body_ok _ _ _ _ _ _ E) as [_ Hx].
  destruct (no_zones _); [discriminate |]. unfold is_test_product.
  destruct (contains "TEST" tsuin) eqn:C.
  - destruct tsuin as [|c t]; [discriminate C |]. rewrite orb_true_r. simpl.
    intros H; injection H as <-. done.
  - rewrite orb_false_r, andb_false_r, andb_false_r. intros H; injection H as <-.
    rewrite Hx. split; intros H; discriminate H.
Qed.

(** the parse of [demo_bulletin] with the template configuration in
    daylight time: the expanded warning zones, the reworded earthquake
    sentence with its time converted from Alaska to Pacific time, and the
    local date-time. *)
Theorem grabTWC_demo :
  grabTWC template_globals 2012 1 (g_zone_ids template_globals) (Some demo_bulletin) =
  InfoFull {|
    hi_warning := ["CAZ039"; "CAZ040"; "CAZ041"]; hi_watch := []; hi_advisory := [];
    hi_arrivals_warning := []; hi_arrivals_watch := []; hi_arrivals_advisory := [];
    hi_issue := ["new"];
    hi_eseg := "AN EARTHQUAKE WITH A PRELIMINARY MAGNITUDE OF 7.5 OCCURRED 60 MILES SOUTH OF KODIAK ALASKA AT 939 AM PACIFIC DAYLIGHT TIME ON April 16 2012.";
    hi_daytime := "April 16 2012 AT 939 AM PACIFIC DAYLIGHT TIME";
    hi_extra := "" |}.
Proof. vm_compute. reflexivity. Qed.

Lemma grabTWC_test_notice_witness :
  let tsuin := demo_bulletin ++ "SEE THE LATEST BULLETIN" in
  let r := grabTWC template_globals 2012 1 (g_zone_ids template_globals) (Some tsuin) in
  r = InfoFull (info_full r) /\ contains "TEST" tsuin = true /\ hi_extra (info_full r) = test_notice.
Proof.
  cbv zeta. assert (H : grabTWC template_globals 2012 1 (g_zone_ids template_globals)
    (Some (demo_bulletin ++ "SEE THE LATEST BULLETIN")) = InfoFull (info_full (grabTWC template_globals 2012 1
    (g_zone_ids template_globals) (Some (demo_bulletin ++ "SEE THE LATEST BULLETIN")))))
    by (vm_compute; reflexivity).
  assert (Hc : contains "TEST" (demo_bulletin ++ "SEE THE LATEST BULLETIN") = true) by (vm_compute; reflexivity).
  split; [exact H | split; [exact Hc |]].
  exact (proj2 (grabTWC_test_notice _ _ _ _ _ _ H) Hc).
Defined.
