(* ===== verification/Compose.v ===== *)
(** * Statement composition (AreaDescriptionEngine, StatementComposer)

    nwr_tsu.py lines 574-587 ([hazDefMe]), 1510-1602 ([zonelistFull],
    [breakpointMe]), 766-853 ([statementMake], [cleanStatement]) and the
    composing part of [autoFill] (lines 656-709) and [fillWWA] (lines
    855-883).

    - [py_repr] and [py_str_list] model CPython's [repr] of a string and
      [str] of a list of strings, which [zonelistFull] prints and then
      strips of brackets and quotes;
    - [breakpointMe] is the whole function, both the zone-listing scheme
      used when [breakpoint_list] is empty (always, after line 353) and the
      breakpoint scheme;
    - [statementMake] takes the text of the template file, [None] when
      [os.path.isfile] fails, and the local date [todaylocal];
    - [compose_single] is the single-hazard branch of [autoFill]. *)

From stdpp Require Import base list strings decidable.
From Stdlib Require Import String Ascii ZArith Lia.
From S2P Require Import Prelude PyStr Config Info Scenario Zones Segments Civil Quake Parser.

Local Open Scope string_scope.
Local Open Scope nat_scope.
Local Open Scope tsu_scope.

(** ** [repr] of a Python string and [str] of a list of strings *)

Definition dq : ascii := "034".
Definition sq : ascii := "'".
Definition bslash : ascii := "\".

Definition hex_digit (n : nat) : ascii :=
  if n <? 10 then ascii_of_nat (48 + n) else ascii_of_nat (87 + n).

(** [Py_UNICODE_ISPRINTABLE] on the code points 0-255. *)
Definition printable (c : ascii) : bool :=
  let n := nat_of_ascii c in
  negb ((n <? 32) || (n =? 127) || ((128 <=? n) && (n <=? 160)) || (n =? 173)).

(** CPython [unicode_repr]: the quote is the single quote unless the
    text contains a single quote and no double quote. *)
Definition repr_quote (s : string) : ascii :=
  if contains (String sq "") s && negb (contains (String dq "") s) then dq else sq.

Definition repr_char (q c : ascii) : string :=
  if Ascii.eqb c q || Ascii.eqb c bslash then String bslash (String c "")
  else if Ascii.eqb c "009" then "\t"
  else if Ascii.eqb c "010" then "\n"
  else if Ascii.eqb c "013" then "\r"
  else if printable c then String c ""
  else String bslash (String "x" (String (hex_digit (nat_of_ascii c / 16))
                                   (String (hex_digit (nat_of_ascii c mod 16)) ""))).

Fixpoint repr_body (q : ascii) (s : string) : string :=
  match s with
  | EmptyString => ""
  | String c s' => repr_char q c ++ repr_body q s'
  end.

Definition py_repr (s : string) : string :=
  let q := repr_quote s in String q (repr_body q s ++ String q "").

Definition py_str_list (l : list string) : string :=
  "[" ++ String.concat ", " (map py_repr l) ++ "]".

(** ** [hazDefMe] (lines 574-587) *)

Definition hazDefMe (a : string) : string :=
  (if contains "warning" a then " IF YOU ARE LOCATED IN THIS COASTAL AREA, MOVE INLAND TO HIGHER GROUND." else "") ++
  (if contains "watch" a then " IF YOU ARE LOCATED IN THIS COASTAL AREA, STAY ALERT FOR FURTHER UPDATES." else "") ++
  (if contains "advisory" a then " IF YOU ARE LOCATED IN THIS COASTAL AREA, MOVE OFF THE BEACH AND OUT OF HARBORS." else "").

(** ** [zonelistFull] (lines 1510-1526) *)

Definition zone_name (zone_list : dict string) (z : string) : string :=
  match dict_get z zone_list with Some n => n | None => "XXXXXX" end.

(** [pre[len(pre)-1]="AND "+pre[len(pre)-1]] *)
Fixpoint and_last (l : list string) : list string :=
  match l with
  | [] => []
  | [x] => ["AND " ++ x]
  | x :: l' => x :: and_last l'
  end.

(** The [try] body raises nothing (every step is a dict lookup guarded by
    [in] or a string operation), so the [except] branch is not modelled. *)
Definition zonelistFull (zone_list : dict string) (zones : list string) : string :=
  let pre := map (zone_name zone_list) zones in
  if py_in "XXXXXX" pre || (List.length pre =? 0) then "XXXXXX"
  else if List.length pre =? 1 then nth 0 pre ""
  else
    let preme := str_replace (String sq "") "" (str_replace (String dq "") ""
                   (str_replace "]" "" (str_replace "[" "" (py_str_list (and_last pre))))) in
    if List.length pre =? 2 then str_replace ", AND" " AND" preme else preme.

(** ** [breakpointMe] (lines 1530-1602) *)

(** [info[wwa]]: the zone lists are the only keys the function reads;
    any other key raises [KeyError].  The zone lists are a function of the
    kind, so that the same definition serves the parse result [info] of
    [autoFill] and the three-key dict [arr] of [fillWWA].  The dicts
    [grabTWC] returns have no other zone key, so [info["warning_watch"]]
    does raise [KeyError] on them (line 1539).  [changeZone] (lines
    1473-1506, not modelled) can store zones under such a combination
    key, where the lookup would succeed; that path is outside the model. *)
Definition info_key (zs : kind -> list string) (wwa : string) : res (list string) :=
  match kind_of_key wwa with Some k => Ok (zs k) | None => Raise KeyError end.

(** The function returns the dict [out], or the empty list [[]] (line
    1538). *)
Inductive bp_out : Type :=
| BpList
| BpDict (out : dict string).

(** [wwa in breakpoints and breakpoints[wwa]] *)
Definition bp_get (b : bp_out) (wwa : string) : option string :=
  match b with BpList => None | BpDict d => dict_get wwa d end.

(** [breakpoints[wwa]]: a string subscript of the list [[]] raises
    [TypeError], a missing key of the dict [KeyError]. *)
Definition bp_index (b : bp_out) (wwa : string) : res string :=
  match b with
  | BpList => Raise TypeError
  | BpDict d => match dict_get wwa d with Some p => Ok p | None => Raise KeyError end
  end.

Definition bp_empty : dict string := [("watch", ""); ("warning", ""); ("advisory", "")].

(** Lines 1535-1544: the zone-listing scheme.  [active] is the global the
    function reads when called without a hazard. *)
Definition bp_listing (g : globals) (active : string) (zs : kind -> list string) (wwa : string)
    : res bp_out :=
  let wwa := if String.eqb wwa "" then active else wwa in
  if String.eqb wwa "" then Ok BpList else
  z <- info_key zs wwa ;;
  let phrase :=
    if List.length z =? List.length (g_zone_ids g) then
      (if String.eqb (g_localphrase g) "" then zonelistFull (g_zone_list g) z else g_localphrase g)
    else zonelistFull (g_zone_list g) z in
  Ok (BpDict (dict_set wwa phrase bp_empty)).

(** Lines 1549-1558 for one breakpoint: [bpoints[b]] as the list of its
    zone groups (the dict [{0: ..., 1: ...}] by index) and [compass[b]].
    A zone before the first direction appends to [bpoints[b][-1]], a
    missing key. *)
Fixpoint bp_groups (arr : list string) (groups : list (list string)) (compass : list string)
    : res (list (list string) * list string) :=
  match arr with
  | [] => Ok (groups, compass)
  | a :: arr' =>
      if negb (String.length a =? 6) then bp_groups arr' (groups ++ [[]]) (compass ++ [a])
      else match groups with
           | [] => Raise KeyError
           | _ => bp_groups arr' (take (List.length groups - 1) groups ++
                                  [List.last groups [] ++ [a]]) compass
           end
  end%list.

Fixpoint bp_table (bl : dict (list string)) : res (dict (list (list string) * list string)) :=
  match bl with
  | [] => Ok []
  | (b, arr) :: bl' => gc <- bp_groups arr [] [] ;; t <- bp_table bl' ;; Ok ((b, gc) :: t)
  end.

Definition bp_phrase (compass : list string) (i : nat) (b : string) : string :=
  "coastal areas " ++ nth i compass "" ++ " of " ++ b.

(** Lines 1572-1574: the last breakpoint one of whose groups equals the
    hazard's zone list wins. *)
Definition bp_match_one (t : dict (list (list string) * list string)) (z : list string) (cur : string)
    : string :=
  fold_left (fun cur '(b, (groups, compass)) =>
    let cur := if bool_decide (nth_error groups 0 = Some z) then bp_phrase compass 0 b else cur in
    if bool_decide (nth_error groups 1 = Some z) then bp_phrase compass 1 b else cur) t cur.

(** Lines 1587-1593, for two hazards covering every zone. *)
Definition bp_match_two (t : dict (list (list string) * list string)) (z1 : list string)
    (cur : string * string) : string * string :=
  fold_left (fun cur '(b, (groups, compass)) =>
    match nth_error groups 0, nth_error groups 1 with
    | Some g0, Some g1 =>
        let cur := if bool_decide (z1 = g0) then (bp_phrase compass 0 b, bp_phrase compass 1 b) else cur in
        if bool_decide (z1 = g1) then (bp_phrase compass 1 b, bp_phrase compass 0 b) else cur
    | _, _ => cur
    end) t cur.

Definition others (k : kind) : kind * kind :=
  match k with
  | Warning => (Watch, Advisory)
  | Watch => (Warning, Advisory)
  | Advisory => (Watch, Warning)
  end.

Definition set_out (k : kind) (v : string) (out : dict string) : dict string :=
  dict_set (kind_key k) v out.

Definition list_all (g : globals) (zs : kind -> list string) : dict string :=
  fold_left (fun out k => set_out k (zonelistFull (g_zone_list g) (zs k)) out)
    [Watch; Warning; Advisory] bp_empty.

Definition is_nil {A} (l : list A) : bool := match l with [] => true | _ => false end.

(** Lines 1566-1601: the loop over the three kinds, returning at the
    first kind whose case applies. *)
Fixpoint bp_loop (g : globals) (t : dict (list (list string) * list string))
    (zs : kind -> list string) (ks : list kind) : dict string :=
  match ks with
  | [] => bp_empty
  | k :: ks' =>
      let '(k1, k2) := others k in
      if negb (is_nil (zs k)) && is_nil (zs k1) && is_nil (zs k2) then
        let phrase :=
          if List.length (zs k) =? List.length (g_zone_ids g) then
            (if String.eqb (g_localphrase g) "" then "the local coastal areas" else g_localphrase g)
          else bp_match_one t (zs k) "" in
        let phrase := if String.eqb phrase "" then zonelistFull (g_zone_list g) (zs k) else phrase in
        set_out k phrase bp_empty
      else if is_nil (zs k) && negb (is_nil (zs k1)) && negb (is_nil (zs k2)) then
        let zct := List.length (List.filter (fun z => py_in z (zs k1) || py_in z (zs k2)) (g_zone_ids g)) in
        if zct =? List.length (g_zone_ids g) then
          let '(p1, p2) := bp_match_two t (zs k1) ("", "") in
          if String.eqb p1 "" || String.eqb p2 "" then
            set_out k2 (zonelistFull (g_zone_list g) (zs k2))
              (set_out k1 (zonelistFull (g_zone_list g) (zs k1)) bp_empty)
          else set_out k2 p2 (set_out k1 p1 bp_empty)
        else list_all g zs
      else bp_loop g t zs ks'
  end.

Definition breakpointMe (g : globals) (active : string) (zs : kind -> list string) (wwa : string)
    : res bp_out :=
  if is_nil (g_breakpoint_list g) then bp_listing g active zs wwa else
  t <- bp_table (g_breakpoint_list g) ;;
  if is_nil (zs Warning) && is_nil (zs Watch) && is_nil (zs Advisory) then Ok (BpDict bp_empty)
  else if negb (is_nil (zs Warning)) && negb (is_nil (zs Watch)) && negb (is_nil (zs Advisory)) then
    Ok (BpDict (list_all g zs))
  else Ok (BpDict (bp_loop g t zs [Watch; Warning; Advisory])).

(** ** [statementMake] (lines 766-840) *)

(** [todaylocal.strftime("%B %d")] *)
Definition strftime_Bd (t : datetime) : string :=
  strftime_B t ++ " " ++ zfill 2 (str_Z (dt_day t)).

(** [tz_long[tzid]+" "+dt+" TIME"], ["PACIFIC"] for an unknown [tzid]. *)
Definition tz_label (tzid dt : string) : string :=
  match dict_get tzid tz_long with Some l => l | None => "PACIFIC" end ++ " " ++ dt ++ " TIME".

(** Lines 782-787: the lines of the template file that are not comments. *)
Definition template_text (file : string) : string :=
  strip (String.concat "" (map (fun a => a ++ nl)
    (List.filter (fun a => match a with EmptyString => true | String c _ => negb (Ascii.eqb c "#") end)
       (splitlines file)))).

(** Lines 790-796: the built-in skeleton. *)
Definition builtin_template (wwa : string) : string :=
  let wwa2 := upper wwa in
  "TSUNAMI " ++ wwa2 ++ ". REPEAT, TSUNAMI " ++ wwa2 ++ "." ++ nl ++ nl ++
  "THE NATIONAL WEATHER SERVICE HAS ISSUED A TSUNAMI " ++ wwa2 ++ " AAAAAA. NNNNNN." ++ nl ++ nl ++
  "EEEEEE." ++ nl ++ nl ++
  "LLLLLL." ++ nl ++ nl ++
  "ONCE AGAIN, THE NATIONAL WEATHER SERVICE HAS ISSUED A TSUNAMI " ++ wwa2 ++ " AAAAAA. NNNNNN. " ++
  "SSSSSS. IN HOUSE.".

(** [out.replace(p+".","").replace(p,"")]: a section removed. *)
Definition remove_section (p out : string) : string :=
  str_replace p "" (str_replace (p ++ ".") "" out).

(** Lines 827-835: one line per forecast point, under its local alias. *)
Definition arrival_lines (g : globals) (d : string) : string :=
  String.concat "" (map (fun a =>
    let stn_id := upper a in
    let stn_id := match g_arrival_localname g with
                  | Some names => match dict_get stn_id names with Some n => n | None => stn_id end
                  | None => stn_id
                  end in
    stn_id ++ " on " ++ d ++ " at XXXXXX. " ++ nl) (g_arrival_list g)).

(** [for a in withwhat: aaa+=".\n"+a] over the characters of a string. *)
Fixpoint per_char_lines (s : string) : string :=
  match s with
  | EmptyString => ""
  | String c s' => "." ++ nl ++ String c "" ++ per_char_lines s'
  end.

Definition fill_placeholders (g : globals) (today : datetime) (tz2 : string)
    (wwa what withwhat out : string) : string :=
  let d := strftime_Bd today in
  let sel w := String.eqb what w || String.eqb what "XXXXXX" in
  let out := if sel "AAAAAA" then
      str_replace "AAAAAA" ("for the following locations, " ++
        (if String.eqb withwhat "" then "XXXXXX" else withwhat)) out else out in
  let out := if sel "NNNNNN" then str_replace "NNNNNN" (hazDefMe wwa) out else out in
  let out := if sel "EEEEEE" then
      (if String.eqb what "XXXXXX" || String.eqb withwhat "XXXXXX" then
         str_replace "EEEEEE" ("On " ++ d ++ " AT XXXXXX " ++ tz2 ++
           " a large earthquake with a preliminary magnitude of XXXXXX occurred near XXXXXX.") out
       else if negb (String.eqb withwhat "") then str_replace "EEEEEE" withwhat out
       else remove_section "EEEEEE" out) else out in
  let head := "Estimated arrival times for the first in the series of tsunami waves are as follows in " ++ tz2 in
  let out := if sel "LLLLLL" then
      (if contains "[" withwhat then str_replace "LLLLLL" (head ++ "," ++ per_char_lines withwhat) out
       else if String.eqb what "XXXXXX" || negb (String.eqb withwhat "") then
         str_replace "LLLLLL" (head ++ ", " ++ nl ++ arrival_lines g d) out
       else remove_section "LLLLLL" out) else out in
  if sel "SSSSSS" then str_replace "SSSSSS" (g_local_actions g) out else out.

(** [file] is the text of [local_dir+directory], [None] when it is not a
    file.  [daylightMe(todaylocal)] is evaluated even when the label is not
    used. *)
Definition statementMake (g : globals) (today : datetime) (file : option string)
    (wwa what withwhat : string) : res string :=
  dl <- daylightMe today ;;
  let tz2 := tz_label (g_tzid g) (if Z.eqb dl 1 then "DAYLIGHT" else "STANDARD") in
  let out := match file with Some f => template_text f | None => builtin_template wwa end in
  Ok (if String.eqb what "" then out else fill_placeholders g today tz2 wwa what withwhat out).

(** ** [cleanStatement] (lines 843-853) *)

Definition cleanStatement (out : string) : string :=
  let out := str_replace " ." "." out in
  let out := str_replace "..." ", " out in
  let out := str_replace ".." "." out in
  let out := str_replace (nl ++ "." ++ nl) (nl ++ nl) out in
  let out := str_replace "  " " " out in
  let out := str_replace (nl ++ nl ++ nl) (nl ++ nl) out in
  let out := str_replace (nl ++ nl ++ nl) (nl ++ nl) out in
  str_replace (nl ++ nl ++ nl) (nl ++ nl) out.

(** ** The composing part of [autoFill] (lines 656-747) *)

Definition has_daytime_standard (info : info_dict) : option bool :=
  match info with InfoFull h => Some (contains "STANDARD" (hi_daytime h)) | InfoReset _ => None end.

(** Lines 693-695: the zone label of the arrival times. *)
Definition arrival_tz (g : globals) (info : info_dict) : string :=
  let tz2 := tz_label (g_tzid g) "STANDARD" in
  match has_daytime_standard info with
  | Some false => str_replace "STANDARD" "DAYLIGHT" tz2
  | _ => tz2
  end.

(** [info["arrivals_"+wwa]] when the key exists. *)
Definition info_arrivals (info : info_dict) (wwa : string) : list string :=
  match info, kind_of_key wwa with InfoFull h, Some k => hi_arrivals h k | _, _ => [] end.

(** [info["eseg"]] when the key exists. *)
Definition info_eseg (info : info_dict) : string :=
  match info with InfoFull h => hi_eseg h | InfoReset _ => "" end.

(** Lines 678-709: a single hazard [wwa]. *)
Definition compose_single (g : globals) (today : datetime) (file : option string)
    (info : info_dict) (breakpoints : bp_out) (hazdef wwa : string) : res string :=
  out <- statementMake g today file wwa "" "" ;;
  let eseg := info_eseg info in
  let out := if String.eqb eseg "" then remove_section "EEEEEE" out
             else str_replace "EEEEEE" eseg out in
  let local := match bp_get breakpoints wwa with
               | Some p => if String.eqb p "" then g_localphrase g else "following locations, " ++ p
               | None => g_localphrase g
               end in
  let out := str_replace "AAAAAA" ("for the " ++ local) out in
  let out := if String.eqb hazdef "" then str_replace "NNNNNN" "XXXXXX" (str_replace "NNNNNN." "XXXXXX" out)
             else str_replace "NNNNNN" hazdef out in
  let tz2 := arrival_tz g info in
  let arrive := match info_arrivals info wwa with
                | [] => ""
                | arr => nl ++ nl ++ "Estimated arrival times for the first in the series of tsunami waves are as follows in "
                         ++ tz2 ++ String.concat "" (map (fun a => "." ++ nl ++ a) arr) ++ "."
                end in
  let out := if String.eqb arrive "" then remove_section "LLLLLL" out
             else str_replace "LLLLLL" arrive out in
  let out := str_replace "SSSSSS" (g_local_actions g) out in
  Ok (strip (upper (cleanStatement out))).

(** [for a in l: if a not in track: ...] over the arrival lines of the
    two hazards. *)
Definition merge_arrivals (l : list string) : list string :=
  fold_left (fun track a => append_new a track) l [].

(** [info["arrivals_"+w]], raising [KeyError] when the key is absent. *)
Definition info_arrivals_key (info : info_dict) (wwa : string) : res (list string) :=
  match info with InfoFull h => info_key (hi_arrivals h) wwa | InfoReset _ => Raise KeyError end.

(** Lines 712-747: two hazards [wwa1_wwa2].  [info["daytime"]] and
    [info["arrivals_"+w]] raise [KeyError] on the reset dict. *)
Definition compose_combo (g : globals) (info : info_dict) (breakpoints : bp_out)
    (hazdef dowhat : string) : res string :=
  let tmp := str_split "_" dowhat in
  wwa1 <- py_index 0 tmp ;;
  wwa2 <- py_index 1 tmp ;;
  b1 <- bp_index breakpoints wwa1 ;;
  b2 <- bp_index breakpoints wwa2 ;;
  let '(break1, break2) := if negb (String.eqb b1 "") && negb (String.eqb b2 "") then (b1, b2)
                           else ("XXXXXX", "XXXXXX") in
  let tsu := "Tsunami " ++ wwa1 ++ " and " ++ wwa2 in
  let issued := "The National Weather Service has issued a tsunami " ++ wwa1 ++ " for the " ++ break1 ++
                " and a tsunami   " ++ wwa2 ++ " for the following locations, " ++ break2 ++ "." in
  let again := "Once again, The National Weather Service has issued a tsunami " ++ wwa1 ++ " for the " ++
               break1 ++ " and a   tsunami " ++ wwa2 ++ " for the following locations, " ++ break2 ++ "." in
  std <- match has_daytime_standard info with Some b => Ok b | None => Raise KeyError end ;;
  let tz2 := tz_label (g_tzid g) "STANDARD" in
  let tz2 := if std then tz2 else str_replace "STANDARD" "DAYLIGHT" tz2 in
  arr1 <- info_arrivals_key info wwa1 ;;
  arr2 <- info_arrivals_key info wwa2 ;;
  let arrive := String.concat "" (map (fun a => "." ++ nl ++ a) (merge_arrivals (arr1 ++ arr2))) in
  let out := tsu ++ ". Repeat, " ++ tsu ++ "." ++ nl ++ nl ++ issued ++ hazdef ++ nl ++ nl ++ info_eseg info ++
    (if String.eqb arrive "" then ""
     else nl ++ nl ++ "Estimated arrival times for the first in the series of tsunami waves are as follows in "
          ++ tz2 ++ arrive ++ ".") ++
    nl ++ nl ++ again ++ hazdef ++ " " ++ g_local_actions g in
  Ok (strip (upper (str_replace " ." "." out))).

(** What [autoFill] shows once the scenario is resolved to [dowhat]. *)
Inductive compose_out : Type :=
| NoticeBox (msg : string) (continuebutton : bool)   (* flagMeBasic, lines 663-676 *)
| Statement (text : string).                          (* radiotext.insert *)

(** Line 668: ["issue" in info and len(info["issue"])==1 and
    info["issue"][0]=="final"]. *)
Definition has_final_issue (info : info_dict) : bool :=
  match info with
  | InfoFull h => (List.length (hi_issue h) =? 1) && String.eqb (nth 0 (hi_issue h) "") "final"
  | InfoReset _ => false
  end.

(** Lines 663-676: the notice when no hazard is to be composed. *)
Definition no_hazard_notice (info : info_dict) (cancelflg : bool) : compose_out :=
  let '(out, cont) :=
    if negb (zones_empty info Advisory) then
      ("While an advisory was found, no warnings or watches were detected in your area.", true)
    else if has_final_issue info then
      ("It appears that there was a cancellation in the most recent bulletin. ", true)
    else ("No tsunami hazards were detected in your area. ", false) in
  let out := if cancelflg then out ++ "If you want to issue a cancellation message, please use one of the options from the Cancelations menu. Remember to manually delete the previous BMH Tsunami statement if still active." else out in
  NoticeBox (out ++ nl ++ nl ++ "View TSU statement from the black button at the top right and load another version, or use one of the options from the Templates menu.") cont.

(** Lines 656-747: [active] is the global before line 661 sets it to
    [dowhat]; an exception escapes [autoFill]. *)
Definition autoFill_compose (g : globals) (today : datetime) (file : option string)
    (active : string) (cancelflg : bool) (info : info_dict) (dowhat : string) : res compose_out :=
  breakpoints <- breakpointMe g active (info_zones info) dowhat ;;
  let hazdef := hazDefMe dowhat in
  if String.eqb dowhat "" then Ok (no_hazard_notice info cancelflg)
  else if negb (contains "_" dowhat) then
    text <- compose_single g today file info breakpoints hazdef dowhat ;; Ok (Statement text)
  else
    text <- compose_combo g info breakpoints hazdef dowhat ;; Ok (Statement text).

(** ** [fillWWA] (lines 855-883): the statement of a template *)

(** [arr[wwa]] collects the zones whose check button is on, in the order
    of [zone_ids]; [checked] is the set of buttons that are on. *)
Definition fillWWA_zones (g : globals) (checked : list string) (k : kind) (k' : kind) : list string :=
  if decide (k = k') then List.filter (fun z => py_in z checked) (g_zone_ids g) else [].

(** The text [fillWWA] writes and whether it reminds the operator to
    select zones (line 883).  [breakpointMe] is called as the code does,
    for its exceptions: its phrase [lphrase] is not used afterwards. *)
Definition fillWWA (g : globals) (today : datetime) (file : option string)
    (checked : list string) (wwa : string) : res (string * bool) :=
  k <- match kind_of_key wwa with Some k => Ok k | None => Raise KeyError end ;;
  _ <- breakpointMe g wwa (fillWWA_zones g checked k) "" ;;
  out <- statementMake g today file wwa "XXXXXX" "" ;;
  Ok (strip (upper (cleanStatement out)), is_nil (fillWWA_zones g checked k k)).

(** ** Abstract contracts and demonstration data *)

(** Section 4.6 of the design, without breakpoints: the local phrase when
    the hazard covers every configured zone (an enumeration when no phrase
    is configured), the enumeration otherwise. *)
Definition area_spec (g : globals) (zs : list string) : string :=
  if forallb (fun z => py_in z zs) (g_zone_ids g) then
    (if String.eqb (g_localphrase g) "" then zonelistFull (g_zone_list g) zs else g_localphrase g)
  else zonelistFull (g_zone_list g) zs.

(** The template configuration with a Point Conception breakpoint (the
    format of [breakpoint_list] in the configuration files: a direction,
    the zones on that side, the other direction, the zones on the other
    side). *)
Definition bp_globals : globals := {|
  g_zone_ids := g_zone_ids template_globals; g_zone_list := g_zone_list template_globals;
  g_county_list := g_county_list template_globals; g_localphrase := g_localphrase template_globals;
  g_localheadline := g_localheadline template_globals; g_local_actions := g_local_actions template_globals;
  g_advisory_handle := "yes"; g_arrival_list := []; g_arrival_localname := Some [];
  g_wcapil := g_wcapil template_globals; g_advisoryPIL := "TSYWCA"; g_watchPIL := "TSAWCA";
  g_warningPIL := "TSWWCA"; g_node := "LAX"; g_pending := "no"; g_openPractice := "no";
  g_tz := 8%Z; g_tzid := "pst"; g_nwrsend := ""; g_combo_handle := "no";
  g_breakpoint_list := [("POINT CONCEPTION", ["NORTH"; "CAZ034"; "CAZ035"; "SOUTH"; "CAZ039";
                          "CAZ040"; "CAZ041"; "CAZ087"; "CAZ550"; "CAZ549"])] |}.

(** The zone lists of a single hazard. *)
Definition only (k : kind) (zs : list string) (k' : kind) : list string :=
  if decide (k = k') then zs else [].

(** The morning of the demonstration bulletin. *)
Definition demo_today : datetime :=
  {| dt_year := 2012; dt_month := 4; dt_day := 16; dt_hour := 9; dt_minute := 39 |}.

(** A winter bulletin without an earthquake paragraph. *)
Definition winter_bulletin : string := "WEPA41 PAAQ 161739
TSUWCA

BULLETIN
TSUNAMI MESSAGE NUMBER 1
NWS NATIONAL TSUNAMI WARNING CENTER PALMER AK
939 AM PST MON JAN 16 2012

CAZ039>041-161939-
/O.NEW.PAAQ.TS.W.0001.120116T1739Z-000000T0000Z/
COASTAL AREAS BETWEEN POINT CONCEPTION AND SANTA MONICA

$$
".

(** A warning for every zone south of Point Conception. *)
Definition south_bulletin : string := "WEPA41 PAAQ 161639
TSUWCA

BULLETIN
TSUNAMI MESSAGE NUMBER 1
NWS NATIONAL TSUNAMI WARNING CENTER PALMER AK
939 AM PDT MON APR 16 2012

CAZ039>041-087-549-550-161839-
/O.NEW.PAAQ.TS.W.0001.120416T1639Z-000000T0000Z/
COASTAL AREAS SOUTH OF POINT CONCEPTION

$$
".

(** The characters a zone name may hold for [zonelistFull] to print it as
    written: printable ASCII other than the quotes, the brackets, the
    backslash and the comma. *)
Definition plain_char (c : ascii) : bool :=
  let n := nat_of_ascii c in
  (32 <=? n) && (n <? 127) &&
  negb (existsb (Ascii.eqb c) [sq; dq; "["%char; "]"%char; bslash; ","%char]).

Fixpoint plain (s : string) : bool :=
  match s with EmptyString => true | String c s' => plain_char c && plain s' end.

(** The enumeration grammar of section 4.6 of the design: one name, two
    names joined by "AND", or the names separated by commas with "AND"
    before the last. *)
Definition enumerate (names : list string) : string :=
  match names with
  | [] => "XXXXXX"
  | [a] => a
  | [a; b] => a ++ " AND " ++ b
  | _ => String.concat ", " (and_last names)
  end.

(** A zone without a configured name makes the whole phrase the
    placeholder. *)
Definition zonelist_spec (zl : dict string) (zs : list string) : string :=
  let pre := map (zone_name zl) zs in
  if py_in "XXXXXX" pre then "XXXXXX" else enumerate pre.

(** [s.replace(d, "")] for one character, as a filter. *)
Fixpoint drop_char (d : ascii) (s : string) : string :=
  match s with
  | EmptyString => ""
  | String c s' => if Ascii.eqb d c then drop_char d s' else String c (drop_char d s')
  end.

(** The four [replace] calls of line 1521. *)
Definition drop_marks (s : string) : string :=
  drop_char sq (drop_char dq (drop_char "]" (drop_char "[" s))).

(** Every character, for checks by evaluation. *)
Definition all_chars : list ascii := map ascii_of_nat (seq 0 256).

(** * Properties *)

(** ** The area phrase without breakpoints *)

(** The length test of line 1539 decides coverage: for distinct zones of
    the office, equal length means every configured zone is in the list. *)
Lemma length_covers ids zs :
  NoDup ids -> zones_ok ids zs ->
  (List.length zs =? List.length ids) = forallb (fun z => py_in z zs) ids.
Proof.
  intros Hids [Hzs Hin]. apply NoDup_ListNoDup in Hids, Hzs.
  assert (Hinc : incl zs ids) by (intros z; apply Hin).
  destruct (forallb _ ids) eqn:F.
  - apply Nat.eqb_eq, Nat.le_antisymm; [by apply List.NoDup_incl_length |].
    apply List.NoDup_incl_length; [done |]. intros z Hz.
    rewrite forallb_forall in F. by apply py_in_spec, F.
  - apply Nat.eqb_neq. intros Hl. apply Bool.not_true_iff_false in F. apply F.
    apply forallb_forall. intros z Hz. apply py_in_spec.
    apply (List.NoDup_length_incl (l' := ids) Hzs); [lia | done | done].
Qed.

Lemma kind_key_nonempty k : String.eqb (kind_key k) "" = false.
Proof. by destruct k. Qed.

Lemma info_key_kind zs k : info_key zs (kind_key k) = Ok (zs k).
Proof. unfold info_key. by rewrite kind_of_key_key. Qed.

#[export] Hint Rewrite kind_key_nonempty info_key_kind : tsu_rw.

Lemma breakpointMe_listing g active zs k :
  g_breakpoint_list g = [] -> NoDup (g_zone_ids g) -> zones_ok (g_zone_ids g) (zs k) ->
  breakpointMe g active zs (kind_key k) = Ok (BpDict (set_out k (area_spec g (zs k)) bp_empty)).
Proof.
  intros Hb Hids Hzs. unfold breakpointMe, bp_listing, area_spec, set_out. rewrite Hb. cbn [is_nil].
  autorewrite with tsu_rw. cbn. by rewrite (length_covers _ _ Hids Hzs).
Qed.

(** C7: with the breakpoint list empty (as start-up forces it, line
    353), the area phrase [breakpointMe] gives a hazard of any parse
    result is the abstract one of the design: the local phrase exactly
    when the hazard covers all the office's zones, the zone names
    otherwise, although the code only compares the lengths. *)
Theorem breakpointMe_refines_area g y dst input active k :
  g_breakpoint_list g = [] -> NoDup (g_zone_ids g) ->
  let info := grabTWC g y dst (g_zone_ids g) input in
  breakpointMe g active (info_zones info) (kind_key k) =
  Ok (BpDict (set_out k (area_spec g (info_zones info k)) bp_empty)).
Proof.
  intros Hb Hids info. apply breakpointMe_listing; [done | done |].
  pose proof (grabTWC_inv g y dst (g_zone_ids g) input) as Hinv. subst info.
  destruct (grabTWC _ _ _ _ _); simpl; [apply Hinv | split; [constructor | done]].
Qed.

(** ** The notice when nothing is composed *)

Lemma has_final_issue_false zone_ids d : result_inv zone_ids d -> has_final_issue d = false.
Proof.
  destruct d as [h|]; [| done]. intros [_ Hi]. cbn [has_final_issue].
  destruct (hi_issue h) as [|i [|j l]] eqn:E.
  - done.
  - destruct (Hi i) as [-> | ->]; [by left | done | done].
  - done.
Qed.

(** C10: when [autoFill] finds no hazard to compose, the notice
    offers to continue exactly when an advisory was found: the
    "cancellation in the most recent bulletin" notice (line 668) is never
    shown for a parse result, since [grabTWC] never records a ["final"]
    issuance. *)
Theorem cancellation_notice_unreachable g y dst input cancelflg :
  let info := grabTWC g y dst (g_zone_ids g) input in
  exists m, no_hazard_notice info cancelflg = NoticeBox m (negb (zones_empty info Advisory)).
Proof.
  intros info. subst info. unfold no_hazard_notice.
  rewrite (has_final_issue_false _ _ (grabTWC_inv g y dst (g_zone_ids g) input)).
  destruct (zones_empty _ Advisory); eexists; reflexivity.
Qed.

(** ** The time zone of the arrival times *)

Lemma dict_get_In {V} k (v : V) d : dict_get k d = Some v -> In v (map snd d).
Proof.
  induction d as [|[k' v'] d IH]; simpl; [discriminate |].
  destruct (String.eqb k' k); [intros [= ->]; by left | intros H; right; by apply IH].
Qed.

Lemma tz_label_daylight tzid :
  str_replace "STANDARD" "DAYLIGHT" (tz_label tzid "STANDARD") = tz_label tzid "DAYLIGHT".
Proof.
  unfold tz_label. destruct (dict_get tzid tz_long) as [l|] eqn:E; [| vm_compute; reflexivity].
  apply dict_get_In in E. simpl in E.
  repeat (destruct E as [<- | E]; [vm_compute; reflexivity |]). done.
Qed.

(** the arrival times are labelled with daylight time whenever the
    parsed local time does not contain "STANDARD" (lines 692-694), so in
    particular when the earthquake time could not be converted and
    [daytime] kept its initial value ["XXXXXX"]: a winter bulletin without
    a converted time gets "PACIFIC DAYLIGHT TIME" arrival times. *)
Theorem arrival_tz_unconverted g h :
  contains "STANDARD" (hi_daytime h) = false ->
  arrival_tz g (InfoFull h) = tz_label (g_tzid g) "DAYLIGHT".
Proof. intros H. unfold arrival_tz. simpl. rewrite H. apply tz_label_daylight. Qed.

(** ** End to end *)

Lemma builtin_template_end wwa : ends_with "IN HOUSE." (builtin_template wwa).
Proof. unfold builtin_template. repeat apply ends_with_app. by exists "SSSSSS. ". Qed.

(** The end ["IN HOUSE."] survives every rewriting of a statement:
    the replacements of its placeholders and of [cleanStatement], which
    can neither start in it nor run into it, [upper] and [strip]. *)
Ltac keep_in_house :=
  repeat first
    [ apply (ends_with_strip "I" "N HOUSE" "."); [reflexivity | reflexivity |]
    | apply ends_with_upper; [reflexivity |]
    | apply ends_with_replace; [vm_compute; discriminate | reflexivity | reflexivity |]
    | apply ends_with_replace_go; [vm_compute; discriminate | reflexivity | reflexivity |]
    | progress (unfold remove_section, cleanStatement, fill_placeholders; cbv zeta)
    | case_match ].

Lemma statementMake_builtin_end g today wwa what withwhat out :
  statementMake g today None wwa what withwhat = Ok out -> ends_with "IN HOUSE." out.
Proof.
  unfold statementMake. intros H. apply res_bind_eq_Ok in H as (dl & _ & [= <-]).
  pose proof (builtin_template_end wwa). cbv zeta. keep_in_house; assumption.
Qed.

(** C9: an office without a template file for the hazard gets the
    built-in skeleton, whose last words are ["IN HOUSE."]: whatever the
    configuration, the parse result and the hazard, every single-hazard
    statement [autoFill] composes then ends with ["IN HOUSE."], which is
    broadcast with it. *)
Theorem autoFill_builtin_in_house g today active cancelflg info dowhat text :
  autoFill_compose g today None active cancelflg info dowhat = Ok (Statement text) ->
  contains "_" dowhat = false -> ends_with "IN HOUSE." text.
Proof.
  intros H Hc. unfold autoFill_compose in H. rewrite Hc in H.
  apply res_bind_eq_Ok in H as (bp & _ & H).
  destruct (String.eqb dowhat ""); [injection H as H; unfold no_hazard_notice in H; by repeat case_match|].
  cbn [negb] in H. apply res_bind_eq_Ok in H as (t & Ht & [= <-]).
  unfold compose_single in Ht. apply res_bind_eq_Ok in Ht as (out & Hs & [= <-]).
  apply statementMake_builtin_end in Hs. cbv zeta. keep_in_house; assumption.
Qed.

(** The statements of the Templates menu end in the same way. *)
Lemma fillWWA_builtin_in_house g today checked wwa out remind :
  fillWWA g today None checked wwa = Ok (out, remind) -> ends_with "IN HOUSE." out.
Proof.
  unfold fillWWA. intros H. apply res_bind_eq_Ok in H as (k & _ & H).
  apply res_bind_eq_Ok in H as (? & _ & H). apply res_bind_eq_Ok in H as (o & Hs & [= <- _]).
  apply statementMake_builtin_end in Hs. keep_in_house; assumption.
Qed.

(** [cleanStatement] is not idempotent, against section 8 of
    the design: two blanks before a period lose only one of them in the
    first pass, and four periods become ", ." which a second pass turns
    into ",.". *)
Theorem cleanStatement_not_idempotent :
  cleanStatement "TSUNAMI WARNING  ." = "TSUNAMI WARNING ." /\
  cleanStatement (cleanStatement "TSUNAMI WARNING  .") = "TSUNAMI WARNING." /\
  cleanStatement "UPDATES...." = "UPDATES, ." /\
  cleanStatement (cleanStatement "UPDATES....") = "UPDATES,.".
Proof. vm_compute. repeat split. Qed.

(** the breakpoint scheme compares zone lists with list
    equality (lines 1573-1574), not as sets (section 4.6 of the design):
    a warning for exactly the zones south of Point Conception, parsed
    (and so sorted) from a bulletin, does not match the breakpoint's
    group listed in the configured zone order, and the zones are
    enumerated instead. *)
Theorem breakpoint_group_order_matters :
  let info := grabTWC bp_globals 2012 1 (g_zone_ids bp_globals) (Some south_bulletin) in
  Permutation (info_zones info Warning)
    ["CAZ039"; "CAZ040"; "CAZ041"; "CAZ087"; "CAZ550"; "CAZ549"] /\
  breakpointMe bp_globals "" (only Warning ["CAZ039"; "CAZ040"; "CAZ041"; "CAZ087"; "CAZ550"; "CAZ549"]) "warning" =
    Ok (BpDict (set_out Warning "coastal areas SOUTH of POINT CONCEPTION" bp_empty)) /\
  breakpointMe bp_globals "" (info_zones info) "warning" =
    Ok (BpDict (set_out Warning (zonelistFull (g_zone_list bp_globals) (info_zones info Warning)) bp_empty)).
Proof.
  vm_compute. split; [| split; reflexivity].
  do 4 apply perm_skip. apply perm_swap.
Qed.

Lemma arrival_tz_unconverted_witness :
  let h := info_full (grabTWC template_globals 2012 0 (g_zone_ids template_globals) (Some winter_bulletin)) in
  contains "STANDARD" (hi_daytime h) = false /\
  arrival_tz template_globals (InfoFull h) = "PACIFIC DAYLIGHT TIME".
Proof.
  cbv zeta. split; [vm_compute; reflexivity |].
  rewrite arrival_tz_unconverted; [vm_compute; reflexivity | vm_compute; reflexivity].
Defined.

Lemma breakpointMe_refines_area_witness :
  g_breakpoint_list template_globals = [] /\ NoDup (g_zone_ids template_globals) /\
  breakpointMe template_globals "" (info_zones (grabTWC template_globals 2012 1 (g_zone_ids template_globals) (Some demo_bulletin))) "warning" =
  Ok (BpDict (set_out Warning (area_spec template_globals
    (info_zones (grabTWC template_globals 2012 1 (g_zone_ids template_globals) (Some demo_bulletin)) Warning)) bp_empty)).
Proof.
  assert (Hb : g_breakpoint_list template_globals = []) by reflexivity.
  assert (Hn : NoDup (g_zone_ids template_globals)) by (apply NoDup_ListNoDup; vm_compute; repeat constructor; simpl; intuition discriminate).
  split; [exact Hb | split; [exact Hn |]].
  exact (breakpointMe_refines_area template_globals 2012 1 (Some demo_bulletin) "" Warning Hb Hn).
Defined.

(** ** [zonelistFull] prints the enumeration grammar *)

Lemma all_chars_complete c : In c all_chars.
Proof.
  unfold all_chars. rewrite <- (ascii_nat_embedding c). apply in_map, in_seq.
  pose proof (nat_ascii_bounded c). lia.
Qed.

Lemma plain_char_check :
  forallb (fun c => implb (plain_char c)
    (String.eqb (repr_char sq c) (String c "") &&
     negb (Ascii.eqb c sq) && negb (Ascii.eqb c dq) && negb (Ascii.eqb c "[") &&
     negb (Ascii.eqb c "]") && negb (Ascii.eqb c ","))) all_chars = true.
Proof. vm_compute. reflexivity. Qed.

Lemma plain_char_facts c : plain_char c = true ->
  repr_char sq c = String c "" /\ Ascii.eqb c sq = false /\ Ascii.eqb c dq = false /\
  Ascii.eqb c "[" = false /\ Ascii.eqb c "]" = false /\ Ascii.eqb c "," = false.
Proof.
  intros Hc. pose proof plain_char_check as H. rewrite forallb_forall in H.
  specialize (H c (all_chars_complete c)). rewrite Hc in H. simpl in H.
  apply andb_true_iff in H as [H H5]. apply andb_true_iff in H as [H H4].
  apply andb_true_iff in H as [H H3]. apply andb_true_iff in H as [H H2].
  apply andb_true_iff in H as [H H1]. apply String.eqb_eq in H.
  apply negb_true_iff in H1, H2, H3, H4, H5. done.
Qed.

Lemma plain_cons c s : plain (String c s) = true <-> plain_char c = true /\ plain s = true.
Proof. simpl. apply andb_true_iff. Qed.

Lemma plain_app s1 s2 : plain s1 = true -> plain s2 = true -> plain (s1 ++ s2) = true.
Proof.
  induction s1 as [|c s1 IH]; [done |]. rewrite append_cons, !plain_cons.
  intros [Hc H1] H2. split; [done | by apply IH].
Qed.

Lemma eqb_sym_false c d : Ascii.eqb c d = false -> Ascii.eqb d c = false.
Proof. intros H. apply Ascii.eqb_neq. intros ->. by rewrite Ascii.eqb_refl in H. Qed.

Lemma repr_body_plain s : plain s = true -> repr_body sq s = s.
Proof.
  induction s as [|c s IH]; [done |]. rewrite plain_cons. intros [Hc Hs].
  cbn [repr_body]. rewrite (proj1 (plain_char_facts c Hc)), IH by done. reflexivity.
Qed.

Lemma contains_plain d s :
  (forall c, plain_char c = true -> Ascii.eqb d c = false) -> plain s = true ->
  contains (String d "") s = false.
Proof.
  intros Hd. induction s as [|c s IH]; [done |]. rewrite plain_cons, contains_char_cons.
  intros [Hc Hs]. by rewrite Hd, IH.
Qed.

Lemma py_repr_plain s : plain s = true -> py_repr s = String sq (s ++ String sq "").
Proof.
  intros Hs. unfold py_repr, repr_quote.
  rewrite contains_plain; [simpl; by rewrite repr_body_plain | | done].
  intros c Hc. apply eqb_sym_false, plain_char_facts, Hc.
Qed.

Lemma replace_char_drop d s : str_replace (String d "") "" s = drop_char d s.
Proof.
  unfold str_replace. induction s as [|c s IH]; [done |].
  cbn [replace_go]. rewrite prefix_char. cbn [drop_char].
  destruct (Ascii.eqb d c); [| by rewrite IH]. cbn [String.length Nat.sub]. by rewrite append_nil_l.
Qed.

Lemma drop_char_app d s1 s2 : drop_char d (s1 ++ s2) = drop_char d s1 ++ drop_char d s2.
Proof.
  induction s1 as [|c s1 IH]; [done |]. rewrite append_cons. cbn [drop_char].
  destruct (Ascii.eqb d c); [done | by rewrite IH, append_cons].
Qed.

Lemma drop_char_concat d sep l :
  drop_char d (String.concat sep l) = String.concat (drop_char d sep) (map (drop_char d) l).
Proof.
  induction l as [|x [|y l] IH]; [done | done |].
  change (String.concat sep (x :: y :: l)) with (x ++ sep ++ String.concat sep (y :: l)).
  rewrite !drop_char_app, IH. reflexivity.
Qed.

Lemma drop_char_plain d s :
  (forall c, plain_char c = true -> Ascii.eqb d c = false) -> plain s = true -> drop_char d s = s.
Proof.
  intros Hd. induction s as [|c s IH]; [done |]. rewrite plain_cons. intros [Hc Hs].
  cbn [drop_char]. by rewrite Hd, IH.
Qed.

Lemma drop_marks_app s1 s2 : drop_marks (s1 ++ s2) = drop_marks s1 ++ drop_marks s2.
Proof. unfold drop_marks. by rewrite !drop_char_app. Qed.

Lemma drop_marks_concat sep l :
  drop_marks (String.concat sep l) = String.concat (drop_marks sep) (map drop_marks l).
Proof. unfold drop_marks. rewrite !drop_char_concat, !map_map. reflexivity. Qed.

Lemma drop_marks_plain s : plain s = true -> drop_marks s = s.
Proof.
  intros Hs. unfold drop_marks.
  rewrite (drop_char_plain "[" s), (drop_char_plain "]" s), (drop_char_plain dq s), (drop_char_plain sq s);
    try done; intros c Hc; apply eqb_sym_false; apply plain_char_facts in Hc; tauto.
Qed.

Lemma drop_marks_repr s : plain s = true -> drop_marks (py_repr s) = s.
Proof.
  intros Hs. rewrite py_repr_plain by done.
  change (String sq (s ++ String sq "")) with (String sq "" ++ (s ++ String sq "")).
  assert (E : drop_marks (String sq "") = "") by reflexivity.
  rewrite !drop_marks_app, E, (drop_marks_plain s Hs), append_nil_l. apply append_empty_r.
Qed.

(** A pattern whose first character does not occur leaves the text. *)
Lemma replace_go_nochar d p rep s :
  contains (String d "") s = false -> replace_go (String d p) rep 0 s = s.
Proof.
  induction s as [|c s IH]; [done |]. rewrite contains_char_cons. intros [E Hs]%orb_false_iff.
  cbn [replace_go]. rewrite prefix_head_ne by done. by rewrite IH.
Qed.

(** The first occurrence is replaced when nothing before it starts the
    pattern. *)
Lemma replace_go_first d p rep x y :
  contains (String d "") x = false ->
  replace_go (String d p) rep 0 (x ++ String d p ++ y) = x ++ rep ++ replace_go (String d p) rep 0 y.
Proof.
  induction x as [|c x IH].
  - intros _. rewrite !append_nil_l, append_cons. cbn [replace_go].
    rewrite <- append_cons, prefix_app_self.
    replace (String.length (String d p) - 1) with (String.length p) by (cbn; lia).
    by rewrite replace_go_skip.
  - rewrite contains_char_cons. intros [E Hx]%orb_false_iff. rewrite !(append_cons c x). cbn [replace_go].
    rewrite prefix_head_ne by done. by rewrite IH.
Qed.

Lemma and_last_plain l : Forall (fun x => plain x = true) l -> Forall (fun x => plain x = true) (and_last l).
Proof.
  induction 1 as [|x l Hx Hl IH]; [constructor |].
  destruct l as [|y l]; simpl.
  - constructor; [by apply plain_app | constructor].
  - constructor; [done | exact IH].
Qed.

Lemma str_list_plain l : Forall (fun x => plain x = true) l -> drop_marks (py_str_list l) = String.concat ", " l.
Proof.
  intros Hl. unfold py_str_list. rewrite !drop_marks_app, drop_marks_concat.
  change (drop_marks "[") with "". change (drop_marks "]") with "". change (drop_marks ", ") with ", ".
  rewrite append_nil_l, append_empty_r, map_map. f_equal.
  induction Hl as [|x l Hx Hl IH]; [done |]. simpl. by rewrite drop_marks_repr, IH.
Qed.

Lemma comma_not_plain c : plain_char c = true -> Ascii.eqb "," c = false.
Proof. intros Hc. apply eqb_sym_false. apply plain_char_facts in Hc. tauto. Qed.

(** C8: for zone names made of plain characters, the printed and
    stripped Python list of line 1521 is exactly the enumeration grammar
    of the design: one name, "A AND B", or "A, B, AND C", and the
    placeholder when a zone has no name or the list is empty. *)
Theorem zonelistFull_enumerates zl zs :
  Forall (fun z => plain (zone_name zl z) = true) zs -> zonelistFull zl zs = zonelist_spec zl zs.
Proof.
  intros H. unfold zonelistFull, zonelist_spec.
  assert (Hp : Forall (fun x => plain x = true) (map (zone_name zl) zs)) by (by apply Forall_map).
  destruct (py_in "XXXXXX" _); [done |]. rewrite orb_false_l.
  change (String sq "") with (String sq ""). rewrite !replace_char_drop.
  fold (drop_marks (py_str_list (and_last (map (zone_name zl) zs)))).
  rewrite str_list_plain by (by apply and_last_plain). revert Hp.
  destruct (map (zone_name zl) zs) as [|a [|b [|c l]]]; [done | done | | done].
  intros [Ha [Hb _]%Forall_cons_iff]%Forall_cons_iff.
  change (String.concat ", " (and_last [a; b])) with (a ++ String "," " AND" ++ " " ++ b).
  unfold str_replace. rewrite replace_go_first; [| apply contains_plain; [apply comma_not_plain | done]].
  rewrite replace_go_nochar; [reflexivity |].
  apply contains_plain; [apply comma_not_plain | by apply (plain_app " ")].
Qed.

Lemma zonelistFull_enumerates_witness :
  Forall (fun z => plain (zone_name (g_zone_list template_globals) z) = true) ["CAZ039"; "CAZ040"; "CAZ041"] /\
  zonelistFull (g_zone_list template_globals) ["CAZ039"; "CAZ040"; "CAZ041"] =
  "Santa Barbara County South Coast, Ventura County Coast, AND Los Angeles County Coast".
Proof.
  assert (H : Forall (fun z => plain (zone_name (g_zone_list template_globals) z) = true)
                ["CAZ039"; "CAZ040"; "CAZ041"]) by (repeat constructor).
  split; [exact H |]. rewrite (zonelistFull_enumerates _ _ H). vm_compute. reflexivity.
Defined.

(** The demonstration warning bulletin, parsed with the template
    configuration in daylight time, composed with the built-in
    skeleton. *)
Lemma autoFill_builtin_in_house_witness :
  let info := grabTWC template_globals 2012 1 (g_zone_ids template_globals) (Some demo_bulletin) in
  autoFill_compose template_globals demo_today None "" false info "warning" = Ok (Statement "TSUNAMI WARNING. REPEAT, TSUNAMI WARNING.

THE NATIONAL WEATHER SERVICE HAS ISSUED A TSUNAMI WARNING FOR THE FOLLOWING LOCATIONS, SANTA BARBARA COUNTY SOUTH COAST, VENTURA COUNTY COAST, AND LOS ANGELES COUNTY COAST. IF YOU ARE LOCATED IN THIS COASTAL AREA, MOVE INLAND TO HIGHER GROUND.

AN EARTHQUAKE WITH A PRELIMINARY MAGNITUDE OF 7.5 OCCURRED 60 MILES SOUTH OF KODIAK ALASKA AT 939 AM PACIFIC DAYLIGHT TIME ON APRIL 16 2012.

ONCE AGAIN, THE NATIONAL WEATHER SERVICE HAS ISSUED A TSUNAMI WARNING FOR THE FOLLOWING LOCATIONS, SANTA BARBARA COUNTY SOUTH COAST, VENTURA COUNTY COAST, AND LOS ANGELES COUNTY COAST. IF YOU ARE LOCATED IN THIS COASTAL AREA, MOVE INLAND TO HIGHER GROUND. STAY TUNED TO YOUR LOCAL NEWS SOURCE AND NOAA WEATHER RADIO FOR FURTHER INFORMATION AND UPDATES. IN HOUSE.") /\
  contains "_" "warning" = false /\
  ends_with "IN HOUSE." "TSUNAMI WARNING. REPEAT, TSUNAMI WARNING.

THE NATIONAL WEATHER SERVICE HAS ISSUED A TSUNAMI WARNING FOR THE FOLLOWING LOCATIONS, SANTA BARBARA COUNTY SOUTH COAST, VENTURA COUNTY COAST, AND LOS ANGELES COUNTY COAST. IF YOU ARE LOCATED IN THIS COASTAL AREA, MOVE INLAND TO HIGHER GROUND.

AN EARTHQUAKE WITH A PRELIMINARY MAGNITUDE OF 7.5 OCCURRED 60 MILES SOUTH OF KODIAK ALASKA AT 939 AM PACIFIC DAYLIGHT TIME ON APRIL 16 2012.

ONCE AGAIN, THE NATIONAL WEATHER SERVICE HAS ISSUED A TSUNAMI WARNING FOR THE FOLLOWING LOCATIONS, SANTA BARBARA COUNTY SOUTH COAST, VENTURA COUNTY COAST, AND LOS ANGELES COUNTY COAST. IF YOU ARE LOCATED IN THIS COASTAL AREA, MOVE INLAND TO HIGHER GROUND. STAY TUNED TO YOUR LOCAL NEWS SOURCE AND NOAA WEATHER RADIO FOR FURTHER INFORMATION AND UPDATES. IN HOUSE.".
Proof.
  intros info.
  assert (E : autoFill_compose template_globals demo_today None "" false info "warning" = Ok (Statement "TSUNAMI WARNING. REPEAT, TSUNAMI WARNING.

THE NATIONAL WEATHER SERVICE HAS ISSUED A TSUNAMI WARNING FOR THE FOLLOWING LOCATIONS, SANTA BARBARA COUNTY SOUTH COAST, VENTURA COUNTY COAST, AND LOS ANGELES COUNTY COAST. IF YOU ARE LOCATED IN THIS COASTAL AREA, MOVE INLAND TO HIGHER GROUND.

AN EARTHQUAKE WITH A PRELIMINARY MAGNITUDE OF 7.5 OCCURRED 60 MILES SOUTH OF KODIAK ALASKA AT 939 AM PACIFIC DAYLIGHT TIME ON APRIL 16 2012.

ONCE AGAIN, THE NATIONAL WEATHER SERVICE HAS ISSUED A TSUNAMI WARNING FOR THE FOLLOWING LOCATIONS, SANTA BARBARA COUNTY SOUTH COAST, VENTURA COUNTY COAST, AND LOS ANGELES COUNTY COAST. IF YOU ARE LOCATED IN THIS COASTAL AREA, MOVE INLAND TO HIGHER GROUND. STAY TUNED TO YOUR LOCAL NEWS SOURCE AND NOAA WEATHER RADIO FOR FURTHER INFORMATION AND UPDATES. IN HOUSE.")) by (vm_compute; reflexivity).
  split; [exact E|]. split; [reflexivity|].
  exact (autoFill_builtin_in_house _ _ _ _ _ _ _ E eq_refl).
Defined.
