(* ===== verification/Send.v ===== *)
(** * Sending a statement (BMH formatting, IssuanceTracker, modes)

    nwr_tsu.py lines 2259-2363 ([zoneMe], [countyMe], [highestPri],
    [crsDatestring], [crsCodeme], with [niceFirst] of lines 554-558), the
    send and book-keeping of [sendtoRadio] (lines 2388-2535), the
    countdown of [countdowntoRadio] (lines 2379-2385) and the operating
    modes ([checkAwipsMode], lines 360-393, and [toggleMode], lines
    1689-1703).

    The clock [datetime.utcnow()] and [time.time()] are the input [now]
    (seconds since the epoch); the zone check buttons are the list
    [checked] of the zones whose button is on; the file [last_issued.txt]
    is its text, [None] when it does not exist; the exit status of the
    send command is an input. *)

From stdpp Require Import base list strings decidable.
From Stdlib Require Import String Ascii ZArith Lia.
From S2P Require Import Prelude PyStr Config Civil Compose.

Local Open Scope string_scope.
Local Open Scope nat_scope.
Local Open Scope tsu_scope.

(** ** The zone and county codes of the header *)

(** The keys of [bt_zones] (lines 2663-2671): the zone ids, each once, in
    their configured order. *)
Definition bt_keys (g : globals) : list string :=
  fold_left (fun acc z => append_new z acc) (g_zone_ids g) [].

(** [str(l)] with brackets, quotes, blanks and newlines removed and
    commas turned into dashes (lines 2265 and 2277). *)
Definition dash_list (l : list string) : string :=
  str_replace nl "" (str_replace " " "" (str_replace "," "-" (str_replace (String sq "") ""
    (str_replace (String dq "") "" (str_replace "]" "" (str_replace "[" "" (py_str_list l))))))).

(** Lines 2259-2268: the selected zones. *)
Definition zoneMe (g : globals) (checked : list string) : string :=
  dash_list (List.filter (fun z => py_in z checked) (bt_keys g)).

(** Lines 2270-2280: the counties one of whose zones is selected; [z in
    zlist] is a substring test on the comma-separated zone list. *)
Definition county_hits (g : globals) (checked : list string) : list string :=
  fold_left (fun counties '(c, zlist) =>
    if existsb (fun z => py_in z checked && contains z zlist) (bt_keys g)
    then append_new c counties else counties) (g_county_list g) [].

Definition countyMe (g : globals) (checked : list string) : string :=
  dash_list (county_hits g checked).

(** ** The BMH header *)

(** Lines 2282-2295. *)
Definition highestPri (active text : string) : string :=
  if contains "warning" active then "warning"
  else if contains "watch" active then "watch"
  else if contains "advisory" active then "advisory"
  else if contains "REPEAT, TSUNAMI WARNING" text then "warning"
  else if contains "REPEAT, TSUNAMI WATCH" text then "watch"
  else if contains "REPEAT, TSUNAMI ADVISORY" text then "advisory"
  else if contains "TSUNAMI WARNING" text then "warning"
  else if contains "TSUNAMI WATCH" text then "watch"
  else if contains "TSUNAMI ADVISORY" text then "advisory"
  else "warning".

(** Lines 2297-2298: [yyMMddhhmm]. *)
Definition crsDatestring (t : datetime) : string :=
  str_drop 2 (str_Z (dt_year t)) ++ zfill 2 (str_Z (dt_month t)) ++ zfill 2 (str_Z (dt_day t)) ++
  zfill 2 (str_Z (dt_hour t)) ++ zfill 2 (str_Z (dt_minute t)).

Definition esc : string := String "027" "".

(** The product identifier: the node is prepended to a PIL shorter than
    seven characters (lines 2312-2320). *)
Definition bmh_pil (g : globals) (wwa : string) : string :=
  let pil := if String.eqb wwa "advisory" then g_advisoryPIL g
             else if String.eqb wwa "watch" then g_watchPIL g else g_warningPIL g in
  if String.length pil <? 7 then g_node g ++ pil else pil.

(** The expiry menu [optset["crsexpire"]] (lines 2700-2709) holds a text
    such as ["60mins"]: one of the menu's values, or [str(expiresin)+"mins"]
    set at start-up, so that [crsexpire in optset] always holds.  Lines
    2331 and 2445 read it as a number of minutes. *)
Definition crsexpire_minutes (crsexpire : string) : res Z :=
  py_int (str_replace " " "" (str_replace "mins" "" crsexpire)).

(** Lines 2303-2335: the message expires [expire] minutes after [now]. *)
Definition bmh_header (g : globals) (checked : list string) (masterTone : bool)
    (now expire : Z) (wwa : string) : string :=
  let ctime := crsDatestring (fromtimestamp now) in
  esc ++ "aT_ENG" ++ bmh_pil g wwa ++ ctime ++ ctime ++
  (if String.eqb wwa "advisory" || negb masterTone then "        CD IN" else "        CD IA") ++
  countyMe g checked ++ "c" ++ crsDatestring (fromtimestamp (now + expire * 60)).

(** ** The BMH text *)

(** Lines 554-558: [nicefirst[int(a)]], or [a] itself when the index is
    out of range. *)
Definition nicefirst : list string :=
  ["Zeroth"; "First"; "Second"; "Third"; "Fourth"; "Fifth"; "Sixth"; "Seventh"; "Eighth"; "Nine";
   "Ten"; "Eleventh"; "Twelfth"; "Thirteenth"; "Fourteenth"; "Fifteenth"; "Sixteenth";
   "Seventeenth"; "Eighteenth"; "Nineteenth"; "Twentieth"; "Twenty First"; "Twenty Second";
   "Twenty Third"; "Twenty Fourth"; "Twenty Fifth"; "Twenty Sixth"; "Twenty Seventh";
   "Twenty Eighth"; "Twenty Nine"; "Thirtieth"; "Thirty First"].

Definition niceFirst (a : string) : string :=
  match py_int a with
  | Ok n => if (0 <=? n)%Z && (n <? 32)%Z then nth (Z.to_nat n) nicefirst a else a
  | Raise _ => a
  end.

(** The longest run of ASCII digits at the start of a text ([\d+]). *)
Fixpoint digit_run (s : string) : string * string :=
  match s with
  | String c s' => if is_dig c then let '(d, r) := digit_run s' in (String c d, r) else ("", s)
  | EmptyString => ("", "")
  end.

(** A match of [(\d+) (AM|PM)] at the start of a text: the greedy digit
    run cannot give back a digit to meet the blank. *)
Definition crs_time_match_at (s : string) : option (string * string) :=
  let '(d, r) := digit_run s in
  if String.eqb d "" then None
  else if String.prefix " AM" r then Some (d, "AM")
  else if String.prefix " PM" r then Some (d, "PM")
  else None.

(** [re.findall]: the matches from left to right, without overlap;
    [skip] counts the characters of a match still to be passed. *)
Fixpoint time_findall_go (skip : nat) (s : string) : list (string * string) :=
  match s with
  | EmptyString => []
  | String _ s' =>
      match skip with
      | S k => time_findall_go k s'
      | O => match crs_time_match_at s with
             | Some (d, ap) => (d, ap) :: time_findall_go (String.length d + 2) s'
             | None => time_findall_go 0 s'
             end
      end
  end.

Definition time_findall (s : string) : list (string * string) := time_findall_go 0 s.

Definition month_upper : list string := map upper month_names.

Fixpoint all_digits (s : string) : bool :=
  match s with EmptyString => true | String c s' => is_dig c && all_digits s' end.

(** [(JANUARY|...|DECEMBER) ([0-9][0-9])] ([two]) or [([0-9])] at the
    start of a text. *)
Definition month_match_at (two : bool) (s : string) : option (string * string) :=
  let digits := if two then 2 else 1 in
  match List.find (fun m => String.prefix (m ++ " ") s) month_upper with
  | None => None
  | Some m =>
      let dd := substring (String.length m + 1) digits s in
      if (String.length dd =? digits) && all_digits dd then Some (m, dd) else None
  end.

Fixpoint month_findall_go (two : bool) (skip : nat) (s : string) : list (string * string) :=
  match s with
  | EmptyString => []
  | String _ s' =>
      match skip with
      | S k => month_findall_go two k s'
      | O => match month_match_at two s with
             | Some (m, dd) => (m, dd) :: month_findall_go two (String.length m + String.length dd) s'
             | None => month_findall_go two 0 s'
             end
      end
  end.

(** Lines 2340-2346: [939 AM] becomes [9:39 AM], [1039 AM] [10:39 AM]. *)
Definition add_colons (text : string) : string :=
  fold_left (fun text '(d, ap) =>
    if 2 <? String.length d then
      let replB := if 3 <? String.length d then substring 0 2 d ++ ":" ++ str_drop 2 d
                   else substring 0 1 d ++ ":" ++ str_drop 1 d in
      str_replace (d ++ " " ++ ap) (replB ++ " " ++ ap) text
    else text) (time_findall text) text.

(** Lines 2348-2359: [APRIL 16] becomes [APRIL SIXTEENTH]. *)
Definition nice_dates (two : bool) (text : string) : string :=
  fold_left (fun text '(m, dd) => str_replace (m ++ " " ++ dd) (m ++ " " ++ upper (niceFirst dd)) text)
    (month_findall_go two 0 text) text.

(** Line 2338. *)
Definition bmh_simple_fixes (text : string) : string :=
  upper (str_replace "  " " " (str_replace "  " " " (str_replace "..." ", " (str_replace nl " " text)))).

(** Lines 2301-2363.  In the [try], only [int(exp)] of the expiry can
    raise ([countyMe] catches its own errors and [niceFirst] its
    [IndexError]); the [except] shows a dialog and returns [""]. *)
Definition crsCodeme (g : globals) (checked : list string) (masterTone : bool) (now : Z)
    (crsexpire active text : string) : string :=
  match crsexpire_minutes crsexpire with
  | Raise _ => ""
  | Ok expire =>
      let wwa := highestPri active text in
      let header := bmh_header g checked masterTone now expire wwa in
      let text := nice_dates false (nice_dates true (add_colons (bmh_simple_fixes text))) in
      header ++ nl ++ str_replace nl "" text ++ esc ++ "b"
  end.

(** ** The issuance tracking file [data/last_issued.txt] (IssuanceTracker) *)

(** A time in the [track] dict: the integer [forwardtime] the program
    stores, or the text read back from the file. *)
Inductive tval : Type :=
| TInt (z : Z)
| TStr (s : string).

(** [track]: hazard kind to [[expiry, dash-joined zones]]. *)
Definition track := dict (tval * string).

Definition track_init : track :=
  [("warning", (TInt 0, "")); ("watch", (TInt 0, "")); ("advisory", (TInt 0, ""))].

(** [str(arr[0])] and [int(track[wwa][0])]. *)
Definition tval_str (v : tval) : string := match v with TInt z => str_Z z | TStr s => s end.
Definition tval_int (v : tval) : res Z := match v with TInt z => Ok z | TStr s => py_int s end.

(** [f.readlines()] in text mode: universal newlines, then one line per
    newline (the piece after the last newline is empty or the last line). *)
Definition readlines (txt : string) : list string :=
  str_split nl (str_replace cr nl (str_replace (cr ++ nl) nl txt)).

(** Lines 2435-2442: a line with at least three fields sets an entry. *)
Definition read_line (t : track) (a : string) : track :=
  let tmp := str_split "|" (strip a) in
  if 2 <? List.length tmp then dict_set (nth 0 tmp "") (TStr (nth 1 tmp ""), nth 2 tmp "") t else t.

Definition read_track (file : option string) : track :=
  match file with
  | None => track_init
  | Some txt => fold_left read_line (readlines txt) track_init
  end.

(** Lines 2464-2466. *)
Definition write_track (t : track) : string :=
  String.concat "" (map (fun '(wwa, (e, zs)) => wwa ++ "|" ++ tval_str e ++ "|" ++ zs ++ nl) t).

(** Line 2457: [zones.find(a)!=-1 and recentflg.find(wwa)==-1]. *)
Definition flag_step (zones wwa flg a : string) : string :=
  if contains a zones && negb (contains wwa flg) then flg ++ " " ++ wwa else flg.

(** Lines 2451-2457: the kinds with an unexpired record sharing a zone
    (a substring test) with the zones being sent. *)
Definition recent_kind (t : track) (zones : string) (now : Z) (flg : string) (wwa : string) : res string :=
  match dict_get wwa t with
  | None => Ok flg
  | Some (e, zs) =>
      exp <- tval_int e ;;
      if (now <? exp)%Z then
        Ok (fold_left (flag_step zones wwa) (str_split "-" zs) flg)
      else Ok flg
  end.

Fixpoint recent_flags_go (t : track) (zones : string) (now : Z) (flg : string) (ks : list string) : res string :=
  match ks with
  | [] => Ok flg
  | wwa :: ks' => flg' <- recent_kind t zones now flg wwa ;; recent_flags_go t zones now flg' ks'
  end.

Definition recent_flags (t : track) (zones : string) (now : Z) : res string :=
  recent_flags_go t zones now "" ["warning"; "watch"; "advisory"].

(** Lines 2459-2461: [track[wwa]] raises [KeyError] for a kind without
    an entry. *)
Fixpoint update_track (t : track) (wwarr : list string) (fwd : Z) (zones : string) : res track :=
  match wwarr with
  | [] => Ok t
  | wwa :: ws =>
      match dict_get wwa t with
      | None => Raise KeyError
      | Some _ => update_track (dict_set wwa (TInt fwd, zones) t) ws fwd zones
      end
  end.

(** Lines 2427-2432: the hazards issued so far and those still needed.
    [combo_issued] is a global list updated in place before anything can
    raise. *)
Definition issue_combo (wwarr combo_need combo_issued : list string) : list string * list string :=
  let issued := fold_left (fun acc a => append_new a acc) wwarr combo_issued in
  (issued, List.filter (fun a => negb (py_in a issued)) combo_need).

(** Lines 2444-2468: the book-keeping after a send: the warning flags and
    the new content of the tracking file ([None]: the file is only
    written in live mode).  An exception aborts it (line 2535). *)
Definition bookkeeping (g : globals) (mode : string) (checked : list string) (now : Z)
    (crsexpire active : string) (file : option string) : res (string * option string) :=
  let t := read_track file in
  expire <- crsexpire_minutes crsexpire ;;
  let fwd := (now + expire * 60)%Z in
  let zones := zoneMe g checked in
  flg <- recent_flags t zones now ;;
  t' <- update_track t (str_split "_" active) fwd zones ;;
  Ok (flg, if String.eqb mode "live" then Some (write_track t') else None).

(** Lines 2221-2244: [clearTrack] empties [combo_issued] and the
    tracking file. *)
Definition clearTrack : list string * string := ([], "").

(** ** [sendtoRadio] (lines 2388-2535) *)

(** [s.capitalize()] on ASCII text. *)
Definition capitalize (s : string) : string :=
  match s with EmptyString => "" | String c s' => String (upper_char c) (lower s') end.

(** Lines 2413-2422: the command and its exit status; [status] is what
    [os.system] returns for the live command ([os.system("")] returns
    0). *)
Definition send_cmd (g : globals) (local_dir mode : string) : string :=
  if String.eqb mode "live" then
    g_nwrsend g ++ (if String.eqb (g_pending g) "no" then " -a " else " -d ") ++ local_dir ++ "data/tsradio.txt"
  else "".

Definition send_ret (g : globals) (cmd : string) (status : Z) : Z :=
  if String.eqb (g_nwrsend g) "" then 127%Z else if String.eqb cmd "" then 0%Z else status.

(** What the operator is shown at the end. *)
Inductive send_notice : Type :=
| SendOk (msg : string) (still_need : list string) (recent : option string)  (* lines 2482-2506 *)
| SendFailed (msg : string)                                                   (* lines 2524-2534 *)
| BookError.                                                                  (* line 2535 *)

Definition success_msg (g : globals) (mode : string) : string :=
  if String.eqb mode "live" then
    (if String.eqb (g_pending g) "no" then "Statement Successfully Sent to BMH"
     else "Statement Successfully Sent to Pending. Please open the NWR Browser to complete.")
  else "Congratulations." ++ nl ++ "Looks like a sucessful test.".

Definition failure_msg (g : globals) (mode active : string) (ret : Z) : string :=
  (if String.eqb mode "live" then
     (if String.eqb (g_nwrsend g) "" then
        "SEND TO RADIO is disabled - please set 'nwrsend' parameter in etc/config_tsu.py file." ++ nl ++ "Code:nwrTransfer "
      else "There was an error. " ++ str_replace "_" "+" (capitalize active) ++ " Product not sent to BMH." ++ nl ++ "Code:nwrTransfer ")
   else "Practice is complete, but something went strangely." ++ nl ++ "Code:nwrTransfer") ++ str_Z ret.

(** Lines 2504-2506 (the string continues over a backslash-newline, so
    the blanks that indent the next source line are part of it). *)
Definition recent_msg (flg : string) : string :=
  nl ++ "*There may be a previous " ++ str_replace " " " & " (str_drop 1 flg) ++ " for a" ++ nl ++
  "zone you just issued that may     still be playing on the radio." ++ nl ++
  "You may want to manually remove it from BMH.".

Record send_out : Type := {
  so_script : string;             (* data/tsradio.txt *)
  so_cmd : string;
  so_ret : Z;
  so_combo_issued : list string;  (* the global combo_issued afterwards *)
  so_track_file : option string;  (* the new data/last_issued.txt, if written *)
  so_notice : send_notice
}.

(** The whole function, after the operator confirmed.  The logging of
    lines 2507-2522 (a text database query) is not modelled. *)
Definition sendtoRadio (g : globals) (local_dir mode : string) (checked : list string)
    (masterTone : bool) (now : Z) (crsexpire active text : string) (combo_need combo_issued : list string)
    (file : option string) (status : Z) : send_out :=
  let script := crsCodeme g checked masterTone now crsexpire active text in
  let cmd := send_cmd g local_dir mode in
  let ret := send_ret g cmd status in
  let '(issued, still) := issue_combo (str_split "_" active) combo_need combo_issued in
  let book := bookkeeping g mode checked now crsexpire active file in
  {| so_script := script; so_cmd := cmd; so_ret := ret; so_combo_issued := issued;
     so_track_file := match book with Ok (_, f) => f | Raise _ => None end;
     so_notice := match book with
                  | Raise _ => BookError
                  | Ok (flg, _) =>
                      if (ret =? 0)%Z then
                        SendOk (success_msg g mode) still (if String.eqb flg "" then None else Some (recent_msg flg))
                      else SendFailed (failure_msg g mode active ret)
                  end |}.

(** ** The countdown before sending (lines 2379-2385) *)

(** One call of [countdowntoRadio] per second, starting from the
    [counter] that [almostsendtoRadio] sets: the labels shown, then
    [sendtoRadio] once the counter drops below zero ([None]: the fuel, a
    number of seconds, ran out first). *)
Fixpoint countdown (fuel : nat) (counter : Z) : option (list Z) :=
  match fuel with
  | O => None
  | S f =>
      let c := (counter - 1)%Z in
      if (0 <=? c)%Z then option_map (cons counter) (countdown f c) else Some [counter]
  end.

(** ** Operating modes *)

(** Lines 379-387: the mode reported by [bin/modecheck.sh] (its output
    [shellout]) and the toggle options. *)
Definition checkAwipsMode (shellout : string) : string * list string :=
  let s := lower (strip shellout) in
  let modeout := if String.eqb s "test" || String.eqb s "practice" then s else "live" in
  (modeout, if String.eqb modeout "test" then ["test"; "practice"]
            else if String.eqb modeout "practice" then ["practice"] else ["live"; "practice"]).

(** Lines 390-393. *)
Definition initial_mode (shellout openPractice : string) : string :=
  if String.eqb openPractice "yes" then "practice" else fst (checkAwipsMode shellout).

(** Lines 1693-1700, given the mode [awips] that [checkAwipsMode]
    reports at the time of the toggle. *)
Definition toggleMode (modeme awips : string) : string :=
  let m := if String.eqb awips "practice" then "practice" else modeme in
  if String.eqb m "live" || String.eqb m "test" then "practice"
  else if String.eqb m "practice" then
    (let m' := if String.eqb awips "live" then "live" else m in
     if String.eqb awips "test" then "test" else m')
  else m.

(** The modes reachable from start-up through toggles, with the AWIPS
    mode of the last check. *)
Inductive mode_reach (openPractice : string) : string -> string -> Prop :=
| mode_start sh : mode_reach openPractice (initial_mode sh openPractice) (fst (checkAwipsMode sh))
| mode_toggle m a sh : mode_reach openPractice m a ->
    mode_reach openPractice (toggleMode m (fst (checkAwipsMode sh))) (fst (checkAwipsMode sh)).

(** [str(year)[2:]] has two characters for the four-digit years, checked
    by evaluation over [1000..9999]. *)
Definition year2_check (y : Z) : bool := (String.length (str_drop 2 (str_Z y)) =? 2).

(** ** The well-formed tracking files *)

(** A field of a record line: no blank, no line break, no bar. *)
Fixpoint field_ok (s : string) : bool :=
  match s with
  | EmptyString => true
  | String c s' => negb (is_space c) && negb (Ascii.eqb c "|") && field_ok s'
  end.

Definition render_line (e : string * (tval * string)) : string :=
  let '(wwa, (v, zs)) := e in wwa ++ "|" ++ tval_str v ++ "|" ++ zs.

(** The record as it is read back: the expiry is then text. *)
Definition strify (e : string * (tval * string)) : string * (tval * string) :=
  let '(wwa, (v, zs)) := e in (wwa, (TStr (tval_str v), zs)).

(** A dict the program can have built: the three kinds first, distinct
    keys, and fields that survive the file format. *)
Definition track_wf (t : track) : Prop :=
  (exists extra, map fst t = (map fst track_init ++ extra)%list) /\ List.NoDup (map fst t) /\
  Forall (fun '(wwa, (v, zs)) => field_ok wwa = true /\ field_ok (tval_str v) = true /\ field_ok zs = true) t.

(** A tracking file whose warning record has no integer expiry. *)
Definition corrupt_file : string := "warning|soon|CAZ039" ++ nl.

(** A warning record without zones, expiring at 1334598840. *)
Definition empty_zone_track : track :=
  [("warning", (TInt 1334598840, "")); ("watch", (TInt 0, "")); ("advisory", (TInt 0, ""))].

(** * Properties *)

(** ** Modes *)

Lemma toggleMode_spec m a :
  (toggleMode m a = "live" -> a = "live") /\ (toggleMode m a = "test" -> a = "test").
Proof.
  unfold toggleMode.
  destruct (String.eqb_spec a "practice") as [->|Hp]; [done |]. cbv zeta.
  destruct (String.eqb_spec m "live"); [done |]. destruct (String.eqb_spec m "test"); [done |].
  cbn [orb]. destruct (String.eqb_spec m "practice") as [->|]; [| split; intros ->; contradiction].
  destruct (String.eqb_spec a "test") as [->|]; [done |].
  destruct (String.eqb_spec a "live") as [->|]; done.
Qed.

(** C31: in every mode reachable from start-up through [toggleMode],
    the program is in live mode only if the last AWIPS mode check said
    live (and in test mode only if it said test); so the send command
    to the radio, built only in live mode, is never built unless AWIPS
    was last seen in live mode. *)
Theorem radio_command_requires_awips_live g local_dir openPractice m a :
  mode_reach openPractice m a -> send_cmd g local_dir m <> "" -> a = "live".
Proof.
  intros Hr. assert (Hl : m = "live" -> a = "live").
  { induction Hr as [sh | m a sh _ _].
    - unfold initial_mode. destruct (String.eqb openPractice "yes"); [discriminate | done].
    - apply toggleMode_spec. }
  unfold send_cmd. destruct (String.eqb_spec m "live") as [E|]; [intros _; by apply Hl | done].
Qed.

(** ** The countdown *)

Lemma countdown_S f c :
  countdown (S f) c = if (0 <=? c - 1)%Z then option_map (cons c) (countdown f (c - 1)) else Some [c].
Proof. reflexivity. Qed.

(** from [counter = n], the countdown shows n, n-1, ..., 0 and
    sends after exactly n+1 calls (seconds): never earlier. *)
Theorem countdown_sends (n : nat) :
  countdown (S n) (Z.of_nat n) = Some (map Z.of_nat (rev (seq 0 (S n)))) /\
  countdown n (Z.of_nat n) = None.
Proof.
  induction n as [|n [IH1 IH2]]; [done |]. split.
  - rewrite countdown_S. replace (Z.of_nat (S n) - 1)%Z with (Z.of_nat n) by lia.
    replace (0 <=? Z.of_nat n)%Z with true by (symmetry; apply Z.leb_le; lia). rewrite IH1.
    rewrite (seq_S (S n) 0), rev_app_distr, map_app. reflexivity.
  - rewrite countdown_S. replace (Z.of_nat (S n) - 1)%Z with (Z.of_nat n) by lia.
    replace (0 <=? Z.of_nat n)%Z with true by (symmetry; apply Z.leb_le; lia). by rewrite IH2.
Qed.

(** ** Errors of the book-keeping *)

Lemma py_int_error s e : py_int s = Raise e -> e = ValueError.
Proof.
  unfold py_int. repeat case_match; intros Hr; first [discriminate | by injection Hr].
Qed.

Lemma tval_int_error v e : tval_int v = Raise e -> e = ValueError.
Proof. destruct v; simpl; [discriminate | apply py_int_error]. Qed.

Lemma recent_kind_error t zones now flg w e :
  recent_kind t zones now flg w = Raise e -> e = ValueError.
Proof.
  unfold recent_kind. destruct (dict_get w t) as [[v zs]|]; [| discriminate].
  destruct (tval_int v) eqn:E; simpl; [by case_match | intros [= <-]; by eapply tval_int_error].
Qed.

Lemma recent_kind_int t zones now flg w e zs :
  dict_get w t = Some (TInt e, zs) -> exists f, recent_kind t zones now flg w = Ok f.
Proof. intros Hg. unfold recent_kind. rewrite Hg. simpl. case_match; eauto. Qed.

Lemma recent_flags_go_error t zones now ks : forall flg w v zs,
  In w ks -> dict_get w t = Some (v, zs) -> tval_int v = Raise ValueError ->
  recent_flags_go t zones now flg ks = Raise ValueError.
Proof.
  induction ks as [|w' ks IH]; intros flg w v zs Hin Hg Hv; [done |]. simpl.
  destruct (recent_kind t zones now flg w') as [flg'|e] eqn:E; simpl.
  - destruct Hin as [<-|Hin]; [| by eapply IH].
    unfold recent_kind in E. rewrite Hg, Hv in E. discriminate.
  - by rewrite (recent_kind_error _ _ _ _ _ _ E).
Qed.

(** C39: the book-keeping after a send fails, and the tracking file is
    not written, when a hazard record of the file has an expiry that is
    not an integer ([ValueError], against section 7 of the design:
    corrupt records should count as absent), and when no hazard is
    active ([track[""]] raises [KeyError]); the expiry menu holds a
    number of minutes. *)
Theorem bookkeeping_errors g mode checked now crsexpire m active file :
  crsexpire_minutes crsexpire = Ok m ->
  ((exists w zs s, In w ["warning"; "watch"; "advisory"] /\
     dict_get w (read_track file) = Some (TStr s, zs) /\ py_int s = Raise ValueError) ->
   bookkeeping g mode checked now crsexpire active file = Raise ValueError) /\
  bookkeeping g mode checked now crsexpire "" None = Raise KeyError.
Proof.
  intros Hm. split.
  - intros (w & zs & s & Hin & Hg & Hs). unfold bookkeeping, recent_flags. rewrite Hm, res_bind_Ok.
    by rewrite (recent_flags_go_error _ _ _ _ "" w (TStr s) zs Hin Hg Hs).
  - unfold bookkeeping, recent_flags. rewrite Hm, res_bind_Ok. cbn [read_track recent_flags_go].
    destruct (recent_kind_int track_init (zoneMe g checked) now "" "warning" 0 "") as [f1 ->]; [done |].
    rewrite res_bind_Ok.
    destruct (recent_kind_int track_init (zoneMe g checked) now f1 "watch" 0 "") as [f2 ->]; [done |].
    rewrite res_bind_Ok.
    destruct (recent_kind_int track_init (zoneMe g checked) now f2 "advisory" 0 "") as [f3 ->]; [done |].
    by rewrite !res_bind_Ok.
Qed.

(** ** The overlap check *)

Lemma fold_flag_extends zones wwa l : forall flg,
  exists x, fold_left (flag_step zones wwa) l flg = flg ++ x.
Proof.
  induction l as [|a l IH]; intros flg; simpl; [exists ""; by rewrite append_empty_r |].
  destruct (IH (flag_step zones wwa flg a)) as [x ->]. unfold flag_step.
  destruct (_ && _); [exists (" " ++ wwa ++ x); by rewrite !append_assoc_str | by exists x].
Qed.

Lemma fold_flag_sets zones wwa l : forall flg,
  (exists a, In a l /\ contains a zones = true) -> contains wwa (fold_left (flag_step zones wwa) l flg) = true.
Proof.
  induction l as [|a l IH]; intros flg [a' [Hin Ha]]; [done |]. simpl.
  destruct Hin as [<-|Hin]; [| apply IH; eauto].
  destruct (fold_flag_extends zones wwa l (flag_step zones wwa flg a)) as [x ->].
  apply contains_app_l. unfold flag_step. rewrite Ha. simpl.
  destruct (contains wwa flg) eqn:E; simpl; [done |].
  rewrite <- append_assoc_str. apply contains_app_self.
Qed.

Lemma recent_kind_fold t zones now flg wwa :
  recent_kind t zones now flg wwa =
  match dict_get wwa t with
  | None => Ok flg
  | Some (e, zs) => exp <- tval_int e ;;
      if (now <? exp)%Z then Ok (fold_left (flag_step zones wwa) (str_split "-" zs) flg) else Ok flg
  end.
Proof. reflexivity. Qed.

Lemma recent_kind_extends t zones now flg w f :
  recent_kind t zones now flg w = Ok f -> exists x, f = flg ++ x.
Proof.
  rewrite recent_kind_fold. destruct (dict_get w t) as [[e zs]|]; [| intros [= <-]; exists ""; by rewrite append_empty_r].
  destruct (tval_int e); simpl; [| discriminate]. case_match; intros [= <-];
    [apply fold_flag_extends | exists ""; by rewrite append_empty_r].
Qed.

Lemma recent_flags_go_extends t zones now ks : forall flg f,
  recent_flags_go t zones now flg ks = Ok f -> exists x, f = flg ++ x.
Proof.
  induction ks as [|w ks IH]; intros flg f; simpl; [intros [= <-]; exists ""; by rewrite append_empty_r |].
  destruct (recent_kind t zones now flg w) as [f1|] eqn:E; simpl; [| discriminate].
  intros H. destruct (recent_kind_extends _ _ _ _ _ _ E) as [x1 ->].
  destruct (IH _ _ H) as [x2 ->]. exists (x1 ++ x2). by rewrite append_assoc_str.
Qed.

(** The contract of the overlap check: an unexpired record of a kind
    sharing a zone with the zones sent sets the kind's flag. *)
Lemma recent_flags_go_sets t zones now w v zs e ks : forall flg f,
  In w ks -> dict_get w t = Some (v, zs) -> tval_int v = Ok e -> (now < e)%Z ->
  (exists a, In a (str_split "-" zs) /\ contains a zones = true) ->
  recent_flags_go t zones now flg ks = Ok f -> contains w f = true.
Proof.
  induction ks as [|w' ks IH]; intros flg f Hin Hg Hv He Ha; [done |]. simpl.
  destruct (recent_kind t zones now flg w') as [f1|] eqn:E; simpl; [| discriminate]. intros H.
  destruct Hin as [<-|Hin]; [| by eapply IH].
  destruct (recent_flags_go_extends _ _ _ _ _ _ H) as [x ->]. apply contains_app_l.
  rewrite recent_kind_fold, Hg, Hv in E. simpl in E.
  replace (now <? e)%Z with true in E by (symmetry; apply Z.ltb_lt; lia).
  injection E as <-. by apply fold_flag_sets.
Qed.

Lemma update_track_keeps t ws fwd zones t' (P : string -> Prop) :
  (forall w, P w -> dict_get w t = Some (TInt fwd, zones)) ->
  update_track t ws fwd zones = Ok t' ->
  forall w, P w \/ In w ws -> dict_get w t' = Some (TInt fwd, zones).
Proof.
  revert t P. induction ws as [|w' ws IH]; intros t P HP; simpl.
  - intros [= <-] w [Hw|[]]. by apply HP.
  - destruct (dict_get w' t); [| discriminate]. intros H w Hw.
    apply (IH _ (fun w => P w \/ w = w')) with (w := w) in H; [done | |].
    + intros w0 [Hw0 | ->]; [| apply dict_get_set_eq].
      destruct (String.eqb_spec w' w0) as [->|Hne]; [apply dict_get_set_eq |].
      rewrite dict_get_set_ne by done. by apply HP.
    + destruct Hw as [Hw|[->|Hw]]; auto.
Qed.

Lemma update_track_get t ws fwd zones t' w :
  update_track t ws fwd zones = Ok t' -> In w ws -> dict_get w t' = Some (TInt fwd, zones).
Proof.
  intros H Hin. apply (update_track_keeps t ws fwd zones t' (fun _ => False)); [done | done | by right].
Qed.

(** ** The file format round trip *)

Lemma contains_char_app d a b :
  contains (String d "") (a ++ b) = contains (String d "") a || contains (String d "") b.
Proof.
  induction a as [|c a IH]; [done |]. rewrite append_cons, !contains_char_cons, IH.
  apply orb_assoc.
Qed.

Lemma field_ok_app a b : field_ok (a ++ b) = field_ok a && field_ok b.
Proof. induction a as [|c a IH]; [done |]. rewrite append_cons. simpl. rewrite IH. by rewrite !andb_assoc. Qed.

Lemma field_ok_char d s : field_ok s = true -> is_space d || Ascii.eqb d "|" = true ->
  contains (String d "") s = false.
Proof.
  intros Hs Hd. induction s as [|c s IH]; [done |]. simpl in Hs.
  apply andb_true_iff in Hs as [Hc Hs]. apply andb_true_iff in Hc as [Hc1 Hc2].
  rewrite contains_char_cons, IH by done. rewrite orb_false_r.
  apply Ascii.eqb_neq. intros <-. apply negb_true_iff in Hc1, Hc2. by rewrite Hc1, Hc2 in Hd.
Qed.

Lemma field_ok_no_space s : field_ok s = true -> no_space s = true.
Proof.
  induction s as [|c s IH]; [done |]. simpl. unfold no_space. simpl.
  intros [[H1 _]%andb_true_iff H2]%andb_true_iff. rewrite H1. by apply IH.
Qed.

Lemma split_three d x y z :
  contains (String d "") x = false -> contains (String d "") y = false -> contains (String d "") z = false ->
  str_split (String d "") (x ++ String d (y ++ String d z)) = [x; y; z].
Proof.
  intros Hx Hy Hz. unfold str_split. rewrite split_go_char by done. rewrite append_nil_l.
  rewrite split_go_char by done. rewrite append_nil_l. by rewrite split_go_char_last.
Qed.

Lemma no_space_cons c s : no_space (String c s) = negb (is_space c) && no_space s.
Proof. reflexivity. Qed.

Lemma no_space_app a b : no_space (a ++ b) = no_space a && no_space b.
Proof.
  induction a as [|c a IH]; [done |]. rewrite append_cons, !no_space_cons, IH. apply andb_assoc.
Qed.

Lemma contains_char_lines d lines :
  Ascii.eqb d "010" = false -> Forall (fun x => contains (String d "") x = false) lines ->
  contains (String d "") (String.concat "" (map (fun x => x ++ nl) lines)) = false.
Proof.
  intros Hd. induction 1 as [|x xs Hx Hxs IH]; [done |].
  assert (Hl : contains (String d "") (x ++ nl) = false) by (rewrite contains_char_app, Hx; unfold nl; rewrite contains_char_cons, Hd; reflexivity).
  destruct xs as [|x' xs']; [exact Hl |].
  rewrite map_cons, concat_empty_cons by done. rewrite contains_char_app, Hl. exact IH.
Qed.

Lemma read_line_render t e :
  (let '(wwa, (v, zs)) := e in field_ok wwa = true /\ field_ok (tval_str v) = true /\ field_ok zs = true) ->
  read_line t (render_line e) = let '(k, v) := strify e in dict_set k v t.
Proof.
  destruct e as [k [v zs]]. intros (Hk & Hv & Hz). unfold read_line. cbn [render_line strify].
  rewrite strip_no_space.
  - change (k ++ "|" ++ tval_str v ++ "|" ++ zs) with (k ++ String "|" (tval_str v ++ String "|" zs)).
    rewrite split_three by (apply field_ok_char; done). reflexivity.
  - rewrite !no_space_app, (field_ok_no_space k Hk), (field_ok_no_space _ Hv), (field_ok_no_space zs Hz).
    reflexivity.
Qed.

Lemma fold_read_lines t : forall acc,
  Forall (fun '(wwa, (v, zs)) => field_ok wwa = true /\ field_ok (tval_str v) = true /\ field_ok zs = true) t ->
  fold_left read_line (map render_line t) acc = fold_left (fun acc '(k, v) => dict_set k v acc) (map strify t) acc.
Proof.
  induction t as [|e t IH]; intros acc Hf; [done |]. inversion Hf as [|? ? He Ht]; subst.
  simpl. rewrite read_line_render by done. destruct e as [k [v zs]]. simpl. by apply IH.
Qed.

(** C30: the persisted format of section 6 of the design round-trips:
    reading back the file written from a well-formed [track] gives the
    same records, in the same order, with the expiries as text. *)
Theorem track_file_roundtrip t : track_wf t -> read_track (Some (write_track t)) = map strify t.
Proof.
  intros ([extra Hpre] & Hnd & Hf).
  assert (Hw : write_track t = String.concat "" (map (fun x => x ++ nl) (map render_line t))).
  { unfold write_track. rewrite map_map. f_equal. apply map_ext. intros [k [v zs]]. simpl.
    by rewrite !append_assoc_str. }
  assert (Hc : forall d, is_space d = true ->
            Forall (fun x => contains (String d "") x = false) (map render_line t)).
  { intros d Hsp. apply Forall_map. eapply Forall_impl; [| exact Hf]. intros [k [v zs]] (Hk & Hv & Hz).
    assert (Hd : is_space d || Ascii.eqb d "|" = true) by (by rewrite Hsp).
    assert (Hb : contains (String d "") "|" = false).
    { rewrite contains_char_cons. destruct (Ascii.eqb_spec d "|") as [->|]; [discriminate | done]. }
    cbn [render_line]. rewrite !contains_char_app, Hb, !field_ok_char by done. reflexivity. }
  unfold read_track, readlines. rewrite Hw.
  assert (Hcr : contains (String "013" "") (String.concat "" (map (fun x => x ++ nl) (map render_line t))) = false)
    by (apply contains_char_lines; [done | by apply Hc]).
  change (str_replace (cr ++ nl) nl ?x) with (replace_go (String "013" (String "010" "")) nl 0 x).
  rewrite replace_go_nochar by done.
  change (str_replace cr nl ?x) with (replace_go (String "013" "") nl 0 x).
  rewrite replace_go_nochar by done.
  rewrite (split_terminated "010"); [| by apply Hc].
  rewrite fold_left_app. change (fold_left read_line [""] ?x) with x.
  rewrite fold_read_lines by done.
  rewrite <- (app_nil_l track_init), fold_dict_set_prefix; [done | |].
  - exists extra. rewrite map_map. rewrite <- Hpre. apply map_ext. by intros [k [v zs]].
  - replace (map fst (map strify t)) with (map fst t); [done |].
    rewrite map_map. apply map_ext. by intros [k [v zs]].
Qed.

(** ** The issuance tracking contract *)

Lemma field_ok_digits acc s v : digits_val acc s = Some v -> field_ok s = true.
Proof.
  revert acc. induction s as [|c s IH]; intros acc; [done |]. simpl.
  destruct (digit_val c) as [d|] eqn:E; [| discriminate]. intros H.
  rewrite (digit_val_not_space _ _ E). destruct (Ascii.eqb_spec c "|") as [->|]; [discriminate |].
  simpl. eapply IH; eauto.
Qed.

Lemma str_N_nonempty n : str_N n <> "".
Proof.
  intros E. pose proof (digits_val_str_N n) as H. rewrite E in H. injection H as H.
  destruct n; [discriminate E | lia].
Qed.

Lemma str_Z_nonneg z : (0 <= z)%Z -> str_Z z = str_N (Z.to_N z).
Proof. intros H. unfold str_Z. by replace (z <? 0)%Z with false by (symmetry; apply Z.ltb_ge; lia). Qed.

Lemma py_int_str_Z z : (0 <= z)%Z -> py_int (str_Z z) = Ok z.
Proof.
  intros H. rewrite str_Z_nonneg by done. apply py_int_digits; [apply str_N_nonempty |].
  rewrite digits_val_str_N. f_equal. lia.
Qed.

Lemma field_ok_str_Z z : (0 <= z)%Z -> field_ok (str_Z z) = true.
Proof. intros H. rewrite str_Z_nonneg by done. eapply field_ok_digits, digits_val_str_N. Qed.

Lemma dict_get_map_strify t w v zs :
  dict_get w t = Some (v, zs) -> dict_get w (map strify t) = Some (TStr (tval_str v), zs).
Proof.
  induction t as [|[k [v' zs']] t IH]; simpl; [discriminate |].
  destruct (String.eqb k w); [intros [= -> ->]; done | exact IH].
Qed.

Lemma update_track_wf t ws fwd zones t' :
  track_wf t -> (0 <= fwd)%Z -> field_ok zones = true ->
  update_track t ws fwd zones = Ok t' -> track_wf t'.
Proof.
  revert t. induction ws as [|w ws IH]; intros t Hwf Hf Hz; simpl; [by intros [= <-] |].
  destruct (dict_get w t) as [p|] eqn:E; [| discriminate]. apply IH; [| done | done].
  destruct Hwf as ([extra Hpre] & Hnd & Hfs).
  assert (Hk : In w (map fst t)).
  { clear -E. induction t as [|[k v] t IH]; simpl in *; [discriminate |].
    destruct (String.eqb_spec k w) as [->|]; [by left | right; by apply IH]. }
  split; [| split].
  - exists extra. by rewrite dict_set_keys.
  - by rewrite dict_set_keys.
  - clear -Hfs Hf Hz Hk. induction Hfs as [|[k [v zs]] t Hx Ht IH]; simpl in *; [contradiction |].
    destruct (String.eqb_spec k w) as [->|Hne]; constructor; [| done | done |].
    + cbn. repeat split; [by destruct Hx | by apply field_ok_str_Z | done].
    + apply IH. destruct Hk as [->|Hk]; [contradiction | done].
Qed.

(** C11: the IssuanceTracker contract of section 4.8 of the design,
    through the file.  After a live send at time [now] (with a
    well-formed tracking file and zone codes that fit the format), the
    file written records every hazard sent; the next send, at any
    [now'] before the expiry chosen in the menu ([m] minutes), whose
    zones contain one of the zone codes sent, flags each of those
    hazards as possibly still on the radio. *)
Theorem issuance_overlap_flagged g checked now crsexpire m active file flg F w mode' checked' now' crsexpire' active' flg' F' :
  track_wf (read_track file) -> (0 <= now)%Z -> field_ok (zoneMe g checked) = true ->
  crsexpire_minutes crsexpire = Ok m -> (0 <= m)%Z ->
  bookkeeping g "live" checked now crsexpire active file = Ok (flg, Some F) ->
  In w (str_split "_" active) -> In w ["warning"; "watch"; "advisory"] -> (now' < now + m * 60)%Z ->
  (exists a, In a (str_split "-" (zoneMe g checked)) /\ contains a (zoneMe g checked') = true) ->
  bookkeeping g mode' checked' now' crsexpire' active' (Some F) = Ok (flg', F') ->
  contains w flg' = true.
Proof.
  intros Hwf Hnow Hz Hm Hm0 H Hw Hk Hlt Ha H'. unfold bookkeeping in H. rewrite Hm, res_bind_Ok in H.
  apply res_bind_eq_Ok in H as (f0 & _ & H). apply res_bind_eq_Ok in H as (t' & Hu & H).
  injection H as _ <-.
  unfold bookkeeping in H'. apply res_bind_eq_Ok in H' as (m' & _ & H').
  apply res_bind_eq_Ok in H' as (f1 & Hr & H').
  apply res_bind_eq_Ok in H' as (t2 & _ & H'). injection H' as -> _.
  assert (Hwf' : track_wf t')
    by (apply (update_track_wf _ (str_split "_" active) (now + m * 60)%Z (zoneMe g checked) _ Hwf); [lia | exact Hz | exact Hu]).
  rewrite track_file_roundtrip in Hr by exact Hwf'.
  eapply (recent_flags_go_sets _ _ _ w _ _ (now + m * 60)%Z); [exact Hk | | | exact Hlt | exact Ha | exact Hr].
  - apply dict_get_map_strify. exact (update_track_get _ _ _ _ _ _ Hu Hw).
  - apply py_int_str_Z. lia.
Qed.

(** C40: a record whose zone list is empty (the tracking file after
    a send with no zone button on, where [zoneMe] is [""]) flags its
    hazard on every later send before it expires, whatever zones are
    sent: [""].split("-") is [[""]], and [zones.find("")] is 0. *)
Theorem empty_record_always_flagged t w v e zones now flg :
  In w ["warning"; "watch"; "advisory"] -> dict_get w t = Some (v, "") -> tval_int v = Ok e -> (now < e)%Z ->
  recent_flags t zones now = Ok flg -> contains w flg = true.
Proof.
  intros Hk Hg Hv He. unfold recent_flags. apply (recent_flags_go_sets t zones now w v "" e); try done.
  exists "". split; [by left | apply contains_empty].
Qed.

(** ** The header's date strings *)

Lemma year2_check_all : forallb year2_check (zrange 1000 9000) = true.
Proof. vm_compute. reflexivity. Qed.

Lemma year2_length y : (1000 <= y <= 9999)%Z -> String.length (str_drop 2 (str_Z y)) = 2.
Proof.
  intros Hy. pose proof year2_check_all as H. rewrite forallb_forall in H.
  apply Nat.eqb_eq, H, in_zrange. lia.
Qed.

Lemma pad2_length m : (0 <= m < 100)%Z -> String.length (zfill 2 (str_Z m)) = 2.
Proof. intros H. apply (pad2_facts m H). Qed.

(** for every valid date-time of a four-digit year, the date
    string of the BMH header ([crsDatestring], creation, effective and
    expiry times) has exactly the ten characters [yyMMddhhmm] of the
    fixed-width header format. *)
Theorem crsDatestring_length t :
  valid_datetime t = true -> (1000 <= dt_year t)%Z -> String.length (crsDatestring t) = 10.
Proof.
  intros Hv Hy. apply valid_datetime_spec in Hv as (Hd & Hh & Hm). apply valid_date_spec in Hd as (Hy' & Hmo & Hda).
  pose proof (days_in_month_le (dt_year t) (dt_month t)).
  unfold crsDatestring. rewrite !length_append, year2_length, !pad2_length by lia. reflexivity.
Qed.

(** ** The BMH script and the send notice *)

(** the BMH script of a warning for two zones of the template
    configuration: the header (node-prefixed PIL, creation and effective
    times, tone alert, the counties of the zones, expiry 15 minutes
    later as chosen in the menu) and the text on one line, with colons put in the times and
    ordinal days; but [niceFirst] writes the 9th as "NINE", and the date
    pattern also matches the first two digits of a year ("MARCH 2011"
    becomes "MARCH TWENTIETH11"). *)
Theorem crsCodeme_demo :
  crsCodeme template_globals ["CAZ039"; "CAZ040"] true 1334597940%Z "15mins" "warning"
    ("AN EARTHQUAKE OCCURRED AT 939 AM PACIFIC DAYLIGHT TIME ON APRIL 16 2012." ++ nl ++
     "THE FIRST WAVES MAY ARRIVE AT 1039 AM ON APRIL 9, AS IN MARCH 2011.") =
  esc ++ "aT_ENGLAXTSWWCA12041617391204161739        CD IACAC083-CAC111c1204161754" ++ nl ++
  "AN EARTHQUAKE OCCURRED AT 9:39 AM PACIFIC DAYLIGHT TIME ON APRIL SIXTEENTH 2012. THE FIRST WAVES MAY ARRIVE AT 10:39 AM ON APRIL NINE, AS IN MARCH TWENTIETH11." ++
  esc ++ "b".
Proof. vm_compute. reflexivity. Qed.

(** C36: with sending disabled ([nwrsend] empty, as in the shipped
    configurations), a send in practice or test mode always reports
    "Practice is complete, but something went strangely" with code 127
    (or the book-keeping error), never the successful practice: the exit
    code 127 is set before the mode is looked at (lines 2419-2420). *)
Theorem practice_send_reports_failure g local_dir mode checked masterTone now crsexpire active text cn ci file status :
  g_nwrsend g = "" -> mode <> "live" ->
  let o := sendtoRadio g local_dir mode checked masterTone now crsexpire active text cn ci file status in
  so_ret o = 127%Z /\
  (so_notice o = BookError \/
   so_notice o = SendFailed ("Practice is complete, but something went strangely." ++ nl ++ "Code:nwrTransfer127")).
Proof.
  intros Hn Hm. unfold sendtoRadio, send_ret. rewrite Hn. cbn zeta.
  destruct (issue_combo _ _ _) as [issued still]. cbn [so_ret so_notice]. split; [done |].
  destruct (bookkeeping _ _ _ _ _ _ _) as [[flg f]|]; [right | by left].
  unfold failure_msg. apply String.eqb_neq in Hm. by rewrite Hm.
Qed.

(** * Witnesses *)

Lemma radio_command_requires_awips_live_witness :
  mode_reach "no" "live" "live" /\ send_cmd template_globals "/awips2/apps/TsunamiEasGui/" "live" <> "" /\
  (mode_reach "no" "live" "live" -> send_cmd template_globals "/awips2/apps/TsunamiEasGui/" "live" <> "" -> "live" = "live").
Proof.
  assert (Hr : mode_reach "no" "live" "live").
  { change (mode_reach "no" (toggleMode "practice" (fst (checkAwipsMode "live"))) (fst (checkAwipsMode "live"))).
    apply mode_toggle with (a := "live").
    change (mode_reach "no" (toggleMode "live" (fst (checkAwipsMode "live"))) (fst (checkAwipsMode "live"))).
    apply mode_toggle with (a := "live"). exact (mode_start "no" "live"). }
  assert (Hs : send_cmd template_globals "/awips2/apps/TsunamiEasGui/" "live" <> "") by discriminate.
  split; [exact Hr | split; [exact Hs |]].
  exact (radio_command_requires_awips_live template_globals "/awips2/apps/TsunamiEasGui/" "no" "live" "live").
Defined.

Lemma bookkeeping_errors_witness :
  crsexpire_minutes "15mins" = Ok 15%Z /\
  In "warning" ["warning"; "watch"; "advisory"] /\
  dict_get "warning" (read_track (Some corrupt_file)) = Some (TStr "soon", "CAZ039") /\
  py_int "soon" = Raise ValueError /\
  bookkeeping template_globals "live" ["CAZ039"] 1334597940%Z "15mins" "warning" (Some corrupt_file) = Raise ValueError.
Proof.
  assert (H1 : In "warning" ["warning"; "watch"; "advisory"]) by (by left).
  assert (H2 : dict_get "warning" (read_track (Some corrupt_file)) = Some (TStr "soon", "CAZ039")) by (vm_compute; reflexivity).
  assert (H3 : py_int "soon" = Raise ValueError) by (vm_compute; reflexivity).
  assert (H0 : crsexpire_minutes "15mins" = Ok 15%Z) by (vm_compute; reflexivity).
  split; [exact H0 | split; [exact H1 | split; [exact H2 | split; [exact H3 |]]]].
  apply (proj1 (bookkeeping_errors template_globals "live" ["CAZ039"] 1334597940%Z "15mins" 15%Z "warning" (Some corrupt_file) H0)).
  exists "warning", "CAZ039", "soon". auto.
Defined.

Lemma track_init_wf : track_wf track_init.
Proof. split; [exists []; done | split; [repeat constructor; simpl; intuition discriminate | repeat constructor]]. Qed.

Lemma track_file_roundtrip_witness :
  track_wf track_init /\ read_track (Some (write_track track_init)) = map strify track_init.
Proof. split; [exact track_init_wf | exact (track_file_roundtrip track_init track_init_wf)]. Defined.

Lemma issuance_overlap_flagged_witness :
  let F := default "" (snd (res_get ("", None) (bookkeeping template_globals "live" ["CAZ039"; "CAZ040"] 1334597940%Z "15mins" "warning" None))) in
  track_wf (read_track None) /\ (0 <= 1334597940)%Z /\ field_ok (zoneMe template_globals ["CAZ039"; "CAZ040"]) = true /\
  crsexpire_minutes "15mins" = Ok 15%Z /\ (0 <= 15)%Z /\
  bookkeeping template_globals "live" ["CAZ039"; "CAZ040"] 1334597940%Z "15mins" "warning" None = Ok ("", Some F) /\
  In "warning" (str_split "_" "warning") /\ In "warning" ["warning"; "watch"; "advisory"] /\
  (1334598240 < 1334597940 + 15 * 60)%Z /\
  (exists a, In a (str_split "-" (zoneMe template_globals ["CAZ039"; "CAZ040"])) /\ contains a (zoneMe template_globals ["CAZ040"; "CAZ041"]) = true) /\
  bookkeeping template_globals "live" ["CAZ040"; "CAZ041"] 1334598240%Z "15mins" "warning" (Some F) = Ok (" warning", Some (default "" (snd (res_get ("", None) (bookkeeping template_globals "live" ["CAZ040"; "CAZ041"] 1334598240%Z "15mins" "warning" (Some F)))))) /\
  contains "warning" " warning" = true.
Proof.
  cbv zeta.
  assert (H1 : track_wf (read_track None)) by exact track_init_wf.
  assert (H2 : (0 <= 1334597940)%Z) by lia.
  assert (H3 : field_ok (zoneMe template_globals ["CAZ039"; "CAZ040"]) = true) by (vm_compute; reflexivity).
  assert (Hm : crsexpire_minutes "15mins" = Ok 15%Z) by (vm_compute; reflexivity).
  assert (Hm0 : (0 <= 15)%Z) by lia.
  set (F := default "" (snd (res_get ("", None) (bookkeeping template_globals "live" ["CAZ039"; "CAZ040"] 1334597940%Z "15mins" "warning" None)))).
  assert (H4 : bookkeeping template_globals "live" ["CAZ039"; "CAZ040"] 1334597940%Z "15mins" "warning" None = Ok ("", Some F))
    by (subst F; vm_compute; reflexivity).
  assert (H5 : In "warning" (str_split "_" "warning")) by (vm_compute; left; reflexivity).
  assert (H6 : In "warning" ["warning"; "watch"; "advisory"]) by (by left).
  assert (H7 : (1334598240 < 1334597940 + 15 * 60)%Z) by lia.
  assert (H8 : exists a, In a (str_split "-" (zoneMe template_globals ["CAZ039"; "CAZ040"])) /\
                         contains a (zoneMe template_globals ["CAZ040"; "CAZ041"]) = true)
    by (exists "CAZ040"; vm_compute; split; [right; left; reflexivity | reflexivity]).
  set (F' := default "" (snd (res_get ("", None) (bookkeeping template_globals "live" ["CAZ040"; "CAZ041"] 1334598240%Z "15mins" "warning" (Some F))))).
  assert (H9 : bookkeeping template_globals "live" ["CAZ040"; "CAZ041"] 1334598240%Z "15mins" "warning" (Some F) = Ok (" warning", Some F'))
    by (subst F F'; vm_compute; reflexivity).
  do 10 (split; [assumption |]). split; [exact H9 |].
  exact (issuance_overlap_flagged template_globals ["CAZ039"; "CAZ040"] 1334597940%Z "15mins" 15%Z "warning" None "" F "warning"
           "live" ["CAZ040"; "CAZ041"] 1334598240%Z "15mins" "warning" " warning" (Some F') H1 H2 H3 Hm Hm0 H4 H5 H6 H7 H8 H9).
Defined.

Lemma empty_record_always_flagged_witness :
  In "warning" ["warning"; "watch"; "advisory"] /\
  dict_get "warning" empty_zone_track = Some (TInt 1334598840, "") /\ tval_int (TInt 1334598840) = Ok 1334598840%Z /\
  (1334598240 < 1334598840)%Z /\ recent_flags empty_zone_track "CAZ087" 1334598240%Z = Ok " warning" /\
  contains "warning" " warning" = true.
Proof.
  assert (H1 : In "warning" ["warning"; "watch"; "advisory"]) by (by left).
  assert (H5 : recent_flags empty_zone_track "CAZ087" 1334598240%Z = Ok " warning") by (vm_compute; reflexivity).
  do 4 (split; [first [exact H1 | reflexivity | lia] |]). split; [exact H5 |].
  exact (empty_record_always_flagged empty_zone_track "warning" (TInt 1334598840) 1334598840%Z "CAZ087" 1334598240%Z " warning"
           H1 eq_refl eq_refl ltac:(lia) H5).
Defined.

Lemma crsDatestring_length_witness :
  valid_datetime (fromtimestamp 1334597940) = true /\ (1000 <= dt_year (fromtimestamp 1334597940))%Z /\
  String.length (crsDatestring (fromtimestamp 1334597940)) = 10.
Proof.
  assert (H1 : valid_datetime (fromtimestamp 1334597940) = true) by (vm_compute; reflexivity).
  assert (H2 : (1000 <= dt_year (fromtimestamp 1334597940))%Z) by (vm_compute; discriminate).
  split; [exact H1 | split; [exact H2 | exact (crsDatestring_length _ H1 H2)]].
Defined.

Lemma practice_send_reports_failure_witness :
  g_nwrsend template_globals = "" /\ "practice" <> "live" /\
  so_ret (sendtoRadio template_globals "/awips2/apps/TsunamiEasGui/" "practice" ["CAZ039"] true 1334597940%Z
            "15mins" "warning" "TSUNAMI WARNING." [] [] None 0) = 127%Z.
Proof.
  assert (H1 : g_nwrsend template_globals = "") by reflexivity.
  assert (H2 : "practice" <> "live") by discriminate.
  split; [exact H1 | split; [exact H2 |]].
  exact (proj1 (practice_send_reports_failure template_globals "/awips2/apps/TsunamiEasGui/" "practice" ["CAZ039"] true
           1334597940%Z "15mins" "warning" "TSUNAMI WARNING." [] [] None 0 H1 H2)).
Defined.
