(* ===== verification/Wording.v ===== *)
(** * The statement window: test wording and the template menus

    nwr_tsu.py keeps the radio statement in the Tk text widget
    [radiotext].  This file models the operations on that window that
    the other files leave out:

    - [testMe] and [untestMe] (lines 1606-1644) add and remove the test
      wording; Tk's [get(0.0, END)] returns the text with a final newline
      ([text_get]);
    - [fillWWA_window] is the window part of [fillWWA] (lines 855-883):
      the text that [Compose.fillWWA] computes is inserted, the test
      wording removed ([untestMe(1)]) and added again in test mode;
    - [fillWhat] (lines 934-965) fills a template of the Templates menu,
      after finding which hazard it is for; [fillCombo] (lines 991-1044)
      writes the two-hazard skeleton;
    - [autoFill_window] is the end of [autoFill] (lines 748-763): the zone
      buttons of the composed hazards are switched on and the test wording
      is set;
    - [sendtoRadioCheck] and [almostsendtoRadio] (lines 2101-2160) check
      the window before a send and open the confirmation dialog;
    - [saveMe] and [restoreMe] (lines 2162-2213) write and read the
      autosave file [data/autosave.txt], modelled as its text.

    The window is the record [window]: the text, the zone buttons that
    are on, the [info] dict, [active], [combo_need], [masterTone] and the
    dialogs [flagMeBasic] has shown.  The [saveMe()] calls that open the
    other operations only write the autosave file and are left out of
    their definitions; the highlighting ([highlightMe]) and the
    destruction of dialogs ([destroyBoxes]) act on widgets only.  The
    texts are ASCII, so that [len] counts characters as [String.length]
    does.

    The theorems: removing the test wording gives back the statement it
    was added to ([untestMe_testMe]); [untestMe] also rewrites any
    ["TEST TSUNAMI"] the statement holds, so a configured call to action
    that mentions the latest tsunami information is broadcast as
    ["LATSUNAMI"] ([fillWWA_latest_tsunami]); a template for an advisory
    that names the Tsunami Warning Center is refused as a combination
    template ([fillWhat_warning_center]); a send reaches its confirmation
    exactly when the text is long enough, has no framing code and a
    selected zone belongs to a configured county
    ([sendtoRadioCheck_confirms]), and the lower-case no-hazard test
    never fires on a text the program wrote ([none_detected_upper]);
    restoring the autosave file gives back the text and zone buttons
    saved and writes the same file again ([restoreMe_saveMe]). *)

From stdpp Require Import base list strings decidable.
From Stdlib Require Import String Ascii ZArith Lia.
From S2P Require Import Prelude PyStr Config Info Civil Compose Send.

Local Open Scope string_scope.
Local Open Scope nat_scope.
Local Open Scope tsu_scope.

(** ** The window *)

Record window : Type := mkWindow {
  w_text : string;
  w_checked : list string;
  w_info : info_dict;
  w_active : string;
  w_combo_need : list string;
  w_masterTone : Z;
  w_flags : list string
}.

(** [radiotext.delete(0.0, END); radiotext.insert(0.0, t)] *)
Definition set_text (w : window) (t : string) : window :=
  mkWindow t (w_checked w) (w_info w) (w_active w) (w_combo_need w) (w_masterTone w) (w_flags w).

(** [flagMeBasic(msg)]: a dialog with the message. *)
Definition flag (w : window) (msg : string) : window :=
  mkWindow (w_text w) (w_checked w) (w_info w) (w_active w) (w_combo_need w) (w_masterTone w)
    (w_flags w ++ [msg]).

(** [radiotext.get(0.0, END)]: Tk adds a final newline. *)
Definition text_get (w : window) : string := w_text w ++ nl.

(** ** [testMe] and [untestMe] (lines 1606-1644) *)

Definition test_head1 : string := "TEST...TEST...TEST...THIS IS ONLY A TEST." ++ nl.
Definition test_head : string := test_head1 ++ nl.
Definition test_tail : string :=
  nl ++ "REPEAT...THIS WAS A TEST...THIS WAS ONLY A TEST. THERE IS NO TSUNAMI DANGER AT THIS TIME.".

(** Lines 1606-1624; [passit] is the Python flag [passit==1]. *)
Definition testMe (passit : bool) (w : window) : window :=
  let text := text_get w in
  if String.length text <? 25 then
    (if passit then w
     else flag w ("No Statement Loaded Yet." ++ nl ++ "Please load a statement before adding test wording."))
  else if contains "TEST.." text && negb passit then flag w "Test wording already found in statement"
  else set_text w (strip (test_head ++ str_replace "TSUNAMI" "TEST TSUNAMI" text ++ test_tail)).

(** Lines 1626-1644. *)
Definition untestMe (passit : bool) (w : window) : window :=
  let text := text_get w in
  if String.length text <? 25 then (if passit then w else flag w "No Statement Loaded Yet.")
  else if negb (contains "TEST" text) && negb passit then flag w "No Test wording found in statement"
  else
    let text := str_replace test_head "" text in
    let text := str_replace test_head1 "" text in
    let text := str_replace "TEST TSUNAMI" "TSUNAMI" text in
    let text := str_replace test_tail "" text in
    set_text w (strip text).

(** ** The template menus *)

(** Lines 855-883 around [Compose.fillWWA]: [active] and [combo_need]
    are set, the text inserted, the test wording removed and, in test
    mode, added again; the zone reminder comes last. *)
Definition fillWWA_window (g : globals) (today : datetime) (file : option string) (modeme wwa : string)
    (w : window) : res window :=
  res_bind (fillWWA g today file (w_checked w) wwa) (fun '(out, remind) =>
  let w := mkWindow out (w_checked w) (w_info w) wwa [] (w_masterTone w) (w_flags w) in
  let w := untestMe true w in
  let w := if String.eqb modeme "test" then testMe false w else w in
  Ok (if remind
      then flag w "Don't forget to select the Applicable Zones from the check buttons on the main window."
      else w)).

(** Lines 944-949: the upper-cased lines that are not comments, each
    with its newline.  (Line 950 computes a replacement and drops it.) *)
Definition fillWhat_text (t : string) : string :=
  String.concat "" (map (fun a => a ++ nl)
    (List.filter (fun a => match a with EmptyString => true | String c _ => negb (Ascii.eqb c "#") end)
       (splitlines (upper t)))).

(** [info[wwa] = []] for the three hazards.  On the reset dict the code
    adds the three keys; [info_zones] reads them as empty lists in either
    shape, so the model keeps the reset shape and its notice. *)
Definition clear_info (i : info_dict) : info_dict :=
  match i with
  | InfoFull h => InfoFull (set_zones (set_zones (set_zones h Warning []) Watch []) Advisory [])
  | InfoReset m => InfoReset m
  end.

(** Lines 936-941: the zone buttons off and the hazard lists emptied. *)
Definition fillWhat_clear (g : globals) (w : window) : window :=
  mkWindow (w_text w) (List.filter (fun z => negb (py_in z (g_zone_ids g))) (w_checked w))
    (clear_info (w_info w)) (w_active w) (w_combo_need w) (w_masterTone w) (w_flags w).

Definition set_tone (w : window) (t : Z) : window :=
  mkWindow (w_text w) (w_checked w) (w_info w) (w_active w) (w_combo_need w) t (w_flags w).

(** Lines 934-965: [d] is the template's name and [file] the text of
    [local_dir+d], [None] when it is not a file. *)
Definition fillWhat (g : globals) (today : datetime) (modeme d : string) (file : option string)
    (w : window) : res window :=
  let w := fillWhat_clear g w in
  match file with
  | None => Ok w
  | Some t =>
      let out := fillWhat_text t in
      let found := [contains "WARNING" out; contains "WATCH" out; contains "ADVISORY" out] in
      let n := List.length (List.filter (fun b : bool => b) found) in
      if n =? 0 then
        Ok (flag w "Something went wrong with your template selection. No WWA was found in the template. Please check your template file. code:fillWhatONE")
      else if 1 <? n then
        Ok (flag w "It appears that the template file has multiple WWA type. Sorry but combo templates are not supported at this time. code:fillWhatTWO")
      else
        let wwa := if contains "WARNING" out then "warning" else if contains "WATCH" out then "watch" else "advisory" in
        w <- fillWWA_window g today file modeme wwa w ;;
        Ok (set_tone w (if contains "cancel" d then 0%Z else 1%Z))
  end.

(** Lines 991-1044: the skeleton of a two-hazard statement [a] (such as
    ["warning_watch"]); the line continuations of the literals leave two
    blanks where the source breaks its lines. *)
Definition fillCombo (g : globals) (today : datetime) (a : string) (w : window) : res window :=
  let w := mkWindow (w_text w) (w_checked w) (w_info w) a [] (w_masterTone w) (w_flags w) in
  let hazdef := hazDefMe a in
  if negb (contains "_" a) then Ok (flag w "Something bad happened. Many apologies. code:fillComboONE") else
  let tmp := str_split "_" a in
  wwa1 <- py_index 0 tmp ;;
  wwa2 <- py_index 1 tmp ;;
  let arr := List.filter (fun z => py_in z (w_checked w)) (g_zone_ids g) in
  let w := if is_nil arr then flag w "Don't forget to select the Applicable Zones." else w in
  let d := strftime_Bd today in
  dl <- daylightMe today ;;
  let tz2 := tz_label (g_tzid g) (if Z.eqb dl 1 then "DAYLIGHT" else "STANDARD") in
  let out := "Tsunami " ++ wwa1 ++ " and " ++ wwa2 ++ ". Repeat, Tsunami " ++ wwa1 ++ " and " ++ wwa2 ++ "." ++ nl ++ nl in
  let out := out ++ "The National Weather Service has issued a tsunami " ++ wwa1 ++ " for XXXXXX and a tsunami  "
                 ++ wwa2 ++ " for XXXXXX." in
  let out := out ++ hazDefMe a in
  let out := out ++ nl ++ nl ++ "On " ++ d ++ " AT XXXXXX " ++ tz2
                 ++ " a large earthquake with  a preliminary magnitude of XXXXXX occurred near XXXXXX." in
  let out := out ++ nl ++ nl ++ "Estimated arrival times for the initial wave are as follows, " ++ nl in
  let out := out ++ arrival_lines g d in
  let out := out ++ nl ++ "Once again, The National Weather Service has issued a tsunami " ++ wwa1
                 ++ " for XXXXXX and a  tsunami " ++ wwa2 ++ " for XXXXXX." in
  let out := out ++ hazdef ++ " " ++ g_local_actions g in
  let out := str_replace " ." "." out in
  Ok (set_text w (strip (upper out))).

(** Lines 748-763: after a composed statement [text] for [dowhat], the
    buttons of the hazards' zones are switched on and the test wording is
    set: always for the hard-coded example product ([wcapil] with a
    ["/"]), and in test mode or for a test bulletin otherwise. *)
Definition autoFill_window (g : globals) (wcapil modeme : string) (testmode : bool) (info : info_dict)
    (dowhat text : string) (w : window) : window :=
  let kinds := if negb (contains "_" dowhat) then [dowhat] else str_split "_" dowhat in
  let zones := List.concat (map (fun k => match kind_of_key k with Some k => info_zones info k | None => [] end) kinds) in
  let checked := fold_left (fun acc z => if py_in z (g_zone_ids g) then append_new z acc else acc)
                   zones (w_checked w) in
  let w := mkWindow text checked (w_info w) (w_active w) (w_combo_need w) (w_masterTone w) (w_flags w) in
  let w := untestMe true w in
  if contains "/" wcapil then testMe true w
  else if testmode || String.eqb modeme "test" then testMe false w
  else w.

(** ** The check before a send (lines 2101-2160) *)

(** The three dialogs of [almostsendtoRadio]: live with the tone for a
    warning or watch, live without it, practice. *)
Inductive confirm : Type := ConfirmLive | ConfirmLiveNoTone | ConfirmPractice.

(** [flagMeSend(err)], or the confirmation dialog with the countdown
    counter. *)
Inductive check_outcome : Type :=
| CheckFailed (err : string)
| AlmostSend (c : confirm) (counter : Z).

(** Lines 2106-2121.  Nothing in the [try] raises: the message of the
    [except] (line 2122) is not produced. *)
Definition check_errors (g : globals) (w : window) : string :=
  let text := text_get w in
  let err := if String.length text <? 20
             then "Please make sure that there is text in the main window" ++ nl ++ nl else "" in
  let err := if contains "none are detected" text
             then err ++ "No hazard was found in the main text window. "
                      ++ (if String.eqb (g_advisory_handle g) "no"
                          then "Only warnings and watches are EAS'd" ++ nl ++ nl else "")
             else err in
  let err := if contains "XXX" text
             then err ++ "Framing code 'XXXXXX' was found in the main text window. Make sure to replace these with relevant info." ++ nl ++ nl
             else err in
  if is_nil (county_hits g (w_checked w))
  then err ++ "No zones selected or zone/counties associatations are not configured correctly" ++ nl ++ nl
  else err.

(** Lines 2129-2160: the dialog shown; the counter is set to 5. *)
Definition almostsendtoRadio (modeme active : string) : check_outcome :=
  AlmostSend (if String.eqb modeme "live" then
                (if contains "warning" active || contains "watch" active then ConfirmLive else ConfirmLiveNoTone)
              else ConfirmPractice) 5.

(** Lines 2101-2127. *)
Definition sendtoRadioCheck (g : globals) (modeme : string) (w : window) : check_outcome :=
  let err := check_errors g w in
  if String.eqb err "" then almostsendtoRadio modeme (w_active w) else CheckFailed err.

(** ** The autosave file (lines 2162-2213) *)

(** Lines 2193-2213: the selected zones, each with a comma, then ["|||"]
    and the text; nothing is written for a text shorter than 30
    characters.  [file] is [data/autosave.txt]; the failures of the write
    are logged only. *)
Definition saveMe (g : globals) (w : window) (file : option string) : option string :=
  let text := text_get w in
  if String.length text <? 30 then file
  else Some (String.concat "" (map (fun z => z ++ ",") (List.filter (fun z => py_in z (w_checked w)) (bt_keys g)))
             ++ "|||" ++ text).

(** Lines 2179-2185: [active] from the hazards the text names. *)
Definition restore_active (out : string) : string :=
  py_join "_" ((if contains "WARNING" out then ["warning"] else [])
               ++ (if contains "WATCH" out then ["watch"] else [])
               ++ (if contains "ADVISORY" out then ["advisory"] else [])).

(** Lines 2162-2190: the zone buttons are set from the first field before
    the text field is read, so a file without ["|||"] changes the buttons
    and then fails with [IndexError] at [arr[1]]; a missing file fails at
    once.  The restored window is saved again. *)
Definition restoreMe (g : globals) (file : option string) (w : window) : window * option string :=
  let failed w := (flag w "Restore function failed. Code:restoreMe", file) in
  match file with
  | None => failed w
  | Some full =>
      let arr := str_split "|||" full in
      match py_index 0 arr with
      | Raise _ => failed w
      | Ok a0 =>
          let hitz := str_split "," a0 in
          let w := mkWindow (w_text w) (List.filter (fun z => py_in z hitz) (bt_keys g)) (w_info w)
                     (w_active w) (w_combo_need w) (w_masterTone w) (w_flags w) in
          match py_index 1 arr with
          | Raise _ => failed w
          | Ok out =>
              let w := mkWindow (strip (upper out)) (w_checked w) (w_info w) (restore_active out) []
                         (w_masterTone w) (w_flags w) in
              (w, saveMe g w file)
          end
      end
  end.

(** ** Helpers of the proofs and demonstration data *)

(** The first replacement of [testMe]. *)
Definition r1 (c : string) : string := replace_go "TSUNAMI" "TEST TSUNAMI" 0 c.

(** The template configuration with a call to action that mentions the
    latest tsunami information. *)
Definition latest_globals : globals := {|
  g_zone_ids := g_zone_ids template_globals; g_zone_list := g_zone_list template_globals;
  g_county_list := g_county_list template_globals; g_localphrase := g_localphrase template_globals;
  g_localheadline := g_localheadline template_globals;
  g_local_actions := "Listen to NOAA weather radio for the latest tsunami information.";
  g_advisory_handle := "yes"; g_arrival_list := []; g_arrival_localname := Some [];
  g_wcapil := g_wcapil template_globals; g_advisoryPIL := "TSYWCA"; g_watchPIL := "TSAWCA";
  g_warningPIL := "TSWWCA"; g_node := "LAX"; g_pending := "no"; g_openPractice := "no";
  g_tz := 8%Z; g_tzid := "pst"; g_nwrsend := ""; g_combo_handle := "no"; g_breakpoint_list := [] |}.

Definition empty_window : window := mkWindow "" [] (InfoReset "") "" [] 1 [].

(** A window as [fillWWA] leaves it, with two zone buttons on. *)
Definition save_demo_window : window :=
  mkWindow "TSUNAMI WARNING FOR THE COASTAL AREAS OF CALIFORNIA." ["CAZ034"; "CAZ035"] (InfoReset "") "warning" [] 1 [].

(** An advisory template of an office, naming the warning center. *)
Definition advisory_template : string :=
  "# Advisory template" ++ nl ++
  "The National Tsunami Warning Center has issued a tsunami advisory AAAAAA. NNNNNN." ++ nl ++
  "SSSSSS.".

(** ** [untestMe] undoes [testMe] *)

Ltac head_cases H :=
  apply replace_go_head in H; [destruct H as [[? H]|[[? [? H]]|[? [? [? H]]]]] | done];
  subst; try (rewrite ?append_cons in H; discriminate H).

Lemma test_in_r1 c s :
  String.prefix "TEST" (r1 c ++ String "010" s) = true ->
  String.prefix "TSUNAMI" c = true \/ String.prefix "TEST" c = true.
Proof.
  unfold r1. intros H. apply prefix_split in H as [z H]. rewrite !append_cons in H.
  head_cases H; [left; apply prefix_app_self|].
  do 3 (symmetry in H; head_cases H); right; [rewrite !append_cons|]; apply (prefix_app_self "TEST").
Qed.

Lemma r1_cons x c s :
  String.prefix "TSUNAMI" (String x c) = false -> r1 (String x c) ++ s = String x (r1 c ++ s).
Proof. intros E. unfold r1. by rewrite replace_go_char, append_cons. Qed.

(** After a character of the text that does not start ["TSUNAMI"], the
    replaced text does not start ["TEST"] unless the text did. *)
Lemma r1_no_test_start x c s :
  contains "TEST" (String x c) = false -> String.prefix "TSUNAMI" (String x c) = false ->
  String.prefix "TEST" (String x (r1 c ++ String "010" s)) = false.
Proof.
  intros Hc E. destruct (String.prefix "TEST" _) eqn:Ht; [|done]. exfalso.
  rewrite <- r1_cons in Ht by done. apply test_in_r1 in Ht as [Ht|Ht]; [congruence|].
  by rewrite contains_of_prefix in Hc.
Qed.

Ltac len_ind n IH c :=
  let En := fresh "En" in
  remember (String.length c) as n eqn:En; revert c En;
  induction n as [n IH] using lt_wf_ind; intros [|?x ?c'] En.

(** Replacing ["TEST TSUNAMI"] back by ["TSUNAMI"] undoes the first
    replacement on a text without ["TEST"]. *)
Lemma untest_r1 c s :
  contains "TEST" c = false ->
  replace_go "TEST TSUNAMI" "TSUNAMI" 0 (r1 c ++ String "010" s) =
  c ++ replace_go "TEST TSUNAMI" "TSUNAMI" 0 (String "010" s).
Proof.
  len_ind n IH c; intros Hc; [done|].
  destruct (String.prefix "TSUNAMI" (String x c')) eqn:E.
  - apply prefix_split in E as [c2 Ec]. rewrite Ec in Hc |- *. unfold r1.
    rewrite replace_go_occ, append_assoc_str, replace_go_occ, append_assoc_str by done.
    f_equal. apply (IH (String.length c2)); [| done | by apply contains_app_r_false in Hc].
    subst n. rewrite Ec, length_append. cbn. lia.
  - rewrite r1_cons, replace_go_char, append_cons by
      (done || (apply not_true_iff_false; intros Ht;
                apply (prefix_app_l "TEST" " TSUNAMI") in Ht; by rewrite r1_no_test_start in Ht)).
    f_equal. apply (IH (String.length c')); [subst n; cbn; lia | done | by apply contains_cons_false in Hc].
Qed.

(** A pattern starting ["TEST."] occurs in the replaced text only where it
    occurs in what follows it. *)
Lemma contains_r1 q c s :
  contains "TEST" c = false ->
  contains ("TEST." ++ q) (r1 c ++ String "010" s) = contains ("TEST." ++ q) (String "010" s).
Proof.
  len_ind n IH c; intros Hc; [done|].
  destruct (String.prefix "TSUNAMI" (String x c')) eqn:E.
  - apply prefix_split in E as [c2 Ec]. rewrite Ec in Hc |- *. unfold r1.
    rewrite replace_go_occ, append_assoc_str by done. rewrite !append_cons.
    do 12 (rewrite contains_cons; [|reflexivity]).
    apply (IH (String.length c2)); [| done | by apply contains_app_r_false in Hc].
    subst n. rewrite Ec, length_append. cbn. lia.
  - rewrite r1_cons, contains_cons by
      (done || (apply not_true_iff_false; intros Ht;
                apply (prefix_app_l "TEST" ("." ++ q)) in Ht; by rewrite r1_no_test_start in Ht)).
    apply (IH (String.length c')); [subst n; cbn; lia | done | by apply contains_cons_false in Hc].
Qed.

Lemma test_shape X :
  test_head ++ X ++ String "010" test_tail =
  String "T" (("EST...TEST...TEST...THIS IS ONLY A TEST." ++ String "010" (String "010" "") ++ X ++
   String "010" (String "010" "REPEAT...THIS WAS A TEST...THIS WAS ONLY A TEST. THERE IS NO TSUNAMI DANGER AT THIS TIME")) ++ String "." "").
Proof. rewrite !append_assoc_str. reflexivity. Qed.

Lemma testMe_text w :
  contains "TEST" (w_text w) = false -> 24 <= String.length (w_text w) ->
  testMe false w = set_text w (test_head ++ r1 (w_text w) ++ String "010" test_tail).
Proof.
  intros Hc Hl. unfold testMe, text_get, nl.
  rewrite (proj2 (Nat.ltb_ge _ _)) by (rewrite length_append; cbn; lia).
  rewrite (contains_app_char "TEST.." ) by done.
  replace (contains "TEST.." (w_text w)) with false
    by (symmetry; apply not_true_iff_false; intros H; apply (contains_pat_prefix "TEST" "..") in H; congruence).
  cbn -[strip str_replace]. f_equal.
  unfold str_replace. rewrite replace_go_app by done.
  change (replace_go "TSUNAMI" "TEST TSUNAMI" 0 (String "010" "")) with (String "010" "").
  rewrite !append_assoc_str, append_cons, append_nil_l. fold (r1 (w_text w)).
  rewrite (test_shape (r1 (w_text w))). apply strip_keep; reflexivity.
Qed.

Lemma strip_blank2 x m y :
  is_space x = false -> is_space y = false ->
  strip (String x (m ++ String y "") ++ String "010" (String "010" "")) = String x (m ++ String y "").
Proof. intros Hx Hy. by apply strip_app_space. Qed.

(** [untestMe(1)] turns every ["LATEST TSUNAMI"] of a statement into
    ["LATSUNAMI"]: none of its replacements can run over the ["LA"], and
    the one of ["TEST TSUNAMI"] takes the rest. *)
Lemma untestMe_latest w :
  24 <= String.length (w_text w) -> contains "LATEST TSUNAMI" (w_text w) = true ->
  contains "LATSUNAMI" (w_text (untestMe true w)) = true.
Proof.
  intros Hl Hc. unfold untestMe, text_get.
  rewrite (proj2 (Nat.ltb_ge _ _)) by (rewrite length_append; cbn; lia).
  rewrite andb_false_r. cbn [w_text set_text].
  apply (contains_app_l _ _ nl) in Hc.
  apply (contains_replace test_head "") in Hc; [| by vm_compute..].
  apply (contains_replace test_head1 "") in Hc; [| by vm_compute..].
  apply contains_split in Hc as (a & b & ->).
  change ("LATEST TSUNAMI" ++ b) with ("LA" ++ ("TEST TSUNAMI" ++ b)).
  rewrite (str_replace_go "TEST TSUNAMI"), replace_go_mid, replace_go_occ by (by vm_compute).
  change ("LA" ++ ("TSUNAMI" ++ replace_go "TEST TSUNAMI" "TSUNAMI" 0 b))
    with ("LATSUNAMI" ++ replace_go "TEST TSUNAMI" "TSUNAMI" 0 b).
  pose proof (contains_mid (replace_go "TEST TSUNAMI" "TSUNAMI" 0 a) "LATSUNAMI"
                (replace_go "TEST TSUNAMI" "TSUNAMI" 0 b)) as H.
  apply (contains_replace test_tail "") in H; [| by vm_compute..].
  exact (contains_strip "L" "ATSUNAM" "I" _ eq_refl eq_refl H).
Qed.

(** C28: [fillWWA] removes any test wording with [untestMe(1)], which
    replaces every ["TEST TSUNAMI"] of the statement, also inside
    ["LATEST TSUNAMI"]: whatever the configuration and the template,
    a statement of the Templates menu that asks to listen for the latest
    tsunami information is shown, outside test mode, with
    ["LATSUNAMI"]. *)
Theorem fillWWA_latest_tsunami g today file modeme wwa w out remind :
  fillWWA g today file (w_checked w) wwa = Ok (out, remind) ->
  24 <= String.length out -> contains "LATEST TSUNAMI" out = true -> modeme <> "test" ->
  exists w', fillWWA_window g today file modeme wwa w = Ok w' /\ contains "LATSUNAMI" (w_text w') = true.
Proof.
  intros E Hl Hc Hm. unfold fillWWA_window. rewrite E. cbn [res_bind].
  rewrite (proj2 (String.eqb_neq modeme "test")) by done.
  eexists; split; [reflexivity|].
  pose proof (untestMe_latest (mkWindow out (w_checked w) (w_info w) wwa [] (w_masterTone w) (w_flags w)) Hl Hc).
  by destruct remind.
Qed.

Lemma fillWWA_latest_tsunami_witness :
  exists out remind,
    fillWWA latest_globals demo_today None (w_checked empty_window) "warning" = Ok (out, remind) /\
    24 <= String.length out /\ contains "LATEST TSUNAMI" out = true /\ "live" <> "test" /\
    exists w', fillWWA_window latest_globals demo_today None "live" "warning" empty_window = Ok w' /\
      contains "LATSUNAMI" (w_text w') = true.
Proof.
  destruct (fillWWA latest_globals demo_today None (w_checked empty_window) "warning")
    as [[out remind]|e] eqn:E; [|vm_compute in E; discriminate].
  exists out, remind.
  assert (Hl : 24 <= String.length out) by (vm_compute in E; injection E as <- _; vm_compute; lia).
  assert (Hc : contains "LATEST TSUNAMI" out = true) by (vm_compute in E; injection E as <- _; reflexivity).
  split; [reflexivity|]. split; [exact Hl|]. split; [exact Hc|]. split; [discriminate|].
  exact (fillWWA_latest_tsunami latest_globals demo_today None "live" "warning" empty_window out remind
           E Hl Hc ltac:(discriminate)).
Defined.

Lemma untestMe_text w c x m y :
  c = String x (m ++ String y "") -> is_space x = false -> is_space y = false ->
  contains "TEST" c = false ->
  untestMe false (set_text w (test_head ++ r1 c ++ String "010" test_tail)) = set_text w c.
Proof.
  intros Ec Hx Hy Hc. unfold untestMe, text_get. cbn [w_text set_text].
  rewrite (proj2 (Nat.ltb_ge _ _))
    by (rewrite !length_append; assert (String.length test_head = 43) by reflexivity; lia).
  replace (contains "TEST" _) with true by (symmetry; apply contains_of_prefix; reflexivity).
  cbn [negb andb]. rewrite !str_replace_go by (vm_compute; congruence).
  rewrite !append_assoc_str, replace_go_occ, append_nil_l by done. unfold nl. rewrite append_cons.
  rewrite (replace_go_absent test_head).
  2:{ change test_head with ("TEST." ++ "..TEST...TEST...THIS IS ONLY A TEST." ++ nl ++ nl).
      rewrite contains_r1 by done. reflexivity. }
  rewrite (replace_go_absent test_head1).
  2:{ change test_head1 with ("TEST." ++ "..TEST...TEST...THIS IS ONLY A TEST." ++ nl).
      rewrite contains_r1 by done. reflexivity. }
  rewrite untest_r1 by done.
  match goal with |- context [replace_go "TEST TSUNAMI" "TSUNAMI" 0 ?s] =>
    change (replace_go "TEST TSUNAMI" "TSUNAMI" 0 s) with s end.
  change test_tail with (String "010" "REPEAT...THIS WAS A TEST...THIS WAS ONLY A TEST. THERE IS NO TSUNAMI DANGER AT THIS TIME.").
  rewrite replace_go_app_head.
  3:{ apply not_true_iff_false. intros H. apply (contains_infix (String "010" "REPEAT...THIS WAS A ")) in H.
      apply (contains_pat_prefix "TEST" "...THIS WAS ONLY A TEST. THERE IS NO TSUNAMI DANGER AT THIS TIME.") in H.
      congruence. }
  2:{ reflexivity. }
  match goal with |- context [replace_go ?p "" 0 ?s] => change (replace_go p "" 0 s) with (String "010" (String "010" "")) end.
  subst c. by rewrite strip_blank2.
Qed.

(** C17: on a statement of at least 24 characters that begins and
    ends with a printable character and holds no ["TEST"], removing the
    test wording ([untestMe()]) after adding it ([testMe()]) gives back
    the window as it was: the same text and no dialog. *)
Theorem untestMe_testMe w x m y :
  w_text w = String x (m ++ String y "") -> is_space x = false -> is_space y = false ->
  contains "TEST" (w_text w) = false -> 24 <= String.length (w_text w) ->
  untestMe false (testMe false w) = w.
Proof.
  intros E Hx Hy Hc Hl. rewrite testMe_text by done.
  rewrite (untestMe_text w (w_text w) x m y) by done. by destruct w.
Qed.

Lemma untestMe_testMe_witness :
  let w := set_text empty_window "TSUNAMI WARNING. MOVE INLAND TO HIGHER GROUND." in
  w_text w = String "T" ("SUNAMI WARNING. MOVE INLAND TO HIGHER GROUND" ++ String "." "") /\
  untestMe false (testMe false w) = w.
Proof.
  intros w. assert (E : w_text w = String "T" ("SUNAMI WARNING. MOVE INLAND TO HIGHER GROUND" ++ String "." ""))
    by reflexivity.
  split; [exact E|]. apply (untestMe_testMe w "T" "SUNAMI WARNING. MOVE INLAND TO HIGHER GROUND" ".");
    [exact E | reflexivity | reflexivity | reflexivity | cbn; lia].
Defined.

(** C19: an office template whose text names the Tsunami Warning
    Center and an advisory is refused as a combination template:
    ["WARNING"] is found in ["WARNING CENTER"] (the replacement of line
    950 that would hide it is computed and dropped), and nothing is
    filled. *)
Theorem fillWhat_warning_center g today modeme d t w :
  contains "WARNING CENTER" (fillWhat_text t) = true ->
  contains "ADVISORY" (fillWhat_text t) = true ->
  fillWhat g today modeme d (Some t) w =
  Ok (flag (fillWhat_clear g w) "It appears that the template file has multiple WWA type. Sorry but combo templates are not supported at this time. code:fillWhatTWO").
Proof.
  intros Hw Ha. unfold fillWhat.
  rewrite (contains_pat_prefix "WARNING" " CENTER" _ Hw), Ha.
  by destruct (contains "WATCH" (fillWhat_text t)).
Qed.

Lemma fillWhat_warning_center_witness :
  contains "WARNING CENTER" (fillWhat_text advisory_template) = true /\
  contains "ADVISORY" (fillWhat_text advisory_template) = true /\
  fillWhat latest_globals demo_today "live" "template_advisory.txt" (Some advisory_template) empty_window =
  Ok (flag (fillWhat_clear latest_globals empty_window) "It appears that the template file has multiple WWA type. Sorry but combo templates are not supported at this time. code:fillWhatTWO").
Proof.
  assert (H1 : contains "WARNING CENTER" (fillWhat_text advisory_template) = true) by (vm_compute; reflexivity).
  assert (H2 : contains "ADVISORY" (fillWhat_text advisory_template) = true) by (vm_compute; reflexivity).
  split; [exact H1|]. split; [exact H2|]. exact (fillWhat_warning_center _ _ _ _ _ _ H1 H2).
Defined.

(** ** The send check *)

Lemma app_nonempty_r e m : m <> "" -> e ++ m <> "".
Proof. by destruct e, m. Qed.

(** One guarded message of [check_errors]. *)
Lemma cond_msg_empty (b : bool) e m :
  m <> "" -> (if b then e ++ m else e) = "" <-> b = false /\ e = "".
Proof. intros Hm. destruct b; [|naive_solver]. split; [|naive_solver]. intros H. by apply app_nonempty_r in H. Qed.

Lemma first_msg_empty (b : bool) m : m <> "" -> (if b then m else "") = "" <-> b = false.
Proof. destruct b; naive_solver. Qed.

Lemma check_errors_empty g w :
  check_errors g w = "" <->
  20 <= String.length (text_get w) /\ contains "none are detected" (text_get w) = false /\
  contains "XXX" (text_get w) = false /\ county_hits g (w_checked w) <> [].
Proof.
  unfold check_errors. cbv zeta.
  rewrite !cond_msg_empty, first_msg_empty; try (rewrite ?append_cons; discriminate).
  destruct (_ <? 20) eqn:E; [apply Nat.ltb_lt in E | apply Nat.ltb_ge in E].
  - split; [intros (_ & _ & _ & ?); discriminate | lia].
  - destruct (county_hits g (w_checked w)); cbn [is_nil]; naive_solver.
Qed.

Lemma fold_county_nonempty (ks ch : list string) (l : dict string) acc :
  fold_left (fun counties '(c, zlist) =>
    if existsb (fun z => py_in z ch && contains z zlist) ks
    then append_new c counties else counties) l acc <> [] <->
  acc <> [] \/ exists c zl z, In (c, zl) l /\ In z ks /\ py_in z ch = true /\ contains z zl = true.
Proof.
  revert acc. induction l as [|[c zl] l IH]; intros acc; cbn [fold_left].
  - naive_solver.
  - rewrite IH. destruct (existsb _ ks) eqn:E.
    + apply existsb_exists in E as (z & Hz & Hzc). apply andb_true_iff in Hzc as [Hz1 Hz2].
      split; [|intros _; left; intros H; pose proof (proj2 (append_new_In c c acc) (or_intror eq_refl)) as Hc;
               by rewrite H in Hc].
      intros _. right. exists c, zl, z. naive_solver.
    + split; [naive_solver|]. intros [H|(c' & zl' & z & [Hin|Hin] & Hz & H1 & H2)]; [by left| |by (right; exists c', zl', z)].
      injection Hin as <- <-. exfalso.
      assert (existsb (fun z => py_in z ch && contains z zl) ks = true) as E'
        by (apply existsb_exists; exists z; by rewrite H1, H2).
      by rewrite E in E'.
Qed.

Lemma county_hits_nonempty g ch :
  county_hits g ch <> [] <->
  exists c zl z, In (c, zl) (g_county_list g) /\ In z (bt_keys g) /\ py_in z ch = true /\ contains z zl = true.
Proof. unfold county_hits. rewrite fold_county_nonempty. naive_solver. Qed.

(** C20: the confirmation dialog of a send (with its countdown from
    5) is reached exactly when the text of the window has at least 20
    characters (with Tk's final newline), holds neither the framing code
    ["XXX"] nor ["none are detected"], and some selected zone is listed
    for a configured county; otherwise the errors are shown and nothing
    is sent. *)
Theorem sendtoRadioCheck_confirms g modeme w :
  (exists c, sendtoRadioCheck g modeme w = AlmostSend c 5) <->
  20 <= String.length (text_get w) /\ contains "none are detected" (text_get w) = false /\
  contains "XXX" (text_get w) = false /\
  exists c zl z, In (c, zl) (g_county_list g) /\ In z (bt_keys g) /\ py_in z (w_checked w) = true /\
                 contains z zl = true.
Proof.
  rewrite <- county_hits_nonempty, <- check_errors_empty. unfold sendtoRadioCheck, almostsendtoRadio.
  destruct (String.eqb_spec (check_errors g w) "") as [E|E].
  - split; [done | by eexists].
  - split; [intros [c Hc]; discriminate | done].
Qed.

Lemma sendtoRadioCheck_confirms_witness :
  (exists c, sendtoRadioCheck template_globals "live"
     (mkWindow "TSUNAMI WARNING FOR THE COASTAL AREAS." ["CAZ034"] (InfoReset "") "warning" [] 1 []) = AlmostSend c 5) /\
  (20 <= String.length (text_get (mkWindow "TSUNAMI WARNING FOR THE COASTAL AREAS." ["CAZ034"] (InfoReset "") "warning" [] 1 [])) /\
   contains "none are detected" (text_get (mkWindow "TSUNAMI WARNING FOR THE COASTAL AREAS." ["CAZ034"] (InfoReset "") "warning" [] 1 [])) = false /\
   contains "XXX" (text_get (mkWindow "TSUNAMI WARNING FOR THE COASTAL AREAS." ["CAZ034"] (InfoReset "") "warning" [] 1 [])) = false /\
   exists c zl z, In (c, zl) (g_county_list template_globals) /\ In z (bt_keys template_globals) /\
     py_in z ["CAZ034"] = true /\ contains z zl = true).
Proof.
  assert (H : exists c, sendtoRadioCheck template_globals "live"
     (mkWindow "TSUNAMI WARNING FOR THE COASTAL AREAS." ["CAZ034"] (InfoReset "") "warning" [] 1 []) = AlmostSend c 5)
    by (exists ConfirmLive; vm_compute; reflexivity).
  split; [exact H | exact (proj1 (sendtoRadioCheck_confirms _ _ _) H)].
Defined.

(** [upper] never yields a lower-case ["n"]. *)
Lemma upper_char_not_n c : Ascii.eqb (upper_char c) "n" = false.
Proof. destruct c as [[] [] [] [] [] [] [] []]; reflexivity. Qed.

(** The no-hazard test of line 2110 looks for a lower-case phrase: it
    never fires on a text the program wrote, which is upper case. *)
Lemma none_detected_upper w :
  upper (w_text w) = w_text w -> contains "none are detected" (text_get w) = false.
Proof.
  intros Hu. unfold text_get. rewrite <- Hu. change nl with (upper nl). rewrite <- upper_app.
  induction (w_text w ++ nl) as [|c s IH]; [reflexivity|]. cbn [upper].
  rewrite contains_cons; [exact IH|]. cbn [String.prefix].
  destruct (ascii_dec "n" (upper_char c)) as [E|]; [|done].
  pose proof (upper_char_not_n c) as H. by rewrite <- E in H.
Qed.

(** ** The autosave file round trip *)

Lemma fold_append_new_In z l acc :
  In z (fold_left (fun acc z => append_new z acc) l acc) <-> In z acc \/ In z l.
Proof.
  revert acc. induction l as [|z' l IH]; intros acc; cbn [fold_left]; [naive_solver|].
  rewrite IH, append_new_In. naive_solver.
Qed.

Lemma bt_keys_In g z : In z (bt_keys g) <-> In z (g_zone_ids g).
Proof. unfold bt_keys. rewrite fold_append_new_In. naive_solver. Qed.

(** The zone field of the file has no ["|"] when no zone name has one. *)
Lemma zone_field_no_bar zs :
  Forall (fun z => contains "|" z = false) zs ->
  contains "|" (String.concat "" (map (fun z => z ++ ",") zs)) = false.
Proof.
  induction 1 as [|z zs Hz Hzs IH]; [done|].
  rewrite map_cons, concat_nil_sep, !contains_char_app, Hz, IH. reflexivity.
Qed.

Lemma filter_py_in_filter (l : list string) (P : string -> bool) :
  List.filter (fun z => py_in z (List.filter P l)) l = List.filter P l.
Proof.
  apply filter_ext_in. intros z Hz. destruct (P z) eqn:Pz.
  - apply py_in_spec, filter_In. done.
  - apply py_in_false. intros [_ H]%filter_In. congruence.
Qed.

(** Reading the buttons back from the zone field, which ends with an
    empty name after the last comma. *)
Lemma filter_restored (l : list string) (P : string -> bool) :
  ~ In "" l ->
  List.filter (fun z => py_in z (List.filter P l ++ [""])) l = List.filter P l.
Proof.
  intros Hl. transitivity (List.filter (fun z => py_in z (List.filter P l)) l); [|apply filter_py_in_filter].
  apply filter_ext_in. intros z Hz.
  destruct (py_in z (List.filter P l)) eqn:E.
  - apply py_in_spec, in_app_iff. left. by apply py_in_spec.
  - apply py_in_false. intros [H|[<-|[]]]%in_app_iff; [|done]. by apply py_in_false in E.
Qed.

Lemma restore_active_nl out : restore_active (out ++ nl) = restore_active out.
Proof. unfold restore_active. rewrite !contains_app_nl by (vm_compute; congruence). reflexivity. Qed.

Lemma py_index_pair_0 A (a b : A) : py_index 0 [a; b] = Ok a.
Proof. reflexivity. Qed.

Lemma py_index_pair_1 A (a b : A) : py_index 1 [a; b] = Ok b.
Proof. reflexivity. Qed.

(** C21: restoring the autosave file written from a window gives back
    its text and its zone buttons, with [active] read from the text and
    [combo_need] cleared, and writes the same file again, for a text of
    at least 29 characters as the window holds it (upper case, stripped)
    without ["|||"], and zone names that are non-empty and hold neither a
    comma nor ["|"]. *)
Theorem restoreMe_saveMe g w w0 f x m y :
  w_text w = String x (m ++ String y "") -> is_space x = false -> is_space y = false ->
  upper (w_text w) = w_text w -> 29 <= String.length (w_text w) -> contains "|||" (w_text w) = false ->
  Forall (fun z => z <> "" /\ contains "," z = false /\ contains "|" z = false) (g_zone_ids g) ->
  restoreMe g (saveMe g w f) w0 =
    (mkWindow (w_text w) (List.filter (fun z => py_in z (w_checked w)) (bt_keys g)) (w_info w0)
       (restore_active (w_text w)) [] (w_masterTone w0) (w_flags w0),
     saveMe g w f).
Proof.
  intros Ex Hx Hy Hu Hl Hbar Hz.
  assert (Hk : Forall (fun z => z <> "" /\ contains "," z = false /\ contains "|" z = false) (bt_keys g))
    by (apply Forall_forall; intros z Hz'%bt_keys_In; by apply (proj1 (Forall_forall _ _) Hz)).
  set (zs := List.filter (fun z => py_in z (w_checked w)) (bt_keys g)).
  assert (Hzs : Forall (fun z => z <> "" /\ contains "," z = false /\ contains "|" z = false) zs)
    by (apply Forall_forall; intros z [Hz' _]%filter_In; by apply (proj1 (Forall_forall _ _) Hk)).
  assert (Hsave : saveMe g w f = Some (String.concat "" (map (fun z => z ++ ",") zs) ++ "|||" ++ text_get w)).
  { unfold saveMe. rewrite (proj2 (Nat.ltb_ge _ _)); [done|]. unfold text_get. rewrite length_append. cbn. lia. }
  rewrite Hsave. unfold restoreMe. cbv zeta.
  rewrite split_sep_two.
  2:{ apply zone_field_no_bar. eapply Forall_impl; [|exact Hzs]. naive_solver. }
  2:{ unfold text_get. rewrite contains_app_nl by (vm_compute; congruence). exact Hbar. }
  rewrite (py_index_pair_0 String.string), (py_index_pair_1 String.string). cbn [w_text w_checked w_info w_masterTone w_flags].
  rewrite (split_terminated ","%char) by (eapply Forall_impl; [|exact Hzs]; naive_solver).
  unfold zs. rewrite filter_restored by (intros Hin; apply (proj1 (Forall_forall _ _) Hk) in Hin; naive_solver).
  unfold text_get. rewrite restore_active_nl, upper_app, Hu, Ex, strip_app_space by done.
  f_equal. unfold saveMe, text_get. cbn [w_text w_checked].
  rewrite (proj2 (Nat.ltb_ge _ _)) by (rewrite <- Ex, length_append; cbn; lia).
  by rewrite filter_py_in_filter.
Qed.

Lemma restoreMe_saveMe_witness :
  restoreMe template_globals (saveMe template_globals save_demo_window None) empty_window =
    (mkWindow (w_text save_demo_window)
       (List.filter (fun z => py_in z (w_checked save_demo_window)) (bt_keys template_globals))
       (w_info empty_window) (restore_active (w_text save_demo_window)) [] (w_masterTone empty_window)
       (w_flags empty_window),
     saveMe template_globals save_demo_window None).
Proof.
  apply (restoreMe_saveMe _ _ _ _ "T"%char "SUNAMI WARNING FOR THE COASTAL AREAS OF CALIFORNIA" "."%char);
    try reflexivity.
  - vm_compute. lia.
  - apply Forall_forall. intros z Hz. vm_compute in Hz.
    repeat (destruct Hz as [<-|Hz]; [split; [discriminate | split; reflexivity] |]). destruct Hz.
Defined.
