(* ===== verification/Settings.v ===== *)
(** * The autofill settings, the example statements and the BMH preview

    nwr_tsu.py lines 1706-1973.  The product that [autoFill] parses is
    the global [wcapil]: a product identifier ([TSUWCA]), optionally
    preceded by a version ([-2:TSUWCA], the second latest), or the path of
    a local file for testing.  This file models:

    - [autofillSettings] (lines 1727-1760): the dialog shows [wcapil] cut
      into its version and its product;
    - [autofillChangesettings] (lines 1706-1725): Save joins the two
      fields again into [wcapil] and relabels the View button;
    - [loadLatestStatement] (lines 1762-1767): back to the configured
      product [wcapil_raw];
    - [loadExampleStatement] and [loadExampleGo] (lines 1790-1815 and
      1770-1788): the files of the examples directory are offered, and
      loading one switches a live GUI to practice mode;
    - [previewBMH] (lines 1818-1858): the BMH script of the window is
      written to [data/tsradio.txt] and shown;
    - [loadTSU] and [viewTSU] (lines 1883-1973): the product viewer, with
      its Earlier/Later buttons for a product of the text database and
      Previous/Next for an example file.

    Each operation ends with a call of [autoFill], on the bulletin text
    of the new [wcapil]; that text is read from the text database or a
    file, so the call is the caller's next step, not part of these
    definitions.  The dialogs' widgets are their field values.

    The theorems: opening the dialog and saving it unchanged gives back
    every product identifier in the form the dialog writes
    ([autofill_settings_roundtrip]); loading an example statement never
    leaves the GUI in live mode ([loadExampleGo_not_live]); in the
    viewer, Later undoes Earlier on a versioned product
    ([db_nav_earlier_later]) but not on the latest one
    ([db_nav_latest]). *)

From stdpp Require Import base list strings decidable.
From Stdlib Require Import String Ascii ZArith Lia.
From S2P Require Import Prelude PyStr Config Zones Civil Send Wording.

Local Open Scope string_scope.
Local Open Scope nat_scope.
Local Open Scope tsu_scope.

(** ** The autofill settings dialog *)

(** The two fields of the dialog: [optset["wcapil"]] and
    [optset["version"]]. *)
Record settings_dialog : Type := mkSettings {
  sd_wcapil : string;
  sd_version : string
}.

(** Lines 1731-1740 and 1749-1756: the field values the dialog opens
    with. *)
Definition autofillSettings (wcapil : string) : settings_dialog :=
  if contains ":" wcapil then
    let tmp := str_split ":" wcapil in
    if 1 <? List.length tmp then
      let version := nth 0 tmp "" in
      let version := if String.eqb version "0" then "Latest" else version in
      let version := if negb (contains "-" version) && negb (String.eqb version "Latest")
                     then "-" ++ version else version in
      mkSettings (nth 1 tmp "") version
    else mkSettings wcapil "Latest"
  else mkSettings wcapil "Latest".

(** A path of a local file: [wcapil.find("/")] or [wcapil.find(".")]. *)
Definition is_local_file (wcapil : string) : bool := contains "/" wcapil || contains "." wcapil.

(** The name shown for a local file: the base name up to its first dot. *)
Definition file_display (wcapil display : string) : string :=
  let tmp := str_split "/" wcapil in
  let tmp2 := str_split "." (nth (List.length tmp - 1) tmp "") in
  if 0 <? List.length tmp2 then nth 0 tmp2 "" else display.

(** [" View "+wcapil_display.replace(teststatementdir,"")+" Statement"] *)
Definition view_label (teststatementdir display : string) : string :=
  " View " ++ str_replace teststatementdir "" display ++ " Statement".

(** Lines 1706-1722: the new [wcapil] and the label of the View button. *)
Definition autofillChangesettings (teststatementdir : string) (d : settings_dialog) : string * string :=
  let version := sd_version d ++ ":" in
  let version := if String.eqb version "Latest:" then "" else version in
  let wcapil := version ++ sd_wcapil d in
  let display := version ++ upper (sd_wcapil d) in
  if is_local_file wcapil then (wcapil, view_label teststatementdir (file_display wcapil display))
  else (upper wcapil, view_label teststatementdir display).

(** Lines 1762-1767. *)
Definition loadLatestStatement (wcapil_raw : string) : string * string :=
  (wcapil_raw, " View " ++ wcapil_raw ++ " Statement").

(** ** The example statements *)

(** Lines 1804-1813: [listing] is [os.listdir] of the examples directory
    and [isdir] tells its subdirectories; the menu offers the sorted file
    names, the first one selected ([""] when there is none). *)
Definition loadExampleStatement (listing : list string) (isdir : string -> bool) : list string * string :=
  let arr := List.filter (fun a => negb (isdir a)) (sort_strings listing) in
  (arr, match arr with a :: _ => a | [] => "" end).

(** Lines 1770-1788: the chosen file becomes [wcapil], and a live GUI is
    toggled with the AWIPS mode [awips] of that moment; the result is
    [wcapil], the View label and the mode. *)
Definition loadExampleGo (teststatementdir choice modeme awips : string) : string * string * string :=
  let wcapil := teststatementdir ++ choice in
  let display := upper choice in
  let '(wcapil, display) :=
    if is_local_file wcapil then (wcapil, file_display wcapil display) else (upper wcapil, display) in
  (wcapil, view_label teststatementdir display,
   if String.eqb modeme "live" then toggleMode modeme awips else modeme).

(** ** The BMH preview (lines 1818-1858) *)

(** The script is written to [data/tsradio.txt] ([tsradio]) and shown;
    a window with fewer than 10 characters is refused.  [crsexpire] is
    the text of the expiry menu. *)
Definition previewBMH (g : globals) (now : Z) (crsexpire : string) (w : window) (tsradio : option string)
    : window * option string :=
  let text := text_get w in
  if String.length text <? 10
  then (flag w "Text is missing from the main text window. Nothing to preview.", tsradio)
  else (w, Some (crsCodeme g (w_checked w) (negb (Z.eqb (w_masterTone w) 0)) now crsexpire (w_active w) text)).

(** ** The product viewer (lines 1878-1973) *)

(** Lines 1917-1934: the Earlier and Later buttons of a product of the
    text database, [None] for a disabled button.  [int(tmp[0])] raises
    [ValueError] on a version that is not a number, outside any [try]. *)
Definition db_nav (wcapil2 : string) : res (option string * option string) :=
  if contains ":" wcapil2 then
    let tmp := str_split ":" (str_replace "-" "" wcapil2) in
    v0 <- py_index 0 tmp ;;
    version <- py_int v0 ;;
    pil <- py_index 1 tmp ;;
    Ok (Some ("-" ++ str_Z (version + 1) ++ ":" ++ pil),
        if (0 <? version)%Z then Some ("-" ++ str_Z (version - 1) ++ ":" ++ pil) else None)
  else Ok (Some ("-1" ++ ":" ++ wcapil2), None).

(** The position of the shown file among the example files: the last
    match ([ver=k] in the loop), [0] when there is none. *)
Fixpoint find_ver (arr : list string) (w : string) (k ver : nat) : nat :=
  match arr with
  | [] => ver
  | a :: arr' => find_ver arr' w (S k) (if String.eqb a w then k else ver)
  end.

(** Lines 1935-1956: the Previous and Next buttons of an example file. *)
Definition example_nav (dir : string) (listing : list string) (isdir : string -> bool) (wcapil2 : string)
    : option string * option string :=
  let arr := map (fun a => dir ++ a) (List.filter (fun a => negb (isdir a)) (sort_strings listing)) in
  let ver := find_ver arr wcapil2 0 0 in
  (if 0 <? ver then Some (nth (ver - 1) arr "") else None,
   if ver <? List.length arr - 1 then Some (nth (ver + 1) arr "") else None).

(** The viewer: its title, its two navigation buttons and the text. *)
Record tsu_view : Type := mkView {
  tv_label : string;
  tv_earlier : option string;
  tv_later : option string;
  tv_text : string
}.

(** Lines 1902-1973. *)
Definition viewTSU (dir : string) (listing : list string) (isdir : string -> bool) (tsuin wcapil2 : string)
    : res tsu_view :=
  nav <- (if negb (is_local_file wcapil2) then db_nav wcapil2 else Ok (example_nav dir listing isdir wcapil2)) ;;
  Ok (mkView ("View " ++ str_replace dir "" wcapil2 ++ " Statement") (fst nav) (snd nav) (strip tsuin)).

(** Lines 1883-1900: a local file is read ([isfile], [read_file]) with
    its carriage returns removed, a product of the text database is the
    output of [textdb] for the command [db -r wcapil2]. *)
Definition loadTSU (dir : string) (listing : list string) (isdir isfile : string -> bool)
    (read_file textdb : string -> string) (wcapil2 : string) (w : window) : window * res (option tsu_view) :=
  let tsuin :=
    if is_local_file wcapil2 then
      (if isfile wcapil2 then Some (str_replace (String "013" "") "" (read_file wcapil2)) else None)
    else Some (textdb wcapil2) in
  match tsuin with
  | None => (flag w "Specified Input File Not. Try changing file or PIL in the Autofill options.", Ok None)
  | Some tsuin =>
      let tsuin := if String.eqb tsuin "" then "No Statement Available" else tsuin in
      (w, res_bind (viewTSU dir listing isdir tsuin wcapil2) (fun v => Ok (Some v)))
  end.

(** ** Saving the settings unchanged *)

(** The product identifier with its version, as [autofillChangesettings]
    writes it. *)
Definition versioned (v p : string) : string := if String.eqb v "" then p else v ++ ":" ++ p.

Lemma is_local_file_app a b :
  is_local_file (a ++ b) = is_local_file a || is_local_file b.
Proof.
  unfold is_local_file. rewrite !contains_char_app.
  by destruct (contains "/" a), (contains "/" b), (contains "." a), (contains "." b).
Qed.

Lemma contains_colon_versioned v p : v <> "" -> contains ":" (v ++ ":" ++ p) = true.
Proof.
  intros _. rewrite contains_char_app, append_cons, append_nil_l, (contains_char_cons ":"%char), Ascii.eqb_refl.
  apply orb_true_r.
Qed.

(** C33: opening the autofill settings and saving them unchanged gives
    back the product: an upper-case identifier without [":"] that is not
    a file path, alone or behind a version such as ["-2"]. *)
Theorem autofill_settings_roundtrip dir v p :
  upper p = p -> upper v = v -> contains ":" p = false -> is_local_file p = false ->
  (v = "" \/ (contains "-" v = true /\ contains ":" v = false /\ is_local_file v = false)) ->
  fst (autofillChangesettings dir (autofillSettings (versioned v p))) = versioned v p.
Proof.
  intros Hup Huv Hcp Hlp [->|(Hm & Hcv & Hlv)].
  - unfold versioned, autofillSettings, autofillChangesettings. rewrite String.eqb_refl, Hcp.
    cbn [sd_version sd_wcapil]. change ("Latest" ++ ":") with "Latest:". rewrite String.eqb_refl, append_nil_l, Hlp.
    exact Hup.
  - assert (Hv : v <> "") by (intros ->; discriminate).
    unfold versioned. rewrite (proj2 (String.eqb_neq v "") Hv).
    unfold autofillSettings. rewrite contains_colon_versioned by done.
    change (":" ++ p) with (String ":" p). rewrite split_two by done. cbn [List.length nth Nat.ltb Nat.leb].
    replace (String.eqb v "0") with false by (symmetry; apply String.eqb_neq; intros ->; discriminate).
    rewrite Hm. cbn [negb andb].
    unfold autofillChangesettings. cbn [sd_version sd_wcapil].
    replace (String.eqb (v ++ ":") "Latest:") with false.
    2:{ symmetry. apply String.eqb_neq. intros E.
        assert (H : contains "-" (v ++ ":") = true) by (apply contains_app_l; exact Hm).
        by rewrite E in H. }
    rewrite !is_local_file_app, Hlv, Hlp. change (is_local_file ":") with false. cbn [orb].
    rewrite !upper_app, Huv, Hup. by rewrite append_assoc_str.
Qed.

Lemma autofill_settings_roundtrip_witness :
  fst (autofillChangesettings "/awips2/apps/TsunamiEasGui/examples/"
        (autofillSettings (versioned "-2" "TSUWCA"))) = versioned "-2" "TSUWCA".
Proof.
  apply autofill_settings_roundtrip; try reflexivity.
  right. split; [|split]; vm_compute; reflexivity.
Defined.

(** ** Example statements are never loaded live *)

Lemma toggleMode_live awips : toggleMode "live" awips = "practice".
Proof. unfold toggleMode. by destruct (String.eqb_spec awips "practice") as [->|]. Qed.

(** C32: after an example statement is loaded, the GUI is not in
    live mode: a live GUI is switched to practice, whatever mode AWIPS
    reports, and another mode is kept. *)
Theorem loadExampleGo_not_live dir choice modeme awips :
  snd (loadExampleGo dir choice modeme awips) = (if String.eqb modeme "live" then "practice" else modeme) /\
  snd (loadExampleGo dir choice modeme awips) <> "live".
Proof.
  unfold loadExampleGo. destruct (is_local_file (dir ++ choice)); cbn [snd];
  destruct (String.eqb_spec modeme "live") as [->|Hm]; rewrite ?toggleMode_live; split; done.
Qed.

(** ** Earlier and Later in the text database *)

Lemma digits_val_no_char d acc s v :
  digit_val d = None -> digits_val acc s = Some v -> contains (String d "") s = false.
Proof.
  intros Hd. revert acc. induction s as [|c s IH]; intros acc; [done|]. cbn [digits_val].
  destruct (digit_val c) eqn:Ec; [|discriminate]. intros H.
  rewrite contains_char_cons, (IH _ H), orb_false_r. apply Ascii.eqb_neq. congruence.
Qed.

(** A number printed by [str] has no [-] and no [:]. *)
Lemma str_Z_no_char d n : (0 <= n)%Z -> digit_val d = None -> contains (String d "") (str_Z n) = false.
Proof. intros Hn Hd. rewrite str_Z_nonneg by done. eapply digits_val_no_char; [exact Hd | apply digits_val_str_N]. Qed.

Lemma strip_dash_versioned n p :
  (0 <= n)%Z -> contains "-" p = false -> str_replace "-" "" ("-" ++ str_Z n ++ ":" ++ p) = str_Z n ++ ":" ++ p.
Proof.
  intros Hn Hp. rewrite str_replace_go by done. rewrite replace_go_occ by done. rewrite append_nil_l.
  apply replace_go_absent. rewrite !contains_char_app, str_Z_no_char, Hp by done. reflexivity.
Qed.

Lemma db_nav_versioned n p :
  (0 <= n)%Z -> contains "-" p = false -> contains ":" p = false ->
  db_nav ("-" ++ str_Z n ++ ":" ++ p) =
    Ok (Some ("-" ++ str_Z (n + 1) ++ ":" ++ p), if (0 <? n)%Z then Some ("-" ++ str_Z (n - 1) ++ ":" ++ p) else None).
Proof.
  intros Hn Hm Hc. unfold db_nav.
  replace (contains ":" _) with true
    by (symmetry; rewrite !contains_char_app; change (contains ":" ":") with true;
        by rewrite orb_true_l, !orb_true_r).
  rewrite strip_dash_versioned by done. change (":" ++ p) with (String ":" p).
  rewrite split_two by (try apply str_Z_no_char; done). cbn [py_index].
  rewrite (py_index_pair_0 string). cbn [res_bind]. rewrite py_int_str_Z by done. cbn [res_bind].
  by rewrite (py_index_pair_1 string).
Qed.

(** Going one version back with Earlier and forward again with Later
    shows the same product: Earlier from [-n:PIL] is [-(n+1):PIL], and
    Later from there is [-n:PIL]. *)
Theorem db_nav_earlier_later n p :
  (0 <= n)%Z -> contains "-" p = false -> contains ":" p = false ->
  (exists l, db_nav ("-" ++ str_Z n ++ ":" ++ p) = Ok (Some ("-" ++ str_Z (n + 1) ++ ":" ++ p), l)) /\
  (exists e, db_nav ("-" ++ str_Z (n + 1) ++ ":" ++ p) = Ok (e, Some ("-" ++ str_Z n ++ ":" ++ p))).
Proof.
  intros Hn Hm Hc. split.
  - eexists. by apply db_nav_versioned.
  - eexists. rewrite db_nav_versioned by (done || lia).
    replace (0 <? n + 1)%Z with true by (symmetry; apply Z.ltb_lt; lia).
    by replace (n + 1 - 1)%Z with n by lia.
Qed.

(** From the latest product, Earlier leads to [-1:TSUWCA] and Later from
    there to [-0:TSUWCA], not back to [TSUWCA]. *)
Example db_nav_latest :
  db_nav "TSUWCA" = Ok (Some "-1:TSUWCA", None) /\
  db_nav "-1:TSUWCA" = Ok (Some "-2:TSUWCA", Some "-0:TSUWCA").
Proof. split; vm_compute; reflexivity. Qed.
