(* ===== verification/Spell.v ===== *)
(** * The spell checker (nwr_tsu.py lines 1975-2045)

    [spellMe] cuts the statement into its words (runs of ASCII letters),
    asks [ispell -a] about each one and keeps, in the dict [spell], the
    suggestions of every word [ispell] flags; [spellAction] then takes the
    first word of [spell] out and opens the dialog [spellBox] with its
    suggestions.  The dialog's buttons are the two user actions: Replace
    All ([spellReplace]) replaces the word in the statement by the
    selected suggestion, Ignore All does nothing; both go on with
    [spellAction].

    The output of [ispell] for a word is the function [ispell]; the
    dialog is the field [ss_box] of the state [spell_state], and the user
    actions are the step relation [spell_step].  The highlighting and the
    [saveMe()] of [spellBox] act on widgets and files only.

    The theorems: the dialogs end, after at most as many button presses
    as [ispell] flagged words ([spell_check_terminates]); Replace All
    replaces the word inside longer words as well
    ([spellReplace_inside_words]). *)

From stdpp Require Import base list strings decidable relations.
From Stdlib Require Import String Ascii ZArith Lia.
From S2P Require Import Prelude PyStr Info Wording.

Local Open Scope string_scope.
Local Open Scope nat_scope.
Local Open Scope tsu_scope.

(** ** Words and [ispell] *)

Definition is_letter (c : ascii) : bool :=
  let n := nat_of_ascii c in ((65 <=? n) && (n <=? 90)) || ((97 <=? n) && (n <=? 122)).

(** [re.compile("([A-Za-z]+)").findall(text)]: the maximal runs of
    letters, [cur] being the run read so far. *)
Fixpoint letter_runs_go (cur s : string) : list string :=
  match s with
  | EmptyString => if String.eqb cur "" then [] else [cur]
  | String c s' =>
      if is_letter c then letter_runs_go (cur ++ String c "") s'
      else (if String.eqb cur "" then [] else [cur]) ++ letter_runs_go "" s'
  end.

Definition letter_runs (s : string) : list string := letter_runs_go "" s.

(** Lines 1983-1988: [tmp = pipe.split(":")] and, for a hit,
    [tmp[1].strip().split(",")]. *)
Definition ispell_hit (pipe : string) : option (list string) :=
  let tmp := str_split ":" pipe in
  if 1 <? List.length tmp then Some (str_split "," (strip (nth 1 tmp ""))) else None.

(** The loop of lines 1982-1988 over the words: [inl spell] when
    [ispell] is missing (the dict built so far), [inr spell] otherwise. *)
Fixpoint spell_scan (ispell : string -> string) (words : list string) (spell : dict (list string))
    : dict (list string) + dict (list string) :=
  match words with
  | [] => inr spell
  | w :: ws =>
      let pipe := ispell w in
      if contains "command not found" pipe then inl spell
      else spell_scan ispell ws (match ispell_hit pipe with Some s => dict_set w s spell | None => spell end)
  end.

(** ** The dialogs *)

(** The statement window, the dict [spell] and the open [spellBox]
    (its word and suggestions), if any. *)
Record spell_state : Type := mkSpell {
  ss_win : window;
  ss_spell : dict (list string);
  ss_box : option (string * list string)
}.

(** Lines 2017-2032: the first word of [spell] is taken out
    ([del spell[word]]) and shown with its suggestions. *)
Definition spellAction (st : spell_state) : spell_state :=
  match ss_spell st with
  | [] => mkSpell (flag (ss_win st) "Spell Check Completed.") [] None
  | (word, suggestions) :: rest => mkSpell (ss_win st) rest (Some (word, suggestions))
  end.

(** Lines 1975-1993. *)
Definition spellMe (ispell : string -> string) (w : window) : spell_state :=
  match spell_scan ispell (letter_runs (text_get w)) [] with
  | inl spell => mkSpell (flag w "Sorry, but iSpell is not installed on this machine :(") spell None
  | inr spell =>
      let w := match spell with [] => flag w "No Spelling Errors Found" | _ => w end in
      spellAction (mkSpell w spell None)
  end.

(** Lines 2034-2045: [choice] is the selected line of the list box,
    and the text read back from the window keeps Tk's final newline. *)
Definition spellReplace (st : spell_state) (w choice : string) : spell_state :=
  let text := text_get (ss_win st) in
  if String.eqb w "" || negb (contains w text) then spellAction st
  else spellAction (mkSpell (set_text (ss_win st) (str_replace w (upper choice) text)) (ss_spell st) (ss_box st)).

(** The buttons of the open [spellBox] (lines 2012-2014): Replace All
    with one of the suggestions, as the list box shows it (stripped), or
    Ignore All. *)
Inductive spell_step : spell_state -> spell_state -> Prop :=
| spell_replace st w sugg s :
    ss_box st = Some (w, sugg) -> In s sugg -> spell_step st (spellReplace st w (strip s))
| spell_ignore st w sugg :
    ss_box st = Some (w, sugg) -> spell_step st (spellAction st).

(** The dict of flagged words [spellMe] builds. *)
Definition spell_found (ispell : string -> string) (w : window) : dict (list string) :=
  match spell_scan ispell (letter_runs (text_get w)) [] with inl s => s | inr s => s end.

(** The dialogs still to come: the words left and the open one. *)
Definition spell_measure (st : spell_state) : nat :=
  List.length (ss_spell st) + match ss_box st with Some _ => 1 | None => 0 end.

(** [ispell -a] on a statement with one misspelled word. *)
Definition demo_ispell (word : string) : string :=
  if String.eqb word "TSUNAMY" then "& TSUNAMY 2 0: TSUNAMI, TSUNAMIS" else "*".

Definition demo_spell_window : window :=
  mkWindow "TSUNAMY WARNING FOR THE COAST." [] (InfoReset "") "warning" [] 1 [].

(** ** The dialogs end *)

Lemma spellAction_measure st : spell_measure (spellAction st) = List.length (ss_spell st).
Proof. unfold spellAction, spell_measure. destruct (ss_spell st) as [|[w s] rest]; cbn; lia. Qed.

Lemma box_measure st p : ss_box st = Some p -> spell_measure st = S (List.length (ss_spell st)).
Proof. intros E. unfold spell_measure. rewrite E. lia. Qed.

(** Each button press closes the open dialog and opens at most the next
    one. *)
Lemma spell_step_measure st st' : spell_step st st' -> spell_measure st' < spell_measure st.
Proof.
  intros [st0 w sugg s E _ | st0 w sugg E]; rewrite (box_measure _ _ E).
  - unfold spellReplace. destruct (_ || _); rewrite spellAction_measure; cbn; lia.
  - rewrite spellAction_measure. lia.
Qed.

Lemma nsteps_spell_measure k st st' :
  nsteps spell_step k st st' -> k + spell_measure st' <= spell_measure st.
Proof.
  induction 1 as [|k x y z Hxy _ IH]; [lia|]. pose proof (spell_step_measure _ _ Hxy). lia.
Qed.

Lemma spellMe_measure ispell w : spell_measure (spellMe ispell w) = List.length (spell_found ispell w).
Proof.
  unfold spellMe, spell_found. destruct (spell_scan _ _ _) as [s|s].
  - unfold spell_measure. cbn. lia.
  - by rewrite spellAction_measure.
Qed.

(** C22: whatever the buttons pressed (Replace All with any
    suggestion, or Ignore All), the spell checker's dialogs end: a run of
    [k] presses from [spellMe] has [k] at most the number of words
    [ispell] flagged. *)
Theorem spell_check_terminates ispell w k st' :
  nsteps spell_step k (spellMe ispell w) st' -> k <= List.length (spell_found ispell w).
Proof. intros H. apply nsteps_spell_measure in H. rewrite spellMe_measure in H. lia. Qed.

Lemma spell_check_terminates_witness :
  nsteps spell_step 1 (spellMe demo_ispell demo_spell_window) (spellAction (spellMe demo_ispell demo_spell_window)) /\
  1 <= List.length (spell_found demo_ispell demo_spell_window).
Proof.
  assert (H : nsteps spell_step 1 (spellMe demo_ispell demo_spell_window)
                (spellAction (spellMe demo_ispell demo_spell_window))).
  { eapply nsteps_l; [|apply nsteps_O]. eapply spell_ignore. vm_compute. reflexivity. }
  split; [exact H | exact (spell_check_terminates _ _ _ _ H)].
Defined.

(** Replace All replaces every occurrence of the flagged
    word, also inside longer words: correcting ["MENDO"] to ["mend"]
    turns ["MENDOCINO"] into ["MENDCINO"], and the final newline Tk adds
    stays in the text. *)
Example spellReplace_inside_words :
  w_text (ss_win (spellReplace
    (mkSpell (mkWindow "TSUNAMI WARNING FOR MENDOCINO COUNTY. CALL MENDO NOW." [] (InfoReset "") "warning" [] 1 [])
       [] (Some ("MENDO", ["mend"]))) "MENDO" "mend")) =
  "TSUNAMI WARNING FOR MENDCINO COUNTY. CALL MEND NOW." ++ nl.
Proof. vm_compute. reflexivity. Qed.
