(* ===== verification/Regex.v ===== *)
(** * Regular expressions: the part of Python's [re] the ATCF script uses

    [ProcessAtcfFiles.py] deletes the lines of a deck file on which
    [re.search(item, line)] finds a pattern (line 317).  The two patterns
    of the script (lines 145 and 148) use literal characters, character
    classes [[...]] with ranges and the postfix star; [re_compile] parses
    that syntax and returns [None] on anything else (an escape, a group,
    an alternative, a dot...), which the script does not use: on such a
    pattern [py_re_search] answers [false] where Python would search with
    a larger syntax or raise [re.error].  The two patterns the script
    passes are in the syntax ([Atcf.script_patterns_compile]), so the
    difference is never reached.

    Matching is by Brzozowski derivatives, after the development of
    regexp-Brzozowski ([nullable] is its [has_eps], [deriv] its [der]):
    [prefix_match r s] tests whether a prefix of [s] is in the language of
    [r], and [search r s] whether some factor is, which is what
    [re.search] decides (the leftmost-longest choice of the match does not
    matter to a test).  The smart constructors [mk_cat] and [mk_alt] keep
    the derivatives small.  [in_re] is the language of an expression, and
    [search_spec] shows that the executable [search] decides it. *)

From stdpp Require Import base list strings decidable.
From Stdlib Require Import String Ascii Lia.
From S2P Require Import Prelude PyStr.

Local Open Scope string_scope.
Local Open Scope tsu_scope.

Inductive regex : Type :=
| RVoid
| REps
| RSet (rs : list (ascii * ascii))
| RCat (r1 r2 : regex)
| RAlt (r1 r2 : regex)
| RStar (r : regex).

Definition in_ranges (rs : list (ascii * ascii)) (c : ascii) : bool :=
  existsb (fun '(lo, hi) => (nat_of_ascii lo <=? nat_of_ascii c)%nat && (nat_of_ascii c <=? nat_of_ascii hi)%nat) rs.

Definition mk_cat (r1 r2 : regex) : regex :=
  match r1, r2 with
  | RVoid, _ | _, RVoid => RVoid
  | REps, _ => r2
  | _, REps => r1
  | _, _ => RCat r1 r2
  end.

Definition mk_alt (r1 r2 : regex) : regex :=
  match r1, r2 with
  | RVoid, _ => r2
  | _, RVoid => r1
  | _, _ => RAlt r1 r2
  end.

Fixpoint nullable (r : regex) : bool :=
  match r with
  | RVoid | RSet _ => false
  | REps | RStar _ => true
  | RCat r1 r2 => nullable r1 && nullable r2
  | RAlt r1 r2 => nullable r1 || nullable r2
  end.

Fixpoint deriv (c : ascii) (r : regex) : regex :=
  match r with
  | RVoid | REps => RVoid
  | RSet rs => if in_ranges rs c then REps else RVoid
  | RCat r1 r2 =>
      if nullable r1 then mk_alt (mk_cat (deriv c r1) r2) (deriv c r2)
      else mk_cat (deriv c r1) r2
  | RAlt r1 r2 => mk_alt (deriv c r1) (deriv c r2)
  | RStar r1 => mk_cat (deriv c r1) (RStar r1)
  end.

(** A prefix of [s] is in the language of [r]. *)
Fixpoint prefix_match (r : regex) (s : string) : bool :=
  nullable r || match s with EmptyString => false | String c s' => prefix_match (deriv c r) s' end.

(** [re.search]: a match starts at some position of [s]. *)
Fixpoint search (r : regex) (s : string) : bool :=
  prefix_match r s || match s with EmptyString => false | String _ s' => search r s' end.

(** ** The pattern syntax: literals, classes with ranges, postfix star *)

Definition re_special (c : ascii) : bool :=
  existsb (Ascii.eqb c) ["."; "^"; "$"; "*"; "+"; "?"; "{"; "}"; "["; "]"; "\"; "|"; "("; ")"]%char.

(** The body of a class after [[]: single characters and ranges [a-b]
    up to the closing bracket; an empty class or an escape is outside the
    modelled syntax. *)
Fixpoint class_go (acc : list (ascii * ascii)) (s : string) : option (list (ascii * ascii) * string) :=
  match s with
  | EmptyString => None
  | String "]" r => if bool_decide (acc = []) then None else Some (acc, r)
  | String "\" _ => None
  | String a (String "-" ((String b r) as t)) =>
      if Ascii.eqb b "]" then class_go (acc ++ [(a, a); ("-", "-")]) t
      else class_go (acc ++ [(a, b)]) r
  | String a r => class_go (acc ++ [(a, a)]) r
  end%char.

Definition re_atom (s : string) : option (regex * string) :=
  match s with
  | EmptyString => None
  | String "[" r => match class_go [] r with Some (rs, r') => Some (RSet rs, r') | None => None end
  | String c r => if re_special c then None else Some (RSet [(c, c)], r)
  end%char.

Definition re_star (a : regex) (s : string) : regex * string :=
  match s with String "*" r => (RStar a, r) | _ => (a, s) end%char.

Fixpoint re_parse (fuel : nat) (s : string) : option regex :=
  match fuel with
  | O => None
  | S f =>
      match s with
      | EmptyString => Some REps
      | _ => match re_atom s with
             | None => None
             | Some (a, r) =>
                 let '(a', r') := re_star a r in
                 match re_parse f r' with Some rest => Some (RCat a' rest) | None => None end
             end
      end
  end.

Definition re_compile (pat : string) : option regex := re_parse (S (String.length pat)) pat.

(** [re.search(pat, line)] for a pattern of the modelled syntax.  A
    pattern outside it gives [false]; Python would raise [re.error] on an
    invalid pattern, or search with a valid one the model does not read.
    The script passes [re.search] only its two literal patterns, both of
    the modelled syntax ([Atcf.script_patterns_compile]), so that branch
    is never taken by the program. *)
Definition py_re_search (pat line : string) : bool :=
  match re_compile pat with Some r => search r line | None => false end.

(** ** The language of an expression *)

Inductive in_re : regex -> string -> Prop :=
| in_eps : in_re REps ""
| in_set rs c : in_ranges rs c = true -> in_re (RSet rs) (String c "")
| in_cat r1 r2 s1 s2 : in_re r1 s1 -> in_re r2 s2 -> in_re (RCat r1 r2) (s1 ++ s2)
| in_alt_l r1 r2 s : in_re r1 s -> in_re (RAlt r1 r2) s
| in_alt_r r1 r2 s : in_re r2 s -> in_re (RAlt r1 r2) s
| in_star_nil r : in_re (RStar r) ""
| in_star_app r s1 s2 : in_re r s1 -> in_re (RStar r) s2 -> in_re (RStar r) (s1 ++ s2).

#[export] Hint Constructors in_re : tsu.

(** ** The matcher decides the language *)

Lemma append_nil_r_str s : s ++ "" = s.
Proof. induction s as [|c s IH]; [done | by rewrite append_cons, IH]. Qed.

Lemma app_eq_nil_str s1 s2 : s1 ++ s2 = "" -> s1 = "" /\ s2 = "".
Proof. destruct s1; [done | by rewrite append_cons]. Qed.

Lemma in_re_void s : ~ in_re RVoid s.
Proof. inversion 1. Qed.

Lemma in_re_eps_inv s : in_re REps s -> s = "".
Proof. by inversion 1. Qed.

Lemma mk_cat_spec r1 r2 s : in_re (mk_cat r1 r2) s <-> in_re (RCat r1 r2) s.
Proof.
  split.
  - intros H. destruct r1, r2; simpl in H;
      first [ by apply in_re_void in H | exact H
            | (change s with ("" ++ s); by eauto with tsu)
            | (rewrite <- (append_nil_r_str s); by eauto with tsu) ].
  - inversion 1 as [| | ? ? s1 s2 H1 H2 | | | |]; subst.
    destruct r1, r2; simpl;
      first [ by apply in_re_void in H1 | by apply in_re_void in H2
            | (apply in_re_eps_inv in H1; subst; exact H2)
            | (apply in_re_eps_inv in H2; subst; by rewrite append_nil_r_str)
            | by constructor ].
Qed.

Lemma mk_alt_spec r1 r2 s : in_re (mk_alt r1 r2) s <-> in_re (RAlt r1 r2) s.
Proof.
  split.
  - destruct r1, r2; simpl; intros H; auto with tsu.
  - inversion 1; subst; destruct r1, r2; simpl; auto;
      match goal with H : in_re RVoid _ |- _ => by apply in_re_void in H end.
Qed.

Lemma nullable_spec r : nullable r = true <-> in_re r "".
Proof.
  induction r as [| |rs|r1 IH1 r2 IH2|r1 IH1 r2 IH2|r IH]; simpl.
  - split; [done | intros H; by apply in_re_void in H].
  - split; auto with tsu.
  - split; [done | inversion 1].
  - rewrite andb_true_iff, IH1, IH2. split.
    + intros [H1 H2]. change "" with ("" ++ "") at 1. by constructor.
    + inversion 1 as [| | ? ? s1 s2 H1 H2 | | | |].
      match goal with E : _ ++ _ = "" |- _ => by apply app_eq_nil_str in E as [-> ->] end.
  - rewrite orb_true_iff, IH1, IH2. split.
    + intros [H|H]; auto with tsu.
    + inversion 1; auto.
  - split; auto with tsu.
Qed.

Lemma app_eq_cons_str c s s1 s2 :
  String c s = s1 ++ s2 ->
  (s1 = "" /\ s2 = String c s) \/ (exists s1', s1 = String c s1' /\ s = s1' ++ s2).
Proof.
  destruct s1 as [|c' s1']; [by left|].
  rewrite append_cons. intros [= -> ->]. right. eauto.
Qed.

Lemma in_re_star_cons r w :
  in_re (RStar r) w -> forall c s, w = String c s ->
  exists s1 s2, s = s1 ++ s2 /\ in_re r (String c s1) /\ in_re (RStar r) s2.
Proof.
  remember (RStar r) as R eqn:HR.
  induction 1 as [| | | | | | r0 s1 s2 H1 _ H2 IH2]; intros c0 s0 E; try discriminate.
  injection HR as <-.
  apply eq_sym, app_eq_cons_str in E as [[-> ->] | [s1' [-> ->]]].
  - by apply IH2.
  - exists s1', s2. auto.
Qed.

Lemma deriv_spec c r s : in_re (deriv c r) s <-> in_re r (String c s).
Proof.
  revert s. induction r as [| |rs|r1 IH1 r2 IH2|r1 IH1 r2 IH2|r IH]; intros s; simpl.
  - split; intros H; by apply in_re_void in H.
  - split; [intros H; by apply in_re_void in H | by inversion 1].
  - destruct (in_ranges rs c) eqn:Hc; split.
    + intros H. apply in_re_eps_inv in H as ->. by constructor.
    + inversion 1; subst. constructor.
    + intros H. by apply in_re_void in H.
    + inversion 1; subst. congruence.
  - split.
    + intros H.
      assert (Hcat : in_re (RCat (deriv c r1) r2) s -> in_re (RCat r1 r2) (String c s)).
      { inversion 1 as [| | ? ? s1 s2 Ha Hb | | | |]; subst.
        apply IH1 in Ha. rewrite <- append_cons. by constructor. }
      destruct (nullable r1) eqn:Hn.
      * apply mk_alt_spec in H.
        inversion H as [| | | ? ? ? H' | ? ? ? H' | |]; subst.
        -- apply Hcat. by apply mk_cat_spec.
        -- apply IH2 in H'. change (String c s) with ("" ++ String c s).
           apply nullable_spec in Hn. by constructor.
      * apply Hcat. by apply mk_cat_spec.
    + inversion 1 as [| | ? ? s1 s2 Ha Hb | | | |]; subst.
      match goal with E : _ ++ _ = String _ _ |- _ =>
        apply eq_sym, app_eq_cons_str in E as [[-> ->] | [s1' [-> ->]]] end.
      * apply nullable_spec in Ha as ->. rewrite mk_alt_spec.
        apply in_alt_r. by apply IH2.
      * assert (in_re (RCat (deriv c r1) r2) (s1' ++ s2)) as Hd
          by (constructor; [by apply IH1 | done]).
        destruct (nullable r1); [apply mk_alt_spec, in_alt_l|]; by apply mk_cat_spec.
  - rewrite mk_alt_spec. split;
      inversion 1; subst; [apply in_alt_l, IH1 | apply in_alt_r, IH2 | apply in_alt_l, IH1 | apply in_alt_r, IH2]; done.
  - rewrite mk_cat_spec. split.
    + inversion 1 as [| | ? ? s1 s2 Ha Hb | | | |]; subst.
      apply IH in Ha. rewrite <- append_cons. by constructor.
    + intros H. destruct (in_re_star_cons _ _ H c s eq_refl) as (s1 & s2 & -> & Ha & Hb).
      constructor; [by apply IH | done].
Qed.

Lemma prefix_match_spec r s :
  prefix_match r s = true <-> exists p q, s = p ++ q /\ in_re r p.
Proof.
  revert r. induction s as [|c s IH]; intros r; simpl; rewrite orb_true_iff, nullable_spec.
  - split; [intros [H|H]; [by exists "", "" | done] |].
    intros (p & q & E & H). symmetry in E. apply app_eq_nil_str in E as [-> ->]. by left.
  - rewrite IH. split.
    + intros [H | (p & q & -> & H)]; [by exists "", (String c s) |].
      apply deriv_spec in H. exists (String c p), q. by rewrite append_cons.
    + intros (p & q & E & H). apply app_eq_cons_str in E as [[-> ->] | [p' [-> ->]]]; [by left|].
      right. exists p', q. split; [done | by apply deriv_spec].
Qed.

(** The executable [search] decides whether some factor of the text is
    in the language of the expression. *)
Lemma search_spec r s :
  search r s = true <-> exists a p b, s = a ++ p ++ b /\ in_re r p.
Proof.
  induction s as [|c s IH]; cbn [search]; rewrite orb_true_iff, prefix_match_spec.
  - split; [intros [(p & q & E & H) | H]; [by exists "", p, q | done] |].
    intros (a & p & b & E & H). symmetry in E. apply app_eq_nil_str in E as [-> E].
    left. by exists p, b.
  - rewrite IH. split.
    + intros [(p & q & E & H) | (a & p & b & -> & H)]; [by exists "", p, q |].
      exists (String c a), p, b. by rewrite append_cons.
    + intros (a & p & b & E & H). apply app_eq_cons_str in E as [[-> E] | [a' [-> ->]]].
      * left. by exists p, b.
      * right. by exists a', p, b.
Qed.

(** for a pattern of the modelled syntax, [re.search(pat, line)]
    succeeds exactly when some factor of the line is in the language of
    the compiled pattern. *)
Theorem py_re_search_spec pat r line :
  re_compile pat = Some r ->
  py_re_search pat line = true <-> exists a p b, line = a ++ p ++ b /\ in_re r p.
Proof. intros H. unfold py_re_search. rewrite H. apply search_spec. Qed.



(** ** Termination of the pattern parser

    [re_parse] is bounded by fuel, in the style of a bounded [div]: each
    step consumes the atom and its star, so a fuel greater than the
    length of the pattern is enough, and any such fuel gives the same
    result as [re_compile]. *)

Lemma class_go_shorter n acc s rs r :
  String.length s <= n -> class_go acc s = Some (rs, r) -> String.length r < String.length s.
Proof.
  revert acc s. induction n as [|n IH]; intros acc s Hn H.
  - destruct s; [discriminate | cbn in Hn; lia].
  - destruct s as [|a s]; [discriminate|].
    assert (Hrest : forall acc' t, String.length t < S (String.length s) ->
              class_go acc' t = Some (rs, r) -> String.length r < S (String.length s)).
    { intros acc' t Ht Hc. cbn in Hn. pose proof (IH acc' t ltac:(lia) Hc). lia. }
    cbn [String.length]. cbn in H.
    repeat match type of H with
    | context [if ?b then _ else _] => destruct b
    | context [match ?x with _ => _ end] => is_var x; destruct x
    end; try discriminate;
    first [injection H as <- <-; cbn; lia | eapply Hrest; [|exact H]; cbn; lia].
Qed.

Lemma re_atom_shorter s a r : re_atom s = Some (a, r) -> String.length r < String.length s.
Proof.
  intros H. destruct s as [|c s]; [discriminate|]. cbn in H.
  repeat match type of H with
  | context [if ?b then _ else _] => destruct b
  | context [match class_go ?acc ?t with _ => _ end] =>
      destruct (class_go acc t) as [[rs r']|] eqn:Hc
  | context [match ?x with _ => _ end] => is_var x; destruct x
  end; try discriminate; injection H as <- <-; cbn; try lia;
  pose proof (class_go_shorter _ _ _ _ _ (le_n _) Hc); lia.
Qed.

Lemma re_star_shorter a r : String.length (snd (re_star a r)) <= String.length r.
Proof.
  destruct r as [|c r]; [done|]. cbn.
  repeat match goal with
  | |- context [match ?x with _ => _ end] => is_var x; destruct x
  end; cbn; lia.
Qed.

Lemma re_parse_fuel_eq f g s :
  String.length s < f -> String.length s < g -> re_parse f s = re_parse g s.
Proof.
  revert g s. induction f as [|f IH]; intros [|g] s Hf Hg; try lia.
  cbn [re_parse]. destruct s as [|c s']; [done|].
  cbn [String.length] in Hf, Hg.
  destruct (re_atom (String c s')) as [[a r]|] eqn:Ha; [|done].
  pose proof (re_atom_shorter _ _ _ Ha) as Hr. cbn [String.length] in Hr.
  pose proof (re_star_shorter a r) as Hs.
  destruct (re_star a r) as [a' r']. cbn [snd] in Hs.
  rewrite (IH g r'); [done | lia | lia].
Qed.

(** the pattern parser terminates within the fuel [re_compile]
    gives it: with any fuel larger than the length of the pattern,
    [re_parse] returns what [re_compile] returns, so the fuel never
    decides between a parse and a failure. *)
Theorem re_parse_fuel_enough f pat :
  String.length pat < f -> re_parse f pat = re_compile pat.
Proof. intros H. apply re_parse_fuel_eq; [done | lia]. Qed.


