(* ===== verification/Atcf.v ===== *)
(** * ATCF file processing ([ProcessAtcfFiles.py])

    [src/edex/gov.noaa.nws.ocp.edex.plugin.atcf/.../ProcessAtcfFiles.py]
    unpacks a tar ball of model guidance for one storm and one date-time
    group into a temporary directory, edits and merges its deck files,
    merges them into the ATCF database, moves some of them to the storm
    and aid-message directories, runs the interpolator, writes the deck
    files back out, sends them to LDM and removes the directory.

    - The machine is a [world]: the regular files (a [gmap] from path to
      contents) and directories (a [gset]) of the file system, and the
      list of the effects on the outside ([event]): a deck merged into the
      database, an interpolation request, the deck files written from the
      database, a call of the LDM script, and the log lines.
    - A function of the script is a computation of [M], ExtLib's error
      transformer over the state monad of the world: a Python exception
      leaves the effects made before it in the world, which the
      [eitherT aexn (state world)] monad keeps.
    - The Java collaborators ([AtcfDeckProcessor.mergeDeck],
      [RequestRouter.route], the exit status of [pushToLdm.sh]) are the
      record [ext] of their results.
    - The names [IOException] and [RuntimeException] are not defined in
      the script (it imports neither), so an [except IOException:] clause
      that receives an exception raises [NameError] while evaluating its
      class, and [raise RuntimeException(...)] raises [NameError]:
      [except_undefined] and [NameError] below. *)

From stdpp Require Import base list strings gmap sets decidable.
From Stdlib Require Import String Ascii ZArith Lia.
From ExtLib Require Import Structures.Monad Structures.MonadState Structures.MonadExc.
From ExtLib Require Import Data.Monads.StateMonad Data.Monads.EitherMonad.
From S2P Require Import Prelude PyStr Civil Regex.

Local Open Scope string_scope.

(** ** Paths ([os.path], POSIX) *)

Fixpoint rfind_slash (i : nat) (s : string) (last : option nat) : option nat :=
  match s with
  | EmptyString => last
  | String c s' => rfind_slash (S i) s' (if Ascii.eqb c "/" then Some i else last)
  end.

(** The index after the last slash, [p.rfind('/') + 1]. *)
Definition after_slash (p : string) : nat :=
  match rfind_slash 0 p None with Some i => S i | None => 0 end.

Definition all_slashes (s : string) : bool := String.eqb (lstrip_by (Ascii.eqb "/") s) "".

(** [os.path.dirname] *)
Definition dirname (p : string) : string :=
  let head := substring 0 (after_slash p) p in
  if negb (String.eqb head "") && negb (all_slashes head) then rstrip_by (Ascii.eqb "/") head else head.

(** [os.path.basename] *)
Definition basename (p : string) : string := str_drop (after_slash p) p.

(** [os.path.join(a, b)] *)
Definition path_join (a b : string) : string :=
  if String.prefix "/" b then b
  else if String.eqb a "" || String.eqb (str_drop (String.length a - 1) a) "/" then a ++ b
  else a ++ "/" ++ b.

(** ** The machine *)

(** Log lines, by the message the script builds. *)
Inductive logmsg : Type :=
| LogMerged (file : string)
| LogNotMerged (strmid file : string)
| LogNotFound (strmid file : string)
| LogMoved (src dst : string)
| LogMoveFailed (src dst : string)
| LogNoEmx (strmid : string)
| LogNoAidsDir (dir : string)
| LogLdmFailed (strmid : string)
| LogException (msg : string).

Inductive event : Type :=
| EvMerge (file contents : string) (logid : Z)
| EvInterpolate (stormid : string) (dtg_ms : Z)
| EvDecks (stormid dir : string)
| EvLdm (command : string)
| EvLog (m : logmsg).

Record world : Type := mkWorld {
  w_files : gmap string string;
  w_dirs : gset string;
  w_events : list event
}.

(** The exceptions the script raises or lets through. *)
Inductive aexn : Type :=
| IOError (msg : string)
| ReadError
| NameError
| ValueError
| RuntimeError (msg : string).

Definition M := eitherT aexn (state world).

#[local] Existing Instance Monad_eitherT.

(** The do-notation of [M], in a scope of its own (ExtLib's notation
    levels clash with stdpp's). *)
Declare Scope atcf_scope.
Delimit Scope atcf_scope with atcf.
Notation "x <- m ;; k" := (bind (m := M) m (fun x => k))
  (at level 60, m at next level, right associativity) : atcf_scope.
Local Open Scope atcf_scope.

Definition run {A} (m : M A) (w : world) : (aexn + A) * world := runState (unEitherT m) w.

(** The storm, as [AtcfProcessDao] gives it to the script. *)
Record storm : Type := mkStorm {
  st_id : string; st_year : Z; st_cyclone : Z; st_region : string
}.

(** What the Java collaborators return. *)
Record ext : Type := mkExt {
  x_merge : string -> string -> Z;
  x_route_ok : bool;
  x_ldm_status : Z;
  x_ldm_script : string
}.

(** ** File-system primitives *)

Definition emit (e : event) : M unit :=
  _ <- modify (fun w => mkWorld (w_files w) (w_dirs w) (w_events w ++ [e])) ;; ret tt.

Definition log (m : logmsg) : M unit := emit (EvLog m).

Definition isfile (p : string) : M bool := w <- get ;; ret (bool_decide (is_Some (w_files w !! p))).

Definition isdir (p : string) : M bool := w <- get ;; ret (bool_decide (p ∈ w_dirs w)).

(** [open(p).read()]: a missing file or a directory raises. *)
Definition read_file (p : string) : M string :=
  w <- get ;;
  match w_files w !! p with Some t => ret t | None => raise (IOError p) end.

(** [open(p, 'w').write(t)]: the parent directory must exist and [p]
    must not be one. *)
Definition write_file (p t : string) : M unit :=
  w <- get ;;
  if bool_decide (dirname p ∈ w_dirs w) && negb (bool_decide (p ∈ w_dirs w))
  then put (mkWorld (<[p := t]> (w_files w)) (w_dirs w) (w_events w))
  else raise (IOError p).

(** [os.mkdir(p)] *)
Definition mkdir (p : string) : M unit :=
  w <- get ;;
  if bool_decide (dirname p ∈ w_dirs w) && negb (bool_decide (p ∈ w_dirs w))
     && negb (bool_decide (is_Some (w_files w !! p)))
  then put (mkWorld (w_files w) ({[p]} ∪ w_dirs w) (w_events w))
  else raise (IOError p).

(** [os.rename(src, dst)] of a regular file, replacing a file [dst]. *)
Definition rename (src dst : string) : M unit :=
  w <- get ;;
  match w_files w !! src with
  | Some t =>
      if bool_decide (dirname dst ∈ w_dirs w) && negb (bool_decide (dst ∈ w_dirs w))
      then put (mkWorld (<[dst := t]> (delete src (w_files w))) (w_dirs w) (w_events w))
      else raise (IOError dst)
  | None => raise (IOError src)
  end.

(** [shutil.move(src, dst)]: into [dst] when it is a directory, where an
    existing entry of the same name is an error. *)
Definition shutil_move (src dst : string) : M unit :=
  d <- isdir dst ;;
  if d then
    let real := path_join dst (basename src) in
    f <- isfile real ;; d' <- isdir real ;;
    if f || d' then raise (IOError real) else rename src real
  else rename src dst.

Definition under (dir p : string) : bool := String.prefix (dir ++ "/") p.

(** [shutil.rmtree(dir)] *)
Definition rmtree (dir : string) : M unit :=
  w <- get ;;
  if bool_decide (dir ∈ w_dirs w) then
    put (mkWorld (filter (fun '(p, _) => under dir p = false) (w_files w))
                 (filter (fun p => p <> dir /\ under dir p = false) (w_dirs w)) (w_events w))
  else raise (IOError dir).

(** [try: body except IOException: ...] where [IOException] is not
    defined: any exception of the body becomes a [NameError]. *)
Definition except_undefined {A} (body : M A) : M A := catch body (fun _ => raise NameError).

(** ** Lines of a text file *)

(** Text mode reads with universal newlines. *)
Definition text_mode (t : string) : string := str_replace cr nl (str_replace (cr ++ nl) nl t).

(** [for line in f]: the lines with their newline, the last one without
    when the text does not end in a newline. *)
Fixpoint lines_go (cur s : string) : list string :=
  match s with
  | EmptyString => if String.eqb cur "" then [] else [cur]
  | String c s' => if Ascii.eqb c "010" then (cur ++ nl) :: lines_go "" s' else lines_go (cur ++ String c "") s'
  end.

Definition file_lines (t : string) : list string := lines_go "" (text_mode t).

(** [f.writelines(l)] *)
Definition writelines (l : list string) : string := String.concat "" l.

Fixpoint mapM_ {A} (f : A -> M unit) (l : list A) : M unit :=
  match l with [] => ret tt | a :: l' => _ <- f a ;; mapM_ f l' end.

(** A computation of the error type of the rest of the development. *)
Definition lift_res {A} (r : res A) : M A :=
  match r with Ok a => ret a | Raise _ => raise ValueError end.

(** ** The date-time group: [datetime.strptime(dtg, "%Y%m%d%H")] *)

(** [%H] is [(?P<H>2[0-3]|[0-1]\d|\d)]. *)
Definition re_H (s : string) : list (Z * string) :=
  (m2 (is_char "2") (in_range "0" "3") s ++ m2 (in_range "0" "1") is_dig s ++ m1 is_dig s)%list.

(** The matches of [%Y%m%d%H] in backtracking order ([%m] is the
    expression of [%I]). *)
Definition re_YmdH (s : string) : list (Z * Z * Z * Z * string) :=
  '(y, r1) ← re_Y s; '(mo, r2) ← re_I r1; '(d, r3) ← re_d r2; '(h, r4) ← re_H r3;
  [(y, mo, d, h, r4)].

Definition strptime_YmdH (s : string) : res datetime :=
  match re_YmdH s with
  | [] => Raise Prelude.ValueError
  | (y, mo, d, h, rest) :: _ =>
      if negb (String.eqb rest "") then Raise Prelude.ValueError
      else if negb (valid_date y mo d) then Raise Prelude.ValueError
      else Ok {| dt_year := y; dt_month := mo; dt_day := d; dt_hour := h; dt_minute := 0 |}
  end.

(** [dt.strftime("%Y%m%d%H")] *)
Definition strftime_YmdH (t : datetime) : string :=
  str_Z (dt_year t) ++ zfill 2 (str_Z (dt_month t)) ++ zfill 2 (str_Z (dt_day t)) ++ zfill 2 (str_Z (dt_hour t)).

(** ** The helper functions of the script *)

(** The tar ball: [tarfile.open] fails, [extractall] fails, or its
    members (plain file names with their contents). *)
Inductive tarball : Type :=
| TarUnreadable
| TarBroken
| TarOk (members : list (string * string)).

(** Lines 275-284. *)
Definition extractFiles (input_tar : string) (tar : tarball) (tempDir : string) : M unit :=
  match tar with
  | TarUnreadable => raise ReadError
  | TarBroken =>
      let msg := "Failed to extract files from " ++ input_tar in
      _ <- log (LogException msg) ;; raise (RuntimeError msg)
  | TarOk ms => mapM_ (fun '(name, t) => write_file (path_join tempDir name) t) ms
  end.

(** Lines 291-304: [mergeDeck] reads the file. *)
Definition mergeFileToDB (x : ext) (deckFile : string) (s : storm) : M unit :=
  let strmid := st_id s in
  f <- isfile deckFile ;;
  if f then
    t <- read_file deckFile ;;
    let logid := x_merge x deckFile t in
    _ <- emit (EvMerge deckFile t logid) ;;
    if (logid <? 0)%Z then log (LogNotMerged strmid deckFile) else log (LogMerged deckFile)
  else log (LogNotFound strmid deckFile).

(** Lines 315-322: the file iterator [ifp] is used up by the first
    pattern, so the loop over the later patterns sees no line. *)
Fixpoint delete_loop (strings : list string) (lines keep : list string) : list string :=
  match strings with
  | [] => keep
  | item :: rest => delete_loop rest [] (keep ++ List.filter (fun line => negb (py_re_search item line)) lines)
  end.

(** Lines 311-328; the text of the message ([str(e)]) is not modelled:
    the exception carries the file name. *)
Definition deleteLinesFromFile (fileName : string) (strings : list string) : M unit :=
  catch (t <- read_file fileName ;;
         write_file fileName (writelines (delete_loop strings (file_lines t) [])))
        (fun _ => _ <- log (LogException ("Problem deleting lines from " ++ fileName)) ;;
                  raise (IOError fileName)).

(** Lines 335-350. *)
(** Line 340: a line is kept when it contains one of the strings. *)
Definition extract_keep (strings : list string) (line : string) : bool :=
  existsb (fun item => contains item line) strings.

Definition extractLinesFromFile (inputFile outputFile : string) (strings : list string) : M unit :=
  catch (t <- read_file inputFile ;;
         write_file outputFile
           (writelines (List.filter (extract_keep strings) (file_lines t))))
        (fun _ => _ <- log (LogException ("Problem extracting lines from " ++ inputFile)) ;;
                  raise (IOError inputFile)).

Fixpoint read_all (fns : list string) : M (list string) :=
  match fns with
  | [] => ret []
  | fn :: fns' => t <- read_file fn ;; rest <- read_all fns' ;; ret (file_lines t ++ rest)%list
  end.

(** Lines 357-366. *)
Definition concatFiles (filenames : list string) (outfile : string) : M unit :=
  outlines <- read_all filenames ;; write_file outfile (writelines outlines).

(** Lines 372-393: the deck files and [storms.txt] are written from the
    database by Java code, an effect on the outside. *)
Definition createDeckFiles (s : storm) (outputDir : string) : M unit :=
  emit (EvDecks (lower (st_id s)) outputDir).

(** Lines 401-411: the script of the last localization context. *)
Definition sendToLdm (x : ext) (strmid fileDir : string) : M unit :=
  _ <- emit (EvLdm (x_ldm_script x ++ " " ++ strmid ++ " " ++ "99" ++ " " ++ fileDir)) ;;
  if negb (x_ldm_status x =? 0)%Z then log (LogLdmFailed strmid) else ret tt.

(** Lines 418-432. *)
Definition moveFile (sourceFile dest : string) : M unit :=
  d <- isdir dest ;;
  let destFullName := if d then path_join dest (basename sourceFile) else dest in
  f <- isfile sourceFile ;;
  if f && d then
    catch (_ <- shutil_move sourceFile destFullName ;; log (LogMoved sourceFile destFullName))
          (fun _ => log (LogMoveFailed sourceFile dest))
  else ret tt.

(** Lines 439-457: [RequestRouter.route] fails, and [RuntimeException]
    is not defined. *)
Definition interpolateADeck (x : ext) (s : storm) (dtg : string) : M unit :=
  dt <- lift_res (strptime_YmdH dtg) ;;
  _ <- emit (EvInterpolate (st_id s) (timestamp dt * 1000)) ;;
  if x_route_ok x then ret tt
  else _ <- log (LogException ("Exception while running interpolator for dtg " ++ dtg)) ;; raise NameError.

(** [glob.glob(rootDir + prefix + '*')]: the entries of the directory
    whose name starts with [prefix]; the order of the directory listing is
    not specified, the model takes the order of the set of paths. *)
Definition glob_prefix (dir prefix : string) : M (list string) :=
  w <- get ;;
  ret (List.filter (fun p => bool_decide (dirname p = dir) && String.prefix prefix (basename p))
                   (elements (dom (w_files w) ∪ w_dirs w))).

(** ** [processATCF] (lines 79-266) *)

(** Line 180: the string that selects the storm's lines of the UKMO
    ensemble file. *)
Definition basinPlusCycNum (s : storm) : string := st_region s ++ ", " ++ str_Z (st_cyclone s).


(** [d[k]] on the dicts of file names, whose keys the script only reads
    among those it wrote. *)
Definition dget (d : dict string) (k : string) : string :=
  match dict_get k d with Some v => v | None => "" end.

Definition rmNcepStrings : list string := ["[NCF][PC][0-9][0-9],"].
Definition rmHwrfStrings : list string := [", *HWRF, *[1-9]*[13579],"].

(** Lines 117-128. *)
Definition wcoss_files (rootDir fullPath ships_prefix strmid : string) : dict string :=
  [("a_temp", fullPath ++ ".temp"); ("a_supp", fullPath ++ ".supp"); ("a_ncep", fullPath ++ ".ncep");
   ("a_hwrf", fullPath ++ ".hwrf"); ("a_hwrfm2", fullPath ++ ".hwrfm2"); ("a_hmon", fullPath ++ ".hmon");
   ("a_hmonm2", fullPath ++ ".hmonm2"); ("lsdiag", rootDir ++ ships_prefix ++ "_lsdiag.dat");
   ("ships", rootDir ++ ships_prefix ++ "ships.txt"); ("ec_ships", rootDir ++ "EC_" ++ ships_prefix ++ "_ships.txt");
   ("tcvitals", rootDir ++ strmid ++ "-tcvitals.dat"); ("tcv_arch", rootDir ++ strmid ++ "-tcvitals-arch.dat")].

(** Lines 130-137. *)
Definition opah_files (rootDir fullPath strmid full_dtg full_dtgm1 full_dtgm2 : string) : dict string :=
  [("a_ukmogens", fullPath ++ ".ukmogens"); ("a_fsu", fullPath ++ ".fsu");
   ("a_jma_m1", fullPath ++ "_" ++ full_dtgm1 ++ ".jma.dat"); ("a_jma", fullPath ++ "_" ++ full_dtg ++ ".jma.dat");
   ("a_ctcx", rootDir ++ strmid ++ "_" ++ full_dtg ++ ".ctcx.dat");
   ("a_ctcx_m1", rootDir ++ strmid ++ "_" ++ full_dtgm1 ++ ".ctcx.dat");
   ("a_ctcx_m2", rootDir ++ strmid ++ "_" ++ full_dtgm2 ++ ".ctcx.dat"); ("a_fnmoc", fullPath ++ ".fnmoc")].

(** The configuration of the run: [envCfg.getAtcfstrms()] and
    [envCfg.getAidMessagesDir()]. *)
Record envcfg : Type := mkEnv { atcfstrms : string; aidMessagesDir : string }.

(** Lines 224-253: the aid-message directory and what goes to it. *)
Definition store_aids (x : ext) (s : storm) (aidsDest rootDir strmid full_dtg : string)
    (wc op : dict string) (mogreps_file : string) : M unit :=
  d <- isdir aidsDest ;;
  _ <- (if d then ret tt else mkdir aidsDest) ;;
  fnmoc <- glob_prefix (dirname rootDir) "US058MCUS" ;;
  _ <- mapM_ (fun f => _ <- mergeFileToDB x f s ;;
                       d <- isdir aidsDest ;; if d then moveFile f aidsDest else ret tt) fnmoc ;;
  d <- isdir aidsDest ;;
  if d then
    _ <- moveFile mogreps_file aidsDest ;;
    _ <- moveFile (dget op "a_jma") aidsDest ;;
    _ <- moveFile (dget op "a_jma_m1") aidsDest ;;
    _ <- moveFile (dget op "a_ctcx") aidsDest ;;
    _ <- moveFile (dget op "a_ctcx_m1") aidsDest ;;
    _ <- moveFile (dget op "a_ctcx_m2") aidsDest ;;
    _ <- moveFile (dget wc "a_temp") (aidsDest ++ "/a" ++ strmid ++ ".nhc." ++ full_dtg) ;;
    _ <- moveFile (dget wc "a_supp") (aidsDest ++ "/a" ++ strmid ++ ".nhc-supp." ++ full_dtg) ;;
    moveFile (dget wc "a_ncep") aidsDest
  else log (LogNoAidsDir aidsDest).

Definition processATCF (x : ext) (input_tar : string) (tar : tarball) (tempDir : string)
    (s : storm) (dtg : string) (envCfg : envcfg) : M unit :=
  let strmid := lower (st_id s) in
  let shortdtg := slice 2 10 dtg in
  dt <- lift_res (strptime_YmdH dtg) ;;
  let full_dtg := strftime_YmdH dt in
  let year4 := st_year s in
  let year2 := slice 2 4 (str_Z year4) in
  let full_dtgm1 := strftime_YmdH (add_hours dt (-6)) in
  let full_dtgm2 := strftime_YmdH (add_hours dt (-12)) in
  let stnum := st_cyclone s in
  let basin := st_region s in
  let ships_prefix := shortdtg ++ basin ++ str_Z stnum ++ year2 in
  let rootDir := tempDir ++ "/" in
  let fullPath := rootDir ++ "a" ++ strmid in
  let wc := wcoss_files rootDir fullPath ships_prefix strmid in
  let op := opah_files rootDir fullPath strmid full_dtg full_dtgm1 full_dtgm2 in
  _ <- extractFiles input_tar tar tempDir ;;
  let ncep_files := [dget wc "a_ncep"; dget wc "a_hwrf"; dget wc "a_hwrfm2"; dget wc "a_hmon"; dget wc "a_hmonm2"] in
  _ <- deleteLinesFromFile (dget wc "a_ncep") rmNcepStrings ;;
  _ <- deleteLinesFromFile (dget wc "a_hwrf") rmHwrfStrings ;;
  _ <- except_undefined (concatFiles ncep_files (dget wc "a_ncep")) ;;
  let emx_file := rootDir ++ "a" ++ strmid ++ ".emx" in
  _ <- except_undefined (extractLinesFromFile (dget wc "a_ncep") emx_file ["EMX"]) ;;
  let mogreps_file := rootDir ++ "a" ++ strmid ++ ".mogreps" in
  let basinPlusCycNum := basinPlusCycNum s in
  mergeMogreps <- except_undefined
    (_ <- extractLinesFromFile (dget op "a_ukmogens") mogreps_file [basinPlusCycNum] ;; ret true) ;;
  _ <- mergeFileToDB x (dget wc "a_temp") s ;;
  _ <- mergeFileToDB x (dget wc "a_supp") s ;;
  _ <- mergeFileToDB x (dget wc "a_ncep") s ;;
  _ <- (if mergeMogreps : bool then mergeFileToDB x mogreps_file s else ret tt) ;;
  _ <- mergeFileToDB x (dget op "a_fsu") s ;;
  _ <- mergeFileToDB x (dget op "a_jma") s ;;
  _ <- mergeFileToDB x (dget op "a_jma_m1") s ;;
  _ <- mergeFileToDB x (dget op "a_ctcx") s ;;
  _ <- mergeFileToDB x (dget op "a_ctcx_m1") s ;;
  _ <- mergeFileToDB x (dget op "a_ctcx_m2") s ;;
  let strmDest := atcfstrms envCfg in
  _ <- moveFile emx_file strmDest ;;
  _ <- moveFile (dget wc "lsdiag") strmDest ;;
  _ <- moveFile (dget wc "ships") strmDest ;;
  _ <- moveFile (dget wc "tcvitals") strmDest ;;
  _ <- moveFile (dget wc "tcv_arch") strmDest ;;
  let aidsDest := aidMessagesDir envCfg ++ "/" ++ str_Z year4 in
  _ <- store_aids x s aidsDest rootDir strmid full_dtg wc op mogreps_file ;;
  _ <- interpolateADeck x s dtg ;;
  _ <- createDeckFiles s tempDir ;;
  _ <- sendToLdm x strmid tempDir ;;
  rmtree tempDir.

(** ** A run of the sample storm

    A tar ball for Hurricane AL092020 at 2020090112 with the deck files
    of the WCOSS and OPAH runs, among them an HWRF forecast at the odd
    hours 3 and 105 and a UKMO ensemble file with the lines of storms 9
    and 19, unpacked in a temporary directory of the ATCF data tree. *)

Definition demo_tmp : string := "/awips2/edex/data/atcf/tmp/al092020".

Definition demo_storm : storm := mkStorm "AL092020" 2020 9 "AL".

Definition demo_env : envcfg := mkEnv "/awips2/edex/data/atcf/storms" "/awips2/edex/data/atcf/aidmessages".

Definition demo_ext : ext :=
  mkExt (fun _ _ => 1%Z) true 0 "/awips2/edex/data/utility/common_static/base/atcf/wcoss/scripts/pushToLdm.sh".

Definition deck (xs : list string) : string := String.concat "" (map (fun x => x ++ nl) xs).

Definition demo_hwrf_105 : string := "AL, 09, 2020090112, 03, HWRF, 105, 301N,  801W,  35".

Definition demo_members (with_ukmo : bool) : list (string * string) :=
  [("aal092020.temp", deck ["AL, 09, 2020090112, 03, OFCL,   0, 251N,  780W,  45"]);
   ("aal092020.supp", deck ["AL, 09, 2020090112, 03, OFCI,   0, 251N,  780W,  45"]);
   ("aal092020.ncep", deck ["AL, 09, 2020090112, 03, AVNO,   0, 251N,  780W,  45";
                            "AL, 09, 2020090112, 03, NP01,   0, 251N,  780W,  45";
                            "AL, 09, 2020090112, 03, EMX,   0, 251N,  780W,  45"]);
   ("aal092020.hwrf", deck ["AL, 09, 2020090112, 03, HWRF,   0, 251N,  780W,  45";
                            "AL, 09, 2020090112, 03, HWRF,   3, 252N,  781W,  45"; demo_hwrf_105]);
   ("aal092020.hwrfm2", ""); ("aal092020.hmon", ""); ("aal092020.hmonm2", "")] ++
  (if with_ukmo then
     [("aal092020.ukmogens", deck ["AL, 09, 2020090112, 03, UE00,   0, 251N,  780W,  45";
                                   "AL, 19, 2020090112, 03, UE00,   0, 151N,  480W,  25"])]
   else []) ++
  [("aal092020.fsu", deck ["AL, 09, 2020090112, 03, FSSE,   0, 251N,  780W,  45"]);
   ("aal092020_2020090112.jma.dat", deck ["AL, 09, 2020090112, 03, JGSM,   0, 251N,  780W,  45"]);
   ("20090112AL920_lsdiag.dat", "LSDIAG"); ("al092020-tcvitals.dat", "TCVITALS")].

Definition demo_world : world :=
  mkWorld ∅ (list_to_set ["/"; "/awips2"; "/awips2/edex"; "/awips2/edex/data"; "/awips2/edex/data/atcf";
                          "/awips2/edex/data/atcf/tmp"; demo_tmp; "/awips2/edex/data/atcf/storms";
                          "/awips2/edex/data/atcf/aidmessages"]) [].

Definition demo_run (with_ukmo : bool) : (aexn + unit) * world :=
  run (processATCF demo_ext "/awips2/edex/data/atcf/al092020_2020090112.tar"
         (TarOk (demo_members with_ukmo)) demo_tmp demo_storm "2020090112" demo_env) demo_world.

(** The HWRF deck of the demo storm, alone in the temporary directory. *)
Definition demo_hwrf_file : string := demo_tmp ++ "/aal092020.hwrf".

Definition demo_hwrf_world : world :=
  mkWorld {[demo_hwrf_file := deck ["AL, 09, 2020090112, 03, HWRF,   3, 252N,  781W,  45"; demo_hwrf_105]]}
          {[demo_tmp]} [].

(** [m] leaves the file at [p] as it was, whatever it returns. *)
Definition keeps {A} (p : string) (m : M A) : Prop :=
  forall w, w_files (snd (run m w)) !! p = w_files w !! p.

(** ** Deck lines

    A line of an ATCF deck starts with the basin code and the storm
    number, zero-padded to two digits: ["AL, 09, 2020090112, ..."]. *)
Definition atcf_basins : list string := ["AL"; "EP"; "CP"; "WP"; "IO"; "SH"; "SL"].

Definition deck_prefix (b : string) (n : Z) : string := b ++ ", " ++ zfill 2 (str_Z n) ++ ", ".

Definition deck_line (r : string * Z * string) : string := let '(b, n, rest) := r in deck_prefix b n ++ rest.

(** Every basin, storm number [1]-[9] and deck line number [0]-[99]: the
    retained string starts no occurrence that runs past the deck line's
    prefix, and occurs in it exactly when the basins agree and the tens
    digit of the line's number is the storm number. *)
Definition retain_table_ok : bool :=
  forallb (fun b => forallb (fun b' => forallb (fun k => forallb (fun n =>
    let r := b ++ ", " ++ str_Z k in
    let p := deck_prefix b' n in
    no_straddle r p && Bool.eqb (contains r p) (String.eqb b' b && Z.eqb (n / 10) k))
    (zrange 0 100)) (zrange 1 9)) atcf_basins) atcf_basins.

(** ** The equations of [run] *)

Create Rewrite HintDb atcf_rw.
Create HintDb atcf discriminated.

Lemma run_bind {A B} (m : M A) (k : A -> M B) w :
  run (bind m k) w = match run m w with (inl e, w1) => (inl e, w1) | (inr a, w1) => run (k a) w1 end.
Proof. unfold run. simpl. by destruct (runState (unEitherT m) w) as [[e|a] w1]. Qed.

Lemma run_catch {A} (m : M A) h w :
  run (catch m h) w = match run m w with (inl e, w1) => run (h e) w1 | (inr a, w1) => (inr a, w1) end.
Proof. unfold run. simpl. by destruct (runState (unEitherT m) w) as [[e|a] w1]. Qed.

Lemma run_get w : run get w = (inr w, w).
Proof. reflexivity. Qed.

Lemma run_put w w' : run (put w') w = (inr tt, w').
Proof. reflexivity. Qed.

Lemma run_ret {A} (a : A) w : run (ret a) w = (inr a, w).
Proof. reflexivity. Qed.

Lemma run_raise {A} e w : run (raise e : M A) w = (inl e, w).
Proof. reflexivity. Qed.

#[export] Hint Rewrite @run_bind @run_catch run_get run_put @run_ret @run_raise : atcf_rw.

Lemma bind_inr {A B} (m : M A) (k : A -> M B) w b w' :
  run (bind m k) w = (inr b, w') -> exists a w1, run m w = (inr a, w1) /\ run (k a) w1 = (inr b, w').
Proof. rewrite run_bind. destruct (run m w) as [[e|a] w1]; [discriminate | eauto]. Qed.

(** ** Frame lemmas: which files a computation leaves alone *)

Lemma keeps_bind {A B} p (m : M A) (k : A -> M B) :
  keeps p m -> (forall a, keeps p (k a)) -> keeps p (bind m k).
Proof.
  intros Hm Hk w. rewrite run_bind. specialize (Hm w).
  destruct (run m w) as [[e|a] w1]; simpl in *; [done | by rewrite Hk].
Qed.

Lemma keeps_catch {A} p (m : M A) h :
  keeps p m -> (forall e, keeps p (h e)) -> keeps p (catch m h).
Proof.
  intros Hm Hh w. rewrite run_catch. specialize (Hm w).
  destruct (run m w) as [[e|a] w1]; simpl in *; [by rewrite Hh | done].
Qed.

Lemma keeps_ret {A} p (a : A) : keeps p (ret a).
Proof. done. Qed.

Lemma keeps_raise {A} p e : keeps p (raise e : M A).
Proof. done. Qed.

Lemma keeps_get p : keeps p get.
Proof. done. Qed.

Lemma keeps_if {A} p (b : bool) (m1 m2 : M A) : keeps p m1 -> keeps p m2 -> keeps p (if b then m1 else m2).
Proof. by destruct b. Qed.

Lemma keeps_emit p e : keeps p (emit e).
Proof. done. Qed.

Lemma keeps_log p e : keeps p (log e).
Proof. done. Qed.

Lemma keeps_isfile p q : keeps p (isfile q).
Proof. done. Qed.

Lemma keeps_isdir p q : keeps p (isdir q).
Proof. done. Qed.

Lemma keeps_read_file p q : keeps p (read_file q).
Proof. intros w. unfold read_file. autorewrite with atcf_rw. by destruct (w_files w !! q). Qed.

Lemma keeps_write_file p q t : q <> p -> keeps p (write_file q t).
Proof.
  intros Hq w. unfold write_file. autorewrite with atcf_rw.
  case_match; simpl; [by rewrite lookup_insert_ne | done].
Qed.

Lemma keeps_mkdir p q : keeps p (mkdir q).
Proof. intros w. unfold mkdir. autorewrite with atcf_rw. by case_match. Qed.

Lemma keeps_lift_res {A} p (r : res A) : keeps p (lift_res r).
Proof. by destruct r. Qed.

Lemma keeps_mapM_ {A} p (f : A -> M unit) l : (forall a, In a l -> keeps p (f a)) -> keeps p (mapM_ f l).
Proof.
  induction l as [|a l IH]; intros Hf; cbn [mapM_]; [done|].
  apply keeps_bind; [apply Hf; by left | intros _; apply IH; intros; apply Hf; by right].
Qed.

(** The frame of a computation, by its syntax: a [bind], [catch], [if]
    or loop is split, a primitive closed by its lemma (matching on the
    head constant keeps the unifier from unfolding the computations). *)
Ltac solve_keeps :=
  repeat match goal with
  | |- keeps _ (bind _ _) => apply keeps_bind; [| intros ?]
  | |- keeps _ (catch _ _) => apply keeps_catch; [| intros ?]
  | |- keeps _ (if _ then _ else _) => apply keeps_if
  | |- keeps _ (mapM_ _ _) => apply keeps_mapM_; intros ? ?
  | |- keeps _ (ret _) => apply keeps_ret
  | |- keeps _ (raise _) => apply keeps_raise
  | |- keeps _ get => apply keeps_get
  | |- keeps _ (emit _) => apply keeps_emit
  | |- keeps _ (log _) => apply keeps_log
  | |- keeps _ (isfile _) => apply keeps_isfile
  | |- keeps _ (isdir _) => apply keeps_isdir
  | |- keeps _ (read_file _) => apply keeps_read_file
  | |- keeps _ (write_file _ _) => apply keeps_write_file; [assumption]
  | |- keeps _ (mkdir _) => apply keeps_mkdir
  | |- keeps _ (lift_res _) => apply keeps_lift_res
  | H : keeps ?p ?m |- keeps ?p ?m => exact H
  end.

Lemma keeps_deleteLines p f ss : f <> p -> keeps p (deleteLinesFromFile f ss).
Proof. intros. unfold deleteLinesFromFile. solve_keeps. Qed.

Lemma keeps_extractLines p i o ss : o <> p -> keeps p (extractLinesFromFile i o ss).
Proof. intros. unfold extractLinesFromFile. solve_keeps. Qed.

Lemma keeps_read_all p fs : keeps p (read_all fs).
Proof. induction fs; cbn [read_all]; solve_keeps. Qed.

Lemma keeps_concatFiles p fs o : o <> p -> keeps p (concatFiles fs o).
Proof. intros. unfold concatFiles. pose proof (keeps_read_all p fs). solve_keeps. Qed.

Lemma keeps_except_undefined {A} p (m : M A) : keeps p m -> keeps p (except_undefined m).
Proof. intros. unfold except_undefined. solve_keeps. Qed.

Lemma keeps_extractFiles p input tar dir :
  (forall ms, tar = TarOk ms -> forall nm t, In (nm, t) ms -> path_join dir nm <> p) ->
  keeps p (extractFiles input tar dir).
Proof.
  intros H. unfold extractFiles. destruct tar as [| |ms]; solve_keeps.
  match goal with a : string * string |- _ => destruct a as [nm t] end.
  apply keeps_write_file. by eapply H.
Qed.

Lemma keeps_step {A} p (m : M A) w r w' : keeps p m -> run m w = (r, w') -> w_files w' !! p = w_files w !! p.
Proof. intros Hk E. specialize (Hk w). by rewrite E in Hk. Qed.

Lemma except_undefined_inr {A} (m : M A) w a w' :
  run (except_undefined m) w = (inr a, w') -> run m w = (inr a, w').
Proof.
  unfold except_undefined. rewrite run_catch.
  destruct (run m w) as [[e|b] w1]; [by rewrite run_raise | done].
Qed.

Lemma read_file_inr p w t w' : run (read_file p) w = (inr t, w') -> w_files w !! p = Some t.
Proof. unfold read_file. autorewrite with atcf_rw. by destruct (w_files w !! p); [intros [= ->] |]. Qed.

Lemma extractLines_inr i o ss w u w' :
  run (extractLinesFromFile i o ss) w = (inr u, w') -> is_Some (w_files w !! i).
Proof.
  unfold extractLinesFromFile. rewrite run_catch, run_bind.
  destruct (run (read_file i) w) as [[e|t] w1] eqn:E.
  - rewrite run_bind. destruct (run (log _) w1) as [[?|?] ?]; by rewrite ?run_raise.
  - apply read_file_inr in E. by eexists.
Qed.

Lemma append_cancel_l s a b : s ++ a = s ++ b -> a = b.
Proof. induction s as [|c s IH]; [done | rewrite !append_cons; intros [= E]; auto]. Qed.

(** Two paths with the same directory part and different suffixes. *)
Ltac path_neq :=
  let E := fresh "E" in
  intros E; rewrite ?append_assoc_str in E;
  repeat match type of E with ?s ++ ?a = ?s ++ ?b => apply (append_cancel_l s a b) in E end;
  discriminate.

(** Peel the binds of a run that returns normally, one hypothesis per
    step. *)
Ltac peel H :=
  repeat match type of H with
  | run (@bind _ _ _ _ _ _) _ = (inr _, _) =>
      let H1 := fresh "Hstep" in
      apply bind_inr in H as (? & ? & H1 & H); cbv beta zeta in H
  end.

Lemma delete_loop_nil ps keep : delete_loop ps [] keep = keep.
Proof. induction ps as [|p ps IH]; simpl; [done | by rewrite app_nil_r]. Qed.

Lemma run_write_file_ok p t w :
  dirname p ∈ w_dirs w -> p ∉ w_dirs w ->
  run (write_file p t) w = (inr tt, mkWorld (<[p := t]> (w_files w)) (w_dirs w) (w_events w)).
Proof.
  intros Hd Hp. unfold write_file. autorewrite with atcf_rw.
  by rewrite bool_decide_eq_true_2, bool_decide_eq_false_2.
Qed.

(** ** Properties *)

(** C15: [deleteLinesFromFile] applies only its first pattern: the file
    keeps exactly the lines on which [re.search] does not find it,
    whatever the later patterns are, because the loop over the patterns
    reads the same, used-up file iterator. *)
Theorem deleteLinesFromFile_first_pattern f p ps w t :
  w_files w !! f = Some t -> dirname f ∈ w_dirs w -> f ∉ w_dirs w ->
  run (deleteLinesFromFile f (p :: ps)) w =
  (inr tt, mkWorld (<[f := writelines (List.filter (fun l => negb (py_re_search p l)) (file_lines t))]> (w_files w))
                   (w_dirs w) (w_events w)).
Proof.
  intros Ht Hd Hf. unfold deleteLinesFromFile, read_file.
  autorewrite with atcf_rw. rewrite Ht. autorewrite with atcf_rw.
  rewrite run_write_file_ok by done. simpl. by rewrite delete_loop_nil.
Qed.

(** [moveFile] does nothing, and logs nothing, when its
    destination is not a directory, although its comment (line 415)
    allows a full path with a file name: the moves of lines 246-249 to
    [.../a<storm>.nhc.<dtg>] and [.../a<storm>.nhc-supp.<dtg>] never
    happen. *)
Theorem moveFile_not_directory src dest w :
  dest ∉ w_dirs w -> run (moveFile src dest) w = (inr tt, w).
Proof.
  intros Hd. unfold moveFile, isdir, isfile. autorewrite with atcf_rw.
  rewrite (bool_decide_eq_false_2 (dest ∈ w_dirs w)) by done. autorewrite with atcf_rw.
  by rewrite andb_false_r.
Qed.

(** C24: whenever [processATCF] returns normally, the temporary
    directory and everything under it are gone. *)
Theorem processATCF_removes_tempdir x input tar tempDir s dtg env w w' :
  run (processATCF x input tar tempDir s dtg env) w = (inr tt, w') ->
  (tempDir ∉ w_dirs w') /\ (forall p, under tempDir p = true -> w_files w' !! p = None).
Proof.
  intros H. unfold processATCF in H. peel H.
  unfold rmtree in H. autorewrite with atcf_rw in H.
  case_bool_decide; [|discriminate]. injection H as <-. simpl. split.
  - rewrite elem_of_filter. tauto.
  - intros p Hp. apply map_lookup_filter_None. right. intros t _. by rewrite Hp.
Qed.

(** The frame conditions of the first steps of [processATCF]. *)
Ltac keeps_side :=
  repeat match goal with
  | |- keeps _ (except_undefined _) => apply keeps_except_undefined
  | |- keeps _ (extractLinesFromFile _ _ _) => apply keeps_extractLines
  | |- keeps _ (concatFiles _ _) => apply keeps_concatFiles
  | |- keeps _ (deleteLinesFromFile _ _) => apply keeps_deleteLines
  | |- keeps _ (lift_res _) => apply keeps_lift_res
  | |- keeps _ (extractFiles _ _ _) => apply keeps_extractFiles; intros ? [= <-]; assumption
  | |- _ <> _ => path_neq
  end.

(** Follow a file back through the steps that left it alone. *)
Ltac frame_back Ht :=
  repeat match type of Ht with
  | w_files ?w1 !! ?p = _ =>
      match goal with
      | Hs : run ?m ?w0 = (_, w1) |- _ =>
          let K := fresh "K" in
          assert (K : keeps p m) by keeps_side;
          rewrite (keeps_step p m w0 _ w1 K Hs) in Ht; clear Hs K
      end
  end.

(** C25: when the tar ball brings no UKMO ensemble file
    [a<storm>.ukmogens], [processATCF] raises: the [except IOException]
    of line 188 raises [NameError] instead of setting [mergeMogreps] to
    [False], so the fallback that skips the merge never runs and the
    decks of the run are not merged. *)
Theorem processATCF_without_ukmogens x input ms tempDir s dtg env w :
  let ukm := tempDir ++ "/" ++ "a" ++ lower (st_id s) ++ ".ukmogens" in
  w_files w !! ukm = None ->
  (forall nm t, In (nm, t) ms -> path_join tempDir nm <> ukm) ->
  exists e w', run (processATCF x input (TarOk ms) tempDir s dtg env) w = (inl e, w').
Proof.
  intros ukm Hw Hms.
  destruct (run (processATCF x input (TarOk ms) tempDir s dtg env) w) as [[e|u] w'] eqn:H;
    [by eauto | exfalso].
  unfold processATCF in H. peel H.
  match goal with
  | Hs : run (except_undefined (bind (extractLinesFromFile _ _ _) _)) _ = _ |- _ =>
      apply except_undefined_inr, bind_inr in Hs as (? & ? & Hx & _)
  end.
  apply extractLines_inr in Hx as [t Ht].
  cbn [dget dict_get opah_files wcoss_files String.eqb Ascii.eqb Bool.eqb] in *.
  rewrite !append_assoc_str in *.
  frame_back Ht. subst ukm. congruence.
Qed.

(** the pattern that strips the extra HWRF taus (line 148)
    matches the hour-3 line but not the hour-105 line, though 105 is as
    odd as 3. *)
(** The patterns the script gives [re.search] (lines 145 and 148) are of
    the syntax [re_compile] reads. *)
Lemma script_patterns_compile : Forall (fun p => is_Some (re_compile p)) (rmNcepStrings ++ rmHwrfStrings).
Proof. repeat constructor; eexists; vm_compute; reflexivity. Qed.

Theorem hwrf_strip_misses_tau_105 :
  py_re_search (hd "" rmHwrfStrings) "AL, 09, 2020090112, 03, HWRF,   3, 252N,  781W,  45" = true /\
  py_re_search (hd "" rmHwrfStrings) demo_hwrf_105 = false.
Proof. split; vm_compute; reflexivity. Qed.

Lemma string_neq_b a b : String.eqb a b = false -> a <> b.
Proof. by rewrite String.eqb_neq. Qed.

Lemma deleteLinesFromFile_first_pattern_witness :
  run (deleteLinesFromFile demo_hwrf_file (rmHwrfStrings ++ ["105"])) demo_hwrf_world =
  (inr tt, mkWorld (<[demo_hwrf_file := writelines
                        (List.filter (fun l => negb (py_re_search (hd "" rmHwrfStrings) l))
                           (file_lines (deck ["AL, 09, 2020090112, 03, HWRF,   3, 252N,  781W,  45"; demo_hwrf_105])))]>
                     (w_files demo_hwrf_world)) (w_dirs demo_hwrf_world) (w_events demo_hwrf_world)).
Proof.
  apply deleteLinesFromFile_first_pattern; vm_compute; first [reflexivity | intros E; discriminate E].
Defined.

Lemma moveFile_not_directory_witness :
  run (moveFile (demo_tmp ++ "/aal092020.temp") "/awips2/edex/data/atcf/aidmessages/2020/aal092020.nhc.2020090112")
      (snd (demo_run false)) = (inr tt, snd (demo_run false)).
Proof.
  apply moveFile_not_directory. vm_compute. set_solver.
Defined.

Lemma processATCF_without_ukmogens_witness :
  fst (demo_run false) = inl NameError /\
  exists e w', run (processATCF demo_ext "/awips2/edex/data/atcf/al092020_2020090112.tar"
                   (TarOk (demo_members false)) demo_tmp demo_storm "2020090112" demo_env) demo_world = (inl e, w').
Proof.
  split; [vm_compute; reflexivity |].
  apply processATCF_without_ukmogens; [reflexivity |].
  intros nm t Hin. cbn in Hin.
  repeat destruct Hin as [Hin | Hin]; try contradiction;
    injection Hin as <- <-; apply string_neq_b; vm_compute; reflexivity.
Defined.

Lemma processATCF_removes_tempdir_witness :
  (demo_tmp ∉ w_dirs (snd (demo_run true))) /\
  (forall p, under demo_tmp p = true -> w_files (snd (demo_run true)) !! p = None).
Proof.
  apply (processATCF_removes_tempdir demo_ext "/awips2/edex/data/atcf/al092020_2020090112.tar"
           (TarOk (demo_members true)) demo_tmp demo_storm "2020090112" demo_env demo_world).
  vm_compute. reflexivity.
Defined.

(** ** The lines kept for the UKMO ensemble *)

Lemma retain_table : retain_table_ok = true.
Proof. vm_compute. reflexivity. Qed.

Lemma retain_line s b n rest :
  In (st_region s) atcf_basins -> In b atcf_basins -> (1 <= st_cyclone s <= 9)%Z -> (0 <= n < 100)%Z ->
  contains (basinPlusCycNum s) rest = false ->
  contains (basinPlusCycNum s) (deck_prefix b n ++ rest) = String.eqb b (st_region s) && Z.eqb (n / 10) (st_cyclone s).
Proof.
  intros Hs Hb Hk Hn Hr. pose proof retain_table as T. unfold retain_table_ok in T.
  rewrite forallb_forall in T. specialize (T _ Hs). rewrite forallb_forall in T. specialize (T _ Hb).
  rewrite forallb_forall in T. specialize (T (st_cyclone s) (in_zrange 1 9 (st_cyclone s) ltac:(lia))).
  rewrite forallb_forall in T. specialize (T n (in_zrange 0 100 n ltac:(lia))).
  apply andb_true_iff in T as [T1 T2]. apply Bool.eqb_prop in T2.
  unfold basinPlusCycNum in *. rewrite contains_app_no_straddle by (done || by destruct (st_region s)).
  exact T2.
Qed.

(** C14: the UKMO ensemble lines the script keeps for a storm numbered
    1 to 9 (line 180, [basin + ', ' + str(stnum)], and
    [extractLinesFromFile]) are exactly those of the same basin whose
    storm number has the storm's number as its tens digit: the
    zero-padded lines of the storm itself (["AL, 09, ..."]) are never
    kept, the lines of storms 90-99 are kept for storm 9, and of storms
    10-19 for storm 1.  The rest of each line is any text not holding
    the retained string. *)
Theorem mogreps_retained_lines s recs :
  In (st_region s) atcf_basins -> (1 <= st_cyclone s <= 9)%Z ->
  Forall (fun '(b, n, rest) => In b atcf_basins /\ (0 <= n < 100)%Z /\ contains (basinPlusCycNum s) rest = false) recs ->
  List.filter (extract_keep [basinPlusCycNum s]) (map deck_line recs) =
  map deck_line (List.filter (fun '(b, n, _) => String.eqb b (st_region s) && Z.eqb (n / 10) (st_cyclone s)) recs).
Proof.
  intros Hs Hk. induction recs as [|[[b n] rest] recs IH]; intros Hf; [done|].
  apply Forall_cons_iff in Hf as [(Hb & Hn & Hr) Hf]. cbn [map List.filter deck_line].
  unfold extract_keep at 1. cbn [existsb]. rewrite orb_false_r, retain_line by done.
  destruct (_ && _); cbn [map]; [f_equal|]; by apply IH.
Qed.

Lemma mogreps_retained_lines_witness :
  In (st_region demo_storm) atcf_basins /\ (1 <= st_cyclone demo_storm <= 9)%Z /\
  List.filter (extract_keep [basinPlusCycNum demo_storm])
    (map deck_line [("AL", 9%Z, "2020090112, 03, UE00,   0, 251N,  780W,  45"); ("AL", 91%Z, "2020090112, 03, UE00,   0, 151N,  480W,  25")]) =
  [deck_line ("AL", 91%Z, "2020090112, 03, UE00,   0, 151N,  480W,  25")].
Proof.
  assert (Hs : In (st_region demo_storm) atcf_basins) by (cbn; tauto).
  assert (Hk : (1 <= st_cyclone demo_storm <= 9)%Z) by (cbn; lia).
  split; [exact Hs|]. split; [exact Hk|].
  rewrite (mogreps_retained_lines demo_storm _ Hs Hk); [reflexivity|].
  repeat constructor; (cbn; tauto || lia || (vm_compute; reflexivity)).
Defined.
