(* ===== verification/Numeric.v ===== *)
(** * Floating-point values as the NumPy code computes with them

    The derived parameters of NSEA and the NUCAPS decoder compute on NumPy
    arrays of floats whose missing values are NaN.  A value is [Num q], a
    rational, or [NaN]:

    - the comparisons of NumPy and Python ([<], [<=], [>], [>=], [==]) are
      false as soon as one side is NaN, and [!=] is true;
    - arithmetic propagates NaN;
    - arithmetic on numbers is exact: the rounding of binary64 and
      binary32 is not modelled, nor are the infinities (a division by
      zero, which the modelled code does not reach on its inputs, gives
      NaN here).

    So a theorem about these definitions holds for the program up to the
    rounding of the values near the thresholds it compares with. *)

From Stdlib Require Import QArith Qabs Lqa Lia ZArith.

Local Open Scope Q_scope.

Inductive fl : Type :=
| Num (q : Q)
| NaN.

Definition Qlt_bool (a b : Q) : bool := negb (Qle_bool b a).

(** [x < y], [x <= y], [x > y], [x >= y] *)
Definition fl_lt (x y : fl) : bool := match x, y with Num a, Num b => Qlt_bool a b | _, _ => false end.
Definition fl_le (x y : fl) : bool := match x, y with Num a, Num b => Qle_bool a b | _, _ => false end.
Definition fl_gt (x y : fl) : bool := fl_lt y x.
Definition fl_ge (x y : fl) : bool := fl_le y x.

(** [x != y]: true when either side is NaN. *)
Definition fl_ne (x y : fl) : bool := match x, y with Num a, Num b => negb (Qeq_bool a b) | _, _ => true end.

(** [math.isnan] *)
Definition isnan (x : fl) : bool := match x with NaN => true | Num _ => false end.

Definition fl_lift2 (f : Q -> Q -> Q) (x y : fl) : fl :=
  match x, y with Num a, Num b => Num (f a b) | _, _ => NaN end.

Definition fl_add : fl -> fl -> fl := fl_lift2 Qplus.
Definition fl_sub : fl -> fl -> fl := fl_lift2 Qminus.
Definition fl_mul : fl -> fl -> fl := fl_lift2 Qmult.

Definition fl_div (x y : fl) : fl :=
  match x, y with Num a, Num b => if Qeq_bool b 0 then NaN else Num (a / b) | _, _ => NaN end.

Definition fl_of_Z (z : Z) : fl := Num (inject_Z z).

(** ** Lemmas on the boolean comparisons *)

Lemma Qlt_bool_iff a b : Qlt_bool a b = true <-> a < b.
Proof.
  unfold Qlt_bool. rewrite negb_true_iff. split.
  - intros H. apply Qnot_le_lt. intros H'. apply Qle_bool_iff in H'. congruence.
  - intros H. destruct (Qle_bool b a) eqn:E; [|reflexivity]. apply Qle_bool_iff in E. lra.
Qed.

Lemma Qle_bool_false a b : Qle_bool a b = false -> b < a.
Proof. intros H. apply Qnot_le_lt. intros H'. apply Qle_bool_iff in H'. congruence. Qed.

Lemma Qlt_bool_false a b : Qlt_bool a b = false -> b <= a.
Proof. unfold Qlt_bool. rewrite negb_false_iff. apply Qle_bool_iff. Qed.

(** Turn the boolean comparisons of the hypotheses into inequalities. *)
Ltac q_reflect :=
  repeat match goal with
  | H : Qle_bool _ _ = true |- _ => apply Qle_bool_iff in H
  | H : Qle_bool _ _ = false |- _ => apply Qle_bool_false in H
  | H : Qlt_bool _ _ = true |- _ => apply Qlt_bool_iff in H
  | H : Qlt_bool _ _ = false |- _ => apply Qlt_bool_false in H
  | H : (_ && _)%bool = true |- _ => apply andb_true_iff in H as [? ?]
  | H : (_ && _)%bool = false |- _ => apply andb_false_iff in H as [? | ?]
  end.

(** Case on every comparison of the goal, then arithmetic. *)
Ltac q_cases :=
  repeat match goal with
  | |- context [Qle_bool ?a ?b] => destruct (Qle_bool a b) eqn:?
  | |- context [Qlt_bool ?a ?b] => destruct (Qlt_bool a b) eqn:?
  end; q_reflect.
