(* ===== verification/Nsea.v ===== *)
(** * NSEA derived parameters ([NSEA_MCP.py], [NSEA_LNSVecLeft.py])

    [NSEA_MCP.py] scores the microburst composite parameter of a grid
    point from six fields: each [MC<i>] starts from an array of zeros and
    assigns the score of each class through a boolean mask, in the order
    of the source; [execute] adds the six scores.  The model computes on
    one grid point ([MC1] ... [MC6] on an [fl]); NumPy applies the same
    function at every point of grids of one shape, which [execute_grid]
    does over the list of the points.

    [NSEA_LNSVecLeft.py] turns the bulk shear into the left-moving storm
    vector: [calcMag] is the argument it passes to [arccos] (lines 29-33);
    [Direction.execute], [Vector.execute], [arccos] and [degrees] are
    functions of the AWIPS library outside the repository, the variables
    of the section [LNSVecLeft].

    The theorems: each score is the step function of its thresholds
    ([MC_steps]) and a missing input scores 0; the
    composite lies in [-5, 12] ([mcp_bounds]); the value given to
    [arccos] is NaN or in [(0, 1]] and the two clamps of lines 32-33 never
    change it ([calcMag_clamps_idle]). *)

From Stdlib Require Import QArith Lqa Lia ZArith List.
From S2P Require Import Numeric.

Import ListNotations.
Local Open Scope Q_scope.

(** ** [NSEA_MCP.py] *)

(** [rtn[mask] = v]: the element takes [v] where the mask holds. *)
Definition mask_set (mask : bool) (v r : Q) : Q := if mask then v else r.

(** Lines 10-15. *)
Definition MC1 (cCape : fl) : Q :=
  let rtn := 0 in
  let rtn := mask_set (fl_lt cCape (Num 3100)) 0 rtn in
  let rtn := mask_set (fl_ge cCape (Num 3100) && fl_lt cCape (Num 4000)) 1 rtn in
  mask_set (fl_ge cCape (Num 4000)) 2 rtn.

(** Lines 17-23. *)
Definition MC2 (LI : fl) : Q :=
  let rtn := 0 in
  let rtn := mask_set (fl_gt LI (Num (-8))) 0 rtn in
  let rtn := mask_set (fl_le LI (Num (-8)) && fl_gt LI (Num (-9))) 1 rtn in
  let rtn := mask_set (fl_le LI (Num (-9)) && fl_gt LI (Num (-10))) 2 rtn in
  mask_set (fl_le LI (Num (-10))) 3 rtn.

(** Lines 25-29. *)
Definition MC3 (LR : fl) : Q :=
  let rtn := 0 in
  let rtn := mask_set (fl_le LR (Num (84 # 10))) 0 rtn in
  mask_set (fl_gt LR (Num (84 # 10))) 1 rtn.

(** Lines 31-37. *)
Definition MC4 (vTot : fl) : Q :=
  let rtn := 0 in
  let rtn := mask_set (fl_lt vTot (Num 27)) 0 rtn in
  let rtn := mask_set (fl_ge vTot (Num 27) && fl_lt vTot (Num 28)) 1 rtn in
  let rtn := mask_set (fl_ge vTot (Num 28) && fl_lt vTot (Num 29)) 2 rtn in
  mask_set (fl_ge vTot (Num 29)) 3 rtn.

(** Lines 39-45. *)
Definition MC5 (dCape : fl) : Q :=
  let rtn := 0 in
  let rtn := mask_set (fl_lt dCape (Num 900)) 0 rtn in
  let rtn := mask_set (fl_ge dCape (Num 900) && fl_lt dCape (Num 1100)) 1 rtn in
  let rtn := mask_set (fl_ge dCape (Num 1100) && fl_lt dCape (Num 1300)) 2 rtn in
  mask_set (fl_ge dCape (Num 1300)) 3 rtn.

(** Lines 47-51. *)
Definition MC6 (PW : fl) : Q :=
  let rtn := 0 in
  let rtn := mask_set (fl_le PW (Num (15 # 10))) (-5) rtn in
  mask_set (fl_gt PW (Num (15 # 10))) 0 rtn.

(** Lines 6-8, at one grid point. *)
Definition execute (cCape LI LR vTot dCape PW : fl) : Q :=
  MC1 cCape + MC2 LI + MC3 LR + MC4 vTot + MC5 dCape + MC6 PW.

(** A grid point: the six fields' values there. *)
Record mcp_point : Type := mkPoint {
  p_cCape : fl; p_LI : fl; p_LR : fl; p_vTot : fl; p_dCape : fl; p_PW : fl
}.

Definition execute_grid (g : list mcp_point) : list Q :=
  map (fun p => execute (p_cCape p) (p_LI p) (p_LR p) (p_vTot p) (p_dCape p) (p_PW p)) g.

(** ** The reference step functions *)

(** The number of thresholds a value has reached. *)
Definition reached (ok : Q -> Q -> bool) (q : Q) (ts : list Q) : Q :=
  inject_Z (Z.of_nat (length (filter (fun t => ok t q) ts))).

(** [ok t q]: [q] has reached the threshold [t] from above, [q <= t]. *)
Definition at_most (t q : Q) : bool := Qle_bool q t.

(** A score of the reference: 0 for a missing value. *)
Definition step (ok : Q -> Q -> bool) (ts : list Q) (x : fl) : Q :=
  match x with NaN => 0 | Num q => reached ok q ts end.

(** ** [NSEA_LNSVecLeft.py] *)

(** Lines 29-33: the value given to [arccos]. *)
Definition calcMag (blkMag : fl) : fl :=
  let tmpMag := fl_mul blkMag (Num (194 # 100)) in
  let calc := if fl_lt tmpMag (Num 30) then NaN else fl_div (Num 30) tmpMag in
  let calc := if fl_gt calc (Num 1) then Num 1 else calc in
  if fl_lt calc (Num (-1)) then Num (-1) else calc.

Section LNSVecLeft.
Variable direction : fl -> fl -> fl.
Variable vector : fl -> fl -> Z -> fl * fl.
Variable arccos degrees : fl -> fl.

(** Lines 20-42: the bulk shear [(u, v)] and its magnitude. *)
Definition LNSVecLeft_execute (u v blkMag : fl) : fl * fl :=
  let blkShrDir := direction u v in
  let tmpDir := blkShrDir in
  let angle := arccos (calcMag blkMag) in
  let newDir := fl_sub tmpDir (degrees angle) in
  vector blkMag newDir 1%Z.
End LNSVecLeft.

(** ** Properties *)

Ltac mcp_cases :=
  intros [q|]; [| reflexivity];
  cbv [MC1 MC2 MC3 MC4 MC5 MC6 mask_set step reached at_most fl_lt fl_le fl_gt fl_ge filter length];
  q_cases; first [reflexivity | lra].

(** C16: every score of [NSEA_MCP.py] is the step function of its
    thresholds, and a missing (NaN) input scores 0: the masks of each
    [MC<i>] cover the classes in order without gaps, the last mask winning
    where two would overlap. *)
Theorem MC_steps :
  (forall x, MC1 x = step Qle_bool [3100; 4000] x) /\
  (forall x, MC2 x = step at_most [-8; -9; -10] x) /\
  (forall x, MC3 x = step Qlt_bool [84 # 10] x) /\
  (forall x, MC4 x = step Qle_bool [27; 28; 29] x) /\
  (forall x, MC5 x = step Qle_bool [900; 1100; 1300] x) /\
  (forall x, MC6 x = -5 * step at_most [15 # 10] x).
Proof. repeat split; mcp_cases. Qed.

Ltac mc_range := intros [q|]; cbv [MC1 MC2 MC3 MC4 MC5 MC6 mask_set fl_lt fl_le fl_gt fl_ge];
  q_cases; simpl; split; lra.

Lemma MC1_range x : 0 <= MC1 x <= 2.
Proof. revert x. mc_range. Qed.
Lemma MC2_range x : 0 <= MC2 x <= 3.
Proof. revert x. mc_range. Qed.
Lemma MC3_range x : 0 <= MC3 x <= 1.
Proof. revert x. mc_range. Qed.
Lemma MC4_range x : 0 <= MC4 x <= 3.
Proof. revert x. mc_range. Qed.
Lemma MC5_range x : 0 <= MC5 x <= 3.
Proof. revert x. mc_range. Qed.
Lemma MC6_range x : -5 <= MC6 x <= 0.
Proof. revert x. mc_range. Qed.

(** C26: the composite score of every grid point lies between -5
    and 12, whatever its inputs, NaN included. *)
Theorem mcp_bounds g : Forall (fun a => -5 <= a <= 12) (execute_grid g).
Proof.
  apply Forall_forall. intros a Ha. apply in_map_iff in Ha as [p [<- _]].
  unfold execute.
  pose proof (MC1_range (p_cCape p)). pose proof (MC2_range (p_LI p)). pose proof (MC3_range (p_LR p)).
  pose proof (MC4_range (p_vTot p)). pose proof (MC5_range (p_dCape p)). pose proof (MC6_range (p_PW p)).
  lra.
Qed.

Lemma div30_le1 t : 30 <= t -> 30 / t <= 1.
Proof. intros H. apply Qle_shift_div_r; lra. Qed.

Lemma div30_pos t : 30 <= t -> 0 < 30 / t.
Proof. intros H. apply Qlt_shift_div_l; lra. Qed.

(** the clamps of lines 32-33 never change the value: it is
    NaN where the shear is below 30 knots or missing, and [30/tmpMag]
    otherwise, a number in [(0, 1]], so [arccos] gets a NaN or a value of
    its domain. *)
Theorem calcMag_clamps_idle m :
  calcMag m = (let tmpMag := fl_mul m (Num (194 # 100)) in
               if fl_lt tmpMag (Num 30) then NaN else fl_div (Num 30) tmpMag) /\
  (calcMag m = NaN \/ exists q, calcMag m = Num q /\ 0 < q <= 1).
Proof.
  destruct m as [q|]; [| split; [reflexivity | left; reflexivity]].
  cbv [calcMag fl_mul fl_lift2 fl_div fl_lt fl_gt].
  set (t := q * (194 # 100)).
  destruct (Qlt_bool t 30) eqn:Hlt; [split; [reflexivity | left; reflexivity] |].
  apply Qlt_bool_false in Hlt.
  destruct (Qeq_bool t 0) eqn:Hz; [apply Qeq_bool_eq in Hz; lra |].
  pose proof (div30_le1 t Hlt). pose proof (div30_pos t Hlt).
  destruct (Qlt_bool 1 (30 / t)) eqn:H1; q_reflect; [lra |].
  destruct (Qlt_bool (30 / t) (-1)) eqn:H2; q_reflect; [lra |].
  split; [reflexivity | right; eexists; split; [reflexivity | lra]].
Qed.
