(* ===== verification/Nucaps.v ===== *)
(** * The gridded NUCAPS decoder ([GriddedNucapsDecoder.py])

    The decoder reads NUCAPS soundings from HDF5 files, interpolates each
    sounding to 41 standard pressure levels, computes total and layer
    precipitable water, total ozone, the ozone anomaly and the tropopause
    level, and grids the results.

    - Numbers are [fl] (file [Numeric]): rationals with NaN, NumPy's
      comparison rules, exact arithmetic.
    - A NumPy array of floats is a [list fl], a two-dimensional one a
      [list (list fl)] of its rows; [np_get] and [np_row] are subscripts
      with Python's negative indices, and [index] tells an integer subscript
      from a float one.  The decoder subscripts and slices with floats
      (the surface levels of [botlev]); it was written for a NumPy before
      1.12, which truncated such a subscript as [int()] does, with a
      [DeprecationWarning] ([index_int]).  (NumPy 1.12 and later raise
      [IndexError] or [TypeError] there instead.)
    - The HDF5 files are the records [h5file] of their datasets; the
      numerical library functions the decoder calls ([numpy.log10],
      [10 **], [scipy.interpolate.griddata] in one dimension, the
      [numpy.sin] threshold of the tropopause, [math.exp]) are the
      variables of the section [Library].
    - [decode] is modelled up to the call of [interpolate_temperature]
      (lines 538-567); the rest of [decode] (the 2 m parameters, the
      horizontal gridding with [scipy] and the Java [GridRecord]s, lines
      568-679) is the variable [decode_rest].

    The theorems: [nucaps_init_wf] (the decoder [__init__] builds is well
    formed), [interpolate_temperature_blanks] (each sounding's
    temperatures below its surface level, and only those, are blanked),
    [trop_level_last] (the reset to missing of the tropopause loop is
    dead), [grossBoundsChecking_spec] and [ozone_index_bins] (the
    truncation of the latitude band index). *)

From stdpp Require Import base list strings decidable.
From Stdlib Require Import String QArith Qabs Qminmax Qround Lqa ZArith Lia.
From S2P Require Import Prelude PyStr Civil Numeric.

Local Open Scope Q_scope.
Local Open Scope tsu_scope.

(** ** NumPy helpers *)

(** A subscript: a Python [int], or an element of a float array. *)
Inductive index : Type :=
| IInt (z : Z)
| IFloat (x : fl).

(** [int(x)]: truncation toward zero; NaN raises. *)
Definition py_int_fl (x : fl) : res Z :=
  match x with NaN => Raise ValueError | Num q => Ok (Z.quot (Qnum q) (Zpos (Qden q))) end.

(** The integer a subscript stands for.  The decoder was written for a
    NumPy (before 1.12) that truncated a float subscript or slice bound,
    with a [DeprecationWarning], as [int()] does: a NaN raises
    [ValueError]. *)
Definition index_int (i : index) : res Z :=
  match i with IInt z => Ok z | IFloat x => py_int_fl x end.

(** [a[i]] *)
Definition np_get {A} (a : list A) (i : index) : res A :=
  z <- index_int i ;; py_index z a.

(** [a[i, :]] of a two-dimensional array. *)
Definition np_row (a : list (list fl)) (i : Z) : res (list fl) := py_index i a.

(** A slice bound: a negative one counts from the end. *)
Definition slice_bound (n : nat) (b : Z) : Z :=
  if (b <? 0)%Z then Z.max 0 (Z.of_nat n + b) else b.

(** [a[start:stop] = v] *)
Definition np_setslice (a : list fl) (start : index) (stop : Z) (v : fl) : res (list fl) :=
  s <- index_int start ;;
  let s := slice_bound (List.length a) s in
  let e := slice_bound (List.length a) stop in
  Ok (imap (fun j x => if bool_decide (s <= Z.of_nat j < e)%Z then v else x) a).

Definition fl_max (x y : fl) : fl :=
  match x, y with Num a, Num b => Num (Qmax a b) | _, _ => NaN end.
Definition fl_min (x y : fl) : fl :=
  match x, y with Num a, Num b => Num (Qmin a b) | _, _ => NaN end.

(** [np.max] and [np.min]: an empty array raises, a NaN wins. *)
Definition np_max (a : list fl) : res fl :=
  match a with [] => Raise ValueError | x :: a' => Ok (fold_left fl_max a' x) end.
Definition np_min (a : list fl) : res fl :=
  match a with [] => Raise ValueError | x :: a' => Ok (fold_left fl_min a' x) end.

Definition nans (n : nat) : list fl := repeat NaN n.

Fixpoint mapM {A B} (f : A -> res B) (l : list A) : res (list B) :=
  match l with [] => Ok [] | a :: l' => b <- f a ;; bs <- mapM f l' ;; Ok (b :: bs) end.

(** [for i in range(n)] with a result per [i]. *)
Definition range_map {B} (n : nat) (f : Z -> res B) : res (list B) := mapM (fun i => f (Z.of_nat i)) (seq 0 n).

(** ** Constants (lines 66-105) *)

Definition stdplev : list fl :=
  map (fun z => Num (inject_Z z))
    [100; 125; 150; 175; 200; 225; 250; 275; 300; 325; 350; 375; 400; 425; 450; 475; 500; 525; 550; 575;
     600; 625; 650; 675; 700; 725; 750; 775; 800; 825; 850; 875; 900; 925; 950; 975; 1000; 1025; 1050;
     1075; 1100]%Z.

Definition levlow : Z := 88.
Definition levmid : Z := 74.
Definition levhigh : Z := 62.
Definition navog : Q := 602214199 * 10 ^ 15.
Definition nloschmidt : Q := 26867775 * 10 ^ 12.
Definition t_std : Q := 27315 # 100.
Definition mw_wv : Q := 180151 # 10000.
Definition mw_oz : Q := 479982 # 10000.
Definition mw_d : Q := 289644 # 10000.
Definition g_std : Q := 980664 # 1000.
Definition wv_eps : Q := mw_wv / mw_d.
Definition oz_eps : Q := mw_oz / mw_d.
Definition p_std : Q := 101325 # 100.
Definition cdair : Q := 1000 * p_std * navog / (mw_d * g_std).

(** ** The decoder's arrays *)

(** The datasets of one HDF5 file (lines 147-163). *)
Record h5file : Type := mkH5 {
  h_satellite : string;
  h_lat : list fl; h_lon : list fl; h_temp : list (list fl); h_pres : list (list fl);
  h_psurf : list fl; h_h2o : list (list fl); h_o3 : list (list fl); h_qf : list fl; h_time : list fl
}.

Record decoder : Type := mkDecoder {
  toProcess : bool;
  files : list string;
  latitude : list fl; longitude : list fl;
  temperature : list (list fl); pressure : list (list fl);
  surface_pressure : list fl; h2o_mr : list (list fl); o3_mr : list (list fl);
  times : list fl; quality_flag : list fl;
  satelliteId : string;
  maxtime : Z; mintime : Z
}.

(** [np.append(a, b, axis=0)] onto an array of shape [(n, 100)]: the rows
    of [b] must have 100 columns. *)
Definition append_rows (a b : list (list fl)) : res (list (list fl)) :=
  if forallb (fun r => Nat.eqb (List.length r) 100) b then Ok (a ++ b) else Raise ValueError.

Definition empty_decoder : decoder :=
  mkDecoder false [] [] [] [] [] [] [] [] [] [] "" 0 0.

Fixpoint foldM {A B} (f : A -> B -> res A) (a : A) (l : list B) : res A :=
  match l with [] => Ok a | b :: l' => a' <- f a b ;; foldM f a' l' end.

(** [a[i] = v] *)
Definition np_set (a : list fl) (i : Z) (v : fl) : res (list fl) :=
  let n := Z.of_nat (List.length a) in
  let j := if (i <? 0)%Z then (n + i)%Z else i in
  if ((0 <=? j) && (j <? n))%Z then Ok (<[Z.to_nat j := v]> a) else Raise IndexError.

(** [a[i, :] = row] *)
Definition np_setrow (a : list (list fl)) (i : Z) (row : list fl) : res (list (list fl)) :=
  _ <- py_index i a ;; Ok (<[Z.to_nat i := row]> a).

(** [range(a, b)] *)
Definition zrange_ab (a b : Z) : list Z := map (fun k => a + Z.of_nat k)%Z (seq 0 (Z.to_nat (b - a))).

(** ** Loading the files ([__init__], [__processFile__]) *)

(** Lines 147-163. *)
Definition processFile (h5 : string -> h5file) (d : decoder) (file : string) : res decoder :=
  let f := h5 file in
  temp <- append_rows (temperature d) (h_temp f) ;;
  pres <- append_rows (pressure d) (h_pres f) ;;
  h2o <- append_rows (h2o_mr d) (h_h2o f) ;;
  o3 <- append_rows (o3_mr d) (h_o3 f) ;;
  Ok (mkDecoder (toProcess d) (files d) (latitude d ++ h_lat f) (longitude d ++ h_lon f) temp pres
        (surface_pressure d ++ h_psurf f) h2o o3 (times d ++ h_time f) (quality_flag d ++ h_qf f)
        (h_satellite f) (maxtime d) (mintime d)).

(** Lines 116-145: the [files] argument, [None] when not given. *)
Definition nucaps_init (h5 : string -> h5file) (files_arg : option string) : res decoder :=
  match option_map strip files_arg with
  | Some fs =>
      if String.eqb fs "" then Ok empty_decoder else
      let names := str_split "," fs in
      d <- foldM (processFile h5) (mkDecoder true names [] [] [] [] [] [] [] [] [] "" 0 0) names ;;
      mx <- np_max (times d) ;; mxi <- py_int_fl mx ;;
      mn <- np_min (times d) ;; mni <- py_int_fl mn ;;
      Ok (mkDecoder (toProcess d) (files d) (latitude d) (longitude d) (temperature d) (pressure d)
            (surface_pressure d) (h2o_mr d) (o3_mr d) (times d) (quality_flag d) (satelliteId d) mxi mni)
  | None => Ok empty_decoder
  end.

(** ** The surface and the boundary layer *)

(** Lines 166-172: the number of levels at least 5 hPa above the
    surface. *)
Definition findSurface (pres : list fl) (surfpres : fl) : Z :=
  Z.of_nat (List.length (List.filter (fun p => fl_gt (fl_sub surfpres (fl_add p (Num 5))) (Num 0)) pres)).

(** Lines 263-273: [(blmult, botlev)], two float arrays. *)
Definition get_BL_params (pres psurf : list fl) (nobs : nat) : res (list fl * list fl) :=
  rows <- range_map nobs (fun i =>
    ps <- py_index i psurf ;;
    let surflev := (findSurface pres ps - 1)%Z in
    below <- py_index (surflev - 1) pres ;;
    at_ <- py_index surflev pres ;;
    let num := fl_sub ps below in
    let denom := fl_sub at_ below in
    Ok (fl_div num denom, fl_of_Z surflev)) ;;
  Ok (map fst rows, map snd rows).

(** Lines 276-286: [temp[i, sfc - 1]] with a float [sfc]. *)
Definition get_2m_param (temp wvcd : list (list fl)) (botlev : list fl) : res (list fl * list fl) :=
  rows <- range_map (List.length temp) (fun i =>
    sfc <- np_get botlev (IInt i) ;;
    trow <- np_row temp i ;; t <- np_get trow (IFloat (fl_sub sfc (Num 1))) ;;
    wrow <- np_row wvcd i ;; w <- np_get wrow (IFloat (fl_sub sfc (Num 1))) ;;
    Ok (t, w)) ;;
  Ok (map fst rows, map snd rows).

(** ** Column amounts *)

(** [delta_p[0] = pres[0]; delta_p[1:] = pres[1:] - pres[:-1]] *)
Definition delta_p (pres : list fl) : res (list fl) :=
  match pres with [] => Raise IndexError | p0 :: rest => Ok (p0 :: zip_with fl_sub rest pres) end.

(** Lines 308-325; [botlev] is not used. *)
Definition convert_mr2cd (d : decoder) (botlev : list fl) : res (list (list fl) * list (list fl)) :=
  pres <- np_row (pressure d) 0 ;;
  let nlev := List.length pres in
  dp <- delta_p pres ;;
  rows <- range_map (List.length (latitude d)) (fun i =>
    wvmr <- np_row (h2o_mr d) i ;;
    ozmr0 <- np_row (o3_mr d) i ;;
    let ozmr := map (fun x => fl_mul (fl_mul x (Num (1 # 1000000000))) (Num oz_eps)) ozmr0 in
    cols <- range_map nlev (fun j =>
      w <- py_index j wvmr ;; o <- py_index j ozmr ;; dpj <- py_index j dp ;;
      let col := fl_div (fl_mul (Num cdair) dpj) (Num p_std) in
      Ok (fl_mul w (fl_div col (Num wv_eps)), fl_mul o (fl_div col (Num oz_eps)))) ;;
    Ok (map fst cols, map snd cols)) ;;
  Ok (map fst rows, map snd rows).

(** [for j in range(a, b): if not isnan(row[j]): acc += row[j]] *)
Definition sum_nonnan (row : list fl) (a b : Z) (acc : fl) : res fl :=
  foldM (fun acc j => x <- py_index j row ;; Ok (if isnan x then acc else fl_add acc x)) acc (zrange_ab a b).

(** One sounding of [calc_tot] (lines 340-373); [sfc] is a local
    variable of the function that keeps its value from one sounding to
    the next when neither test sets it, and is unbound before the first
    assignment. *)
Definition calc_tot_obs (nlev : Z) (sfc0 : option Z) (wv oz : list fl) (bl bm : fl)
    : res (option Z * (fl * fl * fl * fl * fl)) :=
  w0 <- py_index 0 wv ;; o0 <- py_index 0 oz ;;
  sfc1 <- (if fl_lt bl (fl_of_Z nlev) then z <- py_int_fl bl ;; Ok (Some z) else Ok sfc0) ;;
  let sfc2 := if negb (fl_ne bl (fl_of_Z nlev)) then Some nlev else sfc1 in
  sfc <- (match sfc2 with Some s => Ok s | None => Raise NameError end) ;;
  totwat <- sum_nonnan wv 1 sfc w0 ;;
  totoz <- sum_nonnan oz 1 sfc o0 ;;
  b <- py_int_fl bl ;; wvb <- py_index b wv ;; ozb <- py_index b oz ;;
  let totwat := fl_add totwat (fl_mul wvb bm) in
  let totoz := fl_add totoz (fl_mul ozb bm) in
  let totDU := fl_div (fl_mul totoz (Num 1000)) (Num nloschmidt) in
  let totwat := fl_div (fl_mul totwat (Num mw_wv)) (Num navog) in
  pwlow <- sum_nonnan wv levlow sfc (Num 0) ;;
  let pwlow := fl_div (fl_mul (fl_add pwlow (fl_mul wvb bm)) (Num mw_wv)) (Num navog) in
  pwmid <- sum_nonnan wv levmid levlow (Num 0) ;;
  let pwmid := fl_div (fl_mul pwmid (Num mw_wv)) (Num navog) in
  pwhigh <- sum_nonnan wv levhigh levmid (Num 0) ;;
  let pwhigh := fl_div (fl_mul pwhigh (Num mw_wv)) (Num navog) in
  Ok (Some sfc, (totwat, totDU, pwlow, pwmid, pwhigh)).

Fixpoint calc_tot_go (nlev : Z) (sfc : option Z) (obs : list (list fl * list fl * fl * fl))
    : res (list (fl * fl * fl * fl * fl)) :=
  match obs with
  | [] => Ok []
  | (wv, oz, bl, bm) :: obs' =>
      res_bind (calc_tot_obs nlev sfc wv oz bl bm) (fun '(sfc', r) =>
        rs <- calc_tot_go nlev sfc' obs' ;; Ok (r :: rs))
  end.

(** Lines 329-375: [(totwat, totDU, pwlow, pwmid, pwhigh)] per sounding;
    [nlev] is [np.shape(wvcd)[1]], the width [convert_mr2cd] gave the
    array. *)
Definition calc_tot (nlev : nat) (wvcd ozcd : list (list fl)) (botlev blmult : list fl)
    : res (list (fl * fl * fl * fl * fl)) :=
  obs <- range_map (List.length wvcd) (fun i =>
    wv <- np_row wvcd i ;; oz <- np_row ozcd i ;;
    bl <- py_index i botlev ;; bm <- py_index i blmult ;; Ok (wv, oz, bl, bm)) ;;
  calc_tot_go (Z.of_nat nlev) None obs.

(** Lines 378-394. *)
Definition convert_cd2mr (wvcd : list (list fl)) (pres : list fl) (botlev : list fl) : res (list (list fl)) :=
  let nlev := List.length pres in
  dp <- delta_p pres ;;
  range_map (List.length wvcd) (fun i =>
    bl <- py_index i botlev ;; s <- py_int_fl bl ;;
    row <- np_row wvcd i ;;
    out <- foldM (fun out j =>
             w <- py_index j row ;; dpj <- py_index j dp ;;
             np_set out j (fl_div w (fl_div (fl_div (fl_mul (Num cdair) dpj) (Num p_std)) (Num wv_eps))))
           (nans nlev) (zrange_ab 0 (s + 1)) ;;
    Ok (map (fun x => fl_mul x (Num 1000)) out)).

(** Lines 397-400. *)
Definition convert_cd2mr_simple (wvcd deltap : fl) : fl :=
  fl_mul (fl_div wvcd (fl_div (fl_div (fl_mul (Num cdair) deltap) (Num p_std)) (Num wv_eps))) (Num 1000).

(** [restructurePoints] (lines 237-243). *)
Definition restructurePoints (lats lons : list fl) : res (list (fl * fl)) :=
  range_map (List.length lats) (fun i => lo <- py_index i lons ;; la <- py_index i lats ;; Ok (lo, la)).

(** ** Ozone climatology (lines 403-466) *)

(** [self.monthlyData] (lines 404-441): 36 latitude bands from the north
    pole, 12 months. *)
Definition monthlyData : list (list Z) :=
  [[311; 350; 352; 340; 324; 297; 269; 253; 243; 246; 267; 279];
   [314; 363; 361; 359; 330; 300; 269; 252; 244; 251; 270; 281];
   [319; 363; 363; 359; 330; 301; 272; 254; 248; 254; 275; 287];
   [326; 359; 361; 359; 333; 303; 275; 262; 256; 259; 279; 293];
   [330; 359; 359; 355; 332; 304; 280; 269; 262; 265; 280; 299];
   [333; 359; 359; 352; 331; 306; 286; 274; 267; 269; 283; 306];
   [332; 355; 354; 347; 329; 307; 291; 277; 270; 270; 282; 309];
   [329; 349; 348; 340; 325; 306; 290; 276; 267; 267; 279; 308];
   [321; 338; 338; 331; 318; 299; 280; 269; 262; 260; 273; 302];
   [307; 320; 324; 318; 304; 286; 266; 259; 254; 252; 265; 289];
   [284; 292; 300; 298; 286; 271; 256; 252; 248; 243; 252; 269];
   [257; 262; 272; 275; 269; 259; 251; 248; 244; 237; 237; 247];
   [234; 238; 248; 255; 256; 252; 248; 246; 242; 234; 229; 230];
   [221; 224; 234; 242; 246; 246; 245; 244; 240; 232; 224; 219];
   [215; 218; 227; 235; 240; 242; 244; 245; 241; 232; 223; 215];
   [214; 216; 224; 232; 237; 240; 244; 245; 242; 232; 223; 214];
   [215; 217; 223; 230; 234; 237; 240; 242; 240; 231; 224; 216];
   [219; 221; 226; 231; 232; 233; 236; 238; 237; 229; 225; 219];
   [223; 224; 228; 231; 230; 229; 230; 233; 233; 228; 225; 222];
   [225; 226; 228; 229; 227; 224; 225; 228; 230; 228; 227; 225];
   [227; 227; 227; 227; 223; 221; 223; 226; 230; 229; 230; 228];
   [228; 226; 226; 225; 222; 222; 225; 228; 234; 234; 233; 230];
   [228; 225; 225; 225; 224; 226; 230; 235; 242; 241; 239; 232];
   [229; 226; 227; 228; 229; 234; 239; 248; 254; 251; 247; 237];
   [232; 230; 231; 233; 239; 249; 255; 267; 271; 267; 259; 243];
   [238; 235; 236; 240; 250; 265; 275; 288; 292; 287; 274; 252];
   [248; 242; 241; 247; 259; 276; 290; 303; 308; 304; 288; 263];
   [260; 250; 247; 255; 267; 282; 298; 310; 316; 313; 298; 273];
   [269; 257; 252; 259; 270; 282; 294; 305; 314; 313; 302; 280];
   [275; 262; 257; 262; 271; 278; 281; 284; 290; 299; 299; 283];
   [274; 264; 258; 261; 269; 273; 264; 247; 242; 271; 283; 280];
   [269; 261; 257; 256; 263; 264; 247; 211; 186; 233; 254; 273];
   [264; 257; 257; 250; 254; 253; 235; 198; 150; 196; 224; 267];
   [259; 253; 252; 242; 247; 244; 226; 196; 135; 173; 205; 260];
   [258; 252; 246; 237; 238; 237; 225; 202; 134; 147; 190; 256];
   [252; 246; 237; 230; 237; 236; 225; 204; 135; 142; 187; 252]]%Z.

(** Lines 444-446: the month (0-11) of a time in milliseconds, in UTC;
    [fromtimestamp] raises on NaN. *)
Definition getMonth (time : fl) : res Z :=
  match time with
  | NaN => Raise ValueError
  | Num q => Ok (dt_month (fromtimestamp (Qfloor (q / 1000))) - 1)%Z
  end.

(** Lines 449-456: [-1 * int(latitude / 5) + 17], clamped to the table. *)
Definition ozone_index (latitude : fl) : res Z :=
  i <- py_int_fl (fl_div latitude (Num 5)) ;;
  let index := (-1 * i + 17)%Z in
  let index := if (index <? 0)%Z then 0%Z else index in
  Ok (if (35 <? index)%Z then 35%Z else index).

Definition getOzoneClimoValue (monthIndex : Z) (latitude : fl) : res Z :=
  index <- ozone_index latitude ;;
  row <- py_index index monthlyData ;;
  py_index monthIndex row.

(** Lines 459-466. *)
Definition calculateOzoneAnomaly (d : decoder) (totalOzone : list fl) : res (list fl) :=
  range_map (List.length (latitude d)) (fun i =>
    t <- py_index i (times d) ;; month <- getMonth t ;;
    lat <- py_index i (latitude d) ;; climo <- getOzoneClimoValue month lat ;;
    tot <- py_index i totalOzone ;;
    Ok (fl_mul (fl_div tot (fl_of_Z climo)) (Num 100))).

(** Lines 531-535: values above [max], then values below [min], become
    missing. *)
Definition grossBoundsChecking (min max : fl) (grid : list fl) : list fl :=
  let grid := map (fun x => if fl_gt x max then NaN else x) grid in
  map (fun x => if fl_lt x min then NaN else x) grid.

(** ** The functions of the numerical libraries *)

Section Library.
Variable log10 pow10 exp : fl -> fl.
(** [scipy.interpolate.griddata(points, values, xi, method='linear')]
    in one dimension; it may raise. *)
Variable griddata : list fl -> list fl -> list fl -> res (list fl).
(** [91. + 28. * np.sin(np.pi * (month - 2) / 6)] *)
Variable ozthresh : Z -> fl.

(** Lines 469-486: [O3_MR[i, k] != FILL_VAL] compares with NaN. *)
Definition trop_step (thresh : fl) (trop : fl) (ok : fl * fl) : fl :=
  let '(o3, p) := ok in
  if fl_ne o3 NaN then (if fl_ge o3 thresh then p else trop) else NaN.

Definition calculateTropLevel (d : decoder) : res (list fl) :=
  p0 <- np_row (pressure d) 0 ;;
  let nlev := List.length p0 in
  range_map (List.length (latitude d)) (fun i =>
    t <- py_index i (times d) ;; month <- getMonth t ;;
    let thresh := ozthresh month in
    o3row <- np_row (o3_mr d) i ;; prow <- np_row (pressure d) i ;;
    pairs <- range_map nlev (fun k => o <- py_index k o3row ;; p <- py_index k prow ;; Ok (o, p)) ;;
    Ok (fold_left (trop_step thresh) pairs NaN)).

(** Lines 289-296. *)
Definition convert_mr2rh_single (wvmr pres temp : fl) : fl :=
  let svp := fl_mul (Num (6112 # 1000))
               (exp (fl_div (fl_mul (Num (1767 # 100)) (fl_sub temp (Num t_std))) (fl_sub temp (Num (2966 # 100))))) in
  let mmr_s := if fl_lt svp (fl_div pres (Num 2))
               then fl_div (fl_mul (fl_mul (Num 1000) (Num wv_eps)) svp) (fl_sub pres svp)
               else fl_mul (Num 1000) (Num wv_eps) in
  fl_div (fl_mul (Num 100) wvmr) mmr_s.

(** Lines 299-305: [wvmr[i] != np.nan] holds for every value. *)
Definition convert_mr2rh (wvmr pres temp : list fl) : res (list fl) :=
  range_map (List.length wvmr) (fun i =>
    w <- py_index i wvmr ;; p <- py_index i pres ;; t <- py_index i temp ;;
    Ok (if fl_ne w NaN || fl_ne t NaN then convert_mr2rh_single w p t else NaN)).

(** Lines 209-234. *)
Definition interpolate_gases (d : decoder) (wvcd : list (list fl)) (botlevel : list fl) : res (list (list fl)) :=
  pres <- np_row (pressure d) 0 ;;
  let nlev := List.length pres in
  range_map (List.length (latitude d)) (fun iobs =>
    sfc <- np_get botlevel (IInt iobs) ;;
    row <- np_row wvcd iobs ;;
    w0 <- py_index 0 row ;;
    lev0 <- np_set (nans nlev) 0 w0 ;;
    s <- py_int_fl sfc ;;
    lev <- foldM (fun lev L =>
             a <- py_index (L - 1) row ;; b <- py_index L row ;;
             np_set lev L (fl_add (fl_mul (Num (1 # 2)) a) (fl_mul (Num (1 # 2)) b)))
           lev0 (zrange_ab 1 (s + 1)) ;;
    logwvcd <- griddata (map log10 pres) (map log10 lev) (map log10 stdplev) ;;
    Ok (map pow10 logwvcd)).

(** One sounding [iobs] of the loop of lines 200-205: [sfc] is an
    element of the float array [botlevel]; the levels below the surface
    are blanked in [self.temperature] ([temp]) and the profile is
    interpolated to the standard levels ([stdT]). *)
Definition interp_temp_step (pres botlevel : list fl) (acc : list (list fl) * list (list fl)) (iobs : Z)
    : res (list (list fl) * list (list fl)) :=
  let '(stdT, temp) := acc in
  let nlev := List.length pres in
  sfc <- np_get botlevel (IInt iobs) ;;
  temp <- (if fl_le (fl_add sfc (Num 1)) (fl_of_Z (Z.of_nat nlev)) then
             row <- np_row temp iobs ;;
             row <- np_setslice row (IFloat (fl_add sfc (Num 1))) (Z.of_nat nlev) NaN ;;
             np_setrow temp iobs row
           else Ok temp) ;;
  trow <- np_row temp iobs ;;
  t <- griddata pres trow stdplev ;;
  Ok (stdT ++ [t], temp).

(** Lines 194-206: the method returns [stdT]; the blanked
    [self.temperature] is returned with it. *)
Definition interpolate_temperature (d : decoder) (botlevel blmult : list fl)
    : res (list (list fl) * list (list fl)) :=
  pres <- np_row (pressure d) 0 ;;
  foldM (interp_temp_step pres botlevel) ([], temperature d)
    (map Z.of_nat (seq 0 (List.length (latitude d)))).

(** What [decode] computes after the temperatures (lines 568-675), from
    the soundings, their points, the boundary layer, the column amounts
    and the profiles on the standard levels. *)
Variable grid_record : Type.
Variable decode_rest :
  decoder -> list (fl * fl) -> list fl -> list fl -> list (fl * fl * fl * fl * fl) ->
  list (list fl) -> list (list fl) -> list (list fl) -> res (list grid_record).

(** Lines 538-567 and 676-679: no file, no record; a [ValueError] in
    the [try] block is logged and the records made so far (none before
    line 592) are returned. *)
Definition decode (d : decoder) : res (list grid_record) :=
  if negb (toProcess d) then Ok [] else
  let body :=
    points <- restructurePoints (latitude d) (longitude d) ;;
    let nobs := List.length (latitude d) in
    plev <- np_row (pressure d) 1 ;;
    res_bind (get_BL_params plev (surface_pressure d) nobs) (fun '(blmult, botlev) =>
    res_bind (convert_mr2cd d botlev) (fun '(wvcd, ozcd) =>
    p0 <- np_row (pressure d) 0 ;;
    tots <- calc_tot (List.length p0) wvcd ozcd botlev blmult ;;
    stdwv <- interpolate_gases d wvcd botlev ;;
    res_bind (interpolate_temperature d botlev blmult) (fun '(stdT, temp) =>
    decode_rest d points botlev blmult tots stdwv stdT temp)))
  in
  match body with Raise ValueError => Ok [] | r => r end.
End Library.

(** ** A concrete decoder *)

(** An [n]-level profile: 5, 15, 25, ... hPa from the top. *)
Definition demo_pres (n : nat) : list fl := map (fun i => Num (inject_Z (Z.of_nat (10 * i + 5)))) (seq 0 n).

(** Two soundings of [n] levels at 900 hPa surface pressure, of one file
    ([tp] says whether the file list was non-blank), whose water vapour
    and ozone are missing. *)
Definition demo_decoder (tp : bool) (n : nat) : decoder :=
  mkDecoder tp ["nucaps.h5"] [Num 40; Num 41] [Num (-100); Num (-101)]
    [repeat (Num 250) n; repeat (Num 250) n] [demo_pres n; demo_pres n] [Num 900; Num 900]
    [repeat NaN n; repeat NaN n] [repeat NaN n; repeat NaN n]
    [Num 0; Num 0] [Num 0; Num 0] "j01" 0 0.

(** An interpolation that returns the values, and a rest of [decode]
    that makes one record per sounding. *)
Definition demo_griddata (xs vs xi : list fl) : res (list fl) := Ok vs.
Definition demo_rest (d : decoder) (pts : list (fl * fl)) (_ _ : list fl)
    (_ : list (fl * fl * fl * fl * fl)) (_ _ _ : list (list fl)) : res (list unit) :=
  Ok (map (fun _ => tt) pts).

(** ** Reference definitions *)

(** What lines 203-204 are for: in a sounding whose surface is at the
    level [sfc], the levels below it, from [sfc + 1] to the last one
    [nlev - 1], become missing and the others are kept. *)
Definition blank_below (nlev : nat) (sfc : fl) (row : list fl) : list fl :=
  imap (fun j x => if fl_le (fl_add sfc (Num 1)) (fl_of_Z (Z.of_nat j)) && (j <? nlev)%nat then NaN else x) row.

(** The temperatures after the loop over the first [nobs] soundings. *)
Definition blanked_profiles (nlev nobs : nat) (botlevel : list fl) (rows : list (list fl)) : list (list fl) :=
  imap (fun i row => if (i <? nobs)%nat then blank_below nlev (nth i botlevel NaN) row else row) rows.

(** What the tropopause loop computes: the pressure of the last level
    whose ozone reaches the threshold, if any. *)
Definition last_reaching (thresh : fl) (pairs : list (fl * fl)) : option fl :=
  option_map snd (hd_error (rev (List.filter (fun op => fl_ge (fst op) thresh) pairs))).

(** What [grossBoundsChecking] promises: a value outside [[min, max]]
    becomes missing, the others are kept. *)
Definition within_or_nan (lo hi : Q) (x : fl) : fl :=
  match x with Num q => if Qle_bool lo q && Qle_bool q hi then Num q else NaN | NaN => NaN end.

(** What [__init__] establishes: the arrays built with [np.empty((0, 100))]
    and [np.append(..., axis=0)] have rows of 100 levels. *)
Definition rows100 (a : list (list fl)) : Prop := Forall (fun r => List.length r = 100%nat) a.

Definition decoder_wf (d : decoder) : Prop :=
  rows100 (temperature d) /\ rows100 (pressure d) /\ rows100 (h2o_mr d) /\ rows100 (o3_mr d).

(** A file of one sounding, for every name. *)
Definition demo_h5 (name : string) : h5file :=
  mkH5 "NOAA-20" [Num 40] [Num (-100)] [repeat (Num 250) 100] [demo_pres 100] [Num 900]
    [repeat NaN 100] [repeat NaN 100] [Num 0] [Num (inject_Z 1500000000123)].

(** ** Properties *)

(** [get_BL_params] gives each sounding the surface level
    [findSurface(...) - 1], an integer of at least [-1], as a float. *)
Lemma get_BL_params_levels pres psurf n blmult botlev :
  get_BL_params pres psurf n = Ok (blmult, botlev) ->
  Forall (fun b => exists z, b = fl_of_Z z /\ (-1 <= z)%Z) botlev.
Proof.
  unfold get_BL_params, range_map. intros H.
  apply res_bind_eq_Ok in H as (rows & Hr & [= _ <-]). apply Forall_map.
  revert rows Hr. induction (seq 0 n) as [|i l IH]; intros rows Hr; cbn [mapM] in Hr.
  - injection Hr as <-. constructor.
  - apply res_bind_eq_Ok in Hr as (r & Hi & Hr). apply res_bind_eq_Ok in Hr as (rs & Hl & [= <-]).
    constructor; [|by apply IH].
    apply res_bind_eq_Ok in Hi as (ps & _ & Hi). apply res_bind_eq_Ok in Hi as (? & _ & Hi).
    apply res_bind_eq_Ok in Hi as (? & _ & [= <-]). cbn [snd].
    eexists; split; [reflexivity|]. unfold findSurface. lia.
Qed.

Lemma fl_succ_le z w : fl_le (fl_add (fl_of_Z z) (Num 1)) (fl_of_Z w) = (z + 1 <=? w)%Z.
Proof.
  unfold fl_le, fl_add, fl_lift2, fl_of_Z. change 1 with (inject_Z 1).
  destruct (Qle_bool _ _) eqn:E; symmetry.
  - apply Qle_bool_iff in E. rewrite <- inject_Z_plus, <- Zle_Qle in E. by apply Z.leb_le.
  - apply Qle_bool_false in E. rewrite <- inject_Z_plus, <- Zlt_Qlt in E. apply Z.leb_gt. lia.
Qed.

Lemma py_int_fl_succ z : py_int_fl (fl_add (fl_of_Z z) (Num 1)) = Ok (z + 1)%Z.
Proof. cbn. rewrite Z.quot_1_r. f_equal. lia. Qed.

(** The slice assignment of line 204 on an integral surface level. *)
Lemma np_setslice_blank row z nlev :
  (-1 <= z)%Z ->
  np_setslice row (IFloat (fl_add (fl_of_Z z) (Num 1))) (Z.of_nat nlev) NaN =
  Ok (blank_below nlev (fl_of_Z z) row).
Proof.
  intros Hz. unfold np_setslice, index_int. rewrite py_int_fl_succ. cbn [res_bind].
  unfold slice_bound. rewrite (proj2 (Z.ltb_ge (z + 1) 0)), (proj2 (Z.ltb_ge (Z.of_nat nlev) 0)) by lia.
  f_equal. unfold blank_below. apply imap_ext. intros j x _. rewrite fl_succ_le.
  destruct (bool_decide _) eqn:E; [apply bool_decide_eq_true in E | apply bool_decide_eq_false in E];
    destruct (z + 1 <=? Z.of_nat j)%Z eqn:F; destruct (j <? nlev)%nat eqn:G;
    rewrite ?Z.leb_le, ?Z.leb_gt, ?Nat.ltb_lt, ?Nat.ltb_ge in *; cbn; lia || done.
Qed.

(** Above the bottom of the profile nothing is blanked. *)
Lemma blank_below_none row z nlev :
  (Z.of_nat nlev < z + 1)%Z -> blank_below nlev (fl_of_Z z) row = row.
Proof.
  intros Hz. apply list_eq. intros j. unfold blank_below. rewrite list_lookup_imap, fl_succ_le.
  destruct (row !! j); [|done]. cbn [fmap option_fmap option_map].
  destruct (z + 1 <=? Z.of_nat j)%Z eqn:F; destruct (j <? nlev)%nat eqn:G; [|done..].
  apply Z.leb_le in F. apply Nat.ltb_lt in G. lia.
Qed.

Lemma blanked_profiles_S nlev k bl rows row :
  rows !! k = Some row ->
  blanked_profiles nlev (S k) bl rows = <[k := blank_below nlev (nth k bl NaN) row]> (blanked_profiles nlev k bl rows).
Proof.
  intros Hk. pose proof (lookup_lt_Some _ _ _ Hk). apply list_eq. intros i.
  unfold blanked_profiles. rewrite list_lookup_insert, !list_lookup_imap, length_imap.
  destruct (decide (k = i /\ (k < List.length rows)%nat)) as [[<- _]|Hne].
  - rewrite Hk. cbn [fmap option_fmap option_map]. by rewrite (proj2 (Nat.ltb_lt k (S k))) by lia.
  - destruct (rows !! i); [|done]. cbn [fmap option_fmap option_map]. assert (i <> k) by (intros ->; tauto).
    destruct (i <? S k)%nat eqn:E1; destruct (i <? k)%nat eqn:E2;
      rewrite ?Nat.ltb_lt, ?Nat.ltb_ge in *; [done| lia | lia | done].
Qed.

Lemma blanked_profiles_at nlev k bl rows : blanked_profiles nlev k bl rows !! k = rows !! k.
Proof.
  unfold blanked_profiles. rewrite list_lookup_imap. destruct (rows !! k); [|done].
  cbn [fmap option_fmap option_map]. by rewrite Nat.ltb_irrefl.
Qed.

Section Temperature.
Variable griddata : list fl -> list fl -> list fl -> res (list fl).
Variables (pres botlevel : list fl) (rows : list (list fl)).
Hypothesis Hbot : Forall (fun b => exists z, b = fl_of_Z z /\ (-1 <= z)%Z) botlevel.

(** One sounding of the loop blanks its own profile. *)
Lemma interp_temp_step_blanks k st acc' :
  interp_temp_step griddata pres botlevel (st, blanked_profiles (List.length pres) k botlevel rows) (Z.of_nat k)
    = Ok acc' ->
  snd acc' = blanked_profiles (List.length pres) (S k) botlevel rows.
Proof.
  unfold interp_temp_step, np_get, index_int. cbn [res_bind]. rewrite py_index_nat.
  destruct (botlevel !! k) as [b|] eqn:Hb; [|discriminate].
  pose proof (Forall_lookup_1 _ _ _ _ Hbot Hb) as (z & -> & Hz).
  pose proof (nth_lookup_Some _ _ NaN _ Hb) as Hn. cbn [res_bind]. rewrite fl_succ_le. unfold np_row, np_setrow.
  destruct (rows !! k) as [row|] eqn:Hr; cycle 1.
  { destruct (_ <=? _)%Z; cbn [res_bind]; rewrite py_index_nat, blanked_profiles_at, Hr; discriminate. }
  destruct (z + 1 <=? Z.of_nat (List.length pres))%Z eqn:Hle; cbn [res_bind];
    rewrite py_index_nat, blanked_profiles_at, Hr; cbn [res_bind].
  - rewrite np_setslice_blank by done. cbn [res_bind].
    intros H. apply res_bind_eq_Ok in H as (? & _ & H). apply res_bind_eq_Ok in H as (? & _ & [= <-]).
    by rewrite Nat2Z.id, (blanked_profiles_S _ _ _ _ row), Hn.
  - intros H. apply res_bind_eq_Ok in H as (? & _ & [= <-]). apply Z.leb_gt in Hle.
    rewrite (blanked_profiles_S _ _ _ _ row), Hn, blank_below_none by done.
    cbn [snd]. symmetry. apply list_insert_id. by rewrite blanked_profiles_at.
Qed.

Lemma interp_temp_loop m k st acc :
  foldM (interp_temp_step griddata pres botlevel) (st, blanked_profiles (List.length pres) k botlevel rows)
    (map Z.of_nat (seq k m)) = Ok acc ->
  snd acc = blanked_profiles (List.length pres) (k + m) botlevel rows.
Proof.
  revert k st. induction m as [|m IH]; intros k st H; cbn [seq map foldM] in H.
  - injection H as <-. by rewrite Nat.add_0_r.
  - apply res_bind_eq_Ok in H as ([st' t'] & Hs & H).
    pose proof (interp_temp_step_blanks _ _ _ Hs) as E. cbn [snd] in E. subst t'.
    rewrite <- Nat.add_succ_comm. exact (IH _ _ H).
Qed.
End Temperature.

Lemma blanked_profiles_0 nlev bl rows : blanked_profiles nlev 0 bl rows = rows.
Proof.
  apply list_eq. intros i. unfold blanked_profiles. rewrite list_lookup_imap.
  by destruct (rows !! i).
Qed.

(** C12: [interpolate_temperature] blanks, in every sounding, exactly
    the temperatures below its surface level: the levels from
    [botlevel[iobs] + 1] to the bottom of the profile become missing,
    every other value and every row past the soundings is kept.  The
    surface levels are integers of at least [-1], as [get_BL_params]
    computes them ([get_BL_params_levels]). *)
Theorem interpolate_temperature_blanks griddata d botlevel blmult stdT temp p0 :
  Forall (fun b => exists z, b = fl_of_Z z /\ (-1 <= z)%Z) botlevel ->
  pressure d !! 0%nat = Some p0 ->
  interpolate_temperature griddata d botlevel blmult = Ok (stdT, temp) ->
  temp = blanked_profiles (List.length p0) (List.length (latitude d)) botlevel (temperature d).
Proof.
  intros Hb Hp H. unfold interpolate_temperature, np_row in H.
  pose proof (py_index_nat (pressure d) 0) as E0. change (Z.of_nat 0) with 0%Z in E0.
  rewrite E0, Hp in H. cbn [res_bind] in H.
  rewrite <- (blanked_profiles_0 (List.length p0) botlevel (temperature d)) in H.
  exact (interp_temp_loop griddata p0 botlevel (temperature d) Hb _ 0 [] _ H).
Qed.

Lemma interpolate_temperature_blanks_witness :
  Forall (fun b => exists z, b = fl_of_Z z /\ (-1 <= z)%Z) [fl_of_Z 1; fl_of_Z 9] /\
  pressure (demo_decoder true 4) !! 0%nat = Some (demo_pres 4) /\
  blanked_profiles 4 2 [fl_of_Z 1; fl_of_Z 9] (temperature (demo_decoder true 4)) =
    [[Num 250; Num 250; NaN; NaN]; [Num 250; Num 250; Num 250; Num 250]].
Proof.
  assert (HF : Forall (fun b => exists z, b = fl_of_Z z /\ (-1 <= z)%Z) [fl_of_Z 1; fl_of_Z 9]).
  { repeat constructor; eexists; (split; [reflexivity | lia]). }
  split; [exact HF|]. split; [reflexivity|].
  destruct (interpolate_temperature demo_griddata (demo_decoder true 4) [fl_of_Z 1; fl_of_Z 9] [])
    as [[stdT temp]|e] eqn:Hrun; [|vm_compute in Hrun; discriminate].
  pose proof (interpolate_temperature_blanks demo_griddata (demo_decoder true 4) _ [] stdT temp (demo_pres 4)
                HF eq_refl Hrun) as Ht.
  change (temp = blanked_profiles 4 2 [fl_of_Z 1; fl_of_Z 9] (temperature (demo_decoder true 4))) in Ht.
  rewrite <- Ht.
  vm_compute in Hrun. by injection Hrun as _ <-.
Defined.

(** ** The ozone climatology *)

(** [int()] truncates toward zero: the quotient and remainder of
    [Z.quot]. *)
Lemma quot_facts n d : (0 < d)%Z ->
  (n = d * Z.quot n d + Z.rem n d)%Z /\ ((0 <= n)%Z -> (0 <= Z.rem n d < d)%Z) /\
  ((n <= 0)%Z -> (- d < Z.rem n d <= 0)%Z).
Proof.
  intros Hd. split; [apply Z.quot_rem; lia|]. split; intros Hn.
  - pose proof (Z.rem_bound_pos n d Hn Hd). lia.
  - pose proof (Z.rem_nonpos n d ltac:(lia) Hn). pose proof (Z.rem_bound_abs n d ltac:(lia)). lia.
Qed.

Lemma ozone_index_Num n d :
  ozone_index (Num (n # d)) =
  Ok (let i := (-1 * Z.quot (n * 1) (Zpos (d * 5)) + 17)%Z in
      let i := if (i <? 0)%Z then 0%Z else i in if (35 <? i)%Z then 35%Z else i).
Proof. reflexivity. Qed.

(** C29: the latitude band of the ozone climatology is
    [-int(lat/5) + 17], and [int] truncates toward zero: on the latitudes
    of the globe, row 17 serves every latitude strictly between 5S and 5N
    (a band of 10 degrees where the others have 5), and the southernmost
    row 35 serves the south pole alone. *)
Theorem ozone_index_bins q : -90 <= q <= 90 ->
  (ozone_index (Num q) = Ok 17%Z <-> -5 < q < 5) /\
  (ozone_index (Num q) = Ok 35%Z <-> q == -90).
Proof.
  destruct q as [n d]. unfold Qle, Qlt, Qeq. cbn [Qnum Qden]. intros Hq.
  rewrite ozone_index_Num. cbv zeta.
  pose proof (quot_facts (n * 1) (Zpos (d * 5)) ltac:(lia)) as Hf.
  rewrite Pos2Z.inj_mul in Hf.
  set (t := Z.quot (n * 1) _) in *. set (r := Z.rem (n * 1) _) in *.
  destruct Hf as (Hf & Hpos & Hneg).
  assert (Hr : (0 <= n /\ 0 <= r < Z.pos d * 5 \/ n < 0 /\ - (Z.pos d * 5) < r <= 0)%Z)
    by (destruct (Z_le_gt_dec 0 (n * 1)) as [Hs|Hs];
        [specialize (Hpos Hs) | specialize (Hneg ltac:(lia))]; lia).
  clear Hpos Hneg. clearbody t r.
  split; split; intros H;
    repeat match goal with
    | H : Ok _ = Ok _ |- _ => injection H as H
    | |- context [(?a <? ?b)%Z] => destruct (Z.ltb_spec a b)
    | H : context [(?a <? ?b)%Z] |- _ => destruct (Z.ltb_spec a b)
    end;
    try (assert (t = -18)%Z by lia; subst t);
    match goal with |- Ok _ = Ok _ => f_equal | _ => idtac end; nia.
Qed.

Lemma ozone_index_witness : (-90 <= -90 <= 90) /\
  (ozone_index (Num (-90)) = Ok 35%Z <-> -90 == -90) /\ ozone_index (Num (-89)) = Ok 34%Z.
Proof.
  split; [split; vm_compute; discriminate|]. split; [|reflexivity].
  apply (ozone_index_bins (-90)). split; vm_compute; discriminate.
Defined.

(** ** Errors, dead branches and bounds *)

Lemma fl_ne_NaN x : fl_ne x NaN = true.
Proof. by destruct x. Qed.

(** C27: [O3_MR[i, k] != FILL_VAL] compares with NaN and always
    holds, so the branch that resets the level to missing (line 484) is
    dead: the tropopause of a sounding is the pressure of the last level
    whose ozone reaches the threshold, whatever missing values follow it,
    and keeps its start value where no level does. *)
Theorem trop_level_last thresh pairs t0 :
  fold_left (trop_step thresh) pairs t0 =
  match last_reaching thresh pairs with Some p => p | None => t0 end.
Proof.
  unfold last_reaching. induction pairs as [|[o p] pairs IH] using rev_ind; [done|].
  rewrite fold_left_app, IH. cbn [fold_left trop_step].
  rewrite fl_ne_NaN, List.filter_app. cbn [List.filter fst].
  destruct (fl_ge o thresh); rewrite ?app_nil_r, ?rev_app_distr; done.
Qed.

(** C13: [grossBoundsChecking] turns exactly the values outside
    [[min, max]] into missing values and keeps the others, missing ones
    included. *)
Theorem grossBoundsChecking_spec lo hi g :
  grossBoundsChecking (Num lo) (Num hi) g = map (within_or_nan lo hi) g.
Proof.
  unfold grossBoundsChecking. rewrite map_map. apply map_ext. intros [q|]; [|done].
  cbv [within_or_nan fl_gt fl_lt].
  destruct (Qlt_bool hi q) eqn:E1; cbn iota; q_cases; simpl; try done; exfalso; lra.
Qed.

(** ** The decoder built by [__init__] *)

Lemma foldM_inv {A B} (P : A -> Prop) (f : A -> B -> res A) :
  (forall a b a', P a -> f a b = Ok a' -> P a') ->
  forall l a r, P a -> foldM f a l = Ok r -> P r.
Proof.
  intros Hf l. induction l as [|b l IH]; intros a r Ha; cbn [foldM]; [by intros [= <-]|].
  intros H. apply res_bind_eq_Ok in H as (a' & H1 & H2). eauto.
Qed.

Lemma append_rows_wf a b c : rows100 a -> append_rows a b = Ok c -> rows100 c.
Proof.
  unfold append_rows, rows100. destruct (forallb _ b) eqn:E; [|discriminate].
  intros Ha [= <-]. apply Forall_app; split; [exact Ha|].
  apply Forall_forall. intros r Hr. apply Nat.eqb_eq. by apply (proj1 (forallb_forall _ b) E).
Qed.

Lemma processFile_wf h5 d file d' :
  decoder_wf d -> processFile h5 d file = Ok d' -> decoder_wf d' /\ toProcess d' = toProcess d.
Proof.
  intros (Ht & Hp & Hh & Ho). unfold processFile. intros H.
  apply res_bind_eq_Ok in H as (t & Et & H). apply res_bind_eq_Ok in H as (p & Ep & H).
  apply res_bind_eq_Ok in H as (h & Eh & H). apply res_bind_eq_Ok in H as (o & Eo & [= <-]).
  repeat split; eauto using append_rows_wf.
Qed.

Lemma fold_max_ge l x b : fold_left fl_max l x = Num b -> exists a, x = Num a /\ a <= b.
Proof.
  revert x. induction l as [|y l IH]; intros x H; cbn [fold_left] in H; [by exists b; split; [|lra]|].
  apply IH in H as (a' & Ha & Hle). destruct x as [a|], y as [c|]; try discriminate.
  injection Ha as <-. exists a. split; [done|]. pose proof (Q.le_max_l a c). lra.
Qed.

Lemma fold_min_le l x b : fold_left fl_min l x = Num b -> exists a, x = Num a /\ b <= a.
Proof.
  revert x. induction l as [|y l IH]; intros x H; cbn [fold_left] in H; [by exists b; split; [|lra]|].
  apply IH in H as (a' & Ha & Hle). destruct x as [a|], y as [c|]; try discriminate.
  injection Ha as <-. exists a. split; [done|]. pose proof (Q.le_min_l a c). lra.
Qed.

Lemma quot_mono n1 d1 n2 d2 : (0 < d1)%Z -> (0 < d2)%Z -> (n1 * d2 <= n2 * d1)%Z ->
  (Z.quot n1 d1 <= Z.quot n2 d2)%Z.
Proof.
  intros H1 H2 Hle.
  rewrite <- (Z.quot_mul_cancel_r n1 d1 d2), <- (Z.quot_mul_cancel_r n2 d2 d1) by lia.
  rewrite (Z.mul_comm d2 d1). apply Z.quot_le_mono; lia.
Qed.

(** [int()] is monotone. *)
Lemma py_int_fl_mono x y i j :
  py_int_fl x = Ok i -> py_int_fl y = Ok j ->
  (exists a b, x = Num a /\ y = Num b /\ a <= b) -> (i <= j)%Z.
Proof.
  intros Hi Hj (a & b & -> & -> & Hab). injection Hi as <-. injection Hj as <-.
  apply quot_mono; [lia | lia | exact Hab].
Qed.

Lemma np_min_le_max l mn mx : np_min l = Ok mn -> np_max l = Ok mx ->
  forall i j, py_int_fl mn = Ok i -> py_int_fl mx = Ok j -> (i <= j)%Z.
Proof.
  destruct l as [|x l]; [discriminate|]. intros [= <-] [= <-] i j Hi Hj.
  apply (py_int_fl_mono _ _ i j Hi Hj).
  destruct (fold_left fl_min l x) as [b|] eqn:Hmn; [|discriminate].
  destruct (fold_left fl_max l x) as [c|] eqn:Hmx; [|discriminate].
  apply fold_min_le in Hmn as (a & -> & H1). apply fold_max_ge in Hmx as (a' & [= <-] & H2).
  exists b, c. repeat split; lra.
Qed.

(** C23: a decoder that [__init__] builds has rows of 100 levels in
    its temperature, pressure, water vapour and ozone arrays; it is to be
    processed exactly when a non-blank [files] argument was given; and
    [mintime <= maxtime]. *)
Theorem nucaps_init_wf h5 arg d :
  nucaps_init h5 arg = Ok d ->
  decoder_wf d /\
  (toProcess d = true <-> exists fs, option_map strip arg = Some fs /\ fs <> ""%string) /\
  (mintime d <= maxtime d)%Z.
Proof.
  unfold nucaps_init. destruct (option_map strip arg) as [fs|] eqn:Ea;
    [| intros [= <-]; split; [repeat split; apply Forall_nil|];
       split; [split; [discriminate | by intros (? & ? & _)] | simpl; lia]].
  destruct (String.eqb_spec fs "") as [->|Hne].
  { intros [= <-]. split; [repeat split; apply Forall_nil|].
    split; [split; [discriminate | by intros (? & [= <-] & ?)] | simpl; lia]. }
  intros H. apply res_bind_eq_Ok in H as (d0 & Hd0 & H).
  apply res_bind_eq_Ok in H as (mx & Hmx & H). apply res_bind_eq_Ok in H as (mxi & Hmxi & H).
  apply res_bind_eq_Ok in H as (mn & Hmn & H). apply res_bind_eq_Ok in H as (mni & Hmni & [= <-]).
  cbn [toProcess mintime maxtime temperature pressure h2o_mr o3_mr].
  apply (foldM_inv (fun d => decoder_wf d /\ toProcess d = true)) in Hd0 as [Hwf Htp].
  - split; [exact Hwf|]. split; [split; [eauto | done] |].
    exact (np_min_le_max _ _ _ Hmn Hmx _ _ Hmni Hmxi).
  - intros a b a' [Ha Hta] Hf. apply processFile_wf in Hf as [? ->]; auto.
  - repeat split; apply Forall_nil.
Qed.

Lemma nucaps_init_wf_witness :
  let d := match nucaps_init demo_h5 (Some " a.h5,b.h5 ") with Ok d => d | Raise _ => empty_decoder end in
  nucaps_init demo_h5 (Some " a.h5,b.h5 ") = Ok d /\ decoder_wf d /\
  (toProcess d = true <-> exists fs, option_map strip (Some " a.h5,b.h5 ") = Some fs /\ fs <> ""%string) /\
  (mintime d <= maxtime d)%Z.
Proof.
  intros d. assert (H : nucaps_init demo_h5 (Some " a.h5,b.h5 ") = Ok d) by (vm_compute; reflexivity).
  split; [exact H | exact (nucaps_init_wf demo_h5 (Some " a.h5,b.h5 ") d H)].
Defined.
